(** * QP_Tools: a Rocq model of the add-on's host-independent logic

    The development follows the Python sources module by module:
    - [Regex] and [Naming]: the duplicate-suffix pattern of [CleanUp.get_base_name];
    - [ModuleHelper]: [ModuleManager]'s registration bookkeeping and safe wrappers;
    - [AssetCache]: the JSON scratch cache ([asset_cache.py]);
    - [Updater]: the background update check ([updater.py]);
    - [CleanUp]: the duplicate-data cleanup engine ([CleanUp.py]).

    Python strings are modelled by [string]: a character of the model is a
    code point below 256.  In that range the only decimal digits known to
    Python's [re] and [int] are the ASCII digits. *)

From Stdlib Require Import ZArith Ascii String List Bool Lia.
From Stdlib Require Import Floats.PrimFloat.
From stdpp Require Import base strings gmap list sorting pretty.

Local Open Scope string_scope.
Local Open Scope Z_scope.
Local Open Scope list_scope.

(* ===================================================================== *)
(** * Python effects: exceptions, console output, host state              *)
(* ===================================================================== *)

Module Py.

(** The part of Python's exception hierarchy the add-on names or meets. *)
Inductive exc_class : Type :=
| BaseException | Exception | KeyboardInterrupt | SystemExit
| OSError | URLError | TimeoutError
| ValueError | JSONDecodeError | UnicodeDecodeError
| AttributeError | TypeError | KeyError | ReferenceError | RuntimeError.

#[global] Instance exc_class_eq_dec : EqDecision exc_class.
Proof. solve_decision. Defined.

(** The classes an exception class derives from, itself included. *)
Definition mro (c : exc_class) : list exc_class :=
  match c with
  | BaseException => [BaseException]
  | Exception => [Exception; BaseException]
  | KeyboardInterrupt => [KeyboardInterrupt; BaseException]
  | SystemExit => [SystemExit; BaseException]
  | OSError => [OSError; Exception; BaseException]
  | URLError => [URLError; OSError; Exception; BaseException]
  | TimeoutError => [TimeoutError; OSError; Exception; BaseException]
  | ValueError => [ValueError; Exception; BaseException]
  | JSONDecodeError => [JSONDecodeError; ValueError; Exception; BaseException]
  | UnicodeDecodeError => [UnicodeDecodeError; ValueError; Exception; BaseException]
  | AttributeError => [AttributeError; Exception; BaseException]
  | TypeError => [TypeError; Exception; BaseException]
  | KeyError => [KeyError; Exception; BaseException]
  | ReferenceError => [ReferenceError; Exception; BaseException]
  | RuntimeError => [RuntimeError; Exception; BaseException]
  end.

(** A raised exception: its class and [str(e)]. *)
Record exn : Type := Exn { exc_type : exc_class; exc_str : string }.

(** [isinstance(e, c)] *)
Definition isinstance (e : exn) (c : exc_class) : bool :=
  bool_decide (c ∈ mro (exc_type e)).

(** [except (c1, c2, ...)] *)
Definition caught_by (cs : list exc_class) (e : exn) : bool :=
  existsb (isinstance e) cs.

Inductive outcome (A : Type) : Type :=
| Ret (a : A)
| Exc (e : exn).
Arguments Ret {A} a.
Arguments Exc {A} e.

(** What a computation can touch: the host's state (Blender data, the
    file system, module globals: whatever the module at hand works on)
    and the console. *)
Record world (H : Type) : Type := World {
  host_state : H;
  console : list string
}.
Arguments World {H} host_state console.
Arguments host_state {H} w.
Arguments console {H} w.

(** A computation keeps its effects when it raises. *)
Definition py (H A : Type) : Type := world H -> outcome A * world H.

Definition ret {H A} (a : A) : py H A := fun w => (Ret a, w).

Definition bind {H A B} (m : py H A) (k : A -> py H B) : py H B :=
  fun w => match m w with
           | (Ret a, w') => k a w'
           | (Exc e, w') => (Exc e, w')
           end.

Definition raise {H A} (e : exn) : py H A := fun w => (Exc e, w).

Definition get_host {H} : py H H := fun w => (Ret (host_state w), w).

Definition set_host {H} (h : H) : py H unit :=
  fun w => (Ret tt, World h (console w)).

Definition modify_host {H} (f : H -> H) : py H unit :=
  fun w => (Ret tt, World (f (host_state w)) (console w)).

(** [print(line)] *)
Definition print {H} (line : string) : py H unit :=
  fun w => (Ret tt, World (host_state w) (console w ++ [line])).

(** [try: body except (cs) as e: handler(e)] *)
Definition try_except {H A} (body : py H A) (cs : list exc_class)
    (handler : exn -> py H A) : py H A :=
  fun w => match body w with
           | (Ret a, w') => (Ret a, w')
           | (Exc e, w') => if caught_by cs e then handler e w' else (Exc e, w')
           end.

(** [try: body except cs1 as e: h1(e) except cs2 as e: h2(e) ...]: the
    first clause that names a class of the exception handles it; what a
    handler raises is not offered to the other clauses. *)
Fixpoint dispatch {H A} (clauses : list (list exc_class * (exn -> py H A)))
    (e : exn) : py H A :=
  match clauses with
  | [] => raise e
  | (cs, handler) :: others =>
      if caught_by cs e then handler e else dispatch others e
  end.

Definition try_clauses {H A} (body : py H A)
    (clauses : list (list exc_class * (exn -> py H A))) : py H A :=
  fun w => match body w with
           | (Ret a, w') => (Ret a, w')
           | (Exc e, w') => dispatch clauses e w'
           end.

(** [try: body finally: fin]: [fin] always runs; its own exception, if
    any, replaces the outcome of [body]. *)
Definition try_finally {H A} (body : py H A) (fin : py H unit) : py H A :=
  fun w => match body w with
           | (r, w') => match fin w' with
                        | (Ret _, w'') => (r, w'')
                        | (Exc e, w'') => (Exc e, w'')
                        end
           end.

(** A value together with the lines a pure function printed on its way. *)
Definition logged (A : Type) : Type := (A * list string)%type.

Definition quiet {A} (a : A) : logged A := (a, []).

(** Run a function that does nothing but print. *)
Definition say {H A} (x : logged A) : py H A :=
  fun w => (Ret (fst x), World (host_state w) (console w ++ snd x)).

(** [for x in xs: body(x)] *)
Fixpoint for_each {H X} (xs : list X) (body : X -> py H unit) : py H unit :=
  match xs with
  | [] => ret tt
  | x :: rest => bind (body x) (fun _ => for_each rest body)
  end.

Module Notations.
Notation "x <- m ;; k" := (bind m (fun x => k))
  (at level 20, m at level 99, k at level 200,
   format "x  <-  m  ;;  '/' k").
Notation "m ;; k" := (bind m (fun _ => k))
  (at level 100, k at level 200, right associativity,
   format "m  ;;  '/' k").
End Notations.

End Py.

(* ===================================================================== *)
(** * Python's [re] restricted to the operators the add-on uses           *)
(* ===================================================================== *)

Module Regex.

(** Syntax of the patterns: only what [CleanUp.py] writes. *)
Inductive regex : Type :=
| RBol                                  (* ^       *)
| REol                                  (* $       *)
| RAny                                  (* .       *)
| RLit (c : ascii)                      (* \. etc. *)
| RDigit                                (* \d      *)
| RSeq (r1 r2 : regex)                  (* r1 r2   *)
| RGroup (i : nat) (r : regex)          (* ( r ), the i-th group *)
| RLazyPlus (r : regex)                 (* r+?     *)
| RPlus (r : regex)                     (* r+      *)
| RRepeat (n : nat) (r : regex).        (* r{n}    *)

(** A position of the matcher: the characters already consumed (most
    recent first), the remaining input and the groups closed so far. *)
Record mstate : Type := MState {
  before : list ascii;
  rest   : list ascii;
  groups : gmap nat (list ascii)
}.

Definition newline : ascii := "010"%char.

Definition is_digit (c : ascii) : bool :=
  ((48 <=? N_of_ascii c) && (N_of_ascii c <=? 57))%N.

(** Consume one character satisfying [p]. *)
Definition step_char (p : ascii -> bool) (st : mstate) : list mstate :=
  match rest st with
  | c :: t => if p c then [MState (c :: before st) t (groups st)] else []
  | [] => []
  end.

(** [$] without MULTILINE: at the end of the string, or just before a
    newline that is the last character. *)
Definition at_eol (l : list ascii) : bool :=
  match l with
  | [] => true
  | [c] => Ascii.eqb c newline
  | _ => false
  end.

Definition close_group (i : nat) (st0 st : mstate) : mstate :=
  let n := (length (before st) - length (before st0))%nat in
  MState (before st) (rest st) (<[i := rev (take n (before st))]> (groups st)).

(** [r+?]: one iteration, then first try to stop, then iterate again. *)
Fixpoint lazy_plus (body : mstate -> list mstate) (fuel : nat) (st : mstate)
  : list mstate :=
  match fuel with
  | O => []
  | S f => flat_map (fun st' => st' :: lazy_plus body f st') (body st)
  end.

(** [r+]: one iteration, then first try to iterate again, then stop. *)
Fixpoint greedy_plus (body : mstate -> list mstate) (fuel : nat) (st : mstate)
  : list mstate :=
  match fuel with
  | O => []
  | S f => flat_map (fun st' => greedy_plus body f st' ++ [st']) (body st)
  end.

Fixpoint repeat_n (body : mstate -> list mstate) (n : nat) (st : mstate)
  : list mstate :=
  match n with
  | O => [st]
  | S k => flat_map (repeat_n body k) (body st)
  end.

(** The backtracking matcher as a list of successes, in the order in
    which a backtracking engine tries them: the head of the list is the
    match [re] reports. *)
Fixpoint run (r : regex) (st : mstate) : list mstate :=
  match r with
  | RBol => match before st with [] => [st] | _ => [] end
  | REol => if at_eol (rest st) then [st] else []
  | RAny => step_char (fun c => negb (Ascii.eqb c newline)) st
  | RLit c => step_char (Ascii.eqb c) st
  | RDigit => step_char is_digit st
  | RSeq r1 r2 => flat_map (run r2) (run r1 st)
  | RGroup i r1 => map (close_group i st) (run r1 st)
  | RLazyPlus r1 => lazy_plus (run r1) (S (length (rest st))) st
  | RPlus r1 => greedy_plus (run r1) (S (length (rest st))) st
  | RRepeat n r1 => repeat_n (run r1) n st
  end.

(** [re.match(pattern, s)]: a match anchored at the start of [s]. *)
Definition re_match (r : regex) (s : string) : option mstate :=
  head (run r (MState [] (list_ascii_of_string s) ∅)).

(** [re.search(pattern, s)]: the first start position, from the left,
    at which the pattern matches. *)
Fixpoint search_from (r : regex) (b l : list ascii) : option mstate :=
  match head (run r (MState b l ∅)) with
  | Some m => Some m
  | None => match l with
            | [] => None
            | c :: t => search_from r (c :: b) t
            end
  end.

Definition re_search (r : regex) (s : string) : option mstate :=
  search_from r [] (list_ascii_of_string s).

(** [m.group(i)] of a group that took part in the match. *)
Definition group (m : mstate) (i : nat) : string :=
  string_of_list_ascii (default [] (groups m !! i)).

End Regex.

(* ===================================================================== *)
(** * CleanUp.py: base names                                              *)
(* ===================================================================== *)

Module Naming.
Import Regex.

(** r'^(.+?)\.(\d{3})$' *)
Definition suffix_pattern : regex :=
  RSeq RBol
    (RSeq (RGroup 1 (RLazyPlus RAny))
      (RSeq (RLit ".")
        (RSeq (RGroup 2 (RRepeat 3 RDigit)) REol))).

(** [int(s)] for a string of ASCII decimal digits. *)
Definition digit_value (c : ascii) : Z := Z.of_N (N_of_ascii c) - 48.

Definition py_int (s : string) : Z :=
  fold_left (fun acc c => 10 * acc + digit_value c) (list_ascii_of_string s) 0.

(** def get_base_name(name) *)
Definition get_base_name (name : string) : string :=
  match re_match suffix_pattern name with
  | Some m =>
      if (1 <=? py_int (group m 2)) && (py_int (group m 2) <=? 999)
      then group m 1 else name
  | None => name
  end.

End Naming.

(* ===================================================================== *)
(** * module_helper.py: ModuleManager                                     *)
(* ===================================================================== *)

Module ModuleHelper.
Import Py Py.Notations.

(** A module object as [ModuleManager] sees it: its name and the two
    state attributes, each of which may be missing ([hasattr]). *)
Record module_obj : Type := ModuleObj {
  mod_name : string;                       (* __name__ *)
  _is_registered : option bool;
  module_enabled : option bool
}.

Definition set_is_registered (b : bool) (m : module_obj) : module_obj :=
  ModuleObj (mod_name m) (Some b) (module_enabled m).

Definition set_module_enabled (b : bool) (m : module_obj) : module_obj :=
  ModuleObj (mod_name m) (_is_registered m) (Some b).

(** Reading an attribute that is missing raises [AttributeError]. *)
Definition getattr {H} (name : string) (a : option bool) : py H bool :=
  match a with
  | Some b => ret b
  | None => raise (Exn AttributeError ("module has no attribute '" +:+ name +:+ "'"))
  end.

(** The computations below run on the module object they are given;
    assignments to its attributes are what they leave behind. *)

(** def ensure_module_state(module_obj) *)
Definition ensure_module_state : py module_obj unit :=
  m <- get_host ;;
  (if _is_registered m is None
   then modify_host (set_is_registered false) else ret tt) ;;
  m <- get_host ;;
  (if module_enabled m is None
   then modify_host (set_module_enabled true) else ret tt).

(** def register_module(module_obj, skip_if_registered=True) *)
Definition register_module (skip_if_registered : bool) : py module_obj bool :=
  m <- get_host ;;
  (if _is_registered m is None
   then modify_host (set_is_registered false) else ret tt) ;;
  m <- get_host ;;
  (if module_enabled m is None
   then modify_host (set_module_enabled true) else ret tt) ;;
  m <- get_host ;;
  registered <- getattr "_is_registered" (_is_registered m) ;;
  if registered && skip_if_registered then ret false else
  enabled <- getattr "module_enabled" (module_enabled m) ;;
  if negb enabled then ret false else
  modify_host (set_is_registered true) ;;
  ret true.

(** def unregister_module(module_obj, skip_if_not_registered=True) *)
Definition unregister_module (skip_if_not_registered : bool)
  : py module_obj bool :=
  ensure_module_state ;;
  m <- get_host ;;
  registered <- getattr "_is_registered" (_is_registered m) ;;
  if skip_if_not_registered && negb registered then
    print (mod_name m +:+ ": Not registered, skipping unregistration") ;;
    ret false
  else
    modify_host (set_is_registered false) ;;
    ret true.

(** A class handed to Blender's registry; [cls_name] is [cls.__name__]. *)
Record py_class : Type := PyClass { cls_name : string }.

Section SafeWrappers.
(** The host: Blender's class registry and whatever else the wrapped
    operation touches. *)
Context {H : Type}.
Variable bpy_utils_register_class : py_class -> py H unit.
Variable bpy_utils_unregister_class : py_class -> py H unit.
(** [traceback.format_exc()] for the exception being handled. *)
Variable format_exc : exn -> string.

(** def safe_register_class(cls, report_errors=True) *)
Definition safe_register_class (cls : py_class) (report_errors : bool)
  : py H bool :=
  try_except
    (bpy_utils_register_class cls ;; ret true)
    [Exception]
    (fun e =>
       (if report_errors
        then print ("Error registering " +:+ cls_name cls +:+ ": " +:+ exc_str e)
        else ret tt) ;;
       ret false).

(** def safe_unregister_class(cls, report_errors=True) *)
Definition safe_unregister_class (cls : py_class) (report_errors : bool)
  : py H bool :=
  try_except
    (bpy_utils_unregister_class cls ;; ret true)
    [Exception]
    (fun e =>
       (if report_errors
        then print ("Error unregistering " +:+ cls_name cls +:+ ": " +:+ exc_str e)
        else ret tt) ;;
       ret false).

(** def safe_file_operation(operation, *args, **kwargs): [operation]
    stands for the call with its arguments already supplied; the
    result [None] is Python's [None]. *)
Definition safe_file_operation {A : Type} (operation : py H A)
  : py H (option A) :=
  try_except
    (r <- operation ;; ret (Some r))
    [Exception]
    (fun e =>
       print ("File operation error: " +:+ exc_str e) ;;
       print (format_exc e) ;;
       ret None).
End SafeWrappers.

End ModuleHelper.

(* ===================================================================== *)
(** * JSON values as Python objects                                       *)
(* ===================================================================== *)

Module Json.
Import Py Py.Notations.

(** What [json.load] returns and [json.dump] accepts.  A dict keeps its
    entries in insertion order. *)
#[warnings="-register-all"]
Inductive json : Type :=
| JNull
| JBool (b : bool)
| JInt (n : Z)
| JFloat (x : float)
| JStr (s : string)
| JList (items : list json)
| JDict (entries : list (string * json)).

(** [bool(v)] *)
Definition truthy (v : json) : bool :=
  match v with
  | JNull => false
  | JBool b => b
  | JInt n => negb (n =? 0)
  | JFloat x => negb (PrimFloat.eqb x 0%float)
  | JStr s => negb (String.eqb s "")
  | JList items => match items with [] => false | _ => true end
  | JDict entries => match entries with [] => false | _ => true end
  end.

(** [a or b] *)
Definition py_or (a b : json) : json := if truthy a then a else b.

Fixpoint dict_get (k : string) (d : list (string * json)) : option json :=
  match d with
  | [] => None
  | (k', v) :: rest => if String.eqb k' k then Some v else dict_get k rest
  end.

(** [d[k] = v]: an existing key keeps its place, a new key goes last. *)
Fixpoint dict_set (k : string) (v : json) (d : list (string * json))
  : list (string * json) :=
  match d with
  | [] => [(k, v)]
  | (k', v') :: rest =>
      if String.eqb k' k then (k', v) :: rest else (k', v') :: dict_set k v rest
  end.

Definition is_str (k : string) (v : json) : bool :=
  match v with JStr s => String.eqb s k | _ => false end.

(** [k in v] for a string [k] *)
Definition contains {H} (k : string) (v : json) : py H bool :=
  match v with
  | JDict d => ret (bool_decide (is_Some (dict_get k d)))
  | JList items => ret (existsb (is_str k) items)
  | JStr s => ret (bool_decide (is_Some (String.index 0 k s)))
  | _ => raise (Exn TypeError "argument is not iterable")
  end.

(** [v[k]] for a string [k] *)
Definition getitem {H} (k : string) (v : json) : py H json :=
  match v with
  | JDict d => match dict_get k d with
               | Some x => ret x
               | None => raise (Exn KeyError k)
               end
  | JList _ => raise (Exn TypeError "list indices must be integers or slices, not str")
  | JStr _ => raise (Exn TypeError "string indices must be integers, not 'str'")
  | _ => raise (Exn TypeError "object is not subscriptable")
  end.

(** [v[k] = x] for a string [k]; the result is the object after the
    assignment. *)
Definition setitem {H} (k : string) (x : json) (v : json) : py H json :=
  match v with
  | JDict d => ret (JDict (dict_set k x d))
  | JList _ => raise (Exn TypeError "list indices must be integers or slices, not str")
  | _ => raise (Exn TypeError "object does not support item assignment")
  end.

End Json.

(* ===================================================================== *)
(** * Python's operations on values loaded from JSON                      *)
(* ===================================================================== *)

Module JsonOps.
Import Py Py.Notations Json.

(** [for x in v]: a list gives its elements, a dict its keys and a
    string its characters; nothing else loaded from JSON can be
    iterated. *)
Definition py_iter {H} (v : json) : py H (list json) :=
  match v with
  | JList items => ret items
  | JDict d => ret (map (fun entry => JStr (fst entry)) d)
  | JStr s => ret (map (fun c => JStr (String c "")) (list_ascii_of_string s))
  | _ => raise (Exn TypeError "object is not iterable")
  end.

(** [len(v)] *)
Definition py_len {H} (v : json) : py H Z :=
  match v with
  | JList items => ret (Z.of_nat (length items))
  | JDict d => ret (Z.of_nat (length d))
  | JStr s => ret (Z.of_nat (String.length s))
  | _ => raise (Exn TypeError "object has no len()")
  end.

(** [v.get(k, default)]: only a dict has [get]. *)
Definition py_get {H} (k : string) (default : json) (v : json) : py H json :=
  match v with
  | JDict d => ret (from_option id default (dict_get k d))
  | _ => raise (Exn AttributeError "object has no attribute 'get'")
  end.

(** [v.items()]: only a dict has [items]. *)
Definition py_items {H} (v : json) : py H (list (string * json)) :=
  match v with
  | JDict d => ret d
  | _ => raise (Exn AttributeError "object has no attribute 'items'")
  end.

(** [v == b] for a bool [b]: [True] equals 1 and 1.0, [False] equals 0
    and 0.0. *)
Definition eq_bool (v : json) (b : bool) : bool :=
  match v with
  | JBool x => Bool.eqb x b
  | JInt n => n =? (if b then 1 else 0)
  | JFloat x => PrimFloat.eqb x (if b then 1 else 0)%float
  | _ => false
  end.

(** [v in d] for a dict [d] with the string keys [keys]: a list and a
    dict cannot be hashed; a value that is not a string equals no key. *)
Definition key_in {H} (v : json) (keys : list string) : py H bool :=
  match v with
  | JStr s => ret (bool_decide (s ∈ keys))
  | JList _ => raise (Exn TypeError "unhashable type: 'list'")
  | JDict _ => raise (Exn TypeError "unhashable type: 'dict'")
  | _ => ret false
  end.

End JsonOps.

(* ===================================================================== *)
(** * asset_cache.py                                                      *)
(* ===================================================================== *)

Module AssetCache.
Import Py Py.Notations Json Regex.

(** ** The file system, as far as the cache code can tell

    A file holds a complete JSON document, a document whose writing
    stopped after some chunks of its encoding, or anything else. *)
Inductive file_content : Type :=
| Document (v : json)
| Partial (v : json) (written : nat)
| Opaque (text : string).

Record fs : Type := Fs {
  files : gmap string file_content;
  dirs : gset string
}.

(** An asset entry of a library ([library.assets.add()]). *)
Record asset : Type := Asset {
  asset_name : string;
  asset_filepath : string;
  asset_enabled : bool;
  asset_category : string
}.

(** The locals of [scan_library_assets] that its loops update. *)
Record scan_locals : Type := ScanLocals {
  new_assets : list json;
  assets_found : Z;
  unique_items : gset string
}.

(** Everything the module works on. *)
Record host : Type := Host {
  fsys : fs;
  ticks : nat;                       (* calls of time.time() so far *)
  library_assets : list asset;       (* library.assets *)
  locals : scan_locals
}.

(** What the operating system and Blender answer.  A fault is the
    exception a call raises, if it raises. *)
Record environment : Type := Env {
  os_path_dirname : string -> string;
  os_path_join : string -> string -> string;
  os_path_relpath : string -> string -> outcome string;
  os_walk : string -> list (string * list string);   (* root, files *)
  tempfile_gettempdir : string;
  bpy_utils_user_resource : outcome string;
  time_time : nat -> float;
  makedirs_fault : string -> option exn;
  open_fault : string -> option exn;
  (** writing into the file at this path raises after so many chunks *)
  write_fault : string -> option (nat * exn);
  read_fault : string -> option exn;
  rename_fault : string -> string -> option exn;
  decode_error : file_content -> string;
  (** entering [bpy.data.libraries.load(file, assets_only=True)]: the
      names of the object assets, and what leaving the block raises *)
  libraries_load : string -> outcome (list string);
  libraries_load_exit : string -> option exn
}.

Section WithEnvironment.
Variable E : environment.

Definition lift_outcome {A} (o : outcome A) : py host A :=
  match o with Ret a => ret a | Exc e => raise e end.

Definition fault (f : option exn) : py host unit :=
  match f with Some e => raise e | None => ret tt end.

Definition modify_fs (f : fs -> fs) : py host unit :=
  modify_host (fun h => Host (f (fsys h)) (ticks h) (library_assets h) (locals h)).

Definition modify_locals (f : scan_locals -> scan_locals) : py host unit :=
  modify_host (fun h => Host (fsys h) (ticks h) (library_assets h) (f (locals h))).

Definition write_file (path : string) (c : file_content) (s : fs) : fs :=
  Fs (<[path := c]> (files s)) (dirs s).

(** time.time() *)
Definition now : py host float :=
  h <- get_host ;;
  set_host (Host (fsys h) (S (ticks h)) (library_assets h) (locals h)) ;;
  ret (time_time E (ticks h)).

(** os.path.exists(path) *)
Definition os_path_exists (path : string) : py host bool :=
  h <- get_host ;;
  ret (bool_decide (is_Some (files (fsys h) !! path))
       || bool_decide (path ∈ dirs (fsys h))).

(** os.makedirs(directory, exist_ok=True) *)
Definition os_makedirs (directory : string) : py host unit :=
  fault (makedirs_fault E directory) ;;
  modify_fs (fun s => Fs (files s) ({[directory]} ∪ dirs s)).

(** with open(path, 'r') as f: json.load(f) *)
Definition open_and_load (path : string) : py host json :=
  fault (open_fault E path) ;;
  h <- get_host ;;
  match files (fsys h) !! path with
  | None => raise (Exn OSError ("No such file or directory: " +:+ path))
  | Some c =>
      fault (read_fault E path) ;;
      match c with
      | Document v => ret v
      | _ => raise (Exn JSONDecodeError (decode_error E c))
      end
  end.

(** with open(path, 'w') as f: json.dump(data, f): opening truncates
    the file; the chunks of the encoding are written one by one. *)
Definition open_and_dump (path : string) (data : json) : py host unit :=
  fault (open_fault E path) ;;
  modify_fs (write_file path (Partial data 0)) ;;
  match write_fault E path with
  | Some (n, e) => modify_fs (write_file path (Partial data n)) ;; raise e
  | None => modify_fs (write_file path (Document data))
  end.

(** os.replace(src, dst) and os.rename(src, dst): all or nothing. *)
Definition os_rename (src dst : string) : py host unit :=
  fault (rename_fault E src dst) ;;
  h <- get_host ;;
  match files (fsys h) !! src with
  | None => raise (Exn OSError ("No such file or directory: " +:+ src))
  | Some c =>
      modify_fs (fun s => Fs (<[dst := c]> (delete src (files s))) (dirs s))
  end.

Definition os_replace := os_rename.

(** def get_cache_path() *)
Definition get_cache_path : py host string :=
  try_except
    (user_pref_dir <- lift_outcome (bpy_utils_user_resource E) ;;
     ret (os_path_join E user_pref_dir "assets_cache.json"))
    [Exception]
    (fun e =>
       print ("Error creating cache directory: " +:+ exc_str e) ;;
       ret (os_path_join E (tempfile_gettempdir E) "qp_tools_assets_cache.json")).

(** def safe_load_json(filepath, default=None) *)
Definition safe_load_json (filepath : string) (default : json) : py host json :=
  found <- os_path_exists filepath ;;
  if negb found then ret (py_or default (JDict [])) else
  try_except
    (open_and_load filepath)
    [Exception]
    (fun e =>
       print ("Error loading JSON from " +:+ filepath +:+ ": " +:+ exc_str e) ;;
       ret (py_or default (JDict []))).

(** def safe_save_json(filepath, data) *)
Definition safe_save_json (filepath : string) (data : json) : py host bool :=
  try_except
    (let directory := os_path_dirname E filepath in
     (if negb (String.eqb directory "")
      then found <- os_path_exists directory ;;
           if negb found then os_makedirs directory else ret tt
      else ret tt) ;;
     let temp_file := filepath +:+ ".tmp" in
     open_and_dump temp_file data ;;
     found <- os_path_exists filepath ;;
     (if found then os_replace temp_file filepath
      else os_rename temp_file filepath) ;;
     ret true)
    [Exception]
    (fun e =>
       print ("Error saving JSON to " +:+ filepath +:+ ": " +:+ exc_str e) ;;
       ret false).

(** def load_asset_cache() *)
Definition load_asset_cache : py host json :=
  cache_path <- get_cache_path ;;
  t <- now ;;
  cache <- safe_load_json cache_path
             (JDict [("timestamp", JFloat t); ("libraries", JDict [])]) ;;
  has <- contains "timestamp" cache ;;
  cache <- (if negb has
            then t <- now ;; setitem "timestamp" (JFloat t) cache
            else ret cache) ;;
  has <- contains "libraries" cache ;;
  cache <- (if negb has
            then setitem "libraries" (JDict []) cache
            else ret cache) ;;
  ret cache.

(** def save_asset_cache(cache) *)
Definition save_asset_cache (cache : json) : py host bool :=
  cache_path <- get_cache_path ;;
  t <- now ;;
  cache <- setitem "timestamp" (JFloat t) cache ;;
  safe_save_json cache_path cache.

(** def update_cache_with_library(cache, library_name, assets); the
    result is the cache object after the in-place updates. *)
Definition update_cache_with_library (cache : json) (library_name : string)
    (assets : list json) : py host json :=
  has <- contains "libraries" cache ;;
  cache <- (if negb has
            then setitem "libraries" (JDict []) cache
            else ret cache) ;;
  t <- now ;;
  libraries <- getitem "libraries" cache ;;
  libraries <- setitem library_name
                 (JDict [("last_scan", JFloat t); ("assets", JList assets)])
                 libraries ;;
  setitem "libraries" libraries cache.


(** r'\.blend\d+$' *)
Definition backup_pattern : regex :=
  RSeq (RLit ".") (RSeq (RLit "b") (RSeq (RLit "l") (RSeq (RLit "e")
    (RSeq (RLit "n") (RSeq (RLit "d") (RSeq (RPlus RDigit) REol)))))).

(** [c.lower()] for a code point below 256: the ASCII capitals and
    the capitals of Latin-1 (all of U+00C0..U+00DE but the
    multiplication sign). *)
Definition char_lower (c : ascii) : ascii :=
  let n := N_of_ascii c in
  if ((65 <=? n) && (n <=? 90))%N then ascii_of_N (n + 32)
  else if ((192 <=? n) && (n <=? 222) && negb (n =? 215))%N
       then ascii_of_N (n + 32)
  else c.

Definition str_lower (s : string) : string :=
  string_of_list_ascii (map char_lower (list_ascii_of_string s)).

(** [s.endswith(suffix)] *)
Definition endswith (s suffix : string) : bool :=
  let l := list_ascii_of_string s in
  let x := list_ascii_of_string suffix in
  bool_decide (drop (length l - length x) l = x).

(** def is_valid_blend_file(filepath) *)
Definition is_valid_blend_file (filepath : string) : bool :=
  if re_search backup_pattern filepath is Some _ then false
  else endswith (str_lower filepath) ".blend".

(** A library of the preferences: its name, its path; its asset
    collection lives in the host state. *)
Record library : Type := Library { lib_name : string; lib_path : string }.

(** The body of the loop over [asset_names], for one blend file. *)
Definition scan_asset (blend_file category obj_name : string) : py host unit :=
  let unique_key := blend_file +:+ ":" +:+ obj_name in
  h <- get_host ;;
  if bool_decide (unique_key ∈ unique_items (locals h)) then ret tt else
  modify_locals (fun l => ScanLocals (new_assets l) (assets_found l)
                            ({[unique_key]} ∪ unique_items l)) ;;
  (* asset = library.assets.add() and its four assignments *)
  let a := Asset obj_name blend_file true category in
  modify_host (fun h => Host (fsys h) (ticks h) (library_assets h ++ [a]) (locals h)) ;;
  modify_locals (fun l => ScanLocals (new_assets l) (assets_found l + 1)
                            (unique_items l)) ;;
  t <- now ;;
  let asset_data := JDict [("name", JStr obj_name);
                           ("filepath", JStr blend_file);
                           ("category", JStr category);
                           ("type", JStr "objects");
                           ("timestamp", JFloat t);
                           ("enabled", JBool (asset_enabled a))] in
  modify_locals (fun l => ScanLocals (new_assets l ++ [asset_data])
                            (assets_found l) (unique_items l)).

(** The body of the loop over [blend_files]. *)
Definition scan_blend_file (lib : library) (blend_file : string) : py host unit :=
  try_except
    (rel_path <- lift_outcome (os_path_relpath E blend_file (lib_path lib)) ;;
     let dirname := os_path_dirname E rel_path in
     let category :=
       if negb (String.eqb dirname "") && negb (String.eqb dirname ".")
       then dirname else "Default" in
     asset_names <- lift_outcome (libraries_load E blend_file) ;;
     modify_locals (fun l => ScanLocals (new_assets l) (assets_found l) ∅) ;;
     for_each asset_names (scan_asset blend_file category) ;;
     fault (libraries_load_exit E blend_file))
    [Exception]
    (fun e => print ("Error scanning " +:+ blend_file +:+ ": " +:+ exc_str e)).

(** def scan_library_assets(library, context) *)
Definition scan_library_assets (lib : library) : py host Z :=
  if String.eqb (lib_path lib) "" then ret 0 else
  found <- os_path_exists (lib_path lib) ;;
  if negb found then ret 0 else
  modify_host (fun h => Host (fsys h) (ticks h) [] (locals h)) ;;
  asset_cache <- load_asset_cache ;;
  let blend_files :=
    List.filter is_valid_blend_file
      (flat_map (fun rf => map (os_path_join E (fst rf)) (snd rf))
         (os_walk E (lib_path lib))) in
  modify_locals (fun l => ScanLocals [] 0 (unique_items l)) ;;
  for_each blend_files (scan_blend_file lib) ;;
  h <- get_host ;;
  asset_cache <- update_cache_with_library asset_cache (lib_name lib)
                   (new_assets (locals h)) ;;
  save_asset_cache asset_cache ;;
  h <- get_host ;;
  ret (assets_found (locals h)).

End WithEnvironment.
End AssetCache.
(* ===================================================================== *)
(** * asset_cache.py: maintenance of the cache                            *)
(* ===================================================================== *)

Module CacheOps.
Import Py Py.Notations Json JsonOps Regex AssetCache.

(** def _is_relevant_blend_file(filename) *)
Definition _is_relevant_blend_file (filename : string) : bool :=
  if negb (endswith (str_lower filename) ".blend") then false else
  if re_search backup_pattern filename is Some _ then false else true.

Section WithEnvironment.
Variable E : environment.

(** ** Setting ["enabled"]

    The three functions load the cache, change asset dicts in place and
    save the cache.  A value loaded from JSON shares nothing with any
    other, so an assignment inside an asset is modelled by rebuilding
    the list of assets, the library entry and the cache around it. *)

(** ["libraries" in cache and library_name in cache["libraries"]] *)
Definition library_cached (cache : json) (library_name : string) : py host bool :=
  has <- contains "libraries" cache ;;
  if has then
    libraries <- getitem "libraries" cache ;;
    contains library_name libraries
  else ret false.

(** if "enabled" not in asset or asset["enabled"] != enabled:
        asset["enabled"] = enabled
        cache_updated = True
    The result is the asset after it and whether the branch was taken. *)
Definition set_enabled (enabled : bool) (asset : json) : py host (json * bool) :=
  has <- contains "enabled" asset ;;
  differs <- (if negb has then ret true
              else v <- getitem "enabled" asset ;;
                   ret (negb (eq_bool v enabled))) ;;
  if differs then
    asset <- setitem "enabled" (JBool enabled) asset ;;
    ret (asset, true)
  else ret (asset, false).

(** [for asset in assets: body]: the assets after the loop and whether
    some round set [cache_updated]. *)
Fixpoint for_assets (body : json -> py host (json * bool)) (assets : list json)
  : py host (list json * bool) :=
  match assets with
  | [] => ret ([], false)
  | asset :: rest =>
      r <- body asset ;;
      rs <- for_assets body rest ;;
      ret (fst r :: fst rs, snd r || snd rs)
  end.

(** The loop over [assets = lib_cache.get("assets", [])].  The elements
    of a list are the asset objects themselves.  The keys of a dict and
    the characters of a string are strings, which no assignment can
    change: a round either leaves them alone or raises. *)
Definition update_assets (body : json -> py host (json * bool)) (assets : json)
  : py host (json * bool) :=
  match assets with
  | JList items =>
      r <- for_assets body items ;;
      ret (JList (fst r), snd r)
  | _ =>
      items <- py_iter assets ;;
      r <- for_assets body items ;;
      ret (assets, snd r)
  end.

(** The library entry once its assets have been updated in place:
    [assets] is the object under ["assets"] if the entry has one, and a
    list of its own otherwise. *)
Definition with_assets (lib_cache assets : json) : json :=
  match lib_cache with
  | JDict d => if dict_get "assets" d is Some _
               then JDict (dict_set "assets" assets d) else lib_cache
  | _ => lib_cache
  end.

(** What the three functions share: the test for the library, the loop
    over its assets, and the cache after the loop. *)
Definition update_library (cache : json) (library_name : string)
    (loop : json -> py host (json * bool)) : py host (json * bool) :=
  libraries <- getitem "libraries" cache ;;
  lib_cache <- getitem library_name libraries ;;
  assets <- py_get "assets" (JList []) lib_cache ;;
  r <- loop assets ;;
  libraries <- setitem library_name (with_assets lib_cache (fst r)) libraries ;;
  cache <- setitem "libraries" libraries cache ;;
  ret (cache, snd r).

(** The loop of [update_asset_enabled_state], which ends at the first
    asset of that name and file. *)
Fixpoint find_and_set (asset_name filepath : string) (enabled : bool)
    (assets : list json) : py host (list json * bool) :=
  match assets with
  | [] => ret ([], false)
  | asset :: rest =>
      name <- getitem "name" asset ;;
      hit <- (if is_str asset_name name
              then path <- getitem "filepath" asset ;; ret (is_str filepath path)
              else ret false) ;;
      if hit then
        r <- set_enabled enabled asset ;;
        ret (fst r :: rest, snd r)
      else
        rs <- find_and_set asset_name filepath enabled rest ;;
        ret (asset :: fst rs, snd rs)
  end.

Definition find_and_set_in (asset_name filepath : string) (enabled : bool)
    (assets : json) : py host (json * bool) :=
  match assets with
  | JList items =>
      r <- find_and_set asset_name filepath enabled items ;;
      ret (JList (fst r), snd r)
  | _ =>
      items <- py_iter assets ;;
      r <- find_and_set asset_name filepath enabled items ;;
      ret (assets, snd r)
  end.

(** def update_asset_enabled_state(library_name, asset_name, filepath,
    enabled): [cache_updated] is set whether or not an asset was
    found. *)
Definition update_asset_enabled_state (library_name asset_name filepath : string)
    (enabled : bool) : py host bool :=
  cache <- load_asset_cache E ;;
  found <- library_cached cache library_name ;;
  if found then
    r <- update_library cache library_name
           (find_and_set_in asset_name filepath enabled) ;;
    save_asset_cache E (fst r) ;;
    ret true
  else ret false.

(** def update_category_assets_enabled_state(library_name, category,
    enabled) *)
Definition update_category_assets_enabled_state (library_name category : string)
    (enabled : bool) : py host bool :=
  cache <- load_asset_cache E ;;
  found <- library_cached cache library_name ;;
  if found then
    r <- update_library cache library_name
           (update_assets (fun asset =>
              c <- py_get "category" JNull asset ;;
              if is_str category c then set_enabled enabled asset
              else ret (asset, false))) ;;
    if snd r then save_asset_cache E (fst r) ;; ret true
    else ret false
  else ret false.

(** def update_all_assets_enabled_state(library_name, enabled) *)
Definition update_all_assets_enabled_state (library_name : string)
    (enabled : bool) : py host bool :=
  cache <- load_asset_cache E ;;
  found <- library_cached cache library_name ;;
  if found then
    r <- update_library cache library_name (update_assets (set_enabled enabled)) ;;
    if snd r then save_asset_cache E (fst r) ;; ret true
    else ret false
  else ret false.

End WithEnvironment.

(** ** Counting and checking the assets of the cache *)

(** The dict [get_asset_cache_stats] returns, one field per key; the
    four keys of ["assets_by_type"] are fields of their own. *)
Record cache_stats : Type := CacheStats {
  st_libraries : Z;
  st_total_assets : Z;
  st_assets_by_library : list (string * Z);
  st_objects : Z;
  st_materials : Z;
  st_node_groups : Z;
  st_other : Z;
  st_last_update : json
}.

(** [d[k] = n] on a dict of numbers: an existing key keeps its place. *)
Fixpoint count_set (k : string) (n : Z) (d : list (string * Z))
  : list (string * Z) :=
  match d with
  | [] => [(k, n)]
  | (k', n') :: rest =>
      if String.eqb k' k then (k', n) :: rest else (k', n') :: count_set k n rest
  end.

(** The dict [validate_library_integrity] returns. *)
Record validation : Type := Validation {
  valid : bool;
  errors : list string;
  warnings : list string;
  asset_count : Z;
  valid_assets : Z;
  invalid_assets : Z
}.

Section Inspection.
Variable E : environment.
(** [str(v)] for a value that is not a string, as an f-string shows it. *)
Variable py_str : json -> string.
(** [os.path.exists(n)] for an integer: whether the file descriptor is
    open, or what [os.stat] raises for a number that is none. *)
Variable exists_fd : Z -> outcome bool.

Definition format_value (v : json) : string :=
  match v with JStr s => s | _ => py_str v end.

(** [for x in xs: body] with the locals the body updates *)
Fixpoint fold_py {A S : Type} (body : A -> S -> py host S) (xs : list A) (s : S)
  : py host S :=
  match xs with
  | [] => ret s
  | x :: rest => s <- body x s ;; fold_py body rest s
  end.

(** [os.path.exists(v)]: a bool is an integer; anything else that is
    not a string is refused. *)
Definition exists_value (v : json) : py host bool :=
  match v with
  | JStr s => os_path_exists s
  | JInt n => lift_outcome (exists_fd n)
  | JBool b => lift_outcome (exists_fd (if b then 1 else 0))
  | _ => raise (Exn TypeError
                  "stat: path should be string, bytes, os.PathLike or integer")
  end.

(** [is_valid_blend_file(v)]: [re.search] refuses what is not a string. *)
Definition is_valid_blend_file_value (v : json) : py host bool :=
  match v with
  | JStr s => ret (is_valid_blend_file s)
  | _ => raise (Exn TypeError "expected string or bytes-like object")
  end.

(** The body of the loop over the assets of a library in
    [get_asset_cache_stats]. *)
Definition count_type (asset : json) (stats : cache_stats) : py host cache_stats :=
  asset_type <- py_get "type" (JStr "other") asset ;;
  known <- key_in asset_type ["objects"; "materials"; "node_groups"; "other"] ;;
  let bump (o m n x : Z) :=
    CacheStats (st_libraries stats) (st_total_assets stats)
      (st_assets_by_library stats)
      (st_objects stats + o) (st_materials stats + m)
      (st_node_groups stats + n) (st_other stats + x) (st_last_update stats) in
  if known then
    if is_str "objects" asset_type then ret (bump 1 0 0 0)
    else if is_str "materials" asset_type then ret (bump 0 1 0 0)
    else if is_str "node_groups" asset_type then ret (bump 0 0 1 0)
    else ret (bump 0 0 0 1)
  else ret (bump 0 0 0 1).

(** The body of the loop over [cache.get("libraries", {}).items()]. *)
Definition count_library (entry : string * json) (stats : cache_stats)
  : py host cache_stats :=
  let lib_name := fst entry in
  let lib_data := snd entry in
  assets <- py_get "assets" (JList []) lib_data ;;
  n <- py_len assets ;;
  let stats :=
    CacheStats (st_libraries stats + 1) (st_total_assets stats + n)
      (count_set lib_name n (st_assets_by_library stats))
      (st_objects stats) (st_materials stats) (st_node_groups stats)
      (st_other stats) (st_last_update stats) in
  items <- py_iter assets ;;
  fold_py count_type items stats.

(** def get_asset_cache_stats() *)
Definition get_asset_cache_stats : py host cache_stats :=
  cache <- load_asset_cache E ;;
  last_update <- py_get "timestamp" (JInt 0) cache ;;
  let stats := CacheStats 0 0 [] 0 0 0 0 last_update in
  libraries <- py_get "libraries" (JDict []) cache ;;
  libs <- py_items libraries ;;
  fold_py count_library libs stats.

(** The body of the loop over the assets of a library in
    [_clean_orphaned_cache_entries]: [valid_assets] and
    [orphaned_count] after it. *)
Definition keep_or_drop (asset : json) (acc : list json * Z)
  : py host (list json * Z) :=
  filepath <- py_get "filepath" JNull asset ;;
  ok <- (if truthy filepath then
           found <- exists_value filepath ;;
           if found then is_valid_blend_file_value filepath else ret false
         else ret false) ;;
  if ok then ret (fst acc ++ [asset], snd acc)
  else
    name <- py_get "name" (JStr "Unknown") asset ;;
    print ("Removed orphaned asset: " +:+ format_value name +:+ " from "
           +:+ format_value filepath) ;;
    ret (fst acc, snd acc + 1).

(** The body of the loop over [cache["libraries"].items()]: the library
    entry and [orphaned_count] after it. *)
Definition clean_library (lib_data : json) (orphaned_count : Z)
  : py host (json * Z) :=
  assets <- py_get "assets" (JList []) lib_data ;;
  items <- py_iter assets ;;
  r <- fold_py keep_or_drop items ([], orphaned_count) ;;
  n <- py_len assets ;;
  if negb (Z.of_nat (length (fst r)) =? n) then
    lib_data <- setitem "assets" (JList (fst r)) lib_data ;;
    ret (lib_data, snd r)
  else ret (lib_data, snd r).

Fixpoint clean_libraries (libs : list (string * json)) (orphaned_count : Z)
  : py host (list (string * json) * Z) :=
  match libs with
  | [] => ret ([], orphaned_count)
  | (lib_name, lib_data) :: rest =>
      r <- clean_library lib_data orphaned_count ;;
      rs <- clean_libraries rest (snd r) ;;
      ret ((lib_name, fst r) :: fst rs, snd rs)
  end.

(** def _clean_orphaned_cache_entries(cache): the count, and the cache
    object after the assignments to the library entries.  When the
    function raises, its only caller lets the exception pass and drops
    the cache, so what was assigned until then is not kept here. *)
Definition _clean_orphaned_cache_entries (cache : json) : py host (Z * json) :=
  has <- contains "libraries" cache ;;
  if negb has then ret (0, cache) else
  libraries <- getitem "libraries" cache ;;
  libs <- py_items libraries ;;
  r <- clean_libraries libs 0 ;;
  cache <- setitem "libraries" (JDict (fst r)) cache ;;
  ret (snd r, cache).

Definition invalid_with_error (msg : string) (r : validation) : validation :=
  Validation (valid r) (errors r ++ [msg]) (warnings r) (asset_count r)
    (valid_assets r) (invalid_assets r + 1).

Definition invalid_with_warning (msg : string) (r : validation) : validation :=
  Validation (valid r) (errors r) (warnings r ++ [msg]) (asset_count r)
    (valid_assets r) (invalid_assets r + 1).

(** The body of the loop of [validate_library_integrity]. *)
Definition validate_asset (asset : json) (results : validation)
  : py host validation :=
  name <- py_get "name" JNull asset ;;
  if negb (truthy name) then
    ret (invalid_with_error "Asset missing name field" results)
  else
  filepath <- py_get "filepath" JNull asset ;;
  if negb (truthy filepath) then
    name <- getitem "name" asset ;;
    ret (invalid_with_error
           ("Asset '" +:+ format_value name +:+ "' missing filepath") results)
  else
  filepath <- getitem "filepath" asset ;;
  found <- exists_value filepath ;;
  if negb found then
    ret (invalid_with_warning
           ("Asset file does not exist: " +:+ format_value filepath) results)
  else
  ok <- is_valid_blend_file_value filepath ;;
  if negb ok then
    ret (invalid_with_warning
           ("Invalid blend file: " +:+ format_value filepath) results)
  else
    ret (Validation (valid results) (errors results) (warnings results)
           (asset_count results) (valid_assets results + 1)
           (invalid_assets results)).

(** def validate_library_integrity(library_name) *)
Definition validate_library_integrity (library_name : string)
  : py host validation :=
  cache <- load_asset_cache E ;;
  found <- library_cached cache library_name ;;
  if negb found then
    ret (Validation false
           ["Library '" +:+ library_name +:+ "' not found in cache"] [] 0 0 0)
  else
  libraries <- getitem "libraries" cache ;;
  lib_data <- getitem library_name libraries ;;
  assets <- py_get "assets" (JList []) lib_data ;;
  n <- py_len assets ;;
  let results := Validation true [] [] n 0 0 in
  items <- py_iter assets ;;
  results <- fold_py validate_asset items results ;;
  if 0 <? invalid_assets results then
    ret (Validation false (errors results) (warnings results)
           (asset_count results) (valid_assets results) (invalid_assets results))
  else ret results.

End Inspection.
End CacheOps.


(* ===================================================================== *)
(** * module_helper.py: the choice of an object socket                    *)
(* ===================================================================== *)

Module Sockets.
Import AssetCache.

(** An output socket of a node, as [find_best_object_socket] reads it.
    [type], [bl_idname] and [identifier] may be missing ([hasattr],
    [getattr] with a default); [name] is always there. *)
Record node_socket : Type := NodeSocket {
  sock_type : option string;
  sock_bl_idname : option string;
  sock_name : string;
  sock_identifier : option string
}.

(** [x in s] for two strings *)
Definition str_contains (x s : string) : bool :=
  bool_decide (is_Some (String.index 0 x s)).

(** [x in l] for a string and a list of strings *)
Definition str_in (x : string) (l : list string) : bool :=
  existsb (String.eqb x) l.

(** The three tests of the loop, in the order of its if/elif/elif. *)
Definition by_type (socket : node_socket) : bool :=
  match sock_type socket with
  | Some t => String.eqb t "OBJECT"
  | None => false
  end.

Definition by_idname (socket : node_socket) : bool :=
  match sock_bl_idname socket with
  | Some idname =>
      existsb (fun obj_type => str_contains obj_type (str_lower idname))
        ["object"; "nodeobject"]
  | None => false
  end.

Definition by_name (socket : node_socket) : bool :=
  str_in (str_lower (sock_name socket)) ["object"; "target"; "target object"].

(** [is_object_socket] at the end of the if/elif/elif *)
Definition is_object_socket (socket : node_socket) : bool :=
  by_type socket || by_idname socket || by_name socket.

(** The third branch is the one taken. *)
Definition by_name_only (socket : node_socket) : bool :=
  negb (by_type socket) && negb (by_idname socket) && by_name socket.

Definition fallback_names : list string :=
  ["instance"; "instances"; "target"; "input"; "mesh"; "geometry";
   "points"; "curve"; "curves"; "target_object"; "input_object"].

(** The four variables of the loop. *)
Record candidates : Type := Candidates {
  object_socket : option node_socket;
  first_object_socket : option node_socket;
  named_object_socket : option node_socket;
  fallback_socket : option node_socket
}.

(** [bool(x)] for a variable that holds [None] or a socket: a socket
    object is truthy. *)
Definition is_set (x : option node_socket) : bool :=
  match x with Some _ => true | None => false end.

(** [a or b] on such variables *)
Definition or_else (a b : option node_socket) : option node_socket :=
  if is_set a then a else b.

(** The loop over [input_node.outputs], with its [break]. *)
Fixpoint scan_outputs (outputs : list node_socket) (c : candidates) : candidates :=
  match outputs with
  | [] => c
  | socket :: others =>
      let named :=
        if by_name_only socket then Some socket else named_object_socket c in
      let first :=
        if is_object_socket socket && negb (is_set (first_object_socket c))
        then Some socket else first_object_socket c in
      if String.eqb (str_lower (sock_name socket)) "object"
         && is_object_socket socket
      then Candidates (Some socket) first named (fallback_socket c)
      else
        let fallback :=
          if negb (is_set (fallback_socket c))
             && str_in (str_lower (sock_name socket)) fallback_names
          then Some socket else fallback_socket c in
        scan_outputs others (Candidates (object_socket c) first named fallback)
  end.

(** def find_best_object_socket(input_node), on [input_node.outputs] *)
Definition find_best_object_socket (outputs : list node_socket)
  : option (string * node_socket) :=
  let c := scan_outputs outputs (Candidates None None None None) in
  let socket :=
    or_else (object_socket c)
      (or_else (named_object_socket c)
         (or_else (first_object_socket c) (fallback_socket c))) in
  match socket with
  | Some s => Some (default (sock_name s) (sock_identifier s), s)
  | None => None
  end.

End Sockets.
(* ===================================================================== *)
(** * updater.py: the background update check                             *)
(* ===================================================================== *)

Module Updater.
Import Py Py.Notations Json.

Definition MANIFEST_URL : string :=
  "https://raw.githubusercontent.com/Orbi51/QP_Tools/main/update_info.json".

(** The module-level dict [_update_state], one field per key. *)
Record update_state : Type := UpdateState {
  checked : bool;
  checking : bool;
  addon_update_available : bool;
  addon_remote_version : json;
  addon_changelog : json;
  addon_download_url : json;
  error : string;
  download_progress : float;
  download_status : string;
  addon_dismissed : bool
}.

(** A request handed to [urllib.request.urlopen]. *)
Record request : Type := Request {
  req_url : string;
  req_headers : list (string * string);
  req_timeout : Z
}.

(** What the check works on: the module globals, the persistent state
    file, the timers registered with Blender and the requests sent. *)
Record host : Type := Host {
  _update_state : update_state;
  _manual_check : bool;
  state_file : option AssetCache.file_content;
  timers : nat;
  requests : list request
}.

(** What the network, the file system and the libraries answer. *)
Record environment : Type := Env {
  (** the body read from the response, or what opening or reading raises *)
  urlopen : request -> outcome string;
  decode_utf8 : string -> outcome string;
  json_loads : string -> outcome json;
  CURRENT_ADDON_VERSION : string;
  get_state_file_fault : option exn;
  state_read_fault : option exn;
  state_write_fault : option exn;
  strftime_now : string;
  timers_register_fault : option exn
}.

(** ** [int(s)] on a string *)

Definition is_space (c : ascii) : bool :=
  let n := N_of_ascii c in
  (((9 <=? n) && (n <=? 13)) || ((28 <=? n) && (n <=? 32))
   || (n =? 133) || (n =? 160))%N.

Fixpoint lstrip (l : list ascii) : list ascii :=
  match l with
  | c :: t => if is_space c then lstrip t else l
  | [] => []
  end.

Definition strip (l : list ascii) : list ascii := rev (lstrip (rev (lstrip l))).

(** Digits, single underscores allowed between two digits.  The result
    is the value and the number of digits. *)
Fixpoint digits_value (l : list ascii) (acc : Z) (n : nat) (after_digit : bool)
  : option (Z * nat) :=
  match l with
  | [] => if after_digit then Some (acc, n) else None
  | c :: t =>
      if Regex.is_digit c
      then digits_value t (10 * acc + (Z.of_N (N_of_ascii c) - 48)) (S n) true
      else if Ascii.eqb c "_" && after_digit
           then match t with
                | d :: _ => if Regex.is_digit d then digits_value t acc n false else None
                | [] => None
                end
      else None
  end.

(** [int(s)]: [None] stands for [ValueError]; more than 4300 digits are
    refused. *)
Definition py_int (s : string) : option Z :=
  let body := strip (list_ascii_of_string s) in
  let signed :=
    match body with
    | c :: t => if Ascii.eqb c "-" then (-1, t)
                else if Ascii.eqb c "+" then (1, t) else (1, body)
    | [] => (1, [])
    end in
  match digits_value (snd signed) 0 0 false with
  | Some (v, n) => if (4300 <? n)%nat then None else Some (fst signed * v)
  | None => None
  end.

(** [s.split('.')] *)
Fixpoint split_dots (l : list ascii) (cur : list ascii) : list string :=
  match l with
  | [] => [string_of_list_ascii (rev cur)]
  | c :: t => if Ascii.eqb c "."
              then string_of_list_ascii (rev cur) :: split_dots t []
              else split_dots t (c :: cur)
  end.

Definition str_split_dots (s : string) : list string :=
  split_dots (list_ascii_of_string s) [].

(** [tuple(int(x) for x in parts)]; [None] stands for [ValueError]. *)
Fixpoint int_tuple (parts : list string) : option (list Z) :=
  match parts with
  | [] => Some []
  | p :: rest =>
      match py_int p with
      | Some v => match int_tuple rest with
                  | Some vs => Some (v :: vs)
                  | None => None
                  end
      | None => None
      end
  end.

(** [r > l] on tuples of ints *)
Fixpoint tuple_gt (r l : list Z) : bool :=
  match r, l with
  | [], _ => false
  | _ :: _, [] => true
  | x :: r', y :: l' => if x =? y then tuple_gt r' l' else y <? x
  end.

(** def _is_newer(remote, local): a remote version that is not a string
    has no [split] ([AttributeError]); both exceptions mean [False]. *)
Definition _is_newer (remote : json) (loc : string) : bool :=
  match remote with
  | JStr s =>
      match int_tuple (str_split_dots s) with
      | Some r => match int_tuple (str_split_dots loc) with
                  | Some l => tuple_gt r l
                  | None => false
                  end
      | None => false
      end
  | _ => false
  end.

Section WithEnvironment.
Variable E : environment.

Definition lift_outcome {A} (o : outcome A) : py host A :=
  match o with Ret a => ret a | Exc e => raise e end.

Definition fault (f : option exn) : py host unit :=
  match f with Some e => raise e | None => ret tt end.

Definition modify_state (f : update_state -> update_state) : py host unit :=
  modify_host (fun h => Host (f (_update_state h)) (_manual_check h)
                          (state_file h) (timers h) (requests h)).

Definition set_checking (b : bool) (s : update_state) : update_state :=
  UpdateState (checked s) b (addon_update_available s) (addon_remote_version s)
    (addon_changelog s) (addon_download_url s) (error s) (download_progress s)
    (download_status s) (addon_dismissed s).

Definition set_checked (b : bool) (s : update_state) : update_state :=
  UpdateState b (checking s) (addon_update_available s) (addon_remote_version s)
    (addon_changelog s) (addon_download_url s) (error s) (download_progress s)
    (download_status s) (addon_dismissed s).

Definition set_error (msg : string) (s : update_state) : update_state :=
  UpdateState (checked s) (checking s) (addon_update_available s)
    (addon_remote_version s) (addon_changelog s) (addon_download_url s) msg
    (download_progress s) (download_status s) (addon_dismissed s).

Definition set_available (b : bool) (s : update_state) : update_state :=
  UpdateState (checked s) (checking s) b (addon_remote_version s)
    (addon_changelog s) (addon_download_url s) (error s) (download_progress s)
    (download_status s) (addon_dismissed s).

Definition set_remote_version (v : json) (s : update_state) : update_state :=
  UpdateState (checked s) (checking s) (addon_update_available s) v
    (addon_changelog s) (addon_download_url s) (error s) (download_progress s)
    (download_status s) (addon_dismissed s).

Definition set_changelog (v : json) (s : update_state) : update_state :=
  UpdateState (checked s) (checking s) (addon_update_available s)
    (addon_remote_version s) v (addon_download_url s) (error s)
    (download_progress s) (download_status s) (addon_dismissed s).

Definition set_download_url (v : json) (s : update_state) : update_state :=
  UpdateState (checked s) (checking s) (addon_update_available s)
    (addon_remote_version s) (addon_changelog s) v (error s)
    (download_progress s) (download_status s) (addon_dismissed s).

Definition set_dismissed (b : bool) (s : update_state) : update_state :=
  UpdateState (checked s) (checking s) (addon_update_available s)
    (addon_remote_version s) (addon_changelog s) (addon_download_url s)
    (error s) (download_progress s) (download_status s) b.

(** [v.get(k, default)]: only a dict has [get]. *)
Definition py_get (k : string) (default : json) (v : json) : py host json :=
  match v with
  | JDict d => ret (from_option id default (dict_get k d))
  | _ => raise (Exn AttributeError "object has no attribute 'get'")
  end.

(** def _load_updater_state() *)
Definition _load_updater_state : py host json :=
  fault (get_state_file_fault E) ;;
  h <- get_host ;;
  let fresh := JDict [("last_check", JStr ""); ("dismissed_addon_version", JStr "")] in
  match state_file h with
  | Some c =>
      try_except
        (fault (state_read_fault E) ;;
         match c with
         | AssetCache.Document v => ret v
         | _ => raise (Exn JSONDecodeError "Expecting value")
         end)
        [JSONDecodeError; OSError]
        (fun _ => ret fresh)
  | None => ret fresh
  end.

(** def _save_updater_state(data) *)
Definition _save_updater_state (data : json) : py host unit :=
  fault (get_state_file_fault E) ;;
  try_except
    (fault (state_write_fault E) ;;
     modify_host (fun h => Host (_update_state h) (_manual_check h)
                             (Some (AssetCache.Document data)) (timers h)
                             (requests h)))
    [OSError]
    (fun _ => ret tt).

(** urllib.request.urlopen(req, timeout=10) and resp.read() *)
Definition fetch (req : request) : py host string :=
  modify_host (fun h => Host (_update_state h) (_manual_check h) (state_file h)
                          (timers h) (requests h ++ [req])) ;;
  lift_outcome (urlopen E req).

(** The request of the check. *)
Definition manifest_request : request :=
  Request MANIFEST_URL [("User-Agent", "QP_Tools-Updater")] 10.

(** The [try] block of [_do_check]. *)
Definition check_body : py host unit :=
  body <- fetch manifest_request ;;
  text <- lift_outcome (decode_utf8 E body) ;;
  data <- lift_outcome (json_loads E text) ;;
  persistent <- _load_updater_state ;;
  addon_info <- py_get "addon" (JDict []) data ;;
  remote_ver <- py_get "version" (JStr "") addon_info ;;
  (if truthy remote_ver && _is_newer remote_ver (CURRENT_ADDON_VERSION E)
   then
     modify_state (set_available true) ;;
     modify_state (set_remote_version remote_ver) ;;
     changelog <- py_get "changelog" (JStr "") addon_info ;;
     modify_state (set_changelog changelog) ;;
     download_url <- py_get "download_url" (JStr "") addon_info ;;
     modify_state (set_download_url download_url) ;;
     h <- get_host ;;
     if _manual_check h
     then modify_state (set_dismissed false)
     else
       dismissed <- py_get "dismissed_addon_version" (JStr "") persistent ;;
       (* [_is_newer] holds of strings only, and a string equals nothing
          but an equal string *)
       modify_state (set_dismissed
         (match remote_ver with
          | JStr s => is_str s dismissed
          | _ => false
          end))
   else
     modify_state (set_available false) ;;
     modify_state (set_dismissed false)) ;;
  persistent <- setitem "last_check" (JStr (strftime_now E)) persistent ;;
  _save_updater_state persistent.

(** The [finally] block of [_do_check]. *)
Definition check_finally : py host unit :=
  modify_state (set_checked true) ;;
  modify_state (set_checking false) ;;
  modify_host (fun h => Host (_update_state h) false (state_file h)
                          (timers h) (requests h)) ;;
  try_except
    (fault (timers_register_fault E) ;;
     modify_host (fun h => Host (_update_state h) (_manual_check h)
                             (state_file h) (S (timers h)) (requests h)))
    [Exception]
    (fun _ => ret tt).

(** def _do_check() *)
Definition _do_check : py host unit :=
  modify_state (set_checking true) ;;
  modify_state (set_error "") ;;
  try_finally
    (try_clauses check_body
       [([URLError; TimeoutError; OSError],
         fun e => modify_state (set_error ("Network error: " +:+ exc_str e)));
        ([JSONDecodeError],
         fun _ => modify_state (set_error "Invalid update manifest"));
        ([Exception],
         fun e => modify_state (set_error (exc_str e)))])
    check_finally.

End WithEnvironment.
End Updater.

(* ===================================================================== *)
(** * updater.py: the operators around the check                          *)
(* ===================================================================== *)

Module UpdaterOps.
Import Py Py.Notations Json Updater.

(** What an operator's [execute] returns. *)
Inductive op_result : Type := FINISHED | CANCELLED.

Section WithEnvironment.
Variable E : environment.

(** class QP_OT_dismiss_update: def execute(self, context) *)
Definition dismiss_update_execute : py host op_result :=
  persistent <- _load_updater_state E ;;
  h <- get_host ;;
  persistent <- setitem "dismissed_addon_version"
                  (addon_remote_version (_update_state h)) persistent ;;
  modify_state (set_dismissed true) ;;
  _save_updater_state E persistent ;;
  ret FINISHED.

(** [show_addon] of [draw_updates_section]: whether the notification of
    an update is due. *)
Definition show_addon (state : update_state) : bool :=
  addon_update_available state && negb (addon_dismissed state).

End WithEnvironment.
End UpdaterOps.

(* ===================================================================== *)
(** * Blender data, as far as CleanUp.py reads and writes it              *)
(* ===================================================================== *)

Module Bpy.

(** The header of a datablock.  [id_ptr] is its identity: two Python
    references are [==] exactly when they point to the same datablock.
    [id_library] is the file it is linked from, [None] for local data. *)
Record ID : Type := MkID {
  id_ptr : nat;
  id_name : string;
  id_library : option string
}.

(** A node of a node tree.  An attribute a node type does not have is
    [None] ([hasattr] is false); a pointer attribute that is unset is
    [Some None]. *)
Record node : Type := Node {
  node_type : string;
  node_material : option (option nat);
  node_node_tree : option (option nat);
  node_image : option (option nat)
}.

Record material : Type := Material {
  mat_id : ID;
  use_nodes : bool;
  diffuse_color : list float;
  metallic : float;
  roughness : float;
  mat_node_tree : option (list node)           (* node_tree.nodes *)
}.

(** An item of [interface.items_tree]: a socket has [in_out], a panel
    has not. *)
Record interface_item : Type := InterfaceItem {
  item_in_out : option string;
  item_name : string;
  item_socket_type : string
}.

(** A socket of the interface before Blender 4.0. *)
Record socket : Type := Socket { socket_name : string; socket_type : string }.

(** How a node group exposes its interface: [ng.interface] (4.0 and
    later), [ng.inputs] and [ng.outputs] (before), or neither. *)
Inductive interface : Type :=
| ModernInterface (items_tree : list interface_item)
| LegacyInterface (inputs outputs : list socket)
| NoInterface.

(** A link of a node tree; only their number is read. *)
Record link : Type := Link { from_node : nat; to_node : nat }.

Record node_group : Type := NodeGroup {
  ng_id : ID;
  ng_nodes : list node;
  ng_links : list link;
  ng_interface : interface
}.

Record image : Type := Image {
  img_id : ID;
  img_filepath : string;
  img_size : list Z;
  img_depth : Z;
  img_channels : Z
}.

Record modifier : Type := Modifier {
  mod_type : string;
  mod_node_group : option (option nat)
}.

Record object : Type := Object {
  obj_material_slots : option (list (option nat));   (* slot.material *)
  obj_modifiers : list modifier
}.

Record world_data : Type := WorldData {
  world_node_tree : option (list node)
}.

(** [bpy.data] *)
Record bpy_data : Type := BpyData {
  objects : list object;
  materials : list material;
  node_groups : list node_group;
  images : list image;
  worlds : list world_data
}.

End Bpy.

(* ===================================================================== *)
(** * CleanUp.py: the duplicate-data cleanup engine                       *)
(* ===================================================================== *)

Module CleanUp.
Import Py Py.Notations Bpy.
Export Naming.

(** ** Core utilities *)

(** def is_linked_data(data_block) *)
Definition is_linked_data (data_block : ID) : bool :=
  bool_decide (is_Some (id_library data_block)).

(** [sorted(l)] for a list of strings *)
Definition sorted_strings (l : list string) : list string :=
  merge_sort (fun a b => String.leb a b) l.

(** [l.sort()] for a list of pairs of strings *)
Definition pair_leb (a b : string * string) : bool :=
  String.ltb (fst a) (fst b)
  || (String.eqb (fst a) (fst b) && String.leb (snd a) (snd b)).

Definition sorted_pairs (l : list (string * string)) : list (string * string) :=
  merge_sort (fun a b => pair_leb a b) l.

(** [==] on sequences of floats *)
Fixpoint floats_eq (a b : list float) : bool :=
  match a, b with
  | [], [] => true
  | x :: a', y :: b' => PrimFloat.eqb x y && floats_eq a' b'
  | _, _ => false
  end.

(** def are_materials_identical(mat1, mat2) *)
Definition are_materials_identical (mat1 mat2 : material) : bool :=
  if negb (Bool.eqb (use_nodes mat1) (use_nodes mat2)) then false else
  if negb (use_nodes mat1) then
    floats_eq (take 3 (diffuse_color mat1)) (take 3 (diffuse_color mat2))
    && PrimFloat.eqb (metallic mat1) (metallic mat2)
    && PrimFloat.eqb (roughness mat1) (roughness mat2)
  else
  match mat_node_tree mat1, mat_node_tree mat2 with
  | Some nodes1, Some nodes2 =>
      if negb (length nodes1 =? length nodes2)%nat then false else
      bool_decide (sorted_strings (map node_type nodes1)
                   = sorted_strings (map node_type nodes2))
  | None, None => true             (* mat1.node_tree == mat2.node_tree *)
  | _, _ => false
  end.

(** The sockets of one direction among the items of an interface. *)
Definition interface_sockets (direction : string) (items : list interface_item)
  : list (string * string) :=
  map (fun item => (item_name item, item_socket_type item))
    (List.filter (fun item => bool_decide (item_in_out item = Some direction)) items).

Fixpoint sockets_match (a b : list socket) : bool :=
  match a, b with
  | x :: a', y :: b' =>
      if negb (String.eqb (socket_name x) (socket_name y))
         || negb (String.eqb (socket_type x) (socket_type y))
      then false else sockets_match a' b'
  | _, _ => true                      (* zip stops at the shorter one *)
  end.

(** The interface part of [are_node_groups_identical]: [Some false] is
    the early [return False], [None] the branch that only warns. *)
Definition compare_interfaces (i1 i2 : interface) : option bool :=
  match i1, i2 with
  | ModernInterface items1, ModernInterface items2 =>
      let inputs1 := interface_sockets "INPUT" items1 in
      let outputs1 := interface_sockets "OUTPUT" items1 in
      let inputs2 := interface_sockets "INPUT" items2 in
      let outputs2 := interface_sockets "OUTPUT" items2 in
      if negb (length inputs1 =? length inputs2)%nat
         || negb (length outputs1 =? length outputs2)%nat
      then Some false else
      if negb (bool_decide (sorted_pairs inputs1 = sorted_pairs inputs2))
         || negb (bool_decide (sorted_pairs outputs1 = sorted_pairs outputs2))
      then Some false else Some true
  | LegacyInterface in1 out1, LegacyInterface in2 out2 =>
      if negb (length in1 =? length in2)%nat
         || negb (length out1 =? length out2)%nat
      then Some false else
      if negb (sockets_match in1 in2) then Some false else
      if negb (sockets_match out1 out2) then Some false else Some true
  | _, _ => None
  end.

(** def are_node_groups_identical(ng1, ng2) *)
Definition are_node_groups_identical (ng1 ng2 : node_group) : logged bool :=
  if negb (length (ng_nodes ng1) =? length (ng_nodes ng2))%nat then quiet false else
  if negb (length (ng_links ng1) =? length (ng_links ng2))%nat then quiet false else
  let types_equal :=
    bool_decide (sorted_strings (map node_type (ng_nodes ng1))
                 = sorted_strings (map node_type (ng_nodes ng2))) in
  match compare_interfaces (ng_interface ng1) (ng_interface ng2) with
  | Some false => quiet false
  | Some true => quiet types_equal
  | None =>
      (types_equal,
       ["Warning: Could not access node group interface for "
        +:+ id_name (ng_id ng1) +:+ " and " +:+ id_name (ng_id ng2)])
  end.

(** What the path functions of the host answer; [None] stands for the
    [OSError] or [ValueError] the comparison of images provides for. *)
Record path_functions : Type := PathFunctions {
  os_path_isabs : string -> bool;
  bpy_path_abspath : string -> option string;
  os_path_normpath : string -> string
}.

(** def are_images_identical(img1, img2) *)
Definition are_images_identical (P : path_functions) (img1 img2 : image) : bool :=
  let has1 := negb (String.eqb (img_filepath img1) "") in
  let has2 := negb (String.eqb (img_filepath img2) "") in
  if negb has1 && negb has2 then
    bool_decide (img_size img1 = img_size img2)
    && (img_depth img1 =? img_depth img2)
    && (img_channels img1 =? img_channels img2)
  else if negb (Bool.eqb has1 has2) then false
  else
    let absolute f := if negb (os_path_isabs P f) then bpy_path_abspath P f else Some f in
    match absolute (img_filepath img1) with
    | Some path1 =>
        match absolute (img_filepath img2) with
        | Some path2 =>
            String.eqb (os_path_normpath P path1) (os_path_normpath P path2)
        | None => String.eqb (img_filepath img1) (img_filepath img2)
        end
    | None => String.eqb (img_filepath img1) (img_filepath img2)
    end.

(** ** Remapping *)

Definition repoint (old new : nat) (p : option nat) : option nat :=
  if bool_decide (p = Some old) then Some new else p.

Definition remap_node_material (old new : nat) (n : node) : node :=
  match node_material n with
  | Some p => Node (node_type n) (Some (repoint old new p)) (node_node_tree n) (node_image n)
  | None => n
  end.

Definition remap_group_node (old new : nat) (n : node) : node :=
  if String.eqb (node_type n) "GROUP" then
    match node_node_tree n with
    | Some p => Node (node_type n) (node_material n) (Some (repoint old new p)) (node_image n)
    | None => n
    end
  else n.

Definition remap_image_node (old new : nat) (n : node) : node :=
  if String.eqb (node_type n) "TEX_IMAGE" then
    match node_image n with
    | Some p => Node (node_type n) (node_material n) (node_node_tree n) (Some (repoint old new p))
    | None => n
    end
  else n.

Definition map_group_nodes (f : node -> node) (ng : node_group) : node_group :=
  NodeGroup (ng_id ng) (map f (ng_nodes ng)) (ng_links ng) (ng_interface ng).

Definition map_material_nodes (f : node -> node) (mat : material) : material :=
  Material (mat_id mat) (use_nodes mat) (diffuse_color mat) (metallic mat)
    (roughness mat) (option_map (map f) (mat_node_tree mat)).

Definition map_world_nodes (f : node -> node) (w : world_data) : world_data :=
  WorldData (option_map (map f) (world_node_tree w)).

(** CLEANUP_OT_clean_materials._remap_data *)
Definition remap_material (old_mat new_mat : material) (d : bpy_data) : bpy_data :=
  let old := id_ptr (mat_id old_mat) in
  let new := id_ptr (mat_id new_mat) in
  BpyData
    (map (fun obj => Object (option_map (map (repoint old new)) (obj_material_slots obj))
                            (obj_modifiers obj))
         (objects d))
    (materials d)
    (map (map_group_nodes (remap_node_material old new)) (node_groups d))
    (images d)
    (worlds d).

Definition remap_modifier (old new : nat) (m : modifier) : modifier :=
  if String.eqb (mod_type m) "NODES" then
    match mod_node_group m with
    | Some p => Modifier (mod_type m) (Some (repoint old new p))
    | None => m
    end
  else m.

(** CLEANUP_OT_clean_node_groups._remap_data *)
Definition remap_node_group (old_ng new_ng : node_group) (d : bpy_data) : bpy_data :=
  let old := id_ptr (ng_id old_ng) in
  let new := id_ptr (ng_id new_ng) in
  BpyData
    (map (fun obj => Object (obj_material_slots obj)
                            (map (remap_modifier old new) (obj_modifiers obj)))
         (objects d))
    (map (map_material_nodes (remap_group_node old new)) (materials d))
    (map (fun ng => if (id_ptr (ng_id ng) =? old)%nat then ng
                    else map_group_nodes (remap_group_node old new) ng)
         (node_groups d))
    (images d)
    (map (map_world_nodes (remap_group_node old new)) (worlds d)).

(** CLEANUP_OT_clean_images._remap_data *)
Definition remap_image (old_img new_img : image) (d : bpy_data) : bpy_data :=
  let old := id_ptr (img_id old_img) in
  let new := id_ptr (img_id new_img) in
  BpyData
    (objects d)
    (map (map_material_nodes (remap_image_node old new)) (materials d))
    (map (map_group_nodes (remap_image_node old new)) (node_groups d))
    (images d)
    (map (map_world_nodes (remap_image_node old new)) (worlds d)).

(** ** The operators

    [BaseCleanupOperator] is written once over the datablock type; the
    three concrete operators supply [DATA_TYPE], the collection of
    [bpy.data] they clean, the comparison that [are_items_identical_by_type]
    selects for that collection and their [_remap_data]. *)
Class CleanupOperator (T : Type) : Type := {
  DATA_TYPE : string;
  collection_attr : string;
  block_id : T -> ID;
  data_collection : bpy_data -> list T;
  set_data_collection : list T -> bpy_data -> bpy_data;
  are_items_identical_by_type : T -> T -> logged bool;
  remap_data : T -> T -> bpy_data -> bpy_data
}.

#[global] Instance CLEANUP_OT_clean_materials : CleanupOperator material := {
  DATA_TYPE := "materials";
  collection_attr := "materials";
  block_id := mat_id;
  data_collection := materials;
  set_data_collection l d :=
    BpyData (objects d) l (node_groups d) (images d) (worlds d);
  are_items_identical_by_type a b := quiet (are_materials_identical a b);
  remap_data := remap_material
}.

#[global] Instance CLEANUP_OT_clean_node_groups : CleanupOperator node_group := {
  DATA_TYPE := "node_groups";
  collection_attr := "node_groups";
  block_id := ng_id;
  data_collection := node_groups;
  set_data_collection l d :=
    BpyData (objects d) (materials d) l (images d) (worlds d);
  are_items_identical_by_type := are_node_groups_identical;
  remap_data := remap_node_group
}.

Definition CLEANUP_OT_clean_images (P : path_functions) : CleanupOperator image := {|
  DATA_TYPE := "images";
  collection_attr := "images";
  block_id := img_id;
  data_collection := images;
  set_data_collection l d :=
    BpyData (objects d) (materials d) (node_groups d) l (worlds d);
  are_items_identical_by_type a b := quiet (are_images_identical P a b);
  remap_data := remap_image
|}.

(** What a run leaves behind, in order: the calls of [_remap_data] and
    the removals, each removal with [bpy.data] as it was when
    [remove()] was called. *)
Inductive event : Type :=
| Remapped (old new : ID)
| Removed (item : ID) (at_call : bpy_data).

(** The counters the execution methods keep. *)
Record counters : Type := Counters {
  processed : Z;
  skipped : Z;
  no_choice_needed : Z;
  no_linked_available : Z;
  skipped_linked : Z
}.

Definition no_counts : counters := Counters 0 0 0 0 0.

(** Everything an operator works on. *)
Record host : Type := Host {
  data : bpy_data;                                      (* bpy.data *)
  _conflict_selections : gmap string (gmap string string);
  trace : list event;
  counts : counters;
  reports : list (string * string)                      (* self.report *)
}.

(** CLEANUP_ConflictItem, as far as [execute] reads it. *)
Record conflict_item : Type := ConflictItem {
  base_name : string;
  skip_this_conflict : bool
}.

(** The properties of the operator. *)
Record operator : Type := Operator {
  force_remap : bool;
  conflicts : list conflict_item;
  has_conflicts : bool;
  global_resolution : string
}.

(** The items of the [global_resolution] enum, and its default. *)
Definition global_resolution_items : list (string * string) :=
  [("AUTO_CLEAN", "Auto Clean Identical");
   ("CHOOSE_DATA", "Choose Data");
   ("KEEP_LINKED", "Replace with Linked")].

Definition global_resolution_default : string := "AUTO_CLEAN".

Inductive op_result : Type := FINISHED | CANCELLED.

Record identity_group (T : Type) : Type := IdentityGroup {
  representative : T;
  members : list T
}.
Arguments IdentityGroup {T} representative members.
Arguments representative {T} i.
Arguments members {T} i.

Record conflict_info (T : Type) : Type := ConflictInfo {
  items : list T;
  local_items : list T;
  linked_items : list T;
  conflict_types : list string;
  identity_groups : list (identity_group T)
}.
Arguments ConflictInfo {T} items local_items linked_items conflict_types identity_groups.
Arguments items {T} c.
Arguments local_items {T} c.
Arguments linked_items {T} c.
Arguments conflict_types {T} c.
Arguments identity_groups {T} c.

Section BaseCleanupOperator.
Context {T : Type} {Op : CleanupOperator T}.

Definition name_of (x : T) : string := id_name (block_id x).
Definition ptr_of (x : T) : nat := id_ptr (block_id x).
Definition linked (x : T) : bool := is_linked_data (block_id x).

(** [a == b] on datablocks *)
Definition same_block (a b : T) : bool := (ptr_of a =? ptr_of b)%nat.

(** [bool(l)] for a list *)
Definition nonempty {A} (l : list A) : bool :=
  match l with [] => false | _ => true end.

(** ** Conflict analysis *)

(** The inner loop of [group_items_by_identity]: the groups with [item]
    added to the first one whose representative it is identical to, if
    there is one. *)
Fixpoint place_in_group (item : T) (groups : list (identity_group T))
  : logged (option (list (identity_group T))) :=
  match groups with
  | [] => quiet None
  | group :: others =>
      let (same, lines) := are_items_identical_by_type item (representative group) in
      if same
      then (Some (IdentityGroup (representative group) (members group ++ [item])
                  :: others), lines)
      else let (placed, more) := place_in_group item others in
           (option_map (cons group) placed, lines ++ more)
  end.

Fixpoint group_items_from (todo : list T) (groups : list (identity_group T))
  : logged (list (identity_group T)) :=
  match todo with
  | [] => quiet groups
  | item :: rest =>
      let (placed, lines) := place_in_group item groups in
      let groups' :=
        match placed with
        | Some gs => gs
        | None => groups ++ [IdentityGroup item [item]]
        end in
      let (result, more) := group_items_from rest groups' in
      (result, lines ++ more)
  end.

(** def group_items_by_identity(items, data_collection) *)
Definition group_items_by_identity (todo : list T)
  : logged (list (identity_group T)) :=
  group_items_from todo [].

(** [base_groups.setdefault(base_name, []).append(item)] on a dict kept
    in insertion order *)
Fixpoint setdefault_append (key : string) (item : T) (d : list (string * list T))
  : list (string * list T) :=
  match d with
  | [] => [(key, [item])]
  | (k, l) :: rest =>
      if String.eqb k key then (k, l ++ [item]) :: rest
      else (k, l) :: setdefault_append key item rest
  end.

Definition group_by_base_name (collection : list T) : list (string * list T) :=
  fold_left (fun d item => setdefault_append (get_base_name (name_of item)) item d)
    collection [].

Definition conflict_types_of (local_items linked_items : list T)
    (groups : list (identity_group T)) : list string :=
  (if (1 <? length local_items)%nat then ["Local Duplicates"] else [])
  ++ (if (1 <? length linked_items)%nat then ["Multiple Linked"] else [])
  ++ (if nonempty local_items && nonempty linked_items
      then ["Local and Linked"] else [])
  ++ (if (1 <? length groups)%nat then ["Non Identical"] else []).

Fixpoint analyze_groups (base_groups : list (string * list T))
  : logged (list (string * conflict_info T)) :=
  match base_groups with
  | [] => quiet []
  | (base, its) :: rest =>
      if (length its <=? 1)%nat then analyze_groups rest else
      let (groups, lines) := group_items_by_identity its in
      let local_its := List.filter (fun i => negb (linked i)) its in
      let linked_its := List.filter linked its in
      let info := ConflictInfo its local_its linked_its
                    (conflict_types_of local_its linked_its groups) groups in
      let (result, more) := analyze_groups rest in
      ((base, info) :: result, lines ++ more)
  end.

(** def analyze_data_conflicts_with_grouping(data_collection) *)
Definition analyze_data_conflicts_with_grouping (collection : list T)
  : logged (list (string * conflict_info T)) :=
  analyze_groups (group_by_base_name collection).

(** ** Effects on the host *)

Definition modify_data (f : bpy_data -> bpy_data) : py host unit :=
  modify_host (fun h => Host (f (data h)) (_conflict_selections h) (trace h)
                          (counts h) (reports h)).

Definition log_event (e : event) : py host unit :=
  modify_host (fun h => Host (data h) (_conflict_selections h) (trace h ++ [e])
                          (counts h) (reports h)).

Definition count (f : counters -> counters) : py host unit :=
  modify_host (fun h => Host (data h) (_conflict_selections h) (trace h)
                          (f (counts h)) (reports h)).

Definition add_processed (n : Z) (c : counters) : counters :=
  Counters (processed c + n) (skipped c) (no_choice_needed c)
    (no_linked_available c) (skipped_linked c).

Definition add_skipped (n : Z) (c : counters) : counters :=
  Counters (processed c) (skipped c + n) (no_choice_needed c)
    (no_linked_available c) (skipped_linked c).

Definition add_no_choice_needed (n : Z) (c : counters) : counters :=
  Counters (processed c) (skipped c) (no_choice_needed c + n)
    (no_linked_available c) (skipped_linked c).

Definition add_no_linked_available (n : Z) (c : counters) : counters :=
  Counters (processed c) (skipped c) (no_choice_needed c)
    (no_linked_available c + n) (skipped_linked c).

Definition add_skipped_linked (n : Z) (c : counters) : counters :=
  Counters (processed c) (skipped c) (no_choice_needed c)
    (no_linked_available c) (skipped_linked c + n).

(** self.report({'INFO'}, message) *)
Definition report (level message : string) : py host unit :=
  modify_host (fun h => Host (data h) (_conflict_selections h) (trace h)
                          (counts h) (reports h ++ [(level, message)])).

(** self._remap_data(old, new) *)
Definition _remap_data (old new : T) : py host unit :=
  log_event (Remapped (block_id old) (block_id new)) ;;
  modify_data (remap_data old new).

(** The datablock is still in its collection. *)
Definition alive (d : bpy_data) (item : T) : bool :=
  existsb (same_block item) (data_collection d).

(** self.data_collection.remove(item): a reference to a datablock that
    has been removed already is refused. *)
Definition remove (item : T) : py host unit :=
  h <- get_host ;;
  if alive (data h) item then
    log_event (Removed (block_id item) (data h)) ;;
    modify_data (fun d =>
      set_data_collection
        (List.filter (fun x => negb (same_block item x)) (data_collection d)) d)
  else raise (Exn ReferenceError "StructRNA of type ID has been removed").

(** Reading an attribute of every item of a list made earlier: a
    reference to a removed datablock raises. *)
Definition check_alive (its : list T) : py host unit :=
  h <- get_host ;;
  if forallb (alive (data h)) its then ret tt
  else raise (Exn ReferenceError "StructRNA of type ID has been removed").

(** [i for i in self.data_collection if get_base_name(i.name) == base] *)
Definition items_named (base : string) (d : bpy_data) : list T :=
  List.filter (fun i => String.eqb (get_base_name (name_of i)) base)
    (data_collection d).

(** _conflict_selections[self.DATA_TYPE].get(base) *)
Definition selection (h : host) (base : string) : option string :=
  default ∅ (_conflict_selections h !! DATA_TYPE) !! base.

(** _conflict_selections[self.DATA_TYPE].clear() *)
Definition clear_selections : py host unit :=
  modify_host (fun h => Host (data h) (<[DATA_TYPE := ∅]> (_conflict_selections h))
                          (trace h) (counts h) (reports h)).

(** ** Execution *)

(** The loop over the members of one identity group, as both
    [_auto_clean_execution] and [_standard_cleanup_with_grouping] write
    it; [on_linked] is what they do with a linked member before
    [continue]. *)
Definition clean_members (on_linked : py host unit) (the_members : list T)
    (the_representative : T) : py host unit :=
  for_each the_members (fun member =>
    if same_block member the_representative then ret tt else
    if linked member then on_linked else
    _remap_data member the_representative ;;
    remove member ;;
    count (add_processed 1)).

(** The loop over the identity groups of one base name. *)
Definition clean_identity_groups (on_linked : py host unit)
    (groups : list (identity_group T)) : py host unit :=
  for_each groups (fun group =>
    let the_members := members group in
    if (length the_members <=? 1)%nat then ret tt else
    let local_members := List.filter (fun m => negb (linked m)) the_members in
    match (match local_members with m :: _ => Some m | [] => head the_members end) with
    | Some the_representative => clean_members on_linked the_members the_representative
    | None => ret tt
    end).

(** The loop over [base_groups.items()]. *)
Definition clean_base_groups (on_linked : py host unit)
    (base_groups : list (string * list T)) : py host unit :=
  for_each base_groups (fun entry =>
    let its := snd entry in
    if (length its <=? 1)%nat then ret tt else
    groups <- say (group_items_by_identity its) ;;
    clean_identity_groups on_linked groups).

Definition processed_message (c : counters) : string :=
  "Processed " +:+ pretty (processed c) +:+ " " +:+ collection_attr.

(** def _auto_clean_execution(self) *)
Definition _auto_clean_execution : py host op_result :=
  count (fun _ => no_counts) ;;
  h <- get_host ;;
  found <- say (analyze_data_conflicts_with_grouping (data_collection (data h))) ;;
  for_each found (fun entry =>
    let conflict_base_name := fst entry in
    let info := snd entry in
    let has_meaningful_duplicates :=
      existsb (fun group =>
                 (1 <? length (List.filter (fun m => negb (linked m)) (members group)))%nat)
              (identity_groups info) in
    if negb has_meaningful_duplicates then
      h <- get_host ;;
      count (add_skipped (Z.of_nat (length (items_named conflict_base_name (data h))) - 1))
    else
      h <- get_host ;;
      let base_groups :=
        fold_left (fun d item =>
                     let base := get_base_name (name_of item) in
                     if String.eqb base conflict_base_name
                     then setdefault_append base item d else d)
                  (data_collection (data h)) [] in
      clean_base_groups (ret tt) base_groups) ;;
  h <- get_host ;;
  let c := counts h in
  report "INFO"
    (processed_message c +:+
     (if negb (skipped c =? 0)
      then ", skipped " +:+ pretty (skipped c) +:+ " (no duplicates)" else "")) ;;
  ret FINISHED.

(** The body of the loop of [_choose_data_execution]. *)
Definition choose_data_conflict (conflict : conflict_item) : py host unit :=
  if skip_this_conflict conflict then
    h <- get_host ;;
    count (add_skipped (Z.of_nat (length (items_named (base_name conflict) (data h))) - 1))
  else
    h <- get_host ;;
    let base := base_name conflict in
    let all_items := items_named base (data h) in
    let local_its := List.filter (fun i => negb (linked i)) all_items in
    if (length local_its <? 2)%nat then
      count (add_no_choice_needed
               (if nonempty all_items then Z.of_nat (length all_items) - 1 else 0))
    else
      match selection h base with
      | None => ret tt
      | Some selected_name =>
          if String.eqb selected_name "" then ret tt else
          match List.find (fun item => String.eqb (name_of item) selected_name) all_items with
          | None => ret tt
          | Some target =>
              for_each all_items (fun item =>
                if negb (same_block item target) && negb (linked item) then
                  _remap_data item target ;;
                  remove item ;;
                  count (add_processed 1)
                else ret tt)
          end
      end.

(** def _choose_data_execution(self) *)
Definition _choose_data_execution (self : operator) : py host op_result :=
  count (fun _ => no_counts) ;;
  for_each (conflicts self) choose_data_conflict ;;
  clear_selections ;;
  h <- get_host ;;
  let c := counts h in
  report "INFO"
    (processed_message c +:+
     (if negb (skipped c =? 0) then ", skipped " +:+ pretty (skipped c) else "") +:+
     (if negb (no_choice_needed c =? 0)
      then ", no choice needed for " +:+ pretty (no_choice_needed c) +:+ " items"
      else "")) ;;
  ret FINISHED.

(** conflicts.get(base_name) on the analysis made when the method starts *)
Fixpoint conflicts_get (found : list (string * conflict_info T)) (base : string)
  : option (conflict_info T) :=
  match found with
  | [] => None
  | (b, info) :: rest => if String.eqb b base then Some info else conflicts_get rest base
  end.

(** The body of the loop of [_keep_linked_execution]. *)
Definition keep_linked_conflict (found : list (string * conflict_info T))
    (conflict : conflict_item) : py host unit :=
  if skip_this_conflict conflict then
    h <- get_host ;;
    count (add_skipped (Z.of_nat (length (items_named (base_name conflict) (data h))) - 1))
  else
    match conflicts_get found (base_name conflict) with
    | None => ret tt
    | Some conflict_info =>
        let all_items := items conflict_info in
        check_alive all_items ;;
        let linked_its := List.filter linked all_items in
        let local_its := List.filter (fun i => negb (linked i)) all_items in
        match linked_its with
        | [] => count (add_no_linked_available (Z.of_nat (length local_its)))
        | target_linked :: _ =>
            for_each local_its (fun local_item =>
              try_except
                (_remap_data local_item target_linked ;;
                 remove local_item ;;
                 count (add_processed 1))
                [Exception]
                (fun e =>
                   print ("Warning: Could not remap " +:+ name_of local_item +:+ " to "
                          +:+ name_of target_linked +:+ ": " +:+ exc_str e) ;;
                   count (add_skipped 1)))
        end
    end.

(** def _keep_linked_execution(self) *)
Definition _keep_linked_execution (self : operator) : py host op_result :=
  count (fun _ => no_counts) ;;
  h <- get_host ;;
  found <- say (analyze_data_conflicts_with_grouping (data_collection (data h))) ;;
  for_each (conflicts self) (keep_linked_conflict found) ;;
  h <- get_host ;;
  let c := counts h in
  report "INFO"
    (processed_message c +:+
     (if negb (skipped c =? 0) then ", skipped " +:+ pretty (skipped c) else "") +:+
     (if negb (no_linked_available c =? 0)
      then ", no linked versions available for " +:+ pretty (no_linked_available c)
           +:+ " items"
      else "")) ;;
  ret FINISHED.

(** def _standard_cleanup_with_grouping(self) *)
Definition _standard_cleanup_with_grouping : py host op_result :=
  h <- get_host ;;
  let base_groups := group_by_base_name (data_collection (data h)) in
  count (fun _ => no_counts) ;;
  clean_base_groups (count (add_skipped_linked 1)) base_groups ;;
  h <- get_host ;;
  let c := counts h in
  report "INFO"
    (processed_message c +:+
     (if 0 <? skipped_linked c
      then ", skipped " +:+ pretty (skipped_linked c) +:+ " linked" else "")) ;;
  ret FINISHED.

(** Reading [item.library] or [item.name] through a reference made
    earlier: a removed datablock raises. *)
Definition live_is_linked (item : T) : py host bool :=
  h <- get_host ;;
  if alive (data h) item then ret (linked item)
  else raise (Exn ReferenceError "StructRNA of type ID has been removed").

Definition live_name (item : T) : py host string :=
  h <- get_host ;;
  if alive (data h) item then ret (name_of item)
  else raise (Exn ReferenceError "StructRNA of type ID has been removed").

(** The loop over the members of a group in
    [_conflict_cleanup_with_grouping]. *)
Definition remap_members_to (the_members : list T) (keep : T) : py host unit :=
  for_each the_members (fun member =>
    if same_block member keep then ret tt else
    is_linked <- live_is_linked member ;;
    if is_linked then ret tt else
    _remap_data member keep ;;
    remove member ;;
    count (add_processed 1)).

(** The search for the group whose representative bears the selected
    name. *)
Fixpoint find_target_group (selected_name : string)
    (groups : list (identity_group T)) : py host (option (identity_group T)) :=
  match groups with
  | [] => ret None
  | group :: others =>
      n <- live_name (representative group) ;;
      if String.eqb n selected_name then ret (Some group)
      else find_target_group selected_name others
  end.

(** [group == target_group] on the dicts: the same representative and
    the same members. *)
Fixpoint same_blocks (a b : list T) : bool :=
  match a, b with
  | [], [] => true
  | x :: a', y :: b' => same_block x y && same_blocks a' b'
  | _, _ => false
  end.

Definition same_group (a b : identity_group T) : bool :=
  same_block (representative a) (representative b)
  && same_blocks (members a) (members b).

(** The body of the loop of [_conflict_cleanup_with_grouping]. *)
Definition conflict_cleanup_conflict (found : list (string * conflict_info T))
    (conflict : conflict_item) : py host unit :=
  if skip_this_conflict conflict then
    h <- get_host ;;
    count (add_skipped (Z.of_nat (length (items_named (base_name conflict) (data h))) - 1))
  else
    match conflicts_get found (base_name conflict) with
    | None => ret tt
    | Some conflict_info =>
        let groups := identity_groups conflict_info in
        h <- get_host ;;
        match selection h (base_name conflict) with
        | None => ret tt
        | Some selected_name =>
            if String.eqb selected_name "" then ret tt else
            target <- find_target_group selected_name groups ;;
            match target with
            | None => ret tt
            | Some target_group =>
                let target_representative := representative target_group in
                for_each groups (fun group =>
                  if same_group group target_group
                  then remap_members_to (members group) target_representative
                  else remap_members_to (members group) (representative group))
            end
        end
    end.

(** def _conflict_cleanup_with_grouping(self) *)
Definition _conflict_cleanup_with_grouping (self : operator) : py host op_result :=
  count (fun _ => no_counts) ;;
  h <- get_host ;;
  found <- say (analyze_data_conflicts_with_grouping (data_collection (data h))) ;;
  for_each (conflicts self) (conflict_cleanup_conflict found) ;;
  clear_selections ;;
  h <- get_host ;;
  let c := counts h in
  report "INFO"
    (processed_message c +:+
     (if negb (skipped c =? 0) then ", skipped " +:+ pretty (skipped c) else "")) ;;
  ret FINISHED.

(** def execute(self, context) *)
Definition execute (self : operator) : py host op_result :=
  if negb (has_conflicts self) then _standard_cleanup_with_grouping else
  if String.eqb (global_resolution self) "AUTO_CLEAN" then _auto_clean_execution
  else if String.eqb (global_resolution self) "CHOOSE_DATA" then _choose_data_execution self
  else if String.eqb (global_resolution self) "KEEP_LINKED" then _keep_linked_execution self
  else _conflict_cleanup_with_grouping self.

End BaseCleanupOperator.
End CleanUp.

(* ===================================================================== *)
(** * CleanUp.py: how the dialog of conflicts is set up                   *)
(* ===================================================================== *)

Module CleanUpDialog.
Import Py Py.Notations Bpy CleanUp.

(** CLEANUP_DataOption *)
Record data_option : Type := DataOption {
  data_name : string;
  user_count : Z;
  is_selected : bool;
  is_linked : bool;
  linked_file : string;
  filepath : string;
  group_info : string
}.

(** What CLEANUP_ConflictItem holds besides [base_name] and
    [skip_this_conflict], which [conflict_item] has. *)
Record conflict_details : Type := ConflictDetails {
  conflict_types_text : string;
  data_type : string;
  data_options : list data_option
}.

(** What [invoke] returns: the result of [execute], or that of
    [invoke_props_dialog], which has been asked for a dialog of this
    width. *)
Inductive invoke_result : Type :=
| Executed (r : op_result)
| Dialog (width : Z).

(** [sep.join(l)] *)
Fixpoint join (sep : string) (l : list string) : string :=
  match l with
  | [] => ""
  | [x] => x
  | x :: rest => x +:+ sep +:+ join sep rest
  end.

Section Invoke.
Context {T : Type} {Op : CleanupOperator T}.
(** [item.users] *)
Variable users : T -> Z.
(** [item.filepath], for a datablock that has one *)
Variable item_filepath : T -> option string.
Variable os_path_basename : string -> string.

(** def get_linked_file_name(data_block) *)
Definition get_linked_file_name (data_block : ID) : option string :=
  match id_library data_block with
  | Some library_name => Some (os_path_basename library_name)
  | None => None
  end.

(** The option [invoke] adds for an item of a conflict. *)
Definition option_for (resolution : string) (local_items : list T) (item : T)
  : data_option :=
  let item_is_linked := linked item in
  DataOption (name_of item) (users item)
    (String.eqb resolution "CHOOSE_DATA" && negb item_is_linked
     && match local_items with
        | first :: _ => String.eqb (name_of item) (name_of first)
        | [] => false
        end)
    item_is_linked
    (if item_is_linked
     then match get_linked_file_name (block_id item) with
          | Some file => if String.eqb file "" then "Unknown" else file
          | None => "Unknown"
          end
     else "")
    (if String.eqb DATA_TYPE "images"
     then from_option id "" (item_filepath item) else "")
    "".

(** The loop over [conflict_item.data_options] that ends at the option
    of the representative. *)
Fixpoint mark_representative (rep_name : string) (rep_linked : bool)
    (info : string) (count : Z) (options : list data_option)
  : list data_option :=
  match options with
  | [] => []
  | option :: rest =>
      if String.eqb (data_name option) rep_name
         && Bool.eqb (is_linked option) rep_linked
      then DataOption (data_name option) count (is_selected option)
             (is_linked option) (linked_file option) (filepath option) info
           :: rest
      else option :: mark_representative rep_name rep_linked info count rest
  end.

(** The loop over [info['identity_groups']] of the AUTO_CLEAN mode. *)
Definition with_group_infos (groups : list (identity_group T))
    (options : list data_option) : list data_option :=
  fold_left
    (fun options group =>
       let local_members := List.filter (fun m => negb (linked m)) (members group) in
       if (1 <? length local_members)%nat then
         let group_size := Z.of_nat (length (members group)) in
         mark_representative (name_of (representative group))
           (linked (representative group))
           (if 1 <? group_size
            then "(+" +:+ pretty (group_size - 1) +:+ " identical will be remapped)"
            else "(unique)")
           (fold_right Z.add 0 (map users (members group)))
           options
       else options)
    groups options.

(** The details of the conflict item [invoke] adds for a base name. *)
Definition details_for (resolution : string) (info : conflict_info T)
  : conflict_details :=
  let local_items := List.filter (fun item => negb (linked item)) (items info) in
  let options := map (option_for resolution local_items) (items info) in
  ConflictDetails (join ", " (conflict_types info)) DATA_TYPE
    (if String.eqb resolution "AUTO_CLEAN"
     then with_group_infos (identity_groups info) options
     else options).

(** _conflict_selections[self.DATA_TYPE][base_name] = name *)
Definition set_selection (base name : string) : py host unit :=
  modify_host (fun h =>
    Host (data h)
         (<[DATA_TYPE := <[base := name]> (default ∅ (_conflict_selections h !! DATA_TYPE))]>
            (_conflict_selections h))
         (trace h) (counts h) (reports h)).

(** def invoke(self, context, event).  The operator is returned as the
    method leaves it; the details of its conflicts are returned when
    the method has filled [self.conflicts] anew. *)
Definition invoke (self : operator) (shift : bool)
  : py host (operator * option (list conflict_details) * invoke_result) :=
  clear_selections ;;
  let self := Operator shift (conflicts self) (has_conflicts self)
                (global_resolution self) in
  if force_remap self then
    r <- execute self ;; ret (self, None, Executed r)
  else
  h <- get_host ;;
  found <- say (analyze_data_conflicts_with_grouping (data_collection (data h))) ;;
  if nonempty found then
    let self := Operator (force_remap self)
                  (map (fun entry => ConflictItem (fst entry) false) found)
                  true (global_resolution self) in
    for_each found (fun entry =>
      let local_items :=
        List.filter (fun item => negb (linked item)) (items (snd entry)) in
      match local_items with
      | first :: _ =>
          if String.eqb (global_resolution self) "CHOOSE_DATA"
          then set_selection (fst entry) (name_of first)
          else ret tt
      | [] => ret tt
      end) ;;
    let details := map (fun entry => details_for (global_resolution self) (snd entry))
                     found in
    if nonempty (conflicts self) then
      ret (self, Some details,
           Dialog (if String.eqb (global_resolution self) "AUTO_CLEAN"
                   then 800 else 700))
    else
      r <- execute self ;; ret (self, Some details, Executed r)
  else
    r <- execute self ;; ret (self, None, Executed r).

End Invoke.
End CleanUpDialog.


(* ===================================================================== *)
(** * Facts about base names                                              *)
(* ===================================================================== *)

Module NamingFacts.
Import Regex Naming.

(** The part of the pattern that follows the first group. *)
Definition tail_pattern : regex :=
  RSeq (RLit ".") (RSeq (RGroup 2 (RRepeat 3 RDigit)) REol).

(** The digits the tail captures on a remaining input, if it matches. *)
Definition tail_digits (l : list ascii) : option (list ascii) :=
  match l with
  | dot :: d1 :: d2 :: d3 :: e =>
      if Ascii.eqb "." dot && is_digit d1 && is_digit d2 && is_digit d3 && at_eol e
      then Some [d1; d2; d3] else None
  | _ => None
  end.

Lemma sub_3 (n : nat) : (S (S (S n)) - n = 3)%nat.
Proof. lia. Qed.

Local Arguments Ascii.eqb : simpl never.
Local Arguments is_digit : simpl never.
Local Arguments at_eol : simpl never.

Lemma run_tail (st : mstate) :
  run tail_pattern st =
    match tail_digits (rest st) with
    | Some d => [MState (rev d ++ "."%char :: before st) (drop 4 (rest st))
                        (<[2%nat := d]> (groups st))]
    | None => []
    end.
Proof.
  destruct st as [b r g]. cbn [rest before groups].
  destruct r as [|c0 [|d1 [|d2 [|d3 e]]]]; cbn;
    try reflexivity;
    try (destruct (Ascii.eqb "." c0); reflexivity).
  - destruct (Ascii.eqb "." c0); cbn; [|reflexivity].
    destruct (is_digit d1); reflexivity.
  - destruct (Ascii.eqb "." c0); cbn; [|reflexivity].
    destruct (is_digit d1); cbn; [|reflexivity].
    destruct (is_digit d2); reflexivity.
  - destruct (Ascii.eqb "." c0) eqn:E0; cbn; [|reflexivity].
    destruct (is_digit d1); cbn; [|reflexivity].
    destruct (is_digit d2); cbn; [|reflexivity].
    destruct (is_digit d3); cbn; [|reflexivity].
    apply Ascii.eqb_eq in E0. subst c0.
    destruct (at_eol e); cbn; [|reflexivity].
    unfold close_group; cbn [before rest groups length].
    rewrite sub_3. reflexivity.
Qed.

(** The successes of [(.+?)]: every non-empty newline-free prefix,
    shortest first. *)
Fixpoint any_prefixes (b r : list ascii) (g : gmap nat (list ascii)) : list mstate :=
  match r with
  | [] => []
  | c :: t =>
      if negb (Ascii.eqb c newline)
      then MState (c :: b) t g :: any_prefixes (c :: b) t g
      else []
  end.

Lemma lazy_any (fuel : nat) (b r : list ascii) (g : gmap nat (list ascii)) :
  (length r < fuel)%nat ->
  lazy_plus (run RAny) fuel (MState b r g) = any_prefixes b r g.
Proof.
  revert b r. induction fuel as [|f IH]; intros b r Hlt; [lia|].
  destruct r as [|c t]; [reflexivity|].
  cbn. destruct (negb (Ascii.eqb c newline)); [|reflexivity].
  cbn. rewrite app_nil_r. f_equal. apply IH. cbn in Hlt. lia.
Qed.

(** The first split a backtracking engine accepts: prefix and digits. *)
Fixpoint scan (b r : list ascii) : option (list ascii * list ascii) :=
  match r with
  | [] => None
  | c :: t =>
      if negb (Ascii.eqb c newline)
      then match tail_digits t with
           | Some d => Some (rev (c :: b), d)
           | None => scan (c :: b) t
           end
      else None
  end.

Definition captures (m : mstate) : option (list ascii) * option (list ascii) :=
  (groups m !! 1%nat, groups m !! 2%nat).

Lemma head_scan (st0 : mstate) (b r : list ascii) :
  before st0 = [] ->
  captures <$> head (flat_map (run tail_pattern)
                       (map (close_group 1 st0) (any_prefixes b r ∅)))
  = (fun pd => (Some (fst pd), Some (snd pd))) <$> scan b r.
Proof.
  intros Hb. revert b. induction r as [|c t IH]; intros b; [reflexivity|].
  cbn [any_prefixes scan].
  destruct (negb (Ascii.eqb c newline)); [|reflexivity].
  cbn [map flat_map]. rewrite run_tail.
  change (rest (close_group 1 st0 (MState (c :: b) t ∅))) with t.
  destruct (tail_digits t) as [d|]; [|cbn [app]; apply IH].
  cbn. unfold captures. cbn. rewrite Hb. cbn [length].
  rewrite lookup_insert_ne by discriminate.
  rewrite !lookup_insert_eq. rewrite Nat.sub_0_r.
  change (S (length b)) with (length (c :: b)). rewrite firstn_all.
  reflexivity.
Qed.

Lemma match_scan (name : string) :
  captures <$> re_match suffix_pattern name
  = (fun pd => (Some (fst pd), Some (snd pd))) <$> scan [] (list_ascii_of_string name).
Proof.
  unfold re_match, suffix_pattern.
  cbn [run before flat_map]. rewrite app_nil_r.
  cbn [rest]. rewrite lazy_any by lia.
  apply (head_scan (MState [] (list_ascii_of_string name) ∅)). reflexivity.
Qed.

Lemma get_base_name_scan (name : string) :
  get_base_name name =
    match scan [] (list_ascii_of_string name) with
    | Some (p, d) =>
        if (1 <=? py_int (string_of_list_ascii d))
           && (py_int (string_of_list_ascii d) <=? 999)
        then string_of_list_ascii p else name
    | None => name
    end.
Proof.
  unfold get_base_name. pose proof (match_scan name) as H.
  destruct (re_match suffix_pattern name) as [m|];
    destruct (scan [] (list_ascii_of_string name)) as [[p d]|];
    cbn in H; try discriminate; [|reflexivity].
  unfold captures in H. injection H as H1 H2.
  unfold group. rewrite H1, H2. reflexivity.
Qed.

Definition no_newline (q : list ascii) : bool :=
  forallb (fun c => negb (Ascii.eqb c newline)) q.

Lemma tail_digits_Some (l d : list ascii) :
  tail_digits l = Some d <->
  exists e, l = "."%char :: d ++ e /\ length d = 3%nat
            /\ forallb is_digit d = true /\ at_eol e = true.
Proof.
  split.
  - destruct l as [|c0 [|d1 [|d2 [|d3 e]]]]; cbn; try discriminate.
    destruct (Ascii.eqb "." c0) eqn:E0; cbn; [|discriminate].
    destruct (is_digit d1) eqn:E1; cbn; [|discriminate].
    destruct (is_digit d2) eqn:E2; cbn; [|discriminate].
    destruct (is_digit d3) eqn:E3; cbn; [|discriminate].
    destruct (at_eol e) eqn:E4; cbn; [|discriminate].
    intros [= <-]. apply Ascii.eqb_eq in E0. subst c0.
    exists e. cbn. rewrite E1, E2, E3. auto.
  - intros (e & -> & Hlen & Hd & He).
    destruct d as [|d1 [|d2 [|d3 [|? ?]]]]; try discriminate Hlen.
    cbn in Hd. apply andb_prop in Hd as [H1 Hd].
    apply andb_prop in Hd as [H2 Hd]. apply andb_prop in Hd as [H3 _].
    cbn. rewrite H1, H2, H3, He. reflexivity.
Qed.

Lemma scan_sound (b r p d : list ascii) :
  scan b r = Some (p, d) ->
  exists q e, q <> [] /\ p = rev b ++ q /\ r = q ++ "."%char :: d ++ e
              /\ no_newline q = true /\ length d = 3%nat
              /\ forallb is_digit d = true /\ at_eol e = true.
Proof.
  revert b. induction r as [|c t IH]; intros b; cbn; [discriminate|].
  destruct (negb (Ascii.eqb c newline)) eqn:Ec; [|discriminate].
  destruct (tail_digits t) as [d'|] eqn:Et.
  - intros [= <- <-]. apply tail_digits_Some in Et as (e & -> & Hl & Hd & He).
    exists [c], e. unfold no_newline. cbn. rewrite Ec.
    repeat split; auto; discriminate.
  - intros H. apply IH in H as (q & e & Hq & -> & -> & Hn & Hl & Hd & He).
    exists (c :: q), e. unfold no_newline in *. cbn [forallb].
    rewrite Ec, Hn. cbn [rev]. rewrite <- app_assoc.
    repeat split; auto; discriminate.
Qed.

Lemma is_digit_dot : is_digit "."%char = false.
Proof. reflexivity. Qed.

(** A longer prefix cannot be cut earlier: the tail does not match when
    something still stands between the cut and the dot. *)
Lemma tail_digits_too_early (c : ascii) (q d e : list ascii) :
  length d = 3%nat ->
  tail_digits ((c :: q) ++ "."%char :: d ++ e) = None.
Proof.
  intros Hl.
  destruct d as [|d1 [|d2 [|d3 [|? ?]]]]; try discriminate Hl.
  destruct q as [|x [|y [|z q]]]; cbn.
  - rewrite is_digit_dot, andb_false_r. reflexivity.
  - rewrite is_digit_dot, !andb_false_r. reflexivity.
  - rewrite is_digit_dot, !andb_false_r. reflexivity.
  - replace (at_eol (q ++ "."%char :: d1 :: d2 :: d3 :: e)) with false.
    + rewrite andb_false_r. reflexivity.
    + destruct q as [|? [|? ?]]; reflexivity.
Qed.

Lemma scan_complete (b q d e : list ascii) :
  q <> [] -> no_newline q = true -> length d = 3%nat ->
  forallb is_digit d = true -> at_eol e = true ->
  scan b (q ++ "."%char :: d ++ e) = Some (rev b ++ q, d).
Proof.
  intros Hq Hn Hl Hd He. revert b Hq Hn.
  induction q as [|c q IH]; intros b Hq Hn; [congruence|].
  cbn in Hn. apply andb_prop in Hn as [Hc Hn].
  cbn [app scan]. rewrite Hc.
  destruct q as [|c' q'].
  - cbn [app].
    assert (Ht : tail_digits ("."%char :: d ++ e) = Some d)
      by (apply tail_digits_Some; eauto).
    rewrite Ht. reflexivity.
  - rewrite tail_digits_too_early by assumption.
    rewrite IH by (auto; discriminate).
    cbn [rev]. rewrite <- app_assoc. reflexivity.
Qed.

Lemma list_ascii_app (a b : string) :
  list_ascii_of_string (a ++ b)%string
  = list_ascii_of_string a ++ list_ascii_of_string b.
Proof.
  induction a as [|c a IH]; [reflexivity|].
  change (list_ascii_of_string (String c a ++ b)%string)
    with (c :: list_ascii_of_string (a ++ b)%string).
  now rewrite IH.
Qed.

Lemma list_ascii_length (a : string) :
  length (list_ascii_of_string a) = String.length a.
Proof. induction a as [|c a IH]; cbn; [reflexivity|]. now rewrite IH. Qed.

(** Vocabulary of the statements. *)
Definition newline_free (p : string) : Prop :=
  no_newline (list_ascii_of_string p) = true.

Definition three_digits (d : string) : Prop :=
  String.length d = 3%nat /\ forallb is_digit (list_ascii_of_string d) = true.

Definition optional_final_newline (e : string) : Prop :=
  e = "" \/ e = String newline "".

(** The reading of the specification: a name carries a duplicate suffix
    when it is some prefix followed by a dot and exactly three digits
    whose value lies in 1..999. *)
Definition ends_in_numbered_suffix (name prefix : string) : Prop :=
  exists d, name = (prefix ++ "." ++ d)%string /\ three_digits d
            /\ 1 <= py_int d <= 999.

Lemma at_eol_ending (e : string) :
  optional_final_newline e <-> at_eol (list_ascii_of_string e) = true.
Proof.
  unfold optional_final_newline. split.
  - intros [-> | ->]; reflexivity.
  - destruct e as [|c [|c' e]]; cbn; auto; [|discriminate].
    intros H. apply Ascii.eqb_eq in H. subst. auto.
Qed.

Lemma scan_name (p d e : string) :
  p <> "" -> newline_free p -> three_digits d -> optional_final_newline e ->
  scan [] (list_ascii_of_string (p ++ "." ++ d ++ e)%string)
  = Some (list_ascii_of_string p, list_ascii_of_string d).
Proof.
  intros Hp Hn [Hl Hd] He.
  rewrite !list_ascii_app. cbn [list_ascii_of_string app].
  apply (scan_complete []); auto.
  - destruct p; [congruence | discriminate].
  - now rewrite list_ascii_length.
  - now apply at_eol_ending.
Qed.

(** C9, as the code has it: [get_base_name] strips the suffix exactly when
    the name is a non-empty prefix without newline, a dot and exactly three
    decimal digits of value 1..999, possibly followed by one final newline;
    it then returns the prefix.  Every other name comes back unchanged. *)
Theorem get_base_name_strips_numbered_suffix :
  (forall p d e : string,
      p <> "" -> newline_free p -> three_digits d ->
      optional_final_newline e -> 1 <= py_int d <= 999 ->
      get_base_name (p ++ "." ++ d ++ e)%string = p)
  /\
  (forall name : string,
      (forall p d e : string,
          name = (p ++ "." ++ d ++ e)%string ->
          p <> "" -> newline_free p -> three_digits d ->
          optional_final_newline e -> ~ (1 <= py_int d <= 999)) ->
      get_base_name name = name).
Proof.
  split.
  - intros p d e Hp Hn Hd He Hv.
    rewrite get_base_name_scan, scan_name by assumption.
    rewrite !string_of_list_ascii_of_string.
    destruct Hv as [H1 H2].
    apply Z.leb_le in H1, H2. now rewrite H1, H2.
  - intros name Hno. rewrite get_base_name_scan.
    destruct (scan [] (list_ascii_of_string name)) as [[p d]|] eqn:Es;
      [|reflexivity].
    apply scan_sound in Es
      as (q & e & Hq & -> & Hname & Hn & Hl & Hd & He).
    cbn [rev app] in *.
    destruct ((1 <=? py_int (string_of_list_ascii d))
              && (py_int (string_of_list_ascii d) <=? 999)) eqn:Hv;
      [|reflexivity].
    exfalso. apply andb_prop in Hv as [H1 H2].
    apply Z.leb_le in H1, H2.
    apply (Hno (string_of_list_ascii q) (string_of_list_ascii d)
               (string_of_list_ascii e)).
    + rewrite <- (string_of_list_ascii_of_string name), Hname.
      rewrite <- (list_ascii_of_string_of_list_ascii q) at 1.
      rewrite <- (list_ascii_of_string_of_list_ascii d) at 1.
      rewrite <- (list_ascii_of_string_of_list_ascii e) at 1.
      change ("."%char :: list_ascii_of_string (string_of_list_ascii d)
              ++ list_ascii_of_string (string_of_list_ascii e))
        with (list_ascii_of_string "." ++
              (list_ascii_of_string (string_of_list_ascii d)
               ++ list_ascii_of_string (string_of_list_ascii e))).
      rewrite <- !list_ascii_app.
      now rewrite string_of_list_ascii_of_string.
    + intros E. apply Hq.
      rewrite <- (list_ascii_of_string_of_list_ascii q), E. reflexivity.
    + unfold newline_free. now rewrite list_ascii_of_string_of_list_ascii.
    + split; [|now rewrite list_ascii_of_string_of_list_ascii].
      now rewrite <- list_ascii_length, list_ascii_of_string_of_list_ascii.
    + apply at_eol_ending. now rewrite list_ascii_of_string_of_list_ascii.
    + split; assumption.
Qed.

Lemma get_base_name_strips_numbered_suffix_witness :
  get_base_name "Material.001" = "Material"
  /\ get_base_name "Material.000" = "Material.000".
Proof.
  split.
  - apply (proj1 get_base_name_strips_numbered_suffix "Material" "001" "").
    + discriminate.
    + reflexivity.
    + split; reflexivity.
    + left; reflexivity.
    + cbv; split; discriminate.
  - apply (proj2 get_base_name_strips_numbered_suffix "Material.000").
    intros p d e Hname Hp Hn [Hl Hd] He.
    assert (Hs : scan [] (list_ascii_of_string "Material.000")
                 = Some (list_ascii_of_string p, list_ascii_of_string d)).
    { rewrite Hname. apply scan_name; auto. split; auto. }
    change (scan [] (list_ascii_of_string "Material.000"))
      with (Some (list_ascii_of_string "Material", list_ascii_of_string "000"))
      in Hs.
    injection Hs as _ Hd'.
    rewrite <- (string_of_list_ascii_of_string d), <- Hd'.
    cbv. intros [H _]. apply H. reflexivity.
Defined.

(** The claim as worded fails on a name that is nothing but a suffix:
    it ends in a dot and three digits of value 1, and is left alone. *)
Lemma get_base_name_bare_suffix_kept :
  ends_in_numbered_suffix ".001" "" /\ get_base_name ".001" <> "".
Proof.
  split.
  - exists "001". repeat split; try reflexivity; cbv; discriminate.
  - cbv. discriminate.
Qed.

Example base_name_001 : get_base_name "Material.001" = "Material".
Proof. reflexivity. Qed.
Example base_name_000 : get_base_name "Material.000" = "Material.000".
Proof. reflexivity. Qed.
Example base_name_4_digits : get_base_name "Material.0001" = "Material.0001".
Proof. reflexivity. Qed.
Example base_name_2_digits : get_base_name "Material.01" = "Material.01".
Proof. reflexivity. Qed.
Example base_name_inner_dot : get_base_name "Mat.1.002" = "Mat.1".
Proof. reflexivity. Qed.
Example base_name_twice : get_base_name "Mat.001.002" = "Mat.001".
Proof. reflexivity. Qed.
Example base_name_plain : get_base_name "Material" = "Material".
Proof. reflexivity. Qed.
Example base_name_final_newline :
  get_base_name (String.append "Mat.007" (String newline "")) = "Mat".
Proof. reflexivity. Qed.
Example base_name_inner_newline :
  get_base_name (String.append (String newline "Mat") ".007")
  = String.append (String newline "Mat") ".007".
Proof. reflexivity. Qed.
End NamingFacts.

(* ===================================================================== *)
(** * Facts about ModuleManager                                           *)
(* ===================================================================== *)

Module ModuleHelperFacts.
Import Py Py.Notations ModuleHelper.

(** The module object once its missing state attributes have received
    their defaults. *)
Definition with_defaults (m : module_obj) : module_obj :=
  ModuleObj (mod_name m)
    (Some (default false (_is_registered m)))
    (Some (default true (module_enabled m))).

(** [m._is_registered] is true. *)
Definition registered (m : module_obj) : Prop := _is_registered m = Some true.

(** [m.module_enabled] is not false: true or still missing. *)
Definition enabled (m : module_obj) : Prop := module_enabled m <> Some false.

Ltac run_module :=
  unfold register_module, unregister_module, ensure_module_state, getattr,
    bind, ret, raise, get_host, set_host, modify_host, print,
    set_is_registered, set_module_enabled, with_defaults,
    registered, enabled in *;
  cbn in *.

Lemma with_defaults_complete (m : module_obj) :
  _is_registered m <> None -> module_enabled m <> None -> with_defaults m = m.
Proof.
  destruct m as [n [r|] [e|]]; cbn; intros H1 H2; congruence || reflexivity.
Qed.

(** C5, as the code has it.  With the default flags:
    - the first [register_module] of an enabled module (not registered
      yet, whether the attribute is [False] or missing) returns [True] and
      leaves [_is_registered] true;
    - a call on a registered module returns [False] and leaves it
      registered, so a second call after a successful one changes nothing;
    - a module whose [module_enabled] is false is refused: [False], and
      [_is_registered] stays false;
    - [unregister_module] on a module whose [_is_registered] is false
      returns [False] and leaves the attributes as they are, a missing
      [module_enabled] receiving its default. *)
Theorem registration_bookkeeping_idempotent :
  (forall (m : module_obj) (c : list string),
      enabled m -> ~ registered m ->
      register_module true (World m c)
      = (Ret true, World (set_is_registered true (with_defaults m)) c))
  /\ (forall (m : module_obj) (c : list string),
      registered m ->
      register_module true (World m c) = (Ret false, World (with_defaults m) c)
      /\ registered (with_defaults m))
  /\ (forall (m : module_obj) (c : list string),
      enabled m -> ~ registered m ->
      forall w1, snd (register_module true (World m c)) = w1 ->
      register_module true w1 = (Ret false, w1))
  /\ (forall (m : module_obj) (c : list string),
      module_enabled m = Some false -> ~ registered m ->
      register_module true (World m c) = (Ret false, World (with_defaults m) c)
      /\ ~ registered (with_defaults m))
  /\ (forall (m : module_obj) (c : list string),
      _is_registered m = Some false ->
      unregister_module true (World m c)
      = (Ret false,
         World (with_defaults m)
               (c ++ [mod_name m +:+ ": Not registered, skipping unregistration"]))
      /\ _is_registered (with_defaults m) = Some false
      /\ (module_enabled m <> None -> with_defaults m = m)).
Proof.
  split; [|split; [|split; [|split]]].
  - intros [n [[|]|] [[|]|]] c He Hr; run_module; congruence.
  - intros [n [[|]|] [[|]|]] c Hr; run_module; split; congruence.
  - intros [n [[|]|] [[|]|]] c He Hr w1 <-; run_module; congruence.
  - intros [n [[|]|] [[|]|]] c He Hr; run_module; split; congruence.
  - intros [n [[|]|] [[|]|]] c Hr; run_module;
      (split; [|split]); congruence.
Qed.

(** A module that still lacks [_is_registered], as [CleanUp] does when it
    is loaded. *)
Definition fresh_module : module_obj := ModuleObj "CleanUp" None (Some true).

Lemma registration_bookkeeping_idempotent_witness :
  register_module true (World fresh_module [])
  = (Ret true, World (ModuleObj "CleanUp" (Some true) (Some true)) [])
  /\ register_module true (World (ModuleObj "CleanUp" (Some true) (Some true)) [])
     = (Ret false, World (ModuleObj "CleanUp" (Some true) (Some true)) [])
  /\ unregister_module true (World (ModuleObj "CleanUp" (Some false) (Some true)) [])
     = (Ret false,
        World (ModuleObj "CleanUp" (Some false) (Some true))
              ["CleanUp: Not registered, skipping unregistration"]).
Proof.
  destruct registration_bookkeeping_idempotent as (H1 & H2 & _ & _ & H5).
  split; [|split].
  - apply (H1 fresh_module []); [discriminate | discriminate].
  - apply (H2 (ModuleObj "CleanUp" (Some true) (Some true)) []). reflexivity.
  - apply (H5 (ModuleObj "CleanUp" (Some false) (Some true)) []). reflexivity.
Defined.

(** The claim as worded fails on a module disabled in the preferences:
    its first registration returns [False] and does not register it. *)
Lemma register_module_refuses_disabled :
  register_module true (World (ModuleObj "CleanUp" None (Some false)) [])
  = (Ret false, World (ModuleObj "CleanUp" (Some false) (Some false)) []).
Proof. reflexivity. Qed.

(** ** Safe wrappers *)

Section Wrappers.
Context {H : Type}.

Lemma safe_register_class_failure (reg : py_class -> py H unit)
    (cls : py_class) (report_errors : bool) (w w' : world H) (e : exn) :
  reg cls w = (Exc e, w') -> isinstance e Exception = true ->
  safe_register_class reg cls report_errors w
  = (Ret false,
     World (host_state w')
       (console w' ++
        if report_errors
        then ["Error registering " +:+ cls_name cls +:+ ": " +:+ exc_str e]
        else [])).
Proof.
  intros Hr Hi. unfold safe_register_class, try_except, bind, caught_by.
  rewrite Hr. cbn. rewrite Hi. cbn.
  destruct report_errors; cbn; [reflexivity|].
  rewrite app_nil_r. now destruct w'.
Qed.

Lemma safe_unregister_class_failure (unreg : py_class -> py H unit)
    (cls : py_class) (report_errors : bool) (w w' : world H) (e : exn) :
  unreg cls w = (Exc e, w') -> isinstance e Exception = true ->
  safe_unregister_class unreg cls report_errors w
  = (Ret false,
     World (host_state w')
       (console w' ++
        if report_errors
        then ["Error unregistering " +:+ cls_name cls +:+ ": " +:+ exc_str e]
        else [])).
Proof.
  intros Hr Hi. unfold safe_unregister_class, try_except, bind, caught_by.
  rewrite Hr. cbn. rewrite Hi. cbn.
  destruct report_errors; cbn; [reflexivity|].
  rewrite app_nil_r. now destruct w'.
Qed.

Lemma safe_file_operation_failure {A : Type} (format_exc : exn -> string)
    (operation : py H A) (w w' : world H) (e : exn) :
  operation w = (Exc e, w') -> isinstance e Exception = true ->
  safe_file_operation format_exc operation w
  = (Ret None,
     World (host_state w')
       (console w' ++ ["File operation error: " +:+ exc_str e; format_exc e])).
Proof.
  intros Hr Hi. unfold safe_file_operation, try_except, bind, caught_by, print.
  rewrite Hr. cbn. rewrite Hi. cbn. now rewrite <- app_assoc.
Qed.
End Wrappers.
End ModuleHelperFacts.

(* ===================================================================== *)
(** * Facts about the asset cache                                         *)
(* ===================================================================== *)

Module AssetCacheFacts.
Import Py Py.Notations Json AssetCache.

Lemma tmp_name_differs (p : string) : p +:+ ".tmp" <> p.
Proof.
  intros E. apply (f_equal list_ascii_of_string) in E.
  rewrite NamingFacts.list_ascii_app in E.
  apply (f_equal (@length _)) in E. rewrite length_app in E.
  cbn in E. lia.
Qed.

(** The content of the file at [path], if there is one. *)
Definition content_at (path : string) (w : world host) : option file_content :=
  files (fsys (host_state w)) !! path.

Ltac run_py :=
  unfold safe_save_json, safe_load_json, open_and_dump, open_and_load,
    os_replace, os_rename, os_makedirs, os_path_exists, modify_fs, fault,
    try_except, bind, ret, raise, get_host, set_host, modify_host, print,
    caught_by, write_file, content_at in *;
  cbn [host_state console fsys files dirs ticks library_assets locals existsb
       fst snd orb] in *.

Lemma save_outcomes (E : environment) (filepath : string) (data : json)
    (w : world host) :
  match safe_save_json E filepath data w with
  | (Ret true, w') =>
      content_at filepath w' = Some (Document data) /\ console w' = console w
  | (Ret false, w') =>
      content_at filepath w' = content_at filepath w
      /\ exists e, console w' =
           console w ++ ["Error saving JSON to " +:+ filepath +:+ ": " +:+ exc_str e]
  | (Exc e, w') =>
      content_at filepath w' = content_at filepath w
      /\ isinstance e Exception = false
  end.
Proof.
  pose proof (tmp_name_differs filepath) as Hne.
  destruct w as [h c]. run_py.
  repeat (case_match; simplify_eq; run_py);
    rewrite ?lookup_insert_eq, ?lookup_insert_ne in * by congruence;
    simplify_eq; eauto;
    rewrite ?orb_false_r in *; eauto.
Qed.

(** Every exception the environment raises derives from [Exception]
    (no [KeyboardInterrupt], no [SystemExit]). *)
Definition raises_only_exceptions (E : environment) : Prop :=
  (forall p e, makedirs_fault E p = Some e -> isinstance e Exception = true)
  /\ (forall p e, open_fault E p = Some e -> isinstance e Exception = true)
  /\ (forall p n e, write_fault E p = Some (n, e) -> isinstance e Exception = true)
  /\ (forall p e, read_fault E p = Some e -> isinstance e Exception = true)
  /\ (forall a b e, rename_fault E a b = Some e -> isinstance e Exception = true)
  /\ (forall e, bpy_utils_user_resource E = Exc e -> isinstance e Exception = true)
  /\ (forall a b e, os_path_relpath E a b = Exc e -> isinstance e Exception = true)
  /\ (forall p e, libraries_load E p = Exc e -> isinstance e Exception = true)
  /\ (forall p e, libraries_load_exit E p = Some e -> isinstance e Exception = true).

Definition path_exists (path : string) (w : world host) : Prop :=
  is_Some (content_at path w) \/ path ∈ dirs (fsys (host_state w)).

(** One of the steps of [safe_save_json] fails: creating the directory
    (when it has to be created), writing the temporary file, or the
    final rename. *)
Definition save_step_fails (E : environment) (filepath : string)
    (w : world host) : Prop :=
  let directory := os_path_dirname E filepath in
  let temp_file := filepath +:+ ".tmp" in
  (directory <> "" /\ ~ path_exists directory w
   /\ is_Some (makedirs_fault E directory))
  \/ is_Some (open_fault E temp_file)
  \/ is_Some (write_fault E temp_file)
  \/ is_Some (rename_fault E temp_file filepath).

Lemma save_never_raises (E : environment) (filepath : string) (data : json)
    (w : world host) :
  (forall p e, makedirs_fault E p = Some e -> isinstance e Exception = true)
  /\ (forall p e, open_fault E p = Some e -> isinstance e Exception = true)
  /\ (forall p n e, write_fault E p = Some (n, e) -> isinstance e Exception = true)
  /\ (forall a b e, rename_fault E a b = Some e -> isinstance e Exception = true) ->
  forall e w', isinstance e Exception = false ->
               safe_save_json E filepath data w <> (Exc e, w').
Proof.
  intros (Hmk & Hop & Hwr & Hrn) e w' Hi Heq.
  destruct w as [h c]. run_py.
  repeat (case_match; simplify_eq; run_py);
    rewrite ?orb_false_r in *;
    repeat match goal with
      | H : makedirs_fault _ _ = Some _ |- _ => apply Hmk in H
      | H : open_fault _ _ = Some _ |- _ => apply Hop in H
      | H : write_fault _ _ = Some _ |- _ => apply Hwr in H
      | H : rename_fault _ _ _ = Some _ |- _ => apply Hrn in H
      end;
    try congruence; try discriminate.
Qed.

(** The steps before the writing of the temporary file go through:
    the directory needs no creating, or its creation does not fail. *)
Definition directory_ready (E : environment) (filepath : string)
    (w : world host) : Prop :=
  let directory := os_path_dirname E filepath in
  directory = "" \/ path_exists directory w \/ makedirs_fault E directory = None.

Ltac save_cases :=
  repeat (case_match; simplify_eq; run_py);
  rewrite ?orb_false_r in *;
  repeat match goal with
    | H : negb _ = true |- _ => apply negb_true_iff in H
    | H : negb _ = false |- _ => apply negb_false_iff in H
    | H : (_ =? _)%string = true |- _ => apply String.eqb_eq in H
    | H : (_ =? _)%string = false |- _ => apply String.eqb_neq in H
    | H : _ || _ = false |- _ => apply orb_false_iff in H as [? ?]
    | H : bool_decide _ = false |- _ => apply bool_decide_eq_false in H
    end.

(** When no step fails the call returns [True]. *)
Lemma save_succeeds (E : environment) (filepath : string) (data : json)
    (w w' : world host) :
  safe_save_json E filepath data w = (Ret false, w') ->
  save_step_fails E filepath w.
Proof.
  unfold save_step_fails, path_exists. destruct w as [h c]. run_py.
  intros Heq. save_cases;
    try (right; left; eauto; fail);
    try (right; right; left; eauto; fail);
    try (right; right; right; eauto; fail);
    try (left; split; [assumption|]; split; [tauto | eauto]; fail);
    try (match goal with
         | H : _ !! _ = None |- _ => rewrite lookup_insert_eq in H; discriminate
         end).
Qed.

(** What the call leaves at the temporary path, and that it touches
    no other file than the target and the temporary one. *)
Lemma save_temporary (E : environment) (filepath : string) (data : json)
    (w w' : world host) (r : outcome bool) :
  safe_save_json E filepath data w = (r, w') ->
  (forall p, p <> filepath -> p <> filepath +:+ ".tmp" ->
             content_at p w' = content_at p w)
  /\ (r = Ret true -> content_at (filepath +:+ ".tmp") w' = None)
  /\ (directory_ready E filepath w ->
      open_fault E (filepath +:+ ".tmp") = None ->
      forall n e, write_fault E (filepath +:+ ".tmp") = Some (n, e) ->
                  content_at (filepath +:+ ".tmp") w' = Some (Partial data n))
  /\ (directory_ready E filepath w ->
      open_fault E (filepath +:+ ".tmp") = None ->
      write_fault E (filepath +:+ ".tmp") = None ->
      is_Some (rename_fault E (filepath +:+ ".tmp") filepath) ->
      content_at (filepath +:+ ".tmp") w' = Some (Document data)).
Proof.
  pose proof (tmp_name_differs filepath) as Hne.
  unfold directory_ready, path_exists. destruct w as [h c]. run_py.
  intros Heq. split; [|split; [|split]].
  - intros p Hp Hq. save_cases;
      rewrite ?lookup_insert_ne, ?lookup_delete_ne, ?lookup_insert_ne
        by congruence; reflexivity.
  - intros ->. save_cases;
      rewrite lookup_insert_ne, lookup_delete_eq by congruence; reflexivity.
  - intros Hdir Hop n e Hwr. rewrite Hop, Hwr in Heq. save_cases;
      rewrite ?lookup_insert_eq; try reflexivity;
      destruct Hdir as [Hdir | [[Hdir | Hdir] | Hdir]];
      try congruence; try tauto.
  - intros Hdir Hop Hwr [e Hrn]. rewrite Hop, Hwr, Hrn in Heq. save_cases;
      rewrite ?lookup_insert_eq; try reflexivity;
      destruct Hdir as [Hdir | [[Hdir | Hdir] | Hdir]];
      try congruence; try tauto.
Qed.

(** C10: [safe_save_json] writes the document to the sibling
    [<filepath>.tmp] and only then renames it over the target, and it
    touches no other file.  It returns [False] exactly when a step fails
    (creating the directory, writing the temporary file, or the rename),
    and then the target keeps the content it had; it returns [True]
    otherwise, and then the target holds the whole document and the
    temporary file is gone.  When the writing stops after some chunks,
    the partly written document is in the temporary file; when only the
    rename fails, the whole document is.  The target never holds a
    partly written document. *)
Theorem safe_save_json_atomic (E : environment) (filepath : string)
    (data : json) (w : world host) :
  raises_only_exceptions E ->
  exists (b : bool) (w' : world host),
    safe_save_json E filepath data w = (Ret b, w')
    /\ (b = true ->
        content_at filepath w' = Some (Document data)
        /\ content_at (filepath +:+ ".tmp") w' = None)
    /\ (b = false -> content_at filepath w' = content_at filepath w)
    /\ (save_step_fails E filepath w <-> b = false)
    /\ (content_at filepath w' = Some (Document data)
        \/ content_at filepath w' = content_at filepath w)
    /\ (directory_ready E filepath w ->
        open_fault E (filepath +:+ ".tmp") = None ->
        forall n e, write_fault E (filepath +:+ ".tmp") = Some (n, e) ->
                    content_at (filepath +:+ ".tmp") w' = Some (Partial data n))
    /\ (directory_ready E filepath w ->
        open_fault E (filepath +:+ ".tmp") = None ->
        write_fault E (filepath +:+ ".tmp") = None ->
        is_Some (rename_fault E (filepath +:+ ".tmp") filepath) ->
        content_at (filepath +:+ ".tmp") w' = Some (Document data))
    /\ (forall p, p <> filepath -> p <> filepath +:+ ".tmp" ->
                  content_at p w' = content_at p w).
Proof.
  intros (Hmk & Hop & Hwr & _ & Hrn & _).
  pose proof (save_outcomes E filepath data w) as Hout.
  pose proof (tmp_name_differs filepath) as Hne.
  assert (Hfail : save_step_fails E filepath w ->
                  forall w', safe_save_json E filepath data w <> (Ret true, w')).
  { unfold save_step_fails, path_exists. destruct w as [h c]. run_py.
    intros Hf w' Heq. save_cases;
      destruct Hf as [(? & Hn & Hs) | [Hs | [Hs | Hs]]];
      try (destruct Hs as [? Hs]; congruence);
      try congruence.
    all: apply Hn;
      match goal with
      | H : bool_decide _ || bool_decide (os_path_dirname _ _ ∈ _) = true |- _ =>
          apply orb_true_iff in H as [H|H]; apply bool_decide_eq_true in H; tauto
      end. }
  destruct (safe_save_json E filepath data w) as [[[|] | e] w'] eqn:Hsave.
  - exists true, w'. destruct Hout as [Hc _].
    destruct (save_temporary E filepath data w w' _ Hsave)
      as (Hframe & Htmp & Hpart & Hwhole).
    split; [reflexivity|]. split; [auto|]. split; [discriminate|].
    split; [|auto].
    split; [|discriminate].
    intros Hf. exfalso. exact (Hfail Hf w' eq_refl).
  - exists false, w'. destruct Hout as [Hc _].
    destruct (save_temporary E filepath data w w' _ Hsave)
      as (Hframe & Htmp & Hpart & Hwhole).
    split; [reflexivity|]. split; [discriminate|]. split; [auto|].
    split; [|auto].
    split; [reflexivity|]. intros _. exact (save_succeeds E filepath data w w' Hsave).
  - exfalso. destruct Hout as [_ Hi].
    exact (save_never_raises E filepath data w
             (conj Hmk (conj Hop (conj Hwr Hrn))) e w' Hi Hsave).
Qed.

(** An environment in which nothing fails, and a world with an empty
    configuration directory. *)
Definition quiet_env : environment :=
  Env (fun _ => "config") (fun a b => a +:+ "/" +:+ b) (fun a _ => Ret a)
      (fun _ => []) "/tmp" (Ret "config") (fun _ => 0%float)
      (fun _ => None) (fun _ => None) (fun _ => None) (fun _ => None)
      (fun _ _ => None) (fun _ => "Expecting value")
      (fun _ => Ret []) (fun _ => None).

Definition empty_world : world host :=
  World (Host (Fs ∅ {["config"]}) 0 [] (ScanLocals [] 0 ∅)) [].

Lemma quiet_env_raises_only_exceptions : raises_only_exceptions quiet_env.
Proof. repeat split; cbn; intros; discriminate. Qed.

Lemma safe_save_json_atomic_witness :
  exists w' : world host,
    safe_save_json quiet_env "config/assets_cache.json" (JDict []) empty_world
    = (Ret true, w')
    /\ content_at "config/assets_cache.json" w' = Some (Document (JDict []))
    /\ content_at "config/assets_cache.json.tmp" w' = None.
Proof.
  destruct (safe_save_json_atomic quiet_env "config/assets_cache.json" (JDict [])
              empty_world quiet_env_raises_only_exceptions)
    as (b & w' & Hrun & Htrue & _ & Hfails & _).
  destruct b.
  - exists w'. split; [exact Hrun | exact (Htrue eq_refl)].
  - exfalso. destruct (proj2 Hfails eq_refl) as [(_ & _ & [e He]) | [[e He] | [[e He] | [e He]]]];
      discriminate He.
Defined.

(** ** [safe_load_json] *)

(** What [safe_load_json] falls back to for a default that is [None] or
    truthy. *)
Definition fallback (default : json) : json :=
  match default with JNull => JDict [] | _ => default end.

Lemma py_or_fallback (default : json) :
  default = JNull \/ truthy default = true ->
  py_or default (JDict []) = fallback default.
Proof.
  unfold py_or. intros [-> | Ht]; [reflexivity|].
  rewrite Ht. destruct default; try reflexivity. discriminate.
Qed.

Lemma safe_load_json_failure (E : environment) (filepath : string)
    (default : json) (w w' : world host) (e : exn) :
  default = JNull \/ truthy default = true ->
  path_exists filepath w ->
  open_and_load E filepath w = (Exc e, w') ->
  isinstance e Exception = true ->
  safe_load_json E filepath default w
  = (Ret (fallback default),
     World (host_state w')
       (console w' ++
        ["Error loading JSON from " +:+ filepath +:+ ": " +:+ exc_str e])).
Proof.
  intros Hd Hex Hload Hi.
  unfold safe_load_json, bind, os_path_exists, get_host, ret, try_except,
    caught_by, print.
  assert (Hb : bool_decide (is_Some (files (fsys (host_state w)) !! filepath))
               || bool_decide (filepath ∈ dirs (fsys (host_state w))) = true).
  { apply orb_true_iff. destruct Hex as [Hex | Hex];
      [left | right]; now apply bool_decide_eq_true. }
  cbn. rewrite Hb. cbn. rewrite Hload. cbn. rewrite Hi. cbn.
  now rewrite py_or_fallback.
Qed.

Lemma safe_load_json_missing (E : environment) (filepath : string)
    (default : json) (w : world host) :
  default = JNull \/ truthy default = true ->
  ~ path_exists filepath w ->
  safe_load_json E filepath default w = (Ret (fallback default), w).
Proof.
  intros Hd Hex.
  unfold safe_load_json, bind, os_path_exists, get_host, ret.
  assert (Hb : bool_decide (is_Some (files (fsys (host_state w)) !! filepath))
               || bool_decide (filepath ∈ dirs (fsys (host_state w))) = false).
  { apply orb_false_iff. split; apply bool_decide_eq_false; intros Hc;
      apply Hex; [left | right]; exact Hc. }
  cbn. rewrite Hb. cbn. now rewrite py_or_fallback.
Qed.

(** C7, as the code has it.  An [Exception] raised by the wrapped
    operation never comes out of a safe wrapper:
    - [safe_register_class] and [safe_unregister_class] return [False],
      having printed the error when [report_errors] is true;
    - [safe_file_operation] returns [None], having printed the error and
      the traceback;
    - [safe_load_json] returns its default when that is truthy and an
      empty dict when it is [None], having printed the error; for a path
      that does not exist it returns the same value and prints nothing. *)
Theorem safe_wrappers_never_propagate :
  (forall (H : Type) (reg : ModuleHelper.py_class -> py H unit)
          (cls : ModuleHelper.py_class) (report_errors : bool)
          (w w' : world H) (e : exn),
      reg cls w = (Exc e, w') -> isinstance e Exception = true ->
      ModuleHelper.safe_register_class reg cls report_errors w
      = (Ret false,
         World (host_state w')
           (console w' ++
            if report_errors
            then ["Error registering " +:+ ModuleHelper.cls_name cls +:+ ": "
                  +:+ exc_str e]
            else [])))
  /\ (forall (H : Type) (unreg : ModuleHelper.py_class -> py H unit)
          (cls : ModuleHelper.py_class) (report_errors : bool)
          (w w' : world H) (e : exn),
      unreg cls w = (Exc e, w') -> isinstance e Exception = true ->
      ModuleHelper.safe_unregister_class unreg cls report_errors w
      = (Ret false,
         World (host_state w')
           (console w' ++
            if report_errors
            then ["Error unregistering " +:+ ModuleHelper.cls_name cls +:+ ": "
                  +:+ exc_str e]
            else [])))
  /\ (forall (H A : Type) (format_exc : exn -> string) (operation : py H A)
          (w w' : world H) (e : exn),
      operation w = (Exc e, w') -> isinstance e Exception = true ->
      ModuleHelper.safe_file_operation format_exc operation w
      = (Ret None,
         World (host_state w')
           (console w' ++ ["File operation error: " +:+ exc_str e; format_exc e])))
  /\ (forall (E : environment) (filepath : string) (default : json)
          (w w' : world host) (e : exn),
      default = JNull \/ truthy default = true ->
      path_exists filepath w ->
      open_and_load E filepath w = (Exc e, w') ->
      isinstance e Exception = true ->
      safe_load_json E filepath default w
      = (Ret (fallback default),
         World (host_state w')
           (console w' ++
            ["Error loading JSON from " +:+ filepath +:+ ": " +:+ exc_str e])))
  /\ (forall (E : environment) (filepath : string) (default : json)
          (w : world host),
      default = JNull \/ truthy default = true ->
      ~ path_exists filepath w ->
      safe_load_json E filepath default w = (Ret (fallback default), w)).
Proof.
  split; [|split; [|split; [|split]]].
  - intros H. apply ModuleHelperFacts.safe_register_class_failure.
  - intros H. apply ModuleHelperFacts.safe_unregister_class_failure.
  - intros H A. apply ModuleHelperFacts.safe_file_operation_failure.
  - apply safe_load_json_failure.
  - apply safe_load_json_missing.
Qed.

(** A registry that rejects every class, and a cache file that is not
    JSON. *)
Definition rejecting_registry (cls : ModuleHelper.py_class) : py unit unit :=
  raise (Exn RuntimeError "register_class(...): already registered as a subclass").

Definition broken_cache_world : world host :=
  World (Host (Fs {["config/assets_cache.json" := Opaque "{"]} {["config"]})
              0 [] (ScanLocals [] 0 ∅)) [].

Lemma safe_wrappers_never_propagate_witness :
  ModuleHelper.safe_register_class rejecting_registry
    (ModuleHelper.PyClass "CLEANUP_OT_clean_images") true (World tt [])
  = (Ret false,
     World tt ["Error registering CLEANUP_OT_clean_images: register_class(...): already registered as a subclass"])
  /\ safe_load_json quiet_env "config/assets_cache.json" JNull broken_cache_world
     = (Ret (JDict []),
        World (host_state broken_cache_world)
          ["Error loading JSON from config/assets_cache.json: Expecting value"]).
Proof.
  destruct safe_wrappers_never_propagate as (H1 & _ & _ & H4 & _).
  split.
  - apply (H1 unit rejecting_registry
              (ModuleHelper.PyClass "CLEANUP_OT_clean_images") true
              (World tt []) (World tt [])
              (Exn RuntimeError "register_class(...): already registered as a subclass"));
      reflexivity.
  - apply (H4 quiet_env "config/assets_cache.json" JNull broken_cache_world
              broken_cache_world (Exn JSONDecodeError "Expecting value")).
    + left; reflexivity.
    + left. unfold content_at. cbn. rewrite lookup_singleton_eq. eauto.
    + unfold open_and_load, bind, fault, get_host, ret, raise. cbn.
      rewrite lookup_singleton_eq. reflexivity.
    + reflexivity.
Defined.

(** The claim as worded fails when the caller turns reporting off: the
    failure is swallowed and [False] comes back, but nothing is printed. *)
Lemma safe_register_class_silent :
  ModuleHelper.safe_register_class rejecting_registry
    (ModuleHelper.PyClass "CLEANUP_OT_clean_images") false (World tt [])
  = (Ret false, World tt []).
Proof. reflexivity. Qed.

(** A falsy default other than [None] is not what comes back either. *)
Example safe_load_json_empty_list_default :
  fst (safe_load_json quiet_env "config/assets_cache.json" (JList [])
         broken_cache_world) = Ret (JDict []).
Proof. vm_compute. reflexivity. Qed.
End AssetCacheFacts.

(* ===================================================================== *)
(** * Facts about the names of blend files                                *)
(* ===================================================================== *)

Module BlendNameFacts.
Import Py Json Regex AssetCache CacheOps.

Local Arguments Ascii.eqb : simpl never.
Local Arguments is_digit : simpl never.

(** ** What a match of the backup pattern consumes *)

Lemma step_char_rest (p : ascii -> bool) (st st' : mstate) :
  In st' (step_char p st) ->
  exists c, p c = true /\ rest st = c :: rest st'.
Proof.
  unfold step_char. destruct (rest st) as [|c t] eqn:E; [intros []|].
  destruct (p c) eqn:Hp; [|intros []].
  intros [<- | []]. cbn. eauto.
Qed.

Lemma greedy_digits_rest (fuel : nat) (st st' : mstate) :
  In st' (greedy_plus (fun st => step_char is_digit st) fuel st) ->
  exists c ds, is_digit c = true /\ Forall (fun d => is_digit d = true) ds
               /\ rest st = c :: ds ++ rest st'.
Proof.
  revert st. induction fuel as [|f IH]; intros st; cbn; [intros []|].
  intros H. apply in_flat_map in H as (st1 & H1 & H2).
  apply step_char_rest in H1 as (c & Hc & Hr).
  apply in_app_or in H2 as [H2 | [<- | []]].
  - apply IH in H2 as (c' & ds & Hc' & Hds & Hr').
    exists c, (c' :: ds). split; [assumption|]. split; [now constructor|].
    rewrite Hr, Hr'. reflexivity.
  - exists c, []. split; [assumption|]. split; [constructor | exact Hr].
Qed.

Lemma last_app_cons {A} (l : list A) (x : A) (m : list A) :
  last (l ++ x :: m) = last (x :: m).
Proof.
  induction l as [|y l IH]; [reflexivity|].
  cbn [app]. rewrite <- IH. destruct (l ++ x :: m) eqn:E; [|reflexivity].
  now destruct l.
Qed.

Lemma last_digits (c : ascii) (ds : list ascii) :
  is_digit c = true -> Forall (fun d => is_digit d = true) ds ->
  exists d, last (c :: ds) = Some d /\ is_digit d = true.
Proof.
  intros Hc Hds. revert c Hc. induction Hds as [|x ds Hx Hds IH]; intros c Hc.
  - exists c. auto.
  - destruct (IH x Hx) as (d & Hd & Hdd). exists d. split; [|assumption].
    rewrite <- Hd. reflexivity.
Qed.

(** Where the backup pattern matches, the text from there on ends in a
    digit, or in a digit and a newline. *)
Lemma last_digits_eol (pre : list ascii) (c : ascii) (ds tail : list ascii) :
  is_digit c = true -> Forall (fun d => is_digit d = true) ds ->
  at_eol tail = true ->
  exists d, is_digit d = true
            /\ (last (pre ++ c :: ds ++ tail) = Some d
                \/ exists l, pre ++ c :: ds ++ tail = l ++ [d; newline]).
Proof.
  intros Hc Hds Heol.
  destruct (last_digits c ds Hc Hds) as (d & Hd & Hdd).
  exists d. split; [assumption|].
  destruct (exists_last (l := c :: ds)) as (l' & d' & Hl'); [discriminate|].
  rewrite Hl', last_snoc in Hd. injection Hd as ->.
  change (c :: ds ++ tail) with ((c :: ds) ++ tail). rewrite Hl'.
  unfold at_eol in Heol. destruct tail as [|n [|? ?]]; try discriminate.
  - left. rewrite app_nil_r, app_assoc. apply last_snoc.
  - right. apply Ascii.eqb_eq in Heol. subst n. exists (pre ++ l').
    now rewrite <- !app_assoc.
Qed.

(** Where the backup pattern matches, the text from there on ends in a
    digit, or in a digit and a newline. *)
Lemma backup_match_ends (st m : mstate) :
  In m (run backup_pattern st) ->
  exists d, is_digit d = true
            /\ (last (rest st) = Some d
                \/ exists l, rest st = l ++ [d; newline]).
Proof.
  unfold backup_pattern. cbn [run]. intros H.
  apply in_flat_map in H as (s1 & H1 & H). apply step_char_rest in H1 as (c1 & _ & E1).
  apply in_flat_map in H as (s2 & H2 & H). apply step_char_rest in H2 as (c2 & _ & E2).
  apply in_flat_map in H as (s3 & H3 & H). apply step_char_rest in H3 as (c3 & _ & E3).
  apply in_flat_map in H as (s4 & H4 & H). apply step_char_rest in H4 as (c4 & _ & E4).
  apply in_flat_map in H as (s5 & H5 & H). apply step_char_rest in H5 as (c5 & _ & E5).
  apply in_flat_map in H as (s6 & H6 & H). apply step_char_rest in H6 as (c6 & _ & E6).
  apply in_flat_map in H as (s7 & H7 & H).
  apply greedy_digits_rest in H7 as (c & ds & Hc & Hds & E7).
  destruct (at_eol (rest s7)) eqn:Heol; [|destruct H].
  rewrite E1, E2, E3, E4, E5, E6, E7.
  exact (last_digits_eol [c1; c2; c3; c4; c5; c6] c ds (rest s7) Hc Hds Heol).
Qed.

(** A search for the backup pattern succeeds only in a text that ends in
    a digit, or in a digit and a newline. *)
Lemma search_backup_ends (b l : list ascii) (m : mstate) :
  search_from backup_pattern b l = Some m ->
  exists d, is_digit d = true
            /\ (last l = Some d \/ exists l', l = l' ++ [d; newline]).
Proof.
  revert b. induction l as [|c t IH]; intros b; cbn [search_from].
  - destruct (head (run backup_pattern (MState b [] ∅))) as [m'|] eqn:Hh;
      [|discriminate].
    intros _. apply head_Some_elem_of, list_elem_of_In in Hh.
    now apply backup_match_ends in Hh.
  - destruct (head (run backup_pattern (MState b (c :: t) ∅))) as [m'|] eqn:Hh.
    + intros _. apply head_Some_elem_of, list_elem_of_In in Hh.
      now apply backup_match_ends in Hh.
    + intros H. apply IH in H as (d & Hd & [Hl | (l' & Hl)]).
      * exists d. split; [assumption|]. left.
        destruct t; [discriminate | exact Hl].
      * exists d. split; [assumption|]. right. exists (c :: l'). now rewrite Hl.
Qed.

(** ** Lower case *)

Lemma char_lower_d (c : ascii) :
  char_lower c = "d"%char -> is_digit c = false /\ c <> newline.
Proof.
  destruct c as [[] [] [] [] [] [] [] []]; vm_compute; intros H;
    first [discriminate | split; [reflexivity | discriminate]].
Qed.

Lemma list_ascii_of_string_inv (l : list ascii) :
  list_ascii_of_string (string_of_list_ascii l) = l.
Proof. apply list_ascii_of_string_of_list_ascii. Qed.

Lemma last_map {A B} (f : A -> B) (l : list A) :
  last (map f l) = option_map f (last l).
Proof.
  induction l as [|x [|y l] IH]; [reflexivity | reflexivity|].
  exact IH.
Qed.

Lemma last_drop {A} (n : nat) (l suffix : list A) (x : A) :
  drop n l = suffix -> last suffix = Some x -> last l = Some x.
Proof.
  intros <- Hx. rewrite <- (take_drop n l).
  destruct (drop n l) as [|y m] eqn:E; [discriminate|].
  now rewrite last_app_cons.
Qed.

(** A name whose lower-case form ends in ".blend" ends in a character
    that is neither a digit nor a newline. *)
Lemma endswith_blend_last (f : string) :
  endswith (str_lower f) ".blend" = true ->
  exists c, last (list_ascii_of_string f) = Some c
            /\ is_digit c = false /\ c <> newline.
Proof.
  unfold endswith, str_lower. rewrite list_ascii_of_string_inv.
  intros H. apply bool_decide_eq_true in H.
  apply (last_drop _ _ _ "d"%char) in H; [|reflexivity].
  rewrite last_map in H.
  destruct (last (list_ascii_of_string f)) as [c|]; [|discriminate].
  injection H as H. exists c. split; [reflexivity|]. now apply char_lower_d.
Qed.

Lemma no_backup_match (f : string) :
  endswith (str_lower f) ".blend" = true ->
  re_search backup_pattern f = None.
Proof.
  intros Hend. destruct (endswith_blend_last f Hend) as (c & Hc & Hnd & Hnn).
  destruct (re_search backup_pattern f) as [m|] eqn:Hs; [|reflexivity].
  exfalso. unfold re_search in Hs.
  apply search_backup_ends in Hs as (d & Hd & [Hl | (l' & Hl)]).
  - rewrite Hc in Hl. injection Hl as ->. congruence.
  - rewrite Hl in Hc. rewrite (last_app_cons l' d [newline]) in Hc.
    cbn in Hc. injection Hc as <-. now apply Hnn.
Qed.

(** [is_valid_blend_file] and [_is_relevant_blend_file] give the same
    answer on every name: whether its lower-case form ends in ".blend".
    The test for a backup suffix never changes the answer, because a
    name that ends in digits does not end in ".blend"; such a name is
    rejected. *)
Theorem blend_file_tests_agree :
  (forall f : string,
      is_valid_blend_file f = endswith (str_lower f) ".blend"
      /\ _is_relevant_blend_file f = is_valid_blend_file f)
  /\ (forall (stem : string) (d : ascii) (ds : string),
        Forall (fun c => is_digit c = true) (d :: list_ascii_of_string ds) ->
        is_valid_blend_file (stem +:+ ".blend" +:+ String d ds) = false).
Proof.
  assert (Hvalid : forall f, is_valid_blend_file f
                             = endswith (str_lower f) ".blend").
  { intros f. unfold is_valid_blend_file.
    destruct (endswith (str_lower f) ".blend") eqn:He.
    - now rewrite (no_backup_match f He).
    - now destruct (re_search backup_pattern f). }
  split.
  - intros f. split; [apply Hvalid|].
    rewrite Hvalid. unfold _is_relevant_blend_file.
    destruct (endswith (str_lower f) ".blend") eqn:He; [|reflexivity].
    cbn [negb]. now rewrite (no_backup_match f He).
  - intros stem d ds Hds. rewrite Hvalid.
    destruct (endswith _ _) eqn:He; [|reflexivity]. exfalso.
    apply endswith_blend_last in He as (c & Hc & Hnd & _).
    rewrite !NamingFacts.list_ascii_app in Hc.
    change (list_ascii_of_string (String d ds))
      with (d :: list_ascii_of_string ds) in Hc.
    rewrite app_assoc, last_app_cons in Hc.
    destruct (last_digits d (list_ascii_of_string ds)) as (x & Hx & Hxd).
    + now inversion Hds.
    + now inversion Hds.
    + congruence.
Qed.

Lemma blend_file_tests_agree_witness :
  is_valid_blend_file "props/Chair.blend12" = false.
Proof.
  apply (proj2 blend_file_tests_agree "props/Chair" "1"%char "2").
  repeat constructor.
Defined.
End BlendNameFacts.

(* ===================================================================== *)
(** * Facts about the choice of an object socket                          *)
(* ===================================================================== *)

Module SocketFacts.
Import AssetCache Sockets.

(** The socket is called Object, in any case of letters. *)
Definition called_object (socket : node_socket) : bool :=
  String.eqb (str_lower (sock_name socket)) "object".

Definition has_fallback_name (socket : node_socket) : bool :=
  str_in (str_lower (sock_name socket)) fallback_names.

Definition socket_id (socket : node_socket) : string :=
  default (sock_name socket) (sock_identifier socket).

Lemma called_object_is_object (socket : node_socket) :
  called_object socket = true -> is_object_socket socket = true.
Proof.
  unfold called_object, is_object_socket, by_name, str_in. intros H.
  cbn [existsb]. rewrite H. cbn. now rewrite !orb_true_r.
Qed.

(** The first of the list that passes the test, unless [x] is set. *)
Definition first_or (x : option node_socket) (p : node_socket -> bool)
    (l : list node_socket) : option node_socket :=
  match x with Some _ => x | None => List.find p l end.

(** The last of the list that passes the test, [x] if there is none. *)
Definition last_or (x : option node_socket) (p : node_socket -> bool)
    (l : list node_socket) : option node_socket :=
  match List.find p (rev l) with Some s => Some s | None => x end.

Lemma find_app_cases {A} (p : A -> bool) (l m : list A) :
  List.find p (l ++ m)
  = match List.find p l with Some x => Some x | None => List.find p m end.
Proof.
  induction l as [|x l IH]; cbn; [reflexivity|]. now destruct (p x).
Qed.

(** The loop, when no socket of the list is called Object. *)
Lemma scan_without_object (outputs : list node_socket) (c : candidates) :
  (forall s, In s outputs -> called_object s = false) ->
  scan_outputs outputs c
  = Candidates (object_socket c)
      (first_or (first_object_socket c) is_object_socket outputs)
      (last_or (named_object_socket c) by_name_only outputs)
      (first_or (fallback_socket c) has_fallback_name outputs).
Proof.
  revert c. induction outputs as [|s rest IH]; intros c Hno.
  - destruct c as [o [f|] n [b|]]; reflexivity.
  - cbn [scan_outputs].
    assert (Hs : called_object s = false) by (apply Hno; now left).
    unfold called_object in Hs. rewrite Hs. cbn [andb].
    rewrite IH by (intros s' Hs'; apply Hno; now right).
    cbn [object_socket first_object_socket named_object_socket fallback_socket].
    f_equal.
    + unfold first_or. cbn [List.find].
      destruct (first_object_socket c) as [f|]; cbn [is_set negb].
      * now rewrite andb_false_r.
      * rewrite andb_true_r. now destruct (is_object_socket s).
    + unfold last_or. cbn [rev]. rewrite find_app_cases. cbn [List.find].
      destruct (List.find by_name_only (rev rest)); [reflexivity|].
      now destruct (by_name_only s).
    + unfold first_or, has_fallback_name. cbn [List.find].
      destruct (fallback_socket c) as [f|]; cbn [is_set negb andb];
        [reflexivity|].
      now destruct (str_in (str_lower (sock_name s)) fallback_names).
Qed.

(** The loop, up to the first socket called Object. *)
Lemma scan_with_object (before : list node_socket) (s : node_socket)
    (after : list node_socket) (c : candidates) :
  (forall x, In x before -> called_object x = false) ->
  called_object s = true ->
  object_socket (scan_outputs (before ++ s :: after) c) = Some s.
Proof.
  revert c. induction before as [|x rest IH]; intros c Hno Hs.
  - cbn [app scan_outputs]. unfold called_object in Hs. rewrite Hs.
    rewrite (called_object_is_object s) by exact Hs. reflexivity.
  - cbn [app scan_outputs].
    assert (Hx : called_object x = false) by (apply Hno; now left).
    unfold called_object in Hx. rewrite Hx. cbn [andb].
    apply IH; [|exact Hs]. intros y Hy. apply Hno. now right.
Qed.

Lemma find_split {A} (p : A -> bool) (l : list A) (x : A) :
  List.find p l = Some x ->
  exists before after, l = before ++ x :: after
                       /\ (forall y, In y before -> p y = false) /\ p x = true.
Proof.
  induction l as [|y l IH]; cbn; [discriminate|].
  destruct (p y) eqn:Hy.
  - intros [= ->]. exists [], l. repeat split; auto. intros ? [].
  - intros H. destruct (IH H) as (b & a & -> & Hb & Hx).
    exists (y :: b), a. repeat split; auto.
    intros z [<- | Hz]; auto.
Qed.

Lemma find_none_all {A} (p : A -> bool) (l : list A) :
  List.find p l = None -> forall x, In x l -> p x = false.
Proof. intros H x Hx. exact (find_none p l H x Hx). Qed.

Lemma is_object_cases (socket : node_socket) :
  is_object_socket socket = false -> by_name_only socket = false.
Proof.
  unfold is_object_socket, by_name_only. intros H.
  apply orb_false_iff in H as [H Hn]. now rewrite Hn, andb_false_r.
Qed.

Lemma by_name_only_is_object (socket : node_socket) :
  by_name_only socket = true -> is_object_socket socket = true.
Proof.
  unfold is_object_socket, by_name_only. intros H.
  apply andb_prop in H as [_ H]. now rewrite H, orb_true_r.
Qed.

(** The choice of [find_best_object_socket] among the outputs of a node.
    - It returns [None] exactly when no output is an object socket or
      bears one of the fallback names.
    - What it returns is one of the outputs, with its identifier if it
      has one and its name otherwise.
    - If an output is called Object (in any case of letters), the first
      such output is returned.
    - Otherwise, if outputs are recognised by their name alone, the last
      of them is returned, also when outputs of type OBJECT come before.
    - A socket that is not an object socket is returned only when no
      output is one. *)
Theorem find_best_object_socket_priorities (outputs : list node_socket) :
  (find_best_object_socket outputs = None <->
   forall s, In s outputs ->
             is_object_socket s = false /\ has_fallback_name s = false)
  /\ (forall id s, find_best_object_socket outputs = Some (id, s) ->
        In s outputs /\ id = socket_id s)
  /\ (forall s, List.find called_object outputs = Some s ->
        find_best_object_socket outputs = Some (socket_id s, s))
  /\ (forall s, List.find called_object outputs = None ->
        List.find by_name_only (rev outputs) = Some s ->
        find_best_object_socket outputs = Some (socket_id s, s))
  /\ (forall id s, find_best_object_socket outputs = Some (id, s) ->
        is_object_socket s = false ->
        forall s', In s' outputs -> is_object_socket s' = false).
Proof.
  unfold find_best_object_socket. cbv zeta.
  destruct (List.find called_object outputs) as [s0|] eqn:Hfind.
  - (* an output is called Object *)
    destruct (find_split _ _ _ Hfind) as (before & after & Heq & Hbefore & Hs0).
    pose proof (scan_with_object before s0 after (Candidates None None None None)
                  Hbefore Hs0) as Hobj.
    rewrite <- Heq in Hobj. rewrite Hobj. cbn [or_else is_set].
    assert (Hin : In s0 outputs)
      by (rewrite Heq; apply in_or_app; right; now left).
    split; [|split; [|split; [|split]]].
    + split; [discriminate|]. intros Hall. destruct (Hall s0 Hin) as [Ho _].
      rewrite (called_object_is_object s0 Hs0) in Ho. discriminate.
    + intros id s [= <- <-]. auto.
    + intros s [= <-]. reflexivity.
    + discriminate.
    + intros id s [= <- <-] Hn.
      rewrite (called_object_is_object s0 Hs0) in Hn. discriminate.
  - (* none is *)
    rewrite scan_without_object by (now apply find_none_all).
    cbn [object_socket first_object_socket named_object_socket fallback_socket].
    unfold first_or, last_or.
    split; [|split; [|split; [|split]]].
    + destruct (List.find by_name_only (rev outputs)) as [n|] eqn:Hn.
      { cbn [or_else is_set]. split; [discriminate|]. intros Hall.
        apply find_some in Hn as [Hin Hn]. apply in_rev in Hin.
        destruct (Hall n Hin) as [Ho _].
        rewrite (by_name_only_is_object n Hn) in Ho. discriminate. }
      destruct (List.find is_object_socket outputs) as [f|] eqn:Hf.
      { cbn [or_else is_set]. split; [discriminate|]. intros Hall.
        apply find_some in Hf as [Hin Hf]. destruct (Hall f Hin). congruence. }
      destruct (List.find has_fallback_name outputs) as [b|] eqn:Hb.
      { cbn [or_else is_set]. split; [discriminate|]. intros Hall.
        apply find_some in Hb as [Hin Hb]. destruct (Hall b Hin). congruence. }
      cbn [or_else is_set]. split; [|reflexivity]. intros _ s Hs.
      split; [now apply (find_none_all _ _ Hf) | now apply (find_none_all _ _ Hb)].
    + intros id s.
      destruct (List.find by_name_only (rev outputs)) as [n|] eqn:Hn.
      { cbn [or_else is_set]. intros [= <- <-]. apply find_some in Hn as [Hin _].
        apply in_rev in Hin. auto. }
      destruct (List.find is_object_socket outputs) as [f|] eqn:Hf.
      { cbn [or_else is_set]. intros [= <- <-]. apply find_some in Hf as [Hin _]. auto. }
      destruct (List.find has_fallback_name outputs) as [b|] eqn:Hb.
      { cbn [or_else is_set]. intros [= <- <-]. apply find_some in Hb as [Hin _]. auto. }
      discriminate.
    + discriminate.
    + intros s _ Hn. rewrite Hn. reflexivity.
    + intros id s.
      destruct (List.find by_name_only (rev outputs)) as [n|] eqn:Hn.
      { cbn [or_else is_set]. intros [= <- <-] Ho. apply find_some in Hn as [_ Hn].
        rewrite (by_name_only_is_object n Hn) in Ho. discriminate. }
      destruct (List.find is_object_socket outputs) as [f|] eqn:Hf.
      { cbn [or_else is_set]. intros [= <- <-] Ho. apply find_some in Hf as [_ Hf]. congruence. }
      intros _ _. now apply find_none_all.
Qed.

(** A Group Input node of a scatter setup: a geometry socket, an object
    socket of type OBJECT, and a socket called Target. *)
Definition scatter_outputs : list node_socket :=
  [NodeSocket (Some "GEOMETRY") (Some "NodeSocketGeometry") "Geometry" (Some "Input_0");
   NodeSocket (Some "OBJECT") (Some "NodeSocketObject") "Instance" (Some "Input_1");
   NodeSocket (Some "VALUE") (Some "NodeSocketFloat") "Target" (Some "Input_2")].

Lemma find_best_object_socket_priorities_witness :
  find_best_object_socket scatter_outputs
  = Some ("Input_2",
          NodeSocket (Some "VALUE") (Some "NodeSocketFloat") "Target" (Some "Input_2")).
Proof.
  apply (proj1 (proj2 (proj2 (proj2
           (find_best_object_socket_priorities scatter_outputs))))
           (NodeSocket (Some "VALUE") (Some "NodeSocketFloat") "Target"
              (Some "Input_2"))).
  - vm_compute. reflexivity.
  - vm_compute. reflexivity.
Defined.
End SocketFacts.

(* ===================================================================== *)
(** * Facts about the update check                                        *)
(* ===================================================================== *)

Module UpdaterFacts.
Import Py Py.Notations Json Updater.

Ltac run_check :=
  unfold _do_check, check_body, check_finally, fetch, _load_updater_state,
    _save_updater_state, py_get, setitem, modify_state, lift_outcome, fault,
    try_finally, try_clauses, try_except, bind, ret, raise, get_host,
    set_host, modify_host, print in *;
  cbn [host_state console _update_state _manual_check state_file timers
       requests checked checking error dispatch fst snd
       set_checking set_checked set_error set_available set_remote_version
       set_changelog set_download_url set_dismissed] in *.

(** The flags after the [finally] block, whatever came before. *)
Lemma finally_sets_flags (E : environment) (w : world host) :
  let w' := snd (check_finally E w) in
  checked (_update_state (host_state w')) = true
  /\ checking (_update_state (host_state w')) = false
  /\ error (_update_state (host_state w')) = error (_update_state (host_state w))
  /\ requests (host_state w') = requests (host_state w).
Proof.
  destruct w as [h c]. run_check.
  destruct (timers_register_fault E) as [e|]; cbn.
  - destruct (isinstance e Exception); cbn; repeat split.
  - repeat split.
Qed.

Lemma finally_outcome (E : environment) (w : world host) (e : exn) :
  fst (check_finally E w) = Exc e -> isinstance e Exception = false.
Proof.
  destruct w as [h c]. run_check.
  destruct (timers_register_fault E) as [e'|]; cbn; [|discriminate].
  unfold caught_by. cbn. rewrite orb_false_r.
  destruct (isinstance e' Exception) eqn:Hi; cbn; [discriminate|].
  now intros [= <-].
Qed.

(** What the [try] block leaves alone. *)
Lemma body_requests (E : environment) (w : world host) :
  requests (host_state (snd (check_body E w)))
  = requests (host_state w) ++ [manifest_request].
Proof.
  destruct w as [h c]. run_check.
  repeat (case_match; simplify_eq; run_check; cbn [caught_by existsb] in * );
    reflexivity.
Qed.

Lemma body_network_error (E : environment) (w : world host) (e : exn) :
  urlopen E manifest_request = Exc e ->
  fst (check_body E w) = Exc e
  /\ error (_update_state (host_state (snd (check_body E w))))
     = error (_update_state (host_state w)).
Proof.
  intros Hu. destruct w as [h c]. run_check. rewrite Hu. cbn. auto.
Qed.

Lemma body_invalid_json (E : environment) (w : world host)
    (body text : string) (e : exn) :
  urlopen E manifest_request = Ret body ->
  decode_utf8 E body = Ret text ->
  json_loads E text = Exc e ->
  fst (check_body E w) = Exc e
  /\ error (_update_state (host_state (snd (check_body E w))))
     = error (_update_state (host_state w)).
Proof.
  intros Hu Hd Hj. destruct w as [h c]. run_check.
  rewrite Hu. cbn. rewrite Hd. cbn. rewrite Hj. cbn. auto.
Qed.

(** The [try] block with its three [except] clauses. *)
Definition guarded_body (E : environment) : py host unit :=
  try_clauses (check_body E)
    [([URLError; TimeoutError; OSError],
      fun e => modify_state (set_error ("Network error: " +:+ exc_str e)));
     ([JSONDecodeError],
      fun _ => modify_state (set_error "Invalid update manifest"));
     ([Exception],
      fun e => modify_state (set_error (exc_str e)))].

Lemma guarded_body_requests (E : environment) (w : world host) :
  requests (host_state (snd (guarded_body E w)))
  = requests (host_state w) ++ [manifest_request].
Proof.
  unfold guarded_body, try_clauses.
  pose proof (body_requests E w) as Hr.
  destruct (check_body E w) as [[u|e] w1]; cbn in *; [exact Hr|].
  repeat (case_match; [exact Hr|]). exact Hr.
Qed.

Lemma guarded_body_outcome (E : environment) (w : world host) (e : exn) :
  fst (guarded_body E w) = Exc e -> isinstance e Exception = false.
Proof.
  unfold guarded_body, try_clauses.
  destruct (check_body E w) as [[u|e0] w1]; cbn; [discriminate|].
  repeat (case_match; [discriminate|]).
  intros [= <-].
  match goal with
  | H : isinstance e0 Exception || false = false |- _ =>
      now rewrite orb_false_r in H
  end.
Qed.

(** Only an [OSError] class member meets the first clause; a
    [JSONDecodeError] passes it and meets the second. *)
Lemma json_error_not_network (e : exn) :
  exc_type e = JSONDecodeError ->
  caught_by [URLError; TimeoutError; OSError] e = false
  /\ caught_by [JSONDecodeError] e = true.
Proof.
  destruct e as [cl msg]. cbn. intros ->. split; reflexivity.
Qed.

(** The world after the two assignments that open [_do_check]. *)
Definition started (w : world host) : world host :=
  World (Host (set_error "" (set_checking true (_update_state (host_state w))))
              (_manual_check (host_state w)) (state_file (host_state w))
              (timers (host_state w)) (requests (host_state w)))
        (console w).

Lemma do_check_unfold (E : environment) (w : world host) :
  _do_check E w = try_finally (guarded_body E) (check_finally E) (started w).
Proof. reflexivity. Qed.

Lemma try_finally_snd {H A} (body : py H A) (fin : py H unit) (w : world H) :
  snd (try_finally body fin w) = snd (fin (snd (body w))).
Proof.
  unfold try_finally. destruct (body w) as [r w1]. cbn.
  now destruct (fin w1) as [[u|e] w2].
Qed.

Lemma try_finally_fst {H A} (body : py H A) (fin : py H unit) (w : world H)
    (e : exn) :
  fst (try_finally body fin w) = Exc e ->
  fst (body w) = Exc e \/ fst (fin (snd (body w))) = Exc e.
Proof.
  unfold try_finally. destruct (body w) as [r w1]. cbn [fst snd].
  destruct (fin w1) as [[u|e'] w2]; cbn [fst snd]; [tauto|].
  intros [= ->]. now right.
Qed.

(** C6: the check sends one request, to [MANIFEST_URL].  A network error
    or a timeout, and a body that is not JSON, end up as a message in
    [_update_state["error"]]; no [Exception] leaves [_do_check]; and in
    every case it ends with [checked] true and [checking] false. *)
Theorem do_check_records_errors (E : environment) (w : world host) :
  let r := fst (_do_check E w) in
  let h' := host_state (snd (_do_check E w)) in
  (checked (_update_state h') = true /\ checking (_update_state h') = false)
  /\ (requests h' = requests (host_state w) ++ [manifest_request]
      /\ req_url manifest_request = MANIFEST_URL)
  /\ (forall e : exn, r = Exc e -> isinstance e Exception = false)
  /\ (forall e : exn,
        urlopen E manifest_request = Exc e ->
        caught_by [URLError; TimeoutError; OSError] e = true ->
        error (_update_state h') = "Network error: " +:+ exc_str e)
  /\ (forall (body text : string) (e : exn),
        urlopen E manifest_request = Ret body ->
        decode_utf8 E body = Ret text ->
        json_loads E text = Exc e ->
        exc_type e = JSONDecodeError ->
        error (_update_state h') = "Invalid update manifest").
Proof.
  cbv zeta. rewrite do_check_unfold, try_finally_snd.
  pose proof (finally_sets_flags E (snd (guarded_body E (started w))))
    as (Hc1 & Hc2 & Herr & Hreq).
  cbv zeta in Hc1, Hc2, Herr, Hreq.
  split; [auto|]. split; [|split; [|split]].
  - rewrite Hreq, guarded_body_requests. split; reflexivity.
  - intros e He. apply try_finally_fst in He as [He | He].
    + now apply guarded_body_outcome in He.
    + now apply finally_outcome in He.
  - intros e Hu Hc. rewrite Herr.
    destruct (body_network_error E (started w) e Hu) as [Hf _].
    unfold guarded_body, try_clauses.
    destruct (check_body E (started w)) as [r1 w1]. cbn in Hf. subst r1.
    cbn [dispatch]. rewrite Hc. reflexivity.
  - intros body text e Hu Hd Hj Hcl. rewrite Herr.
    destruct (body_invalid_json E (started w) body text e Hu Hd Hj) as [Hf _].
    destruct (json_error_not_network e Hcl) as [Hn Hy].
    unfold guarded_body, try_clauses.
    destruct (check_body E (started w)) as [r1 w1]. cbn in Hf. subst r1.
    cbn [dispatch]. rewrite Hn, Hy. reflexivity.
Qed.

(** A server that cannot be reached, and one that answers with a page
    that is not JSON. *)
Definition offline_env : environment :=
  Env (fun _ => Exc (Exn URLError "<urlopen error timed out>"))
      (fun b => Ret b) (fun _ => Ret JNull) "1.0.0"
      None None None "2026-01-01 00:00" None.

Definition html_env : environment :=
  Env (fun _ => Ret "<html>")
      (fun b => Ret b)
      (fun _ => Exc (Exn JSONDecodeError "Expecting value: line 1 column 1 (char 0)"))
      "1.0.0" None None None "2026-01-01 00:00" None.

Definition initial_world : world host :=
  World (Host (UpdateState false false false (JStr "") (JStr "") (JStr "") ""
                 0%float "" false)
              false None 0 [])
        [].

Lemma do_check_records_errors_witness :
  error (_update_state (host_state (snd (_do_check offline_env initial_world))))
  = "Network error: <urlopen error timed out>"
  /\ error (_update_state (host_state (snd (_do_check html_env initial_world))))
     = "Invalid update manifest".
Proof.
  split.
  - apply (proj1 (proj2 (proj2 (proj2
             (do_check_records_errors offline_env initial_world))))
             (Exn URLError "<urlopen error timed out>")); reflexivity.
  - apply (proj2 (proj2 (proj2 (proj2
             (do_check_records_errors html_env initial_world))))
             "<html>" "<html>"
             (Exn JSONDecodeError "Expecting value: line 1 column 1 (char 0)"));
      reflexivity.
Defined.

Example is_newer_patch : _is_newer (JStr "1.2.10") "1.2.9" = true.
Proof. reflexivity. Qed.
Example is_newer_same : _is_newer (JStr "1.2.0") "1.2.0" = false.
Proof. reflexivity. Qed.
Example is_newer_longer : _is_newer (JStr "1.2.0.1") "1.2.0" = true.
Proof. reflexivity. Qed.
Example is_newer_not_a_version : _is_newer (JStr "v2") "1.2.0" = false.
Proof. reflexivity. Qed.
Example is_newer_number : _is_newer (JInt 2) "1.2.0" = false.
Proof. reflexivity. Qed.
End UpdaterFacts.

(* ===================================================================== *)
(** * Facts about version comparison                                      *)
(* ===================================================================== *)

Module VersionFacts.
Import Py Json Updater.

Lemma tuple_gt_irrefl (l : list Z) : tuple_gt l l = false.
Proof.
  induction l as [|x l IH]; cbn; [reflexivity|]. now rewrite Z.eqb_refl.
Qed.

Lemma tuple_gt_asym (r l : list Z) : tuple_gt r l = true -> tuple_gt l r = false.
Proof.
  revert l. induction r as [|x r IH]; intros [|y l]; cbn; try discriminate;
    try reflexivity.
  destruct (x =? y) eqn:E.
  - apply Z.eqb_eq in E. subst y. rewrite Z.eqb_refl. apply IH.
  - rewrite Z.eqb_sym, E. intros H. apply Z.ltb_lt in H. apply Z.ltb_ge. lia.
Qed.

Lemma tuple_gt_trans (a b c : list Z) :
  tuple_gt a b = true -> tuple_gt b c = true -> tuple_gt a c = true.
Proof.
  revert b c. induction a as [|x a IH]; intros [|y b] [|z c]; cbn;
    try discriminate; try reflexivity.
  destruct (x =? y) eqn:Exy, (y =? z) eqn:Eyz;
    rewrite ?Z.eqb_eq, ?Z.eqb_neq in *.
  - subst. rewrite Z.eqb_refl. apply IH.
  - subst. apply Z.eqb_neq in Eyz. rewrite Eyz. auto.
  - subst. apply Z.eqb_neq in Exy. rewrite Exy. auto.
  - intros H1 H2. apply Z.ltb_lt in H1, H2.
    assert (E : (x =? z) = false) by (apply Z.eqb_neq; lia).
    rewrite E. apply Z.ltb_lt. lia.
Qed.

Lemma tuple_gt_total (a b : list Z) :
  a <> b -> tuple_gt a b = true \/ tuple_gt b a = true.
Proof.
  revert b. induction a as [|x a IH]; intros [|y b] Hne; cbn; auto;
    try (exfalso; now apply Hne).
  destruct (x =? y) eqn:E.
  - apply Z.eqb_eq in E. subst y. rewrite Z.eqb_refl. apply IH. congruence.
  - rewrite Z.eqb_sym, E. apply Z.eqb_neq in E.
    destruct (Z.ltb_spec y x); [now left|]. right. apply Z.ltb_lt. lia.
Qed.

(** The numbers of a version string, when every component between the
    dots is an integer literal. *)
Definition version_numbers (v : string) : option (list Z) :=
  int_tuple (str_split_dots v).

Lemma is_newer_numbers (a b : string) :
  _is_newer (JStr a) b = true <->
  exists va vb, version_numbers a = Some va /\ version_numbers b = Some vb
                /\ tuple_gt va vb = true.
Proof.
  unfold _is_newer, version_numbers.
  destruct (int_tuple (str_split_dots a)) as [va|];
    [destruct (int_tuple (str_split_dots b)) as [vb|]|].
  - split; [eauto|]. intros (? & ? & [= <-] & [= <-] & H). exact H.
  - split; [discriminate|]. intros (? & ? & _ & H & _). discriminate.
  - split; [discriminate|]. intros (? & ? & H & _). discriminate.
Qed.

(** [_is_newer] is a strict order on version strings: no version is
    newer than itself, two versions are never each newer than the other,
    and newer-than is transitive; of two versions that both parse to
    different numbers one is newer than the other; a version that does
    not parse is neither newer nor older than anything. *)
Theorem is_newer_strict_order :
  (forall v : string, _is_newer (JStr v) v = false)
  /\ (forall a b : string,
        _is_newer (JStr a) b = true -> _is_newer (JStr b) a = false)
  /\ (forall a b c : string,
        _is_newer (JStr a) b = true -> _is_newer (JStr b) c = true ->
        _is_newer (JStr a) c = true)
  /\ (forall (a b : string) (va vb : list Z),
        version_numbers a = Some va -> version_numbers b = Some vb ->
        va <> vb ->
        _is_newer (JStr a) b = true \/ _is_newer (JStr b) a = true)
  /\ (forall a b : string,
        version_numbers a = None ->
        _is_newer (JStr a) b = false /\ _is_newer (JStr b) a = false).
Proof.
  split; [|split; [|split; [|split]]].
  - intros v. destruct (_is_newer (JStr v) v) eqn:E; [|reflexivity].
    apply is_newer_numbers in E as (va & vb & Ha & Hb & Hgt).
    rewrite Ha in Hb. injection Hb as <-. now rewrite tuple_gt_irrefl in Hgt.
  - intros a b H. apply is_newer_numbers in H as (va & vb & Ha & Hb & Hgt).
    destruct (_is_newer (JStr b) a) eqn:E; [|reflexivity].
    apply is_newer_numbers in E as (vb' & va' & Hb' & Ha' & Hgt').
    rewrite Ha in Ha'. rewrite Hb in Hb'. injection Ha' as <-. injection Hb' as <-.
    apply tuple_gt_asym in Hgt. congruence.
  - intros a b c H1 H2.
    apply is_newer_numbers in H1 as (va & vb & Ha & Hb & Hab).
    apply is_newer_numbers in H2 as (vb' & vc & Hb' & Hc & Hbc).
    rewrite Hb in Hb'. injection Hb' as <-.
    apply is_newer_numbers. exists va, vc. repeat split; auto.
    now apply (tuple_gt_trans va vb vc).
  - intros a b va vb Ha Hb Hne.
    destruct (tuple_gt_total va vb Hne) as [H | H]; [left | right];
      apply is_newer_numbers; eauto.
  - intros a b Ha. unfold _is_newer, version_numbers in *. rewrite Ha.
    split; [reflexivity|].
    now destruct (int_tuple (str_split_dots b)).
Qed.

Lemma is_newer_strict_order_witness :
  _is_newer (JStr "1.2.9") "1.2.10" = false
  /\ _is_newer (JStr "2.0") "1.2.9" = true
  /\ (_is_newer (JStr "1.0") "1" = true \/ _is_newer (JStr "1") "1.0" = true)
  /\ _is_newer (JStr "1.2.9") "1.3-beta" = false.
Proof.
  destruct is_newer_strict_order as (_ & Hasym & Htrans & Htotal & Hbad).
  split; [|split; [|split]].
  - apply (Hasym "1.2.10" "1.2.9"). reflexivity.
  - apply (Htrans "2.0" "1.2.10" "1.2.9"); reflexivity.
  - apply (Htotal "1.0" "1" [1; 0] [1]); [reflexivity | reflexivity | discriminate].
  - apply (Hbad "1.3-beta" "1.2.9"). reflexivity.
Defined.
End VersionFacts.
(* ===================================================================== *)
(** * Facts about announcing and dismissing an update                     *)
(* ===================================================================== *)

Module DismissFacts.
Import Py Py.Notations Json Updater UpdaterOps UpdaterFacts.

(** The manifest the server answers with, once read and parsed. *)
Definition manifest (E : environment) (data : json) : Prop :=
  exists body text : string,
    urlopen E manifest_request = Ret body
    /\ decode_utf8 E body = Ret text
    /\ json_loads E text = Ret data.

(** [data.get("addon", {}).get("version", "")] on a manifest that is a
    dict whose ["addon"], if any, is a dict. *)
Definition announces (data : json) (info : list (string * json)) (ver : json)
  : Prop :=
  exists d : list (string * json),
    data = JDict d
    /\ from_option id (JDict []) (dict_get "addon" d) = JDict info
    /\ from_option id (JStr "") (dict_get "version" info) = ver.

(** The state file can be found and read. *)
Definition state_file_readable (E : environment) : Prop :=
  get_state_file_fault E = None /\ state_read_fault E = None.

(** The state file holds a dict that names [u] as the dismissed version. *)
Definition dismissed_on_file (u : json) (h : host) : Prop :=
  exists d : list (string * json),
    state_file h = Some (AssetCache.Document (JDict d))
    /\ dict_get "dismissed_addon_version" d = Some u.

(** The state file is missing, damaged or holds a dict. *)
Definition state_file_usable (h : host) : Prop :=
  forall v : json,
    state_file h = Some (AssetCache.Document v) -> exists d, v = JDict d.

Lemma dict_get_set_eq (k : string) (v : json) (d : list (string * json)) :
  dict_get k (dict_set k v d) = Some v.
Proof.
  induction d as [|[k' v'] d IH]; cbn.
  - now rewrite String.eqb_refl.
  - destruct (String.eqb k' k) eqn:Hk; cbn; rewrite Hk; auto.
Qed.

Lemma dict_get_set_neq (k k' : string) (v : json) (d : list (string * json)) :
  k <> k' -> dict_get k' (dict_set k v d) = dict_get k' d.
Proof.
  intros Hne. induction d as [|[k0 v0] d IH]; cbn.
  - destruct (String.eqb k k') eqn:Hk; [|reflexivity].
    apply String.eqb_eq in Hk. contradiction.
  - destruct (String.eqb k0 k) eqn:Hk; cbn.
    + apply String.eqb_eq in Hk. subst k0.
      destruct (String.eqb k k') eqn:Hk'; [|reflexivity].
      apply String.eqb_eq in Hk'. contradiction.
    + destruct (String.eqb k0 k'); auto.
Qed.

(** What [_load_updater_state] returns on a readable, usable file. *)
Definition persistent_of (h : host) : list (string * json) :=
  match state_file h with
  | Some (AssetCache.Document (JDict d)) => d
  | _ => [("last_check", JStr ""); ("dismissed_addon_version", JStr "")]
  end.

Lemma load_updater_state_run (E : environment) (w : world host) :
  state_file_readable E ->
  state_file_usable (host_state w) ->
  _load_updater_state E w = (Ret (JDict (persistent_of (host_state w))), w).
Proof.
  intros [Hg Hr] Hu. destruct w as [h c]. unfold persistent_of.
  run_check. rewrite Hg. cbn. unfold state_file_usable in Hu. cbn in Hu.
  destruct (state_file h) as [[v|v n|t]|] eqn:Hs; rewrite ?Hr; cbn;
    try reflexivity.
  destruct (Hu v eq_refl) as [d ->]. reflexivity.
Qed.

(** What [_save_updater_state] leaves on file. *)
Definition saved (E : environment) (data : json) (h : host) : host :=
  match state_write_fault E with
  | None => Host (_update_state h) (_manual_check h)
              (Some (AssetCache.Document data)) (timers h) (requests h)
  | Some _ => h
  end.

Lemma save_updater_state_run (E : environment) (data : json) (w : world host) :
  get_state_file_fault E = None ->
  (forall e, state_write_fault E = Some e -> isinstance e OSError = true) ->
  _save_updater_state E data w
  = (Ret tt, World (saved E data (host_state w)) (console w)).
Proof.
  intros Hg Hw. destruct w as [h c]. unfold saved. run_check. rewrite Hg. cbn.
  destruct (state_write_fault E) as [e|]; cbn; [|reflexivity].
  unfold caught_by. cbn. rewrite (Hw e eq_refl). cbn. now destruct h.
Qed.

Definition state_file_writable (E : environment) : Prop :=
  forall e, state_write_fault E = Some e -> isinstance e OSError = true.

(** The module state after the [if] of the check. *)
Definition concluded (E : environment) (info : list (string * json))
    (ver : json) (manual : bool) (p : list (string * json))
    (s : update_state) : update_state :=
  if truthy ver && _is_newer ver (CURRENT_ADDON_VERSION E)
  then UpdateState (checked s) (checking s) true ver
         (from_option id (JStr "") (dict_get "changelog" info))
         (from_option id (JStr "") (dict_get "download_url" info))
         (error s) (download_progress s) (download_status s)
         (if manual then false
          else match ver with
               | JStr v => is_str v (from_option id (JStr "")
                                       (dict_get "dismissed_addon_version" p))
               | _ => false
               end)
  else UpdateState (checked s) (checking s) false (addon_remote_version s)
         (addon_changelog s) (addon_download_url s)
         (error s) (download_progress s) (download_status s) false.

Lemma check_body_run (E : environment) (w : world host) (data : json)
    (info : list (string * json)) (ver : json) :
  manifest E data ->
  announces data info ver ->
  state_file_readable E ->
  state_file_writable E ->
  state_file_usable (host_state w) ->
  let h := host_state w in
  let p := persistent_of h in
  check_body E w
  = (Ret tt,
     World (saved E (JDict (dict_set "last_check" (JStr (strftime_now E)) p))
              (Host (concluded E info ver (_manual_check h) p (_update_state h))
                    (_manual_check h) (state_file h) (timers h)
                    (requests h ++ [manifest_request])))
           (console w)).
Proof.
  intros (body & text & Hu & Hd & Hj) (d & -> & Hinfo & Hver) Hr Hw Hus.
  cbv zeta. unfold check_body.
  unfold bind at 1. unfold fetch, bind at 1, modify_host, lift_outcome.
  rewrite Hu. unfold ret at 1. cbv beta iota.
  unfold bind at 1. rewrite Hd. unfold ret at 1. cbv beta iota.
  unfold bind at 1. rewrite Hj. unfold ret at 1. cbv beta iota.
  unfold bind at 1. rewrite load_updater_state_run by (try exact Hr; exact Hus).
  cbn [host_state state_file console _update_state _manual_check timers requests].
  unfold bind at 1. unfold py_get at 1. rewrite Hinfo. unfold ret at 1.
  cbv beta iota.
  unfold bind at 1. unfold py_get at 1. rewrite Hver. unfold ret at 1.
  cbv beta iota.
  unfold persistent_of at 1.
  cbn [host_state state_file console _update_state _manual_check timers requests].
  fold (persistent_of (host_state w)).
  set (p := persistent_of (host_state w)).
  destruct w as [h c]. cbn [host_state console] in *.
  unfold concluded.
  destruct (truthy ver && _is_newer ver (CURRENT_ADDON_VERSION E)) eqn:Hn.
  - destruct (_manual_check h) eqn:Hm.
    + run_check.
      cbn [host_state state_file console _update_state _manual_check timers
           requests].
      pose proof (save_updater_state_run E
        (JDict (dict_set "last_check" (JStr (strftime_now E)) p))) as Hs.
      run_check. destruct Hr as [Hg Hrd]. rewrite Hg in *. cbn in Hs |- *.
      rewrite Hs by (auto; exact Hw). cbn. unfold saved. cbn.
      destruct (state_write_fault E); destruct h; reflexivity.
    + run_check.
      cbn [host_state state_file console _update_state _manual_check timers
           requests].
      pose proof (save_updater_state_run E
        (JDict (dict_set "last_check" (JStr (strftime_now E)) p))) as Hs.
      run_check. destruct Hr as [Hg Hrd]. rewrite Hg in *. cbn in Hs |- *.
      rewrite Hs by (auto; exact Hw). cbn. unfold saved. cbn.
      destruct (state_write_fault E); destruct h; reflexivity.
  - run_check.
    pose proof (save_updater_state_run E
      (JDict (dict_set "last_check" (JStr (strftime_now E)) p))) as Hs.
    run_check. destruct Hr as [Hg Hrd]. rewrite Hg in *. cbn in Hs |- *.
    rewrite Hs by (auto; exact Hw). cbn. unfold saved. cbn.
    destruct (state_write_fault E); destruct h; reflexivity.
Qed.

Lemma finally_state (E : environment) (w : world host) :
  let h' := host_state (snd (check_finally E w)) in
  _update_state h' = set_checking false (set_checked true (_update_state (host_state w)))
  /\ state_file h' = state_file (host_state w)
  /\ _manual_check h' = false.
Proof.
  destruct w as [h c]. run_check.
  destruct (timers_register_fault E) as [e|]; cbn.
  - destruct (isinstance e Exception); cbn; repeat split.
  - repeat split.
Qed.

(** The check from its first line to its last, when the manifest
    arrives and the state file works. *)
Lemma do_check_run (E : environment) (w : world host) (data : json)
    (info : list (string * json)) (ver : json) :
  manifest E data ->
  announces data info ver ->
  state_file_readable E ->
  state_file_writable E ->
  state_file_usable (host_state w) ->
  let h := host_state w in
  let p := persistent_of h in
  let h' := host_state (snd (_do_check E w)) in
  _update_state h'
  = set_checking false (set_checked true
      (concluded E info ver (_manual_check h) p
         (set_error "" (set_checking true (_update_state h)))))
  /\ state_file h'
     = state_file (saved E (JDict (dict_set "last_check" (JStr (strftime_now E)) p)) h)
  /\ _manual_check h' = false.
Proof.
  intros Hm Ha Hr Hw Hu. cbv zeta.
  rewrite do_check_unfold, try_finally_snd.
  unfold guarded_body, try_clauses.
  assert (Hu' : state_file_usable (host_state (started w))) by exact Hu.
  rewrite (check_body_run E (started w) data info ver Hm Ha Hr Hw Hu').
  cbn [snd].
  match goal with
  | |- context [check_finally E ?w1] =>
      destruct (finally_state E w1) as (Hs & Hf & Hmc)
  end.
  cbv zeta in Hs, Hf, Hmc. rewrite Hs, Hf, Hmc.
  repeat split; unfold saved; destruct (state_write_fault E); reflexivity.
Qed.

Lemma is_newer_truthy (ver : json) (loc : string) :
  _is_newer ver loc = true -> truthy ver = true.
Proof.
  destruct ver as [| | | |s| |]; try discriminate.
  destruct s; [discriminate|reflexivity].
Qed.

(** The check announces an update exactly when the version of the
    manifest is newer than the installed one.  Given a manifest that is
    a dict with a dict (or nothing) under ["addon"], and a state file
    that works: after [_do_check] the flag [addon_update_available] is
    [_is_newer] of the manifest's version and the installed version, and
    no error is recorded; when an update is announced the remote
    version, the changelog and the download URL are those of the
    manifest; when none is, the notification is not dismissed and the
    three keep what an earlier check left there. *)
Theorem check_announces_newer_only (E : environment) (w : world host)
    (data : json) (info : list (string * json)) (ver : json) :
  manifest E data ->
  announces data info ver ->
  state_file_readable E ->
  state_file_writable E ->
  state_file_usable (host_state w) ->
  let s := _update_state (host_state w) in
  let s' := _update_state (host_state (snd (_do_check E w))) in
  addon_update_available s' = _is_newer ver (CURRENT_ADDON_VERSION E)
  /\ error s' = ""
  /\ (addon_update_available s' = true ->
        addon_remote_version s' = ver
        /\ addon_changelog s'
           = from_option id (JStr "") (dict_get "changelog" info)
        /\ addon_download_url s'
           = from_option id (JStr "") (dict_get "download_url" info))
  /\ (addon_update_available s' = false ->
        addon_dismissed s' = false
        /\ addon_remote_version s' = addon_remote_version s
        /\ addon_changelog s' = addon_changelog s
        /\ addon_download_url s' = addon_download_url s).
Proof.
  intros Hm Ha Hr Hw Hu. cbv zeta.
  destruct (do_check_run E w data info ver Hm Ha Hr Hw Hu) as (Hs & _ & _).
  cbv zeta in Hs. rewrite Hs. clear Hs. unfold concluded.
  destruct (_is_newer ver (CURRENT_ADDON_VERSION E)) eqn:Hn.
  - rewrite (is_newer_truthy _ _ Hn). cbn.
    repeat split; intros; discriminate.
  - rewrite andb_false_r. cbn. repeat split; intros; discriminate.
Qed.

(** A release newer than the installed 1.4.0, and the world before the
    first check. *)
Definition release_manifest : json :=
  JDict [("addon", JDict [("version", JStr "1.5.0");
                          ("changelog", JStr "Faster scans");
                          ("download_url", JStr "https://example.org/qp.zip")])].

Definition release_env : environment :=
  Env (fun _ => Ret "manifest") (fun b => Ret b) (fun _ => Ret release_manifest)
      "1.4.0" None None None "2026-01-01 00:00" None.

Lemma release_env_manifest : manifest release_env release_manifest.
Proof. exists "manifest", "manifest". repeat split. Qed.

Lemma release_announces :
  announces release_manifest
    [("version", JStr "1.5.0"); ("changelog", JStr "Faster scans");
     ("download_url", JStr "https://example.org/qp.zip")]
    (JStr "1.5.0").
Proof. eexists. repeat split. Qed.

Lemma initial_world_usable : state_file_usable (host_state initial_world).
Proof. intros v Hv. discriminate. Qed.

Lemma release_env_readable : state_file_readable release_env.
Proof. split; reflexivity. Qed.

Lemma release_env_writable : state_file_writable release_env.
Proof. intros e He. discriminate. Qed.

Lemma check_announces_newer_only_witness :
  addon_update_available
    (_update_state (host_state (snd (_do_check release_env initial_world))))
  = true.
Proof.
  exact (proj1 (check_announces_newer_only release_env initial_world
                  release_manifest _ _ release_env_manifest release_announces
                  release_env_readable release_env_writable
                  initial_world_usable)).
Defined.

(** ** Dismissing *)

Lemma dismiss_update_run (E : environment) (w : world host) :
  state_file_readable E ->
  state_file_writable E ->
  state_file_usable (host_state w) ->
  let h := host_state w in
  dismiss_update_execute E w
  = (Ret FINISHED,
     World (saved E (JDict (dict_set "dismissed_addon_version"
                              (addon_remote_version (_update_state h))
                              (persistent_of h)))
              (Host (set_dismissed true (_update_state h)) (_manual_check h)
                    (state_file h) (timers h) (requests h)))
           (console w)).
Proof.
  intros Hr Hw Hu. cbv zeta. unfold dismiss_update_execute.
  unfold bind at 1. rewrite load_updater_state_run by assumption.
  destruct w as [h c]. cbn [host_state console].
  unfold bind at 1, get_host at 1. cbn [host_state].
  unfold bind at 1, setitem at 1, ret at 1.
  unfold bind at 1, modify_state at 1, modify_host at 1.
  cbn [host_state console].
  unfold bind at 1.
  rewrite save_updater_state_run by (try apply Hr; exact Hw).
  reflexivity.
Qed.

(** A dismissed version stays dismissed until a newer release or a
    manual check.  With a state file that works, dismissing writes the
    version on display to the file and hides the notification.  From
    then on every check that finds a version [v] newer than the
    installed one keeps the dismissed version on file; an automatic
    check shows the notification exactly when [v] is not the dismissed
    version, and a manual check shows it in any case. *)
Theorem dismissal_lasts_until_new_release (E : environment) (data : json)
    (info : list (string * json)) (u v : string) (w0 : world host) :
  manifest E data ->
  announces data info (JStr v) ->
  _is_newer (JStr v) (CURRENT_ADDON_VERSION E) = true ->
  state_file_readable E ->
  state_write_fault E = None ->
  state_file_usable (host_state w0) ->
  addon_remote_version (_update_state (host_state w0)) = JStr u ->
  (let w1 := snd (dismiss_update_execute E w0) in
   fst (dismiss_update_execute E w0) = Ret FINISHED
   /\ show_addon (_update_state (host_state w1)) = false
   /\ dismissed_on_file (JStr u) (host_state w1))
  /\ (forall w : world host,
        dismissed_on_file (JStr u) (host_state w) ->
        let w' := snd (_do_check E w) in
        dismissed_on_file (JStr u) (host_state w')
        /\ show_addon (_update_state (host_state w'))
           = if _manual_check (host_state w) then true
             else negb (String.eqb u v)).
Proof.
  intros Hm Ha Hn Hr Hwf Hu Hrem.
  assert (Hw : state_file_writable E).
  { intros e He. rewrite Hwf in He. discriminate. }
  split.
  - cbv zeta. rewrite (dismiss_update_run E w0 Hr Hw Hu). cbn [fst snd host_state].
    unfold saved. rewrite Hwf. cbn. split; [reflexivity|]. split.
    + unfold show_addon. cbn. apply andb_false_r.
    + eexists. split; [reflexivity|]. rewrite Hrem. apply dict_get_set_eq.
  - intros w (d & Hfile & Hd). cbv zeta.
    assert (Hus : state_file_usable (host_state w)).
    { intros x Hx. rewrite Hfile in Hx. injection Hx as <-. now exists d. }
    destruct (do_check_run E w data info (JStr v) Hm Ha Hr Hw Hus)
      as (Hs & Hf & _).
    cbv zeta in Hs, Hf.
    assert (Hp : persistent_of (host_state w) = d).
    { unfold persistent_of. now rewrite Hfile. }
    rewrite Hp in *. split.
    + exists (dict_set "last_check" (JStr (strftime_now E)) d). split.
      * rewrite Hf. unfold saved. rewrite Hwf. reflexivity.
      * rewrite dict_get_set_neq by discriminate. exact Hd.
    + rewrite Hs. unfold concluded. rewrite Hn.
      assert (Ht : truthy (JStr v) = true) by exact (is_newer_truthy _ _ Hn).
      rewrite Ht. cbn [andb]. unfold show_addon. cbn.
      destruct (_manual_check (host_state w)); [reflexivity|].
      rewrite Hd. cbn. reflexivity.
Qed.

(** The world after a check that announced 1.5.0. *)
Definition announced_world : world host :=
  World (Host (UpdateState true false true (JStr "1.5.0") (JStr "Faster scans")
                 (JStr "https://example.org/qp.zip") "" 0%float "" false)
              false None 1 [manifest_request])
        [].

Lemma announced_world_usable : state_file_usable (host_state announced_world).
Proof. intros x Hx. discriminate. Qed.

Lemma dismissal_lasts_until_new_release_witness :
  show_addon (_update_state (host_state
     (snd (_do_check release_env
        (snd (dismiss_update_execute release_env announced_world))))))
  = false.
Proof.
  pose proof (dismissal_lasts_until_new_release release_env release_manifest
                _ "1.5.0" "1.5.0" announced_world release_env_manifest
                release_announces eq_refl release_env_readable eq_refl
                announced_world_usable eq_refl) as [(_ & _ & Hd) Hc].
  exact (proj2 (Hc _ Hd)).
Defined.

End DismissFacts.

(* ===================================================================== *)
(** * Facts about the cleanup engine                                      *)
(* ===================================================================== *)

Module CleanUpFacts.
Import Py Py.Notations Bpy CleanUp.

Section Analysis.
Context {T : Type} {Op : CleanupOperator T}.

(** The comparison [are_items_identical_by_type] answers [True]. *)
Definition identical (a b : T) : Prop :=
  fst (are_items_identical_by_type a b) = true.

(** [item]'s base name is [base]. *)
Definition has_base (base : string) (item : T) : bool :=
  String.eqb (get_base_name (name_of item)) base.

(** A group as [group_items_by_identity] builds it: the representative
    comes first, and every later member was found identical to it. *)
Definition group_ok (g : identity_group T) : Prop :=
  exists rest, members g = representative g :: rest
               /\ Forall (fun m => identical m (representative g)) rest.

(** ** [group_items_by_identity] *)

Lemma place_in_group_some (item : T) (groups groups' : list (identity_group T)) :
  fst (place_in_group item groups) = Some groups' ->
  Forall group_ok groups ->
  Forall group_ok groups'
  /\ concat (map members groups') ≡ₚ item :: concat (map members groups)
  /\ map representative groups' = map representative groups.
Proof.
  revert groups'. induction groups as [|g gs IH]; intros groups' Hp Hok.
  - discriminate.
  - cbn in Hp.
    destruct (are_items_identical_by_type item (representative g))
      as [same lines] eqn:Hsame.
    inversion Hok as [|? ? Hg Hgs]; subst.
    destruct same.
    + cbn in Hp. injection Hp as <-. split; [|split].
      * constructor; [|assumption].
        destruct Hg as (rest & Hm & Hall). exists (rest ++ [item]).
        cbn. rewrite Hm. split; [reflexivity|].
        apply Forall_app. split; [assumption|].
        constructor; [|constructor]. unfold identical. now rewrite Hsame.
      * cbn. rewrite <- app_assoc. cbn.
        symmetry. apply Permutation_middle.
      * reflexivity.
    + destruct (place_in_group item gs) as [placed more] eqn:Hpl.
      cbn in Hp. destruct placed as [gs'|]; [|discriminate].
      cbn in Hp. injection Hp as <-.
      destruct (IH gs' eq_refl Hgs) as (Hok' & Hperm & Hreps).
      split; [|split].
      * constructor; assumption.
      * cbn. rewrite Hperm. symmetry. apply Permutation_middle.
      * cbn. now rewrite Hreps.
Qed.

Lemma place_in_group_none (item : T) (groups : list (identity_group T)) :
  fst (place_in_group item groups) = None ->
  Forall (fun g => ~ identical item (representative g)) groups.
Proof.
  induction groups as [|g gs IH]; intros Hp; [constructor|].
  cbn in Hp.
  destruct (are_items_identical_by_type item (representative g))
    as [same lines] eqn:Hsame.
  destruct same; [discriminate|].
  destruct (place_in_group item gs) as [placed more] eqn:Hpl.
  cbn in Hp. destruct placed; [discriminate|].
  constructor; [|now apply IH].
  unfold identical. rewrite Hsame. discriminate.
Qed.

Lemma group_items_from_ok (todo : list T) (groups : list (identity_group T)) :
  Forall group_ok groups ->
  Forall group_ok (fst (group_items_from todo groups))
  /\ concat (map members (fst (group_items_from todo groups)))
     ≡ₚ concat (map members groups) ++ todo.
Proof.
  revert groups. induction todo as [|item rest IH]; intros groups Hok.
  - cbn. rewrite app_nil_r. auto.
  - cbn. destruct (place_in_group item groups) as [placed lines] eqn:Hp.
    destruct placed as [gs|].
    + destruct (place_in_group_some item groups gs) as (Hok' & Hperm & _);
        [now rewrite Hp | assumption |].
      destruct (IH gs Hok') as (H1 & H2).
      destruct (group_items_from rest gs) as [result more]. cbn in *.
      split; [assumption|]. rewrite H2, Hperm.
      rewrite <- Permutation_middle. reflexivity.
    + assert (Hok' : Forall group_ok (groups ++ [IdentityGroup item [item]])).
      { apply Forall_app. split; [assumption|].
        constructor; [|constructor]. exists []. cbn. auto. }
      destruct (IH _ Hok') as (H1 & H2).
      destruct (group_items_from rest (groups ++ [IdentityGroup item [item]]))
        as [result more]. cbn in *.
      split; [assumption|]. rewrite H2.
      rewrite map_app, concat_app. cbn. rewrite <- app_assoc. reflexivity.
Qed.

(** The identity groups partition the items, and every member of a group
    other than its representative compared identical to it. *)
Lemma group_items_by_identity_ok (todo : list T) :
  Forall group_ok (fst (group_items_by_identity todo))
  /\ concat (map members (fst (group_items_by_identity todo))) ≡ₚ todo.
Proof.
  destruct (group_items_from_ok todo []) as (H1 & H2); [constructor|].
  split; assumption.
Qed.

(** ** Grouping by base name *)

(** The entry of a dict kept in insertion order. *)
Fixpoint dict_items (key : string) (d : list (string * list T)) : list T :=
  match d with
  | [] => []
  | (k, l) :: rest => if String.eqb k key then l else dict_items key rest
  end.

Lemma setdefault_append_same (key : string) (item : T) (d : list (string * list T)) :
  dict_items key (setdefault_append key item d) = dict_items key d ++ [item].
Proof.
  induction d as [|[k l] rest IH]; cbn.
  - now rewrite String.eqb_refl.
  - destruct (String.eqb k key) eqn:E; cbn; rewrite E; [reflexivity | exact IH].
Qed.

Lemma setdefault_append_other (key k : string) (item : T)
    (d : list (string * list T)) :
  k <> key ->
  dict_items k (setdefault_append key item d) = dict_items k d.
Proof.
  intros Hne. induction d as [|[k' l] rest IH]; cbn.
  - apply String.eqb_neq in Hne. rewrite String.eqb_sym in Hne. now rewrite Hne.
  - destruct (String.eqb k' key) eqn:E; cbn.
    + apply String.eqb_eq in E. subst k'.
      destruct (String.eqb key k) eqn:E2; [|reflexivity].
      apply String.eqb_eq in E2. congruence.
    + destruct (String.eqb k' k); [reflexivity | exact IH].
Qed.

Lemma setdefault_append_keys (key : string) (item : T)
    (d : list (string * list T)) :
  map fst (setdefault_append key item d)
  = if bool_decide (key ∈ map fst d) then map fst d else map fst d ++ [key].
Proof.
  induction d as [|[k l] rest IH]; cbn; [reflexivity|].
  destruct (String.eqb k key) eqn:E; cbn.
  - apply String.eqb_eq in E. subst.
    rewrite bool_decide_eq_true_2 by apply list_elem_of_here. reflexivity.
  - apply String.eqb_neq in E. rewrite IH.
    destruct (bool_decide (key ∈ map fst rest)) eqn:B.
    + apply bool_decide_eq_true in B.
      rewrite bool_decide_eq_true_2 by now apply list_elem_of_further.
      reflexivity.
    + apply bool_decide_eq_false in B.
      rewrite bool_decide_eq_false_2; [reflexivity|].
      intros Hin. apply elem_of_cons in Hin as [?|?]; congruence.
Qed.

Lemma setdefault_append_NoDup (key : string) (item : T)
    (d : list (string * list T)) :
  NoDup (map fst d) -> NoDup (map fst (setdefault_append key item d)).
Proof.
  intros Hnd. rewrite setdefault_append_keys.
  destruct (bool_decide (key ∈ map fst d)) eqn:B; [assumption|].
  apply bool_decide_eq_false in B.
  apply NoDup_app. repeat split.
  - assumption.
  - intros x Hx Hk. apply list_elem_of_singleton in Hk. subst. contradiction.
  - apply NoDup_singleton.
Qed.

Lemma dict_items_In (k : string) (l : list T) (d : list (string * list T)) :
  NoDup (map fst d) -> In (k, l) d -> dict_items k d = l.
Proof.
  induction d as [|[k' l'] rest IH]; cbn; intros Hnd Hin; [contradiction|].
  apply NoDup_cons in Hnd as [Hni Hnd'].
  destruct Hin as [[= -> ->] | Hin].
  - now rewrite String.eqb_refl.
  - destruct (String.eqb k' k) eqn:E; [|now apply IH].
    apply String.eqb_eq in E. subst. exfalso. apply Hni.
    apply list_elem_of_In. apply (in_map fst) in Hin. exact Hin.
Qed.

Definition add_by_base_name (d : list (string * list T)) (item : T)
  : list (string * list T) :=
  setdefault_append (get_base_name (name_of item)) item d.

Lemma fold_base_groups (collection : list T) (d : list (string * list T))
    (k : string) :
  dict_items k (fold_left add_by_base_name collection d)
  = dict_items k d ++ List.filter (has_base k) collection.
Proof.
  revert d. induction collection as [|item rest IH]; intros d; cbn.
  - now rewrite app_nil_r.
  - rewrite IH. unfold add_by_base_name at 1. unfold has_base at 2.
    destruct (String.eqb (get_base_name (name_of item)) k) eqn:E.
    + apply String.eqb_eq in E. subst k.
      rewrite setdefault_append_same, <- app_assoc. reflexivity.
    + apply String.eqb_neq in E.
      rewrite setdefault_append_other by congruence. reflexivity.
Qed.

Lemma fold_base_groups_NoDup (collection : list T) (d : list (string * list T)) :
  NoDup (map fst d) ->
  NoDup (map fst (fold_left add_by_base_name collection d)).
Proof.
  revert d. induction collection as [|item rest IH]; intros d Hnd; cbn;
    [assumption|].
  apply IH. now apply setdefault_append_NoDup.
Qed.

(** Each entry of [base_groups] holds the items of the collection that
    bear its base name, in the order of the collection. *)
Lemma group_by_base_name_entries (collection : list T) (k : string) (l : list T) :
  In (k, l) (group_by_base_name collection) ->
  l = List.filter (has_base k) collection.
Proof.
  intros Hin. unfold group_by_base_name in *.
  change (fun d item => setdefault_append (get_base_name (name_of item)) item d)
    with add_by_base_name in *.
  rewrite <- (dict_items_In k l _ (fold_base_groups_NoDup collection []
                                      (NoDup_nil_2)) Hin).
  now rewrite fold_base_groups.
Qed.

Lemma group_by_base_name_NoDup (collection : list T) :
  NoDup (map fst (group_by_base_name collection)).
Proof.
  apply (fold_base_groups_NoDup collection []). constructor.
Qed.

(** ** [analyze_data_conflicts_with_grouping] *)

Lemma analyze_groups_entries (base_groups : list (string * list T))
    (base : string) (info : conflict_info T) :
  In (base, info) (fst (analyze_groups base_groups)) ->
  In (base, items info) base_groups
  /\ (2 <= length (items info))%nat
  /\ identity_groups info = fst (group_items_by_identity (items info))
  /\ local_items info = List.filter (fun i => negb (linked i)) (items info)
  /\ linked_items info = List.filter linked (items info).
Proof.
  induction base_groups as [|[b its] rest IH]; cbn; [contradiction|].
  destruct (length its <=? 1)%nat eqn:Hlen.
  - intros Hin. destruct (IH Hin) as (H1 & H2). split; [now right | exact H2].
  - destruct (group_items_by_identity its) as [groups lines] eqn:Hg.
    destruct (analyze_groups rest) as [result more] eqn:Hr.
    cbn. intros [[= <- <-] | Hin].
    + cbn [items identity_groups local_items linked_items fst].
      rewrite Hg. apply Nat.leb_gt in Hlen. repeat split; auto; lia.
    + destruct (IH Hin) as (H1 & H2). split; [now right | exact H2].
Qed.

Lemma analyze_groups_complete (base_groups : list (string * list T))
    (base : string) (its : list T) :
  In (base, its) base_groups -> (2 <= length its)%nat ->
  exists info, In (base, info) (fst (analyze_groups base_groups))
               /\ items info = its.
Proof.
  induction base_groups as [|[b l] rest IH]; cbn; [contradiction|].
  intros Hin Hlen.
  destruct (length l <=? 1)%nat eqn:Hl.
  - destruct Hin as [[= -> ->] | Hin]; [apply Nat.leb_le in Hl; lia|].
    now apply IH.
  - destruct (group_items_by_identity l) as [groups lines].
    destruct (analyze_groups rest) as [result more] eqn:Hr. cbn.
    destruct Hin as [[= -> ->] | Hin].
    + eexists. split; [left; reflexivity | reflexivity].
    + destruct (IH Hin Hlen) as (info & H1 & H2). exists info. auto.
Qed.

Lemma analyze_groups_keys (base_groups : list (string * list T)) :
  sublist (map fst (fst (analyze_groups base_groups))) (map fst base_groups).
Proof.
  induction base_groups as [|[b its] rest IH]; cbn; [constructor|].
  destruct (length its <=? 1)%nat.
  - now apply sublist_cons.
  - destruct (group_items_by_identity its) as [groups lines].
    destruct (analyze_groups rest) as [result more]. cbn in *.
    now apply sublist_skip.
Qed.
Lemma dict_items_nonempty_In (k : string) (d : list (string * list T)) :
  dict_items k d <> [] -> In (k, dict_items k d) d.
Proof.
  induction d as [|[k' l] rest IH]; cbn; [congruence|].
  destruct (String.eqb k' k) eqn:E.
  - apply String.eqb_eq in E. subst. now left.
  - intros H. right. now apply IH.
Qed.

Lemma group_by_base_name_complete (collection : list T) (base : string) :
  List.filter (has_base base) collection <> [] ->
  In (base, List.filter (has_base base) collection) (group_by_base_name collection).
Proof.
  intros Hne.
  pose proof (fold_base_groups collection [] base) as Hd. cbn in Hd.
  unfold group_by_base_name.
  change (fun d item => setdefault_append (get_base_name (name_of item)) item d)
    with add_by_base_name.
  rewrite <- Hd. apply dict_items_nonempty_In. now rewrite Hd.
Qed.
End Analysis.

(** ** The comparison of each data type, in the words of the
    specification *)











(** What an entry of the analysis holds. *)
Lemma analysis_entries (T : Type) (Op : CleanupOperator T) (collection : list T)
    (base : string) (info : conflict_info T) :
  In (base, info) (fst (analyze_data_conflicts_with_grouping collection)) ->
  items info = List.filter (has_base base) collection
  /\ (2 <= length (items info))%nat
  /\ Forall group_ok (identity_groups info)
  /\ concat (map members (identity_groups info)) ≡ₚ items info.
Proof.
  unfold analyze_data_conflicts_with_grouping. intros Hin.
  apply analyze_groups_entries in Hin as (Hin & Hlen & Hg & _).
  apply group_by_base_name_entries in Hin.
  destruct (group_items_by_identity_ok (items info)) as (Hok & Hperm).
  rewrite Hg. auto.
Qed.


(** Three materials called Wood; the third one is rougher. *)
Definition wood (ptr : nat) (name : string) (rough : float) : material :=
  Material (MkID ptr name None) false [0.75; 0.5; 0.25; 1]%float 0%float rough None.

Definition example_materials : list material :=
  [wood 1 "Wood" 0.5%float; wood 2 "Wood.001" 0.5%float; wood 3 "Wood.002" 0.875%float].


Example example_materials_groups :
  map (fun g => map (fun m => id_name (mat_id m)) (members g))
      (fst (group_items_by_identity example_materials))
  = [["Wood"; "Wood.001"]; ["Wood.002"]].
Proof. vm_compute. reflexivity. Qed.

(** ** The known consumers of a datablock

    For each data type, the places its [_remap_data] looks at. *)

Definition node_uses_material (p : nat) (n : node) : bool :=
  bool_decide (node_material n = Some (Some p)).

Definition node_uses_group (p : nat) (n : node) : bool :=
  String.eqb (node_type n) "GROUP" && bool_decide (node_node_tree n = Some (Some p)).

Definition node_uses_image (p : nat) (n : node) : bool :=
  String.eqb (node_type n) "TEX_IMAGE" && bool_decide (node_image n = Some (Some p)).

Definition tree_uses (uses : node -> bool) (tree : option (list node)) : bool :=
  match tree with Some nodes => existsb uses nodes | None => false end.

(** An object material slot or a node of a node group holds the
    material. *)
Definition material_consumer (d : bpy_data) (p : nat) : bool :=
  existsb (fun obj => match obj_material_slots obj with
                      | Some slots => existsb (fun s => bool_decide (s = Some p)) slots
                      | None => false
                      end) (objects d)
  || existsb (fun ng => existsb (node_uses_material p) (ng_nodes ng)) (node_groups d).

(** A group node of another node group, of a material or of a world, or
    a geometry-nodes modifier holds the node group. *)
Definition node_group_consumer (d : bpy_data) (p : nat) : bool :=
  existsb (fun ng => negb (id_ptr (ng_id ng) =? p)%nat
                     && existsb (node_uses_group p) (ng_nodes ng)) (node_groups d)
  || existsb (fun obj =>
                existsb (fun m => String.eqb (mod_type m) "NODES"
                                  && bool_decide (mod_node_group m = Some (Some p)))
                        (obj_modifiers obj)) (objects d)
  || existsb (fun mat => tree_uses (node_uses_group p) (mat_node_tree mat)) (materials d)
  || existsb (fun w => tree_uses (node_uses_group p) (world_node_tree w)) (worlds d).

(** An image texture node of a material, of a node group or of a world
    holds the image. *)
Definition image_consumer (d : bpy_data) (p : nat) : bool :=
  existsb (fun mat => tree_uses (node_uses_image p) (mat_node_tree mat)) (materials d)
  || existsb (fun ng => existsb (node_uses_image p) (ng_nodes ng)) (node_groups d)
  || existsb (fun w => tree_uses (node_uses_image p) (world_node_tree w)) (worlds d).

Lemma existsb_map_false {A} (f : A -> bool) (g : A -> A) (l : list A) :
  (forall x, f (g x) = false) -> existsb f (map g l) = false.
Proof.
  intros H. induction l as [|x l IH]; cbn; [reflexivity|]. now rewrite H, IH.
Qed.

Lemma repoint_clears (old new : nat) (p : option nat) :
  old <> new -> bool_decide (repoint old new p = Some old) = false.
Proof.
  intros Hne. apply bool_decide_eq_false. unfold repoint.
  destruct (bool_decide (p = Some old)) eqn:E.
  - congruence.
  - now apply bool_decide_eq_false in E.
Qed.

Lemma remap_node_material_clears (old new : nat) (n : node) :
  old <> new -> node_uses_material old (remap_node_material old new n) = false.
Proof.
  intros Hne. unfold node_uses_material, remap_node_material.
  destruct (node_material n) as [p|] eqn:E; cbn.
  - apply bool_decide_eq_false. intros [= H].
    pose proof (repoint_clears old new p Hne) as Hc.
    apply bool_decide_eq_false in Hc. contradiction.
  - rewrite E. now apply bool_decide_eq_false.
Qed.

Lemma remap_group_node_clears (old new : nat) (n : node) :
  old <> new -> node_uses_group old (remap_group_node old new n) = false.
Proof.
  intros Hne. unfold node_uses_group, remap_group_node.
  destruct (String.eqb (node_type n) "GROUP") eqn:Et; [|now rewrite Et].
  destruct (node_node_tree n) as [p|] eqn:E; cbn.
  - rewrite Et. cbn. apply bool_decide_eq_false. intros [= H].
    pose proof (repoint_clears old new p Hne) as Hc.
    apply bool_decide_eq_false in Hc. contradiction.
  - rewrite Et, E. cbn. now apply bool_decide_eq_false.
Qed.

Lemma remap_image_node_clears (old new : nat) (n : node) :
  old <> new -> node_uses_image old (remap_image_node old new n) = false.
Proof.
  intros Hne. unfold node_uses_image, remap_image_node.
  destruct (String.eqb (node_type n) "TEX_IMAGE") eqn:Et; [|now rewrite Et].
  destruct (node_image n) as [p|] eqn:E; cbn.
  - rewrite Et. cbn. apply bool_decide_eq_false. intros [= H].
    pose proof (repoint_clears old new p Hne) as Hc.
    apply bool_decide_eq_false in Hc. contradiction.
  - rewrite Et, E. cbn. now apply bool_decide_eq_false.
Qed.

Lemma tree_uses_map_false (uses : node -> bool) (f : node -> node)
    (tree : option (list node)) :
  (forall n, uses (f n) = false) -> tree_uses uses (option_map (map f) tree) = false.
Proof.
  intros H. destruct tree as [nodes|]; cbn; [|reflexivity].
  now apply existsb_map_false.
Qed.

Lemma remap_material_clears (a b : material) (d : bpy_data) :
  id_ptr (mat_id a) <> id_ptr (mat_id b) ->
  material_consumer (remap_material a b d) (id_ptr (mat_id a)) = false.
Proof.
  intros Hne. unfold material_consumer, remap_material. cbn.
  apply orb_false_iff. split.
  - apply existsb_map_false. intros obj. cbn.
    destruct (obj_material_slots obj) as [slots|]; cbn; [|reflexivity].
    apply existsb_map_false. intros s. now apply repoint_clears.
  - apply existsb_map_false. intros ng. cbn.
    apply existsb_map_false. intros n. now apply remap_node_material_clears.
Qed.

Lemma remap_node_group_clears (a b : node_group) (d : bpy_data) :
  id_ptr (ng_id a) <> id_ptr (ng_id b) ->
  node_group_consumer (remap_node_group a b d) (id_ptr (ng_id a)) = false.
Proof.
  intros Hne. unfold node_group_consumer, remap_node_group. cbn.
  repeat (apply orb_false_iff; split).
  - apply existsb_map_false. intros ng.
    destruct (id_ptr (ng_id ng) =? id_ptr (ng_id a))%nat eqn:E.
    + now rewrite E.
    + cbn. rewrite E. cbn. apply existsb_map_false. intros n.
      now apply remap_group_node_clears.
  - apply existsb_map_false. intros obj. cbn.
    apply existsb_map_false. intros m. unfold remap_modifier.
    destruct (String.eqb (mod_type m) "NODES") eqn:Et; [|now rewrite Et].
    destruct (mod_node_group m) as [p|] eqn:E; cbn.
    + rewrite Et. cbn. apply bool_decide_eq_false. intros [= H].
      pose proof (repoint_clears _ _ p Hne) as Hc.
      apply bool_decide_eq_false in Hc. contradiction.
    + rewrite Et, E. cbn. now apply bool_decide_eq_false.
  - apply existsb_map_false. intros mat. cbn.
    apply tree_uses_map_false. intros n. now apply remap_group_node_clears.
  - apply existsb_map_false. intros w. cbn.
    apply tree_uses_map_false. intros n. now apply remap_group_node_clears.
Qed.

Lemma remap_image_clears (a b : image) (d : bpy_data) :
  id_ptr (img_id a) <> id_ptr (img_id b) ->
  image_consumer (remap_image a b d) (id_ptr (img_id a)) = false.
Proof.
  intros Hne. unfold image_consumer, remap_image. cbn.
  repeat (apply orb_false_iff; split).
  - apply existsb_map_false. intros mat. cbn.
    apply tree_uses_map_false. intros n. now apply remap_image_node_clears.
  - apply existsb_map_false. intros ng. cbn.
    apply existsb_map_false. intros n. now apply remap_image_node_clears.
  - apply existsb_map_false. intros w. cbn.
    apply tree_uses_map_false. intros n. now apply remap_image_node_clears.
Qed.

(** What the engine needs of an operator: its collection can be
    replaced, remapping leaves the headers of the collection alone, and
    after [_remap_data(a, b)] no known consumer holds [a]. *)
Class CleanupLaws {T : Type} (Op : CleanupOperator T) : Type := {
  known_consumer : bpy_data -> nat -> bool;
  collection_set : forall (l : list T) (d : bpy_data),
    data_collection (set_data_collection l d) = l;
  remap_keeps_ids : forall (a b : T) (d : bpy_data),
    map block_id (data_collection (remap_data a b d))
    = map block_id (data_collection d);
  remap_clears : forall (a b : T) (d : bpy_data),
    ptr_of a <> ptr_of b -> known_consumer (remap_data a b d) (ptr_of a) = false
}.

Lemma remap_node_group_ids (a b : node_group) (d : bpy_data) :
  map ng_id (node_groups (remap_node_group a b d)) = map ng_id (node_groups d).
Proof.
  unfold remap_node_group. cbn. rewrite map_map. apply map_ext.
  intros ng. now destruct (id_ptr (ng_id ng) =? id_ptr (ng_id a))%nat.
Qed.

#[global] Instance materials_laws : CleanupLaws CLEANUP_OT_clean_materials := {
  known_consumer := material_consumer;
  collection_set := fun l d => eq_refl;
  remap_keeps_ids := fun a b d => eq_refl;
  remap_clears := remap_material_clears
}.

#[global] Instance node_groups_laws : CleanupLaws CLEANUP_OT_clean_node_groups := {
  known_consumer := node_group_consumer;
  collection_set := fun l d => eq_refl;
  remap_keeps_ids := remap_node_group_ids;
  remap_clears := remap_node_group_clears
}.

#[global] Instance images_laws (P : path_functions)
  : CleanupLaws (CLEANUP_OT_clean_images P) := {
  known_consumer := image_consumer;
  collection_set := fun l d => eq_refl;
  remap_keeps_ids := fun a b d => eq_refl;
  remap_clears := remap_image_clears
}.
End CleanUpFacts.
(* ===================================================================== *)
(** * What remapping does to a scene                                      *)
(* ===================================================================== *)

Module RemapFacts.
Import Py Py.Notations Bpy CleanUp CleanUpFacts.

(** ** The consumer slots of each data type

    The pointers that the [_remap_data] of a data type looks at, in the
    order of the scene.  An unset pointer is [None]. *)

(** [slot.material] of every material slot of every object, then
    [node.material] of every node of a node group that has the
    attribute. *)
Definition material_slots (d : bpy_data) : list (option nat) :=
  concat (map (fun obj => default [] (obj_material_slots obj)) (objects d))
  ++ concat (map (fun ng => omap node_material (ng_nodes ng)) (node_groups d)).

(** [node.node_tree] of the group nodes among [nodes]. *)
Definition group_node_slots (nodes : list node) : list (option nat) :=
  omap (fun n => if String.eqb (node_type n) "GROUP" then node_node_tree n else None)
    nodes.

(** [node.image] of the image texture nodes among [nodes]. *)
Definition image_node_slots (nodes : list node) : list (option nat) :=
  omap (fun n => if String.eqb (node_type n) "TEX_IMAGE" then node_image n else None)
    nodes.

(** [mod.node_group] of the geometry-nodes modifiers among [mods]. *)
Definition modifier_slots (mods : list modifier) : list (option nat) :=
  omap (fun m => if String.eqb (mod_type m) "NODES" then mod_node_group m else None)
    mods.

(** For the node group [p]: the group nodes of the other node groups,
    the geometry-nodes modifiers of the objects, the group nodes of the
    materials and of the worlds. *)
Definition node_group_slots (p : nat) (d : bpy_data) : list (option nat) :=
  concat (map (fun ng => if (id_ptr (ng_id ng) =? p)%nat then []
                         else group_node_slots (ng_nodes ng)) (node_groups d))
  ++ concat (map (fun obj => modifier_slots (obj_modifiers obj)) (objects d))
  ++ concat (map (fun mat => group_node_slots (default [] (mat_node_tree mat)))
               (materials d))
  ++ concat (map (fun w => group_node_slots (default [] (world_node_tree w)))
               (worlds d)).

(** The image texture nodes of the materials, of the node groups and of
    the worlds. *)
Definition image_slots (d : bpy_data) : list (option nat) :=
  concat (map (fun mat => image_node_slots (default [] (mat_node_tree mat)))
            (materials d))
  ++ concat (map (fun ng => image_node_slots (ng_nodes ng)) (node_groups d))
  ++ concat (map (fun w => image_node_slots (default [] (world_node_tree w)))
               (worlds d)).

(** What a remapping from [old] to [new] does to a slot that held [p]:
    it holds [new] if it held [old], and what it held otherwise. *)
Definition moved (old new : nat) (p q : option nat) : Prop :=
  (p = Some old /\ q = Some new) \/ (p <> Some old /\ q = p).

Lemma repoint_moved (old new : nat) (p : option nat) :
  moved old new p (repoint old new p).
Proof.
  unfold moved, repoint. destruct (bool_decide (p = Some old)) eqn:E.
  - apply bool_decide_eq_true in E. now left.
  - apply bool_decide_eq_false in E. now right.
Qed.

Lemma Forall2_map_same {A B} (P : B -> B -> Prop) (f g : A -> B) (l : list A) :
  (forall a, P (f a) (g a)) -> Forall2 P (map f l) (map g l).
Proof. intros H. induction l; cbn; constructor; auto. Qed.

Lemma Forall2_concat_map {A B} (P : B -> B -> Prop) (f g : A -> list B)
    (l : list A) :
  (forall a, Forall2 P (f a) (g a)) ->
  Forall2 P (concat (map f l)) (concat (map g l)).
Proof.
  intros H. induction l as [|a l IH]; cbn; [constructor|].
  apply Forall2_app; auto.
Qed.

Lemma Forall2_omap_map {A B} (P : B -> B -> Prop) (f : A -> option B)
    (g : A -> A) (l : list A) :
  (forall a, match f a, f (g a) with
             | Some p, Some q => P p q
             | None, None => True
             | _, _ => False
             end) ->
  Forall2 P (omap f l) (omap f (map g l)).
Proof.
  intros H. induction l as [|a l IH]; cbn; [constructor|].
  specialize (H a). destruct (f a), (f (g a)); try contradiction;
    [constructor|]; assumption.
Qed.

(** ** Materials *)

Lemma remap_material_moves (a b : material) (d : bpy_data) :
  Forall2 (moved (id_ptr (mat_id a)) (id_ptr (mat_id b)))
    (material_slots d) (material_slots (remap_material a b d)).
Proof.
  unfold material_slots, remap_material. cbn [objects node_groups].
  apply Forall2_app.
  - rewrite map_map. apply Forall2_concat_map. intros obj. cbn.
    destruct (obj_material_slots obj) as [slots|]; cbn; [|constructor].
    rewrite <- (map_id slots) at 1. apply Forall2_map_same.
    intros p. apply repoint_moved.
  - rewrite map_map. apply Forall2_concat_map. intros ng. cbn.
    apply Forall2_omap_map. intros n. unfold remap_node_material.
    destruct (node_material n) as [p|] eqn:E; cbn; [|now rewrite E].
    apply repoint_moved.
Qed.

Lemma In_concat_map {A B} (f : A -> list B) (l : list A) (y : B) :
  In y (concat (map f l)) <-> exists x, In x l /\ In y (f x).
Proof.
  rewrite in_concat. split.
  - intros (ys & Hys & Hy). apply in_map_iff in Hys as (x & <- & Hx). eauto.
  - intros (x & Hx & Hy). exists (f x). split; [now apply in_map | assumption].
Qed.

Lemma In_omap {A B} (f : A -> option B) (l : list A) (y : B) :
  In y (omap f l) <-> exists x, In x l /\ f x = Some y.
Proof.
  induction l as [|a l IH]; cbn.
  - split; [contradiction | now intros (x & [] & _)].
  - destruct (f a) as [b|] eqn:E; cbn; rewrite ?IH; split.
    + intros [-> | (x & Hx & Hf)]; [exists a; auto | exists x; auto].
    + intros (x & [-> | Hx] & Hf); [left; congruence | right; eauto].
    + intros (x & Hx & Hf). exists x. auto.
    + intros (x & [-> | Hx] & Hf); [congruence | eauto].
Qed.

(** The slots are the places [material_consumer] looks at. *)
Lemma material_consumer_slots (d : bpy_data) (p : nat) :
  material_consumer d p = true <-> In (Some p) (material_slots d).
Proof.
  unfold material_consumer, material_slots.
  rewrite orb_true_iff, in_app_iff, !In_concat_map, !existsb_exists.
  split; intros [H | H]; [left | right | left | right].
  - destruct H as (obj & Hobj & H). exists obj. split; [assumption|].
    destruct (obj_material_slots obj) as [slots|]; [|discriminate]. cbn.
    apply existsb_exists in H as (s & Hs & E).
    apply bool_decide_eq_true in E. now subst.
  - destruct H as (ng & Hng & H). exists ng. split; [assumption|].
    apply existsb_exists in H as (n & Hn & E). apply In_omap. exists n.
    split; [assumption|]. unfold node_uses_material in E.
    now apply bool_decide_eq_true in E.
  - destruct H as (obj & Hobj & H). exists obj. split; [assumption|].
    destruct (obj_material_slots obj) as [slots|]; [|contradiction]. cbn in H.
    apply existsb_exists. exists (Some p). split; [assumption|].
    now apply bool_decide_eq_true.
  - destruct H as (ng & Hng & H). exists ng. split; [assumption|].
    apply In_omap in H as (n & Hn & E). apply existsb_exists. exists n.
    split; [assumption|]. unfold node_uses_material.
    now apply bool_decide_eq_true.
Qed.

(** ** Node groups *)

Lemma group_node_slots_moves (old new : nat) (nodes : list node) :
  Forall2 (moved old new) (group_node_slots nodes)
    (group_node_slots (map (remap_group_node old new) nodes)).
Proof.
  apply Forall2_omap_map. intros n. unfold remap_group_node.
  destruct (String.eqb (node_type n) "GROUP") eqn:Et; [|now rewrite Et].
  destruct (node_node_tree n) as [p|] eqn:E; cbn; rewrite Et.
  - apply repoint_moved.
  - now rewrite E.
Qed.

Lemma tree_group_slots_moves (old new : nat) (tree : option (list node)) :
  Forall2 (moved old new) (group_node_slots (default [] tree))
    (group_node_slots
       (default [] (option_map (map (remap_group_node old new)) tree))).
Proof.
  destruct tree as [nodes|]; cbn; [apply group_node_slots_moves | constructor].
Qed.

Lemma remap_node_group_moves (a b : node_group) (d : bpy_data) :
  Forall2 (moved (id_ptr (ng_id a)) (id_ptr (ng_id b)))
    (node_group_slots (id_ptr (ng_id a)) d)
    (node_group_slots (id_ptr (ng_id a)) (remap_node_group a b d)).
Proof.
  unfold node_group_slots, remap_node_group.
  cbn [objects node_groups materials worlds].
  repeat apply Forall2_app; rewrite map_map; apply Forall2_concat_map.
  - intros ng. destruct (id_ptr (ng_id ng) =? id_ptr (ng_id a))%nat eqn:E.
    + rewrite E. constructor.
    + cbn. rewrite E. apply group_node_slots_moves.
  - intros obj. cbn. unfold modifier_slots.
    apply Forall2_omap_map. intros m. unfold remap_modifier.
    destruct (String.eqb (mod_type m) "NODES") eqn:Et; [|now rewrite Et].
    destruct (mod_node_group m) as [p|] eqn:E; cbn; rewrite Et.
    * apply repoint_moved.
    * now rewrite E.
  - intros mat. cbn. apply tree_group_slots_moves.
  - intros w. cbn. apply tree_group_slots_moves.
Qed.

Lemma In_group_node_slots (p : nat) (nodes : list node) :
  In (Some p) (group_node_slots nodes) <-> existsb (node_uses_group p) nodes = true.
Proof.
  unfold group_node_slots. rewrite In_omap, existsb_exists.
  split; intros (n & Hn & H); exists n; (split; [assumption|]).
  - unfold node_uses_group.
    destruct (String.eqb (node_type n) "GROUP"); [|discriminate].
    now apply bool_decide_eq_true.
  - unfold node_uses_group in H. apply andb_true_iff in H as [Ht H].
    rewrite Ht. now apply bool_decide_eq_true in H.
Qed.

Lemma In_tree_group_slots (p : nat) (tree : option (list node)) :
  In (Some p) (group_node_slots (default [] tree))
  <-> tree_uses (node_uses_group p) tree = true.
Proof.
  destruct tree as [nodes|]; cbn; [apply In_group_node_slots|].
  split; [contradiction | discriminate].
Qed.

(** The slots are the places [node_group_consumer] looks at. *)
Lemma node_group_consumer_slots (d : bpy_data) (p : nat) :
  node_group_consumer d p = true <-> In (Some p) (node_group_slots p d).
Proof.
  unfold node_group_consumer, node_group_slots.
  rewrite !orb_true_iff, !in_app_iff, !In_concat_map, !existsb_exists.
  assert (H1 : (exists ng, In ng (node_groups d)
                  /\ negb (id_ptr (ng_id ng) =? p)%nat
                     && existsb (node_uses_group p) (ng_nodes ng) = true)
               <-> exists ng, In ng (node_groups d)
                     /\ In (Some p) (if (id_ptr (ng_id ng) =? p)%nat then []
                                     else group_node_slots (ng_nodes ng))).
  { split; intros (ng & Hng & H); exists ng; (split; [assumption|]);
      destruct (id_ptr (ng_id ng) =? p)%nat; cbn in *;
      try discriminate; try contradiction; now apply In_group_node_slots. }
  assert (H2 : (exists obj, In obj (objects d)
                  /\ existsb (fun m => String.eqb (mod_type m) "NODES"
                                && bool_decide (mod_node_group m = Some (Some p)))
                       (obj_modifiers obj) = true)
               <-> exists obj, In obj (objects d)
                     /\ In (Some p) (modifier_slots (obj_modifiers obj))).
  { split; intros (obj & Hobj & H); exists obj; (split; [assumption|]).
    - apply existsb_exists in H as (m & Hm & H). apply In_omap. exists m.
      split; [assumption|]. apply andb_true_iff in H as [Ht H]. rewrite Ht.
      now apply bool_decide_eq_true in H.
    - apply In_omap in H as (m & Hm & H). apply existsb_exists. exists m.
      split; [assumption|].
      destruct (String.eqb (mod_type m) "NODES"); [|discriminate].
      now apply bool_decide_eq_true. }
  assert (H3 : (exists mat, In mat (materials d)
                  /\ tree_uses (node_uses_group p) (mat_node_tree mat) = true)
               <-> exists mat, In mat (materials d)
                     /\ In (Some p)
                          (group_node_slots (default [] (mat_node_tree mat)))).
  { split; intros (x & Hx & H); exists x; (split; [assumption|]);
      now apply In_tree_group_slots. }
  assert (H4 : (exists w, In w (worlds d)
                  /\ tree_uses (node_uses_group p) (world_node_tree w) = true)
               <-> exists w, In w (worlds d)
                     /\ In (Some p)
                          (group_node_slots (default [] (world_node_tree w)))).
  { split; intros (x & Hx & H); exists x; (split; [assumption|]);
      now apply In_tree_group_slots. }
  rewrite H1, H2, H3, H4. tauto.
Qed.

(** ** Images *)

Lemma image_node_slots_moves (old new : nat) (nodes : list node) :
  Forall2 (moved old new) (image_node_slots nodes)
    (image_node_slots (map (remap_image_node old new) nodes)).
Proof.
  apply Forall2_omap_map. intros n. unfold remap_image_node.
  destruct (String.eqb (node_type n) "TEX_IMAGE") eqn:Et; [|now rewrite Et].
  destruct (node_image n) as [p|] eqn:E; cbn; rewrite Et.
  - apply repoint_moved.
  - now rewrite E.
Qed.

Lemma tree_image_slots_moves (old new : nat) (tree : option (list node)) :
  Forall2 (moved old new) (image_node_slots (default [] tree))
    (image_node_slots
       (default [] (option_map (map (remap_image_node old new)) tree))).
Proof.
  destruct tree as [nodes|]; cbn; [apply image_node_slots_moves | constructor].
Qed.

Lemma remap_image_moves (a b : image) (d : bpy_data) :
  Forall2 (moved (id_ptr (img_id a)) (id_ptr (img_id b)))
    (image_slots d) (image_slots (remap_image a b d)).
Proof.
  unfold image_slots, remap_image. cbn [node_groups materials worlds].
  repeat apply Forall2_app; rewrite map_map; apply Forall2_concat_map.
  - intros mat. cbn. apply tree_image_slots_moves.
  - intros ng. cbn. apply image_node_slots_moves.
  - intros w. cbn. apply tree_image_slots_moves.
Qed.

Lemma In_image_node_slots (p : nat) (nodes : list node) :
  In (Some p) (image_node_slots nodes) <-> existsb (node_uses_image p) nodes = true.
Proof.
  unfold image_node_slots. rewrite In_omap, existsb_exists.
  split; intros (n & Hn & H); exists n; (split; [assumption|]).
  - unfold node_uses_image.
    destruct (String.eqb (node_type n) "TEX_IMAGE"); [|discriminate].
    now apply bool_decide_eq_true.
  - unfold node_uses_image in H. apply andb_true_iff in H as [Ht H].
    rewrite Ht. now apply bool_decide_eq_true in H.
Qed.

Lemma In_tree_image_slots (p : nat) (tree : option (list node)) :
  In (Some p) (image_node_slots (default [] tree))
  <-> tree_uses (node_uses_image p) tree = true.
Proof.
  destruct tree as [nodes|]; cbn; [apply In_image_node_slots|].
  split; [contradiction | discriminate].
Qed.

(** The slots are the places [image_consumer] looks at. *)
Lemma image_consumer_slots (d : bpy_data) (p : nat) :
  image_consumer d p = true <-> In (Some p) (image_slots d).
Proof.
  unfold image_consumer, image_slots.
  rewrite !orb_true_iff, !in_app_iff, !In_concat_map, !existsb_exists.
  assert (H1 : (exists mat, In mat (materials d)
                  /\ tree_uses (node_uses_image p) (mat_node_tree mat) = true)
               <-> exists mat, In mat (materials d)
                     /\ In (Some p)
                          (image_node_slots (default [] (mat_node_tree mat)))).
  { split; intros (x & Hx & H); exists x; (split; [assumption|]);
      now apply In_tree_image_slots. }
  assert (H2 : (exists ng, In ng (node_groups d)
                  /\ existsb (node_uses_image p) (ng_nodes ng) = true)
               <-> exists ng, In ng (node_groups d)
                     /\ In (Some p) (image_node_slots (ng_nodes ng))).
  { split; intros (x & Hx & H); exists x; (split; [assumption|]);
      now apply In_image_node_slots. }
  assert (H3 : (exists w, In w (worlds d)
                  /\ tree_uses (node_uses_image p) (world_node_tree w) = true)
               <-> exists w, In w (worlds d)
                     /\ In (Some p)
                          (image_node_slots (default [] (world_node_tree w)))).
  { split; intros (x & Hx & H); exists x; (split; [assumption|]);
      now apply In_tree_image_slots. }
  rewrite H1, H2, H3. tauto.
Qed.

(** ** What the engine may assume of a remapping

    [_remap_data(a, b)] looks at the identities of [a] and [b] only, and
    it moves every consumer slot that held [a] to [b], leaving the other
    slots as they were. *)
Class RemapLaws {T : Type} (Op : CleanupOperator T) (Laws : CleanupLaws Op)
  : Type := {
  slots : nat -> bpy_data -> list (option nat);
  consumer_slots : forall (d : bpy_data) (p : nat),
    known_consumer d p = true <-> In (Some p) (slots p d);
  remap_ptr : nat -> nat -> bpy_data -> bpy_data;
  remap_by_ptr : forall (a b : T) (d : bpy_data),
    remap_data a b d = remap_ptr (ptr_of a) (ptr_of b) d;
  remap_moves : forall (old new : nat) (d : bpy_data),
    Forall2 (moved old new) (slots old d) (slots old (remap_ptr old new d))
}.

(** A datablock that has nothing but an identity. *)
Definition bare_material (p : nat) : material :=
  Material (MkID p "" None) false [] 0%float 0%float None.

Definition bare_node_group (p : nat) : node_group :=
  NodeGroup (MkID p "" None) [] [] NoInterface.

Definition bare_image (p : nat) : image :=
  Image (MkID p "" None) "" [] 0 0.

#[global] Instance materials_remap_laws
  : RemapLaws CLEANUP_OT_clean_materials materials_laws := {
  slots := fun _ => material_slots;
  consumer_slots := material_consumer_slots;
  remap_ptr := fun old new => remap_material (bare_material old) (bare_material new);
  remap_by_ptr := fun a b d => eq_refl;
  remap_moves := fun old new =>
    remap_material_moves (bare_material old) (bare_material new)
}.

#[global] Instance node_groups_remap_laws
  : RemapLaws CLEANUP_OT_clean_node_groups node_groups_laws := {
  slots := node_group_slots;
  consumer_slots := node_group_consumer_slots;
  remap_ptr := fun old new =>
    remap_node_group (bare_node_group old) (bare_node_group new);
  remap_by_ptr := fun a b d => eq_refl;
  remap_moves := fun old new =>
    remap_node_group_moves (bare_node_group old) (bare_node_group new)
}.

#[global] Instance images_remap_laws (P : path_functions)
  : RemapLaws (CLEANUP_OT_clean_images P) (images_laws P) := {
  slots := fun _ => image_slots;
  consumer_slots := image_consumer_slots;
  remap_ptr := fun old new => remap_image (bare_image old) (bare_image new);
  remap_by_ptr := fun a b d => eq_refl;
  remap_moves := fun old new =>
    remap_image_moves (bare_image old) (bare_image new)
}.

(** ** What the comparisons read

    Two states of a datablock have the same content when they differ
    only in the datablocks their nodes point to.  The comparisons do not
    read those pointers, and a remapping changes nothing else in the
    datablocks of the collection. *)
Class ComparisonLaws {T : Type} (Op : CleanupOperator T) : Type := {
  same_content : T -> T -> Prop;
  same_content_refl : forall x, same_content x x;
  same_content_trans : forall x y z,
    same_content x y -> same_content y z -> same_content x z;
  same_content_id : forall x y, same_content x y -> block_id x = block_id y;
  same_content_identical : forall x x' y y',
    same_content x x' -> same_content y y' ->
    fst (are_items_identical_by_type x y) = fst (are_items_identical_by_type x' y');
  remap_same_content : forall (a b : T) (d : bpy_data),
    Forall2 same_content (data_collection d) (data_collection (remap_data a b d))
}.

Lemma Forall2_eq_refl {A} (l : list A) : Forall2 eq l l.
Proof. induction l; constructor; auto. Qed.

#[global] Instance materials_comparison_laws
  : ComparisonLaws CLEANUP_OT_clean_materials := {
  same_content := eq;
  same_content_refl := fun x => eq_refl;
  same_content_trans := fun x y z => @eq_trans _ x y z;
  same_content_id := fun x y H => f_equal mat_id H;
  same_content_identical := fun x x' y y' Hx Hy =>
    f_equal2 (fun a b => fst (quiet (are_materials_identical a b))) Hx Hy;
  remap_same_content := fun a b d => Forall2_eq_refl (materials d)
}.

#[global] Instance images_comparison_laws (P : path_functions)
  : ComparisonLaws (CLEANUP_OT_clean_images P) := {
  same_content := eq;
  same_content_refl := fun x => eq_refl;
  same_content_trans := fun x y z => @eq_trans _ x y z;
  same_content_id := fun x y H => f_equal img_id H;
  same_content_identical := fun x x' y y' Hx Hy =>
    f_equal2 (fun a b => fst (quiet (are_images_identical P a b))) Hx Hy;
  remap_same_content := fun a b d => Forall2_eq_refl (images d)
}.

(** Two states of a node group: the same header, the same node types in
    the same order, the same links and the same interface. *)
Definition same_node_group (x y : node_group) : Prop :=
  ng_id x = ng_id y
  /\ map node_type (ng_nodes x) = map node_type (ng_nodes y)
  /\ ng_links x = ng_links y
  /\ ng_interface x = ng_interface y.

Lemma same_node_group_identical (x x' y y' : node_group) :
  same_node_group x x' -> same_node_group y y' ->
  fst (are_node_groups_identical x y) = fst (are_node_groups_identical x' y').
Proof.
  intros (Hi & Hn & Hl & Hf) (Hi' & Hn' & Hl' & Hf').
  unfold are_node_groups_identical.
  assert (Hlen : length (ng_nodes x) = length (ng_nodes x')).
  { rewrite <- (length_map node_type (ng_nodes x)), Hn. apply length_map. }
  assert (Hlen' : length (ng_nodes y) = length (ng_nodes y')).
  { rewrite <- (length_map node_type (ng_nodes y)), Hn'. apply length_map. }
  rewrite Hlen, Hlen', Hl, Hl', Hn, Hn', Hf, Hf'.
  destruct (negb _); [reflexivity|].
  destruct (negb _); [reflexivity|].
  destruct (compare_interfaces _ _) as [[|]|]; reflexivity.
Qed.

Lemma remap_node_group_same (a b : node_group) (d : bpy_data) :
  Forall2 same_node_group (node_groups d) (node_groups (remap_node_group a b d)).
Proof.
  unfold remap_node_group. cbn [node_groups].
  rewrite <- (map_id (node_groups d)) at 1. apply Forall2_map_same.
  intros ng. destruct (id_ptr (ng_id ng) =? id_ptr (ng_id a))%nat.
  - repeat split.
  - unfold map_group_nodes, same_node_group. cbn. repeat split.
    rewrite map_map. apply map_ext. intros n. unfold remap_group_node.
    destruct (String.eqb (node_type n) "GROUP"); [|reflexivity].
    now destruct (node_node_tree n).
Qed.

#[global] Instance node_groups_comparison_laws
  : ComparisonLaws CLEANUP_OT_clean_node_groups.
Proof.
  refine {| same_content := same_node_group;
            same_content_identical := same_node_group_identical;
            remap_same_content := remap_node_group_same |}.
  - intros x. repeat split.
  - intros x y z (H1 & H2 & H3 & H4) (H1' & H2' & H3' & H4').
    repeat split; congruence.
  - intros x y (H & _). exact H.
Defined.

End RemapFacts.


(* ===================================================================== *)
(** * What a run of the cleanup operators leaves behind                   *)
(* ===================================================================== *)

Module EngineFacts.
Import Py Py.Notations Bpy CleanUp CleanUpFacts.

(** ** Reasoning about computations *)

Section Preservation.
Context {H : Type}.

(** [m] keeps [I], whether it returns or raises. *)
Definition preserves {A} (I : world H -> Prop) (m : py H A) : Prop :=
  forall w, I w -> I (snd (m w)).

Lemma preserves_ret {A} (I : world H -> Prop) (a : A) : preserves I (ret a).
Proof. intros w Hw. exact Hw. Qed.

Lemma preserves_raise {A} (I : world H -> Prop) (e : exn) :
  preserves I (raise e : py H A).
Proof. intros w Hw. exact Hw. Qed.

Lemma preserves_bind {A B} (I : world H -> Prop) (m : py H A) (k : A -> py H B) :
  preserves I m -> (forall a, preserves I (k a)) -> preserves I (bind m k).
Proof.
  intros Hm Hk w Hw. unfold bind. specialize (Hm w Hw).
  destruct (m w) as [[a|e] w1]; cbn in *; [now apply Hk | assumption].
Qed.

Lemma preserves_get_host {B} (I : world H -> Prop) (k : H -> py H B) :
  (forall w, I w -> I (snd (k (host_state w) w))) ->
  preserves I (bind get_host k).
Proof. intros Hk w Hw. exact (Hk w Hw). Qed.

Lemma preserves_for_each {X} (I : world H -> Prop) (xs : list X)
    (body : X -> py H unit) :
  (forall x, In x xs -> preserves I (body x)) -> preserves I (for_each xs body).
Proof.
  induction xs as [|x rest IH]; intros Hb; cbn.
  - apply preserves_ret.
  - apply preserves_bind; [apply Hb; now left|].
    intros _. apply IH. intros y Hy. apply Hb. now right.
Qed.

Lemma preserves_try_except {A} (I : world H -> Prop) (body : py H A)
    (cs : list exc_class) (handler : exn -> py H A) :
  preserves I body -> (forall e, preserves I (handler e)) ->
  preserves I (try_except body cs handler).
Proof.
  intros Hb Hh w Hw. unfold try_except. specialize (Hb w Hw).
  destruct (body w) as [[a|e] w1]; cbn in *; [assumption|].
  destruct (caught_by cs e); [now apply Hh | assumption].
Qed.

(** Printing changes nothing but the console. *)
Lemma preserves_say {A} (I : world H -> Prop) (x : logged A) :
  (forall w lines, I w -> I (World (host_state w) (console w ++ lines))) ->
  preserves I (say x).
Proof. intros Hc w Hw. now apply Hc. Qed.

Lemma preserves_say_bind {A B} (I : world H -> Prop) (x : logged A)
    (k : A -> py H B) :
  (forall w lines, I w -> I (World (host_state w) (console w ++ lines))) ->
  preserves I (k (fst x)) -> preserves I (bind (say x) k).
Proof. intros Hc Hk w Hw. unfold bind, say. apply Hk. now apply Hc. Qed.

Lemma preserves_print (I : world H -> Prop) (line : string) :
  (forall w lines, I w -> I (World (host_state w) (console w ++ lines))) ->
  preserves I (print line).
Proof. intros Hc w Hw. now apply Hc. Qed.
End Preservation.

Section Engine.
Context {T : Type} {Op : CleanupOperator T} {Laws : CleanupLaws Op}.

(** The collection under cleanup, the headers of its datablocks, and the
    events so far. *)
Definition coll (w : world host) : list T := data_collection (data (host_state w)).
Definition ids (w : world host) : list ID := map block_id (coll w).
Definition events (w : world host) : list event := trace (host_state w).

Definition removes (p : nat) (e : event) : bool :=
  match e with
  | Removed a _ => (id_ptr a =? p)%nat
  | Remapped _ _ => false
  end.

(** The trace holds a removal of the datablock. *)
Definition removed_in (tr : list event) (i : ID) : bool :=
  existsb (removes (id_ptr i)) tr.

(** Every remapping is one that [Allowed] admits, and every removal comes
    right after the remapping of the datablock it removes, at a moment
    when no known consumer holds that datablock any more. *)
Definition remap_precedes_removal (Allowed : ID -> ID -> Prop)
    (tr : list event) : Prop :=
  (forall (i : nat) (a b : ID), tr !! i = Some (Remapped a b) -> Allowed a b)
  /\ (forall (i : nat) (a : ID) (d : bpy_data),
        tr !! i = Some (Removed a d) ->
        exists (j : nat) (b : ID),
          i = S j /\ tr !! j = Some (Remapped a b)
          /\ known_consumer d (id_ptr a) = false).

(** The collection is what is left of the headers [ids0] it started
    from once the removed datablocks are taken out, and the trace is in
    order. *)
Record Inv (Allowed : ID -> ID -> Prop) (ids0 : list ID) (w : world host)
  : Prop := MkInv {
  inv_coll : ids w = List.filter (fun i => negb (removed_in (events w) i)) ids0;
  inv_trace : remap_precedes_removal Allowed (events w)
}.

Lemma Inv_console (Allowed : ID -> ID -> Prop) (ids0 : list ID)
    (w : world host) (lines : list string) :
  Inv Allowed ids0 w -> Inv Allowed ids0 (World (host_state w) (console w ++ lines)).
Proof. intros [H1 H2]. split; assumption. Qed.

(** A world that differs in what the invariant does not look at. *)
Lemma Inv_frame (Allowed : ID -> ID -> Prop) (ids0 : list ID)
    (w w' : world host) :
  data (host_state w') = data (host_state w) ->
  trace (host_state w') = trace (host_state w) ->
  Inv Allowed ids0 w -> Inv Allowed ids0 w'.
Proof.
  intros Hd Ht [H1 H2]. split.
  - unfold ids, coll, events in *. now rewrite Hd, Ht.
  - unfold events in *. now rewrite Ht.
Qed.

Lemma preserves_count (Allowed : ID -> ID -> Prop) (ids0 : list ID)
    (f : counters -> counters) :
  preserves (Inv Allowed ids0) (count f).
Proof. intros w Hw. eapply Inv_frame; [| |exact Hw]; reflexivity. Qed.

Lemma preserves_report (Allowed : ID -> ID -> Prop) (ids0 : list ID)
    (level message : string) :
  preserves (Inv Allowed ids0) (report level message).
Proof. intros w Hw. eapply Inv_frame; [| |exact Hw]; reflexivity. Qed.

Lemma preserves_clear_selections (Allowed : ID -> ID -> Prop) (ids0 : list ID) :
  preserves (Inv Allowed ids0) clear_selections.
Proof. intros w Hw. eapply Inv_frame; [| |exact Hw]; reflexivity. Qed.

Lemma preserves_check_alive (Allowed : ID -> ID -> Prop) (ids0 : list ID)
    (its : list T) :
  preserves (Inv Allowed ids0) (check_alive its).
Proof.
  intros w Hw. unfold check_alive, bind, get_host. cbn.
  destruct (forallb _ its); exact Hw.
Qed.

(** ** The two steps of a removal *)

Lemma lookup_snoc {A} (l : list A) (x y : A) (i : nat) :
  (l ++ [x]) !! i = Some y ->
  (i < length l /\ l !! i = Some y)%nat \/ (i = length l /\ y = x).
Proof.
  intros Hl. destruct (decide (i < length l)%nat) as [Hlt|Hge].
  - left. split; [assumption|]. now rewrite lookup_app_l in Hl.
  - right. rewrite lookup_app_r in Hl by lia.
    destruct (i - length l)%nat as [|n] eqn:E; cbn in Hl; [|discriminate].
    injection Hl as <-. split; [lia | reflexivity].
Qed.

Lemma rpr_snoc_remap (Allowed : ID -> ID -> Prop) (tr : list event) (a b : ID) :
  remap_precedes_removal Allowed tr -> Allowed a b ->
  remap_precedes_removal Allowed (tr ++ [Remapped a b]).
Proof.
  intros [Hm Hr] Hab. split.
  - intros i a' b' Hl. apply lookup_snoc in Hl as [[_ Hl] | [_ [= -> ->]]].
    + now apply (Hm i).
    + assumption.
  - intros i a' d Hl. apply lookup_snoc in Hl as [[_ Hl] | [_ Heq]];
      [|discriminate].
    destruct (Hr i a' d Hl) as (j & b' & -> & Hj & Hk).
    exists j, b'. split; [reflexivity|]. split; [|assumption].
    rewrite lookup_app_l; [assumption|]. now apply lookup_lt_Some in Hj.
Qed.

Lemma rpr_snoc_remove (Allowed : ID -> ID -> Prop) (tr : list event) (a b : ID)
    (d : bpy_data) :
  remap_precedes_removal Allowed (tr ++ [Remapped a b]) ->
  known_consumer d (id_ptr a) = false ->
  remap_precedes_removal Allowed ((tr ++ [Remapped a b]) ++ [Removed a d]).
Proof.
  intros [Hm Hr] Hk. split.
  - intros i a' b' Hl. apply lookup_snoc in Hl as [[_ Hl] | [_ Heq]];
      [|discriminate].
    now apply (Hm i).
  - intros i a' d' Hl. apply lookup_snoc in Hl as [[_ Hl] | [Hi [= -> ->]]].
    + destruct (Hr i a' d' Hl) as (j & b' & -> & Hj & Hk').
      exists j, b'. split; [reflexivity|]. split; [|assumption].
      rewrite lookup_app_l; [assumption|]. now apply lookup_lt_Some in Hj.
    + exists (length tr), b. rewrite length_app in Hi. cbn in Hi.
      split; [lia|]. split; [|assumption].
      rewrite lookup_app_l by (rewrite length_app; cbn; lia).
      rewrite lookup_app_r by lia. now rewrite Nat.sub_diag.
Qed.

Lemma removed_in_snoc (tr : list event) (e : event) (i : ID) :
  removed_in (tr ++ [e]) i = removed_in tr i || removes (id_ptr i) e.
Proof. unfold removed_in. rewrite existsb_app. cbn. now rewrite orb_false_r. Qed.

Lemma alive_ids (d : bpy_data) (a : T) :
  alive d a = existsb (fun i => (ptr_of a =? id_ptr i)%nat)
                (map block_id (data_collection d)).
Proof.
  unfold alive, same_block, ptr_of.
  induction (data_collection d) as [|x l IH]; cbn; [reflexivity|].
  now rewrite IH.
Qed.

Lemma filter_ids (a : T) (l : list T) :
  map block_id (List.filter (fun x => negb (same_block a x)) l)
  = List.filter (fun i => negb (ptr_of a =? id_ptr i)%nat) (map block_id l).
Proof.
  unfold same_block, ptr_of.
  induction l as [|x l IH]; cbn; [reflexivity|].
  destruct (id_ptr (block_id a) =? id_ptr (block_id x))%nat; cbn;
    now rewrite IH.
Qed.

Lemma filter_filter_and {A} (f g : A -> bool) (l : list A) :
  List.filter f (List.filter g l) = List.filter (fun x => g x && f x) l.
Proof.
  induction l as [|x l IH]; cbn; [reflexivity|].
  destruct (g x); cbn; [|exact IH]. destruct (f x); now rewrite IH.
Qed.

(** [_remap_data(a, b)] followed by [remove(a)], then anything that
    keeps the invariant. *)
Lemma preserves_remap_remove (Allowed : ID -> ID -> Prop) (ids0 : list ID)
    (a b : T) (rest : py host unit) :
  Allowed (block_id a) (block_id b) -> ptr_of a <> ptr_of b ->
  preserves (Inv Allowed ids0) rest ->
  preserves (Inv Allowed ids0) (_remap_data a b ;; remove a ;; rest).
Proof.
  intros Hab Hne Hrest [h c] [Hc Ht].
  unfold _remap_data, remove, log_event, modify_data, bind, modify_host,
    get_host, raise. cbn [host_state console data trace _conflict_selections
                            counts reports fst snd].
  unfold ids, coll, events in Hc, Ht. cbn [host_state data trace] in Hc, Ht.
  assert (Hw1 : Inv Allowed ids0
            (World (Host (remap_data a b (data h)) (_conflict_selections h)
                         (trace h ++ [Remapped (block_id a) (block_id b)])
                         (counts h) (reports h)) c)).
  { split.
    - unfold ids, coll, events. cbn [host_state data trace].
      rewrite remap_keeps_ids, Hc.
      apply filter_ext. intros i. now rewrite removed_in_snoc, orb_false_r.
    - unfold events. cbn [host_state data trace]. now apply rpr_snoc_remap. }
  destruct (alive (remap_data a b (data h)) a) eqn:Ha; [|exact Hw1].
  apply Hrest. destruct Hw1 as [Hc1 Ht1].
  unfold ids, coll, events in Hc1, Ht1. cbn [host_state data trace] in Hc1, Ht1.
  split.
  - unfold ids, coll, events. cbn [host_state data trace].
    rewrite collection_set, filter_ids, Hc1.
    rewrite filter_filter_and. apply filter_ext. intros i.
    rewrite (removed_in_snoc _ (Removed _ _)). cbn.
    rewrite negb_orb. reflexivity.
  - unfold events. cbn [host_state data trace].
    apply rpr_snoc_remove; [assumption|].
    now apply remap_clears.
Qed.

(** ** The loops of the execution methods *)

Section Loops.
Variable Allowed : ID -> ID -> Prop.
Variable ids0 : list ID.

Abbreviation keeps := (preserves (Inv Allowed ids0)).

(** Every pair the cleaning of one identity grouping may remap is
    admitted. *)
Definition pairs_allowed (its : list T) : Prop :=
  forall (g : identity_group T) (m r : T),
    In g (fst (group_items_by_identity its)) ->
    In m (members g) -> In r (members g) ->
    same_block m r = false -> linked m = false ->
    Allowed (block_id m) (block_id r).

Lemma same_block_false (a b : T) : same_block a b = false -> ptr_of a <> ptr_of b.
Proof. unfold same_block. now intros H%Nat.eqb_neq. Qed.

Lemma keeps_clean_members (on_linked : py host unit) (the_members : list T)
    (rep : T) :
  keeps on_linked ->
  (forall m, In m the_members -> same_block m rep = false -> linked m = false ->
             Allowed (block_id m) (block_id rep)) ->
  keeps (clean_members on_linked the_members rep).
Proof.
  intros Hon Hall. apply preserves_for_each. intros m Hm.
  destruct (same_block m rep) eqn:Hs; [apply preserves_ret|].
  destruct (linked m) eqn:Hl; [exact Hon|].
  apply preserves_remap_remove.
  - now apply Hall.
  - now apply same_block_false.
  - apply preserves_count.
Qed.

Lemma keeps_clean_identity_groups (on_linked : py host unit)
    (groups : list (identity_group T)) :
  keeps on_linked ->
  (forall g m r, In g groups -> In m (members g) -> In r (members g) ->
                 same_block m r = false -> linked m = false ->
                 Allowed (block_id m) (block_id r)) ->
  keeps (clean_identity_groups on_linked groups).
Proof.
  intros Hon Hall. apply preserves_for_each. intros g Hg. cbv zeta.
  destruct (length (members g) <=? 1)%nat; [apply preserves_ret|].
  destruct (List.filter (fun m => negb (linked m)) (members g))
    as [|m0 ms] eqn:Hloc.
  - destruct (head (members g)) as [r|] eqn:Hh; [|apply preserves_ret].
    apply keeps_clean_members; [assumption|].
    intros m Hm. apply (Hall g); try assumption.
    destruct (members g); [discriminate | injection Hh as <-; now left].
  - apply keeps_clean_members; [assumption|].
    intros m Hm. apply (Hall g); try assumption.
    assert (Hin : In m0 (List.filter (fun m => negb (linked m)) (members g)))
      by (rewrite Hloc; now left).
    now apply filter_In in Hin as [Hin _].
Qed.

Lemma keeps_clean_base_groups (on_linked : py host unit)
    (base_groups : list (string * list T)) :
  keeps on_linked ->
  (forall entry, In entry base_groups -> pairs_allowed (snd entry)) ->
  keeps (clean_base_groups on_linked base_groups).
Proof.
  intros Hon Hall. apply preserves_for_each. intros entry He. cbv zeta.
  destruct (length (snd entry) <=? 1)%nat; [apply preserves_ret|].
  apply preserves_say_bind; [intros w lines; apply Inv_console|].
  apply keeps_clean_identity_groups; [assumption|].
  intros g m r Hg. now apply (Hall entry He).
Qed.

(** The headers of the live collection are among those it started from. *)
Lemma Inv_ids (w : world host) (x : T) :
  Inv Allowed ids0 w -> In x (coll w) -> In (block_id x) ids0.
Proof.
  intros [Hc _] Hx. apply (in_map block_id) in Hx. fold (ids w) in Hx.
  rewrite Hc in Hx. now apply filter_In in Hx as [Hx _].
Qed.

(** Items taken from a collection, all of one base name. *)
Definition one_base_name (its : list T) : Prop :=
  exists base, forall x, In x its -> has_base base x = true.

(** What [_auto_clean_execution] and [_standard_cleanup_with_grouping]
    need of [Allowed]. *)
Definition groups_allowed : Prop :=
  forall its : list T,
    (forall x, In x its -> In (block_id x) ids0) -> one_base_name its ->
    pairs_allowed its.

Lemma keeps_standard_cleanup :
  groups_allowed -> keeps _standard_cleanup_with_grouping.
Proof.
  intros HA. unfold _standard_cleanup_with_grouping.
  apply preserves_get_host. intros w Hw.
  apply (preserves_bind (Inv Allowed ids0)); [apply preserves_count | | exact Hw].
  intros _. apply preserves_bind.
  - apply keeps_clean_base_groups; [apply preserves_count|].
    intros [k l] He. apply group_by_base_name_entries in He. cbn.
    apply HA.
    + intros x Hx. rewrite He in Hx. apply filter_In in Hx as [Hx _].
      now apply (Inv_ids w).
    + exists k. intros x Hx. rewrite He in Hx. now apply filter_In in Hx as [_ Hx].
  - intros _. apply preserves_get_host. intros w' Hw'.
    apply (preserves_bind (Inv Allowed ids0)); [apply preserves_report | | exact Hw'].
    intros _. apply preserves_ret.
Qed.

Lemma conditional_fold (base : string) (collection : list T)
    (d : list (string * list T)) :
  fold_left (fun d item =>
               let b := get_base_name (name_of item) in
               if String.eqb b base then setdefault_append b item d else d)
            collection d
  = fold_left add_by_base_name (List.filter (has_base base) collection) d.
Proof.
  revert d. induction collection as [|x l IH]; intros d; cbn; [reflexivity|].
  unfold has_base at 1.
  destruct (String.eqb (get_base_name (name_of x)) base); cbn; apply IH.
Qed.

Lemma keeps_auto_clean : groups_allowed -> keeps _auto_clean_execution.
Proof.
  intros HA. unfold _auto_clean_execution.
  apply preserves_bind; [apply preserves_count|]. intros _.
  apply preserves_get_host. intros w Hw.
  apply (preserves_say_bind (Inv Allowed ids0));
    [intros w1 lines; apply Inv_console | | exact Hw].
  apply preserves_bind.
  - apply preserves_for_each. intros [cb info] _. cbv zeta. cbn [fst snd].
    destruct (negb _).
    + apply preserves_get_host. intros w1 Hw1. now apply preserves_count.
    + apply preserves_get_host. intros w1 Hw1.
      apply (keeps_clean_base_groups (ret tt)); [apply preserves_ret | | exact Hw1].
      intros [k l] He. rewrite conditional_fold in He.
      apply (group_by_base_name_entries
               (List.filter (has_base cb) (data_collection (data (host_state w1)))))
        in He.
      cbn. apply HA.
      * intros x Hx. rewrite He in Hx. apply filter_In in Hx as [Hx _].
        apply filter_In in Hx as [Hx _]. now apply (Inv_ids w1).
      * exists k. intros x Hx. rewrite He in Hx.
        now apply filter_In in Hx as [_ Hx].
  - intros _. apply preserves_get_host. intros w' Hw'.
    apply (preserves_bind (Inv Allowed ids0)); [apply preserves_report | | exact Hw'].
    intros _. apply preserves_ret.
Qed.

(** What [_choose_data_execution] and the fallback need of [Allowed]. *)
Definition distinct_allowed : Prop :=
  forall x t : T,
    In (block_id x) ids0 -> In (block_id t) ids0 ->
    ptr_of x <> ptr_of t -> linked x = false ->
    Allowed (block_id x) (block_id t).

Lemma keeps_choose_data_conflict (conflict : conflict_item) :
  distinct_allowed -> keeps (choose_data_conflict conflict).
Proof.
  intros HC. unfold choose_data_conflict.
  destruct (skip_this_conflict conflict).
  - apply preserves_get_host. intros w Hw. now apply preserves_count.
  - apply preserves_get_host. intros w Hw. cbv zeta.
    destruct (length _ <? 2)%nat; [now apply preserves_count|].
    destruct (selection (host_state w) (base_name conflict)) as [sel|];
      [|exact Hw].
    destruct (String.eqb sel ""); [exact Hw|].
    destruct (List.find _ _) as [target|] eqn:Hfind; [|exact Hw].
    apply find_some in Hfind as [Htarget _].
    apply filter_In in Htarget as [Htarget _].
    apply (preserves_for_each (Inv Allowed ids0)); [|exact Hw].
    intros item Hitem. apply filter_In in Hitem as [Hitem _].
    destruct (same_block item target) eqn:Hs; cbn; [apply preserves_ret|].
    destruct (linked item) eqn:Hl; cbn; [apply preserves_ret|].
    apply preserves_remap_remove.
    + apply HC; try assumption.
      * now apply (Inv_ids w).
      * now apply (Inv_ids w).
      * now apply same_block_false.
    + now apply same_block_false.
    + apply preserves_count.
Qed.

Lemma keeps_choose_data (self : operator) :
  distinct_allowed -> keeps (_choose_data_execution self).
Proof.
  intros HC. unfold _choose_data_execution.
  apply preserves_bind; [apply preserves_count|]. intros _.
  apply preserves_bind.
  - apply preserves_for_each. intros c _. now apply keeps_choose_data_conflict.
  - intros _. apply preserves_bind; [apply preserves_clear_selections|].
    intros _. apply preserves_get_host. intros w' Hw'.
    apply (preserves_bind (Inv Allowed ids0)); [apply preserves_report | | exact Hw'].
    intros _. apply preserves_ret.
Qed.

(** The items of the conflicts found at the start are among [ids0]. *)
Definition found_in_ids0 (found : list (string * conflict_info T)) : Prop :=
  forall base info x, In (base, info) found -> In x (items info) ->
                      In (block_id x) ids0.

Lemma conflicts_get_In (found : list (string * conflict_info T)) (base : string)
    (info : conflict_info T) :
  conflicts_get found base = Some info -> exists b, In (b, info) found.
Proof.
  induction found as [|[b i] rest IH]; cbn; [discriminate|].
  destruct (String.eqb b base).
  - intros [= ->]. exists b. now left.
  - intros H. destruct (IH H) as [b' Hb]. exists b'. now right.
Qed.

(** What [_keep_linked_execution] needs of [Allowed]. *)
Definition linked_allowed (found : list (string * conflict_info T)) : Prop :=
  forall base info x t,
    conflicts_get found base = Some info ->
    In x (items info) -> linked x = false ->
    head (List.filter linked (items info)) = Some t ->
    Allowed (block_id x) (block_id t) /\ ptr_of x <> ptr_of t.

Lemma keeps_keep_linked_conflict (found : list (string * conflict_info T))
    (conflict : conflict_item) :
  linked_allowed found -> keeps (keep_linked_conflict found conflict).
Proof.
  intros HK. unfold keep_linked_conflict.
  destruct (skip_this_conflict conflict).
  - apply preserves_get_host. intros w Hw. now apply preserves_count.
  - destruct (conflicts_get found (base_name conflict)) as [info|] eqn:Hget;
      [|apply preserves_ret].
    cbv zeta. apply preserves_bind; [apply preserves_check_alive|]. intros _.
    destruct (List.filter linked (items info)) as [|target rest] eqn:Hlinked.
    + apply preserves_count.
    + apply preserves_for_each. intros x Hx.
      apply filter_In in Hx as [Hx Hloc]. apply negb_true_iff in Hloc.
      destruct (HK (base_name conflict) info x target Hget Hx Hloc) as [Hab Hne];
        [now rewrite Hlinked|].
      apply preserves_try_except.
      * apply preserves_remap_remove; [assumption | assumption|].
        apply preserves_count.
      * intros e. apply preserves_bind.
        -- apply preserves_print. intros w lines. apply Inv_console.
        -- intros _. apply preserves_count.
Qed.

Lemma keeps_keep_linked (self : operator) :
  (forall w, Inv Allowed ids0 w ->
             linked_allowed (fst (analyze_data_conflicts_with_grouping (coll w)))) ->
  keeps (_keep_linked_execution self).
Proof.
  intros HK. unfold _keep_linked_execution.
  apply preserves_bind; [apply preserves_count|]. intros _.
  apply preserves_get_host. intros w Hw.
  apply (preserves_say_bind (Inv Allowed ids0));
    [intros w1 lines; apply Inv_console | | exact Hw].
  apply preserves_bind.
  - apply preserves_for_each. intros c _.
    apply keeps_keep_linked_conflict. now apply HK.
  - intros _. apply preserves_get_host. intros w' Hw'.
    apply (preserves_bind (Inv Allowed ids0)); [apply preserves_report | | exact Hw'].
    intros _. apply preserves_ret.
Qed.

(** ** The fallback of [execute] *)

Lemma keeps_live_is_linked {B} (item : T) (k : bool -> py host B) :
  keeps (k (linked item)) -> keeps (bind (live_is_linked item) k).
Proof.
  intros Hk w Hw. unfold bind, live_is_linked, get_host. cbn.
  destruct (alive (data (host_state w)) item); cbn; [now apply Hk | exact Hw].
Qed.

Lemma keeps_remap_members_to (the_members : list T) (keep : T) :
  (forall m, In m the_members -> same_block m keep = false -> linked m = false ->
             Allowed (block_id m) (block_id keep)) ->
  keeps (remap_members_to the_members keep).
Proof.
  intros Hall. apply preserves_for_each. intros m Hm.
  destruct (same_block m keep) eqn:Hs; [apply preserves_ret|].
  apply keeps_live_is_linked.
  destruct (linked m) eqn:Hl; [apply preserves_ret|].
  apply preserves_remap_remove.
  - now apply Hall.
  - now apply same_block_false.
  - apply preserves_count.
Qed.

Lemma keeps_find_target_group {B} (selected_name : string)
    (groups : list (identity_group T))
    (k : option (identity_group T) -> py host B) :
  keeps (k None) ->
  (forall g, In g groups -> keeps (k (Some g))) ->
  keeps (bind (find_target_group selected_name groups) k).
Proof.
  induction groups as [|g gs IH]; intros Hnone Hsome w Hw.
  - now apply Hnone.
  - unfold bind in *. cbn. unfold bind, live_name, get_host. cbn.
    destruct (alive (data (host_state w)) (representative g)); cbn; [|exact Hw].
    destruct (String.eqb (name_of (representative g)) selected_name); cbn.
    + apply Hsome; [now left | exact Hw].
    + apply (IH Hnone); [|exact Hw]. intros g' Hg'. apply Hsome. now right.
Qed.

Lemma keeps_conflict_cleanup_conflict (found : list (string * conflict_info T))
    (conflict : conflict_item) :
  distinct_allowed ->
  (forall base info g x,
      In (base, info) found -> In g (identity_groups info) ->
      x = representative g \/ In x (members g) -> In (block_id x) ids0) ->
  keeps (conflict_cleanup_conflict found conflict).
Proof.
  intros HC Hids. unfold conflict_cleanup_conflict.
  destruct (skip_this_conflict conflict).
  - apply preserves_get_host. intros w Hw. now apply preserves_count.
  - destruct (conflicts_get found (base_name conflict)) as [info|] eqn:Hget;
      [|apply preserves_ret].
    destruct (conflicts_get_In _ _ _ Hget) as [b Hin].
    cbv zeta. apply preserves_get_host. intros w Hw.
    destruct (selection (host_state w) (base_name conflict)) as [sel|];
      [|exact Hw].
    destruct (String.eqb sel ""); [exact Hw|].
    apply (keeps_find_target_group sel (identity_groups info));
      [apply preserves_ret | | exact Hw].
    intros tg Htg. apply preserves_for_each. intros g Hg.
    destruct (same_group g tg).
    + apply keeps_remap_members_to. intros m Hm Hs Hl.
      apply HC; try assumption.
      * apply (Hids b info g m Hin Hg). now right.
      * apply (Hids b info tg _ Hin Htg). now left.
      * now apply same_block_false.
    + apply keeps_remap_members_to. intros m Hm Hs Hl.
      apply HC; try assumption.
      * apply (Hids b info g m Hin Hg). now right.
      * apply (Hids b info g _ Hin Hg). now left.
      * now apply same_block_false.
Qed.

(** The conflicts found in the live collection are made of its items. *)
Lemma analysis_items (collection : list T) (base : string)
    (info : conflict_info T) (x : T) :
  In (base, info) (fst (analyze_data_conflicts_with_grouping collection)) ->
  In x (items info) -> In x collection /\ has_base base x = true.
Proof.
  intros Hin Hx.
  destruct (analysis_entries T Op collection base info Hin) as (Hitems & _).
  rewrite Hitems in Hx. now apply filter_In in Hx.
Qed.

Lemma analysis_members (collection : list T) (base : string)
    (info : conflict_info T) (g : identity_group T) (x : T) :
  In (base, info) (fst (analyze_data_conflicts_with_grouping collection)) ->
  In g (identity_groups info) ->
  x = representative g \/ In x (members g) -> In x (items info).
Proof.
  intros Hin Hg Hx.
  destruct (analysis_entries T Op collection base info Hin)
    as (_ & _ & Hok & Hperm).
  assert (Hmem : In x (members g)).
  { destruct Hx as [-> | Hx]; [|assumption].
    rewrite Forall_forall in Hok. apply list_elem_of_In in Hg.
    destruct (Hok g Hg) as (rest & Hm & _). rewrite Hm. now left. }
  apply list_elem_of_In. rewrite <- Hperm. apply list_elem_of_In.
  apply in_concat. exists (members g). split; [|assumption].
  now apply in_map.
Qed.

Lemma keeps_conflict_cleanup (self : operator) :
  distinct_allowed -> keeps (_conflict_cleanup_with_grouping self).
Proof.
  intros HC. unfold _conflict_cleanup_with_grouping.
  apply preserves_bind; [apply preserves_count|]. intros _.
  apply preserves_get_host. intros w Hw.
  apply (preserves_say_bind (Inv Allowed ids0));
    [intros w1 lines; apply Inv_console | | exact Hw].
  apply preserves_bind.
  - apply preserves_for_each. intros c _.
    apply keeps_conflict_cleanup_conflict; [assumption|].
    intros base info g x Hin Hg Hx.
    apply (Inv_ids w); [assumption|].
    apply (analysis_items (coll w) base info x Hin).
    now apply (analysis_members (coll w) base info g).
  - intros _. apply preserves_bind; [apply preserves_clear_selections|].
    intros _. apply preserves_get_host. intros w' Hw'.
    apply (preserves_bind (Inv Allowed ids0)); [apply preserves_report | | exact Hw'].
    intros _. apply preserves_ret.
Qed.
End Loops.

(** ** A run from a well-formed collection *)

(** The datablocks of the collection have distinct identities. *)
Definition distinct_blocks (w : world host) : Prop :=
  NoDup (map id_ptr (ids w)).

(** The remappings every method performs: from a local datablock of the
    collection to another datablock of the collection. *)
Definition between_blocks (ids0 : list ID) (a b : ID) : Prop :=
  In a ids0 /\ In b ids0 /\ id_ptr a <> id_ptr b /\ is_linked_data a = false.

Lemma Inv_start (Allowed : ID -> ID -> Prop) (w : world host) :
  events w = [] -> Inv Allowed (ids w) w.
Proof.
  intros He. split.
  - rewrite He. cbn. induction (ids w) as [|i l IH]; cbn; [reflexivity|].
    now rewrite <- IH.
  - rewrite He. split; intros i a; intros; now rewrite lookup_nil in *.
Qed.

Lemma NoDup_ptr_eq (ids0 : list ID) (a b : ID) :
  NoDup (map id_ptr ids0) -> In a ids0 -> In b ids0 -> id_ptr a = id_ptr b ->
  a = b.
Proof.
  induction ids0 as [|i l IH]; cbn; intros Hnd Ha Hb Heq; [contradiction|].
  apply NoDup_cons in Hnd as [Hni Hnd].
  destruct Ha as [-> | Ha], Hb as [-> | Hb]; auto.
  - exfalso. apply Hni. rewrite Heq. apply list_elem_of_In. now apply in_map.
  - exfalso. apply Hni. rewrite <- Heq. apply list_elem_of_In. now apply in_map.
Qed.

Lemma between_blocks_distinct (ids0 : list ID) :
  distinct_allowed (between_blocks ids0) ids0.
Proof.
  intros x t Hx Ht Hne Hl. repeat split; assumption.
Qed.

Lemma between_blocks_groups (ids0 : list ID) :
  groups_allowed (between_blocks ids0) ids0.
Proof.
  intros its Hids _ g m r Hg Hm Hr Hs Hl.
  destruct (group_items_by_identity_ok its) as (_ & Hperm).
  assert (Hin : forall x, In x (members g) -> In x its).
  { intros x Hx. apply list_elem_of_In. rewrite <- Hperm. apply list_elem_of_In.
    apply in_concat. exists (members g). split; [now apply in_map | assumption]. }
  repeat split.
  - apply Hids. now apply Hin.
  - apply Hids. now apply Hin.
  - now apply same_block_false.
  - assumption.
Qed.

Lemma between_blocks_linked (ids0 : list ID) (w : world host) :
  NoDup (map id_ptr ids0) -> Inv (between_blocks ids0) ids0 w ->
  linked_allowed (between_blocks ids0)
    (fst (analyze_data_conflicts_with_grouping (coll w))).
Proof.
  intros Hnd Hw base info x t Hget Hx Hl Hhead.
  destruct (conflicts_get_In _ _ _ Hget) as [b Hin].
  assert (Ht : In t (items info) /\ linked t = true).
  { destruct (List.filter linked (items info)) as [|t' l] eqn:Hf; [discriminate|].
    injection Hhead as ->.
    assert (Hi : In t (List.filter linked (items info))) by (rewrite Hf; now left).
    now apply filter_In in Hi. }
  destruct Ht as [Ht Hlt].
  assert (Hxi : In (block_id x) ids0).
  { apply (Inv_ids (between_blocks ids0) ids0 w); [assumption|].
    now apply (analysis_items (coll w) b info x Hin). }
  assert (Hti : In (block_id t) ids0).
  { apply (Inv_ids (between_blocks ids0) ids0 w); [assumption|].
    now apply (analysis_items (coll w) b info t Hin). }
  assert (Hne : ptr_of x <> ptr_of t).
  { intros Heq. assert (E : block_id x = block_id t)
      by (now apply (NoDup_ptr_eq ids0)).
    unfold linked in Hl, Hlt. rewrite E in Hl. congruence. }
  split; [|assumption]. repeat split; assumption.
Qed.

(** The execution methods of an operator: the standard cleanup, the
    three strategies and the fallback of [execute]. *)
Definition methods (self : operator) : list (py host op_result) :=
  [_standard_cleanup_with_grouping;
   _auto_clean_execution;
   _choose_data_execution self;
   _keep_linked_execution self;
   _conflict_cleanup_with_grouping self].

Lemma execute_is_a_method (self : operator) : In (execute self) (methods self).
Proof.
  unfold execute, methods.
  destruct (negb (has_conflicts self)); [now left|].
  destruct (String.eqb (global_resolution self) "AUTO_CLEAN");
    [right; now left|].
  destruct (String.eqb (global_resolution self) "CHOOSE_DATA");
    [right; right; now left|].
  destruct (String.eqb (global_resolution self) "KEEP_LINKED");
    [right; right; right; now left|].
  right; right; right; right; now left.
Qed.

(** Every method keeps the invariant. *)
Lemma keeps_method (ids0 : list ID) (self : operator) (m : py host op_result) :
  In m (methods self) -> NoDup (map id_ptr ids0) ->
  preserves (Inv (between_blocks ids0) ids0) m.
Proof.
  intros Hm Hnd.
  destruct Hm as [<- | [<- | [<- | [<- | [<- | []]]]]].
  - apply keeps_standard_cleanup, between_blocks_groups.
  - apply keeps_auto_clean, between_blocks_groups.
  - apply keeps_choose_data, between_blocks_distinct.
  - apply keeps_keep_linked. intros w Hw. now apply between_blocks_linked.
  - apply keeps_conflict_cleanup, between_blocks_distinct.
Qed.

Lemma run_invariant (self : operator) (m : py host op_result) (w : world host) :
  In m (methods self) -> distinct_blocks w -> events w = [] ->
  Inv (between_blocks (ids w)) (ids w) (snd (m w)).
Proof.
  intros Hm Hnd He. apply (keeps_method (ids w) self m Hm Hnd).
  now apply Inv_start.
Qed.

(** In the trace of a run, a removal comes right after the remapping of
    the datablock it removes to another datablock of the collection, and
    no known consumer holds the removed datablock when [remove()] is
    called. *)
Lemma run_remaps_before_removing (self : operator) (m : py host op_result)
    (w : world host) :
  In m (methods self) -> distinct_blocks w -> events w = [] ->
  forall (i : nat) (a : ID) (d : bpy_data),
    events (snd (m w)) !! i = Some (Removed a d) ->
    exists (j : nat) (b : ID),
      i = S j /\ events (snd (m w)) !! j = Some (Remapped a b)
      /\ In b (ids w) /\ id_ptr a <> id_ptr b
      /\ is_linked_data a = false
      /\ known_consumer d (id_ptr a) = false.
Proof.
  intros Hm Hnd He i a d Hi.
  destruct (run_invariant self m w Hm Hnd He) as [_ [Hmap Hrem]].
  destruct (Hrem i a d Hi) as (j & b & -> & Hj & Hk).
  destruct (Hmap j a b Hj) as (Ha & Hb & Hne & Hl).
  exists j, b. repeat split; assumption.
Qed.

Lemma removed_in_true (tr : list event) (i : ID) :
  removed_in tr i = true ->
  exists n a d, tr !! n = Some (Removed a d) /\ id_ptr a = id_ptr i.
Proof.
  unfold removed_in. intros H. apply existsb_exists in H as (e & He & Hr).
  apply list_elem_of_In, list_elem_of_lookup in He as [n Hn].
  destruct e as [? ?|a d]; cbn in Hr; [discriminate|].
  apply Nat.eqb_eq in Hr. eauto.
Qed.

(** A run removes local datablocks only, and leaves the linked
    datablocks of the collection as they were. *)
Lemma run_keeps_linked (self : operator) (m : py host op_result)
    (w : world host) :
  In m (methods self) -> distinct_blocks w -> events w = [] ->
  (forall (i : nat) (a : ID) (d : bpy_data),
      events (snd (m w)) !! i = Some (Removed a d) -> is_linked_data a = false)
  /\ List.filter is_linked_data (ids (snd (m w)))
     = List.filter is_linked_data (ids w).
Proof.
  intros Hm Hnd He.
  pose proof (run_remaps_before_removing self m w Hm Hnd He) as Hrun.
  split.
  - intros i a d Hi. now destruct (Hrun i a d Hi) as (j & b & _ & _ & _ & _ & Hl & _).
  - destruct (run_invariant self m w Hm Hnd He) as [Hc [Hmap Hrem]].
    rewrite Hc, filter_filter_and. apply filter_ext_in. intros i Hi.
    destruct (is_linked_data i) eqn:Hl; [|now rewrite andb_false_r].
    rewrite andb_true_r. apply negb_true_iff.
    destruct (removed_in (events (snd (m w))) i) eqn:Hr; [|reflexivity].
    exfalso. apply removed_in_true in Hr as (n & a & d & Hn & Hp).
    destruct (Hrem n a d Hn) as (j & b & -> & Hj & _).
    destruct (Hmap j a b Hj) as (Ha & _ & _ & Hla).
    assert (a = i) by (now apply (NoDup_ptr_eq (ids w))). congruence.
Qed.
End Engine.

(** C8: whichever method runs, and for each of the three data types,
    every datablock it removes is local, and the linked datablocks of
    the collection are the same after the run as before. *)
Theorem linked_datablocks_never_removed (P : path_functions)
    (self : operator) :
  (forall (m : py host op_result) (w : world host),
      In m (methods (Op := CLEANUP_OT_clean_materials) self) ->
      distinct_blocks (Op := CLEANUP_OT_clean_materials) w -> events w = [] ->
      (forall (i : nat) (a : ID) (d : bpy_data),
          events (snd (m w)) !! i = Some (Removed a d) -> is_linked_data a = false)
      /\ List.filter is_linked_data (map mat_id (materials (data (host_state (snd (m w))))))
         = List.filter is_linked_data (map mat_id (materials (data (host_state w)))))
  /\ (forall (m : py host op_result) (w : world host),
      In m (methods (Op := CLEANUP_OT_clean_node_groups) self) ->
      distinct_blocks (Op := CLEANUP_OT_clean_node_groups) w -> events w = [] ->
      (forall (i : nat) (a : ID) (d : bpy_data),
          events (snd (m w)) !! i = Some (Removed a d) -> is_linked_data a = false)
      /\ List.filter is_linked_data (map ng_id (node_groups (data (host_state (snd (m w))))))
         = List.filter is_linked_data (map ng_id (node_groups (data (host_state w)))))
  /\ (forall (m : py host op_result) (w : world host),
      In m (methods (Op := CLEANUP_OT_clean_images P) self) ->
      distinct_blocks (Op := CLEANUP_OT_clean_images P) w -> events w = [] ->
      (forall (i : nat) (a : ID) (d : bpy_data),
          events (snd (m w)) !! i = Some (Removed a d) -> is_linked_data a = false)
      /\ List.filter is_linked_data (map img_id (images (data (host_state (snd (m w))))))
         = List.filter is_linked_data (map img_id (images (data (host_state w))))).
Proof.
  split; [|split]; intros m w Hm Hnd He.
  - exact (run_keeps_linked (Laws := materials_laws) self m w Hm Hnd He).
  - exact (run_keeps_linked (Laws := node_groups_laws) self m w Hm Hnd He).
  - exact (run_keeps_linked (Laws := images_laws P) self m w Hm Hnd He).
Qed.

(** ** An example scene

    Four materials called Wood: two local duplicates, a rougher one, and
    one linked from a library; an object that uses the duplicate. *)
Definition linked_wood : material :=
  Material (MkID 4 "Wood.003" (Some "//library.blend")) false
    [0.75; 0.5; 0.25; 1]%float 0%float 0.5%float None.

Definition wood_scene : bpy_data :=
  BpyData [Object (Some [Some 2%nat; Some 3%nat]) []]
          (example_materials ++ [linked_wood]) [] [] [].

Definition wood_world : world host :=
  World (Host wood_scene ∅ [] no_counts []) [].

Definition shift_click : operator := Operator true [] false "AUTO_CLEAN".

Definition posix_paths : path_functions :=
  PathFunctions (fun _ => true) (fun f => Some f) (fun f => f).

Lemma wood_world_distinct :
  distinct_blocks (Op := CLEANUP_OT_clean_materials) wood_world.
Proof.
  unfold distinct_blocks.
  apply (bool_decide_unpack (NoDup (map id_ptr (ids wood_world)))).
  vm_compute. exact I.
Qed.

Example wood_cleanup_trace :
  events (snd (execute (Op := CLEANUP_OT_clean_materials) shift_click wood_world))
  = [Remapped (MkID 2 "Wood.001" None) (MkID 1 "Wood" None);
     Removed (MkID 2 "Wood.001" None)
       (remap_material (wood 2 "Wood.001" 0.5%float) (wood 1 "Wood" 0.5%float)
          wood_scene)].
Proof. vm_compute. reflexivity. Qed.

Example wood_cleanup_report :
  reports (host_state (snd (execute (Op := CLEANUP_OT_clean_materials)
                              shift_click wood_world)))
  = [("INFO", "Processed 1 materials, skipped 1 linked")].
Proof. vm_compute. reflexivity. Qed.

Lemma linked_datablocks_never_removed_witness :
  (forall (i : nat) (a : ID) (d : bpy_data),
      events (snd (execute (Op := CLEANUP_OT_clean_materials) shift_click
                     wood_world)) !! i = Some (Removed a d) ->
      is_linked_data a = false)
  /\ List.filter is_linked_data
       (map mat_id (materials (data (host_state
          (snd (execute (Op := CLEANUP_OT_clean_materials) shift_click
                  wood_world))))))
     = List.filter is_linked_data
         (map mat_id (materials (data (host_state wood_world)))).
Proof.
  apply (proj1 (linked_datablocks_never_removed posix_paths shift_click)
           (execute shift_click) wood_world).
  - apply execute_is_a_method.
  - exact wood_world_distinct.
  - reflexivity.
Defined.
End EngineFacts.
(* ===================================================================== *)
(** * The scene along a run                                               *)
(* ===================================================================== *)

Module SceneFacts.
Import Py Py.Notations Bpy CleanUp CleanUpFacts RemapFacts EngineFacts.

(** ** Invariants that every method keeps

    A property of the scene and of the trace that the pair
    [_remap_data(a, b)], [remove(a)] keeps is kept by every execution
    method: nothing else touches either. *)
Section AnyInvariant.
Context {T : Type} {Op : CleanupOperator T}.
Variable I : world host -> Prop.
Hypothesis I_frame : forall w w' : world host,
  data (host_state w') = data (host_state w) ->
  trace (host_state w') = trace (host_state w) -> I w -> I w'.
Hypothesis I_step : forall (a b : T) (rest : py host unit),
  preserves I rest -> preserves I (_remap_data a b ;; remove a ;; rest).

Lemma any_console (w : world host) (lines : list string) :
  I w -> I (World (host_state w) (console w ++ lines)).
Proof. apply I_frame; reflexivity. Qed.

Lemma any_count (f : counters -> counters) : preserves I (count f).
Proof. intros w Hw. eapply I_frame; [| |exact Hw]; reflexivity. Qed.

Lemma any_report (level message : string) : preserves I (report level message).
Proof. intros w Hw. eapply I_frame; [| |exact Hw]; reflexivity. Qed.

Lemma any_clear_selections : preserves I clear_selections.
Proof. intros w Hw. eapply I_frame; [| |exact Hw]; reflexivity. Qed.

Lemma any_check_alive (its : list T) : preserves I (check_alive its).
Proof.
  intros w Hw. unfold check_alive, bind, get_host. cbn.
  destruct (forallb _ its); exact Hw.
Qed.

Lemma any_clean_members (on_linked : py host unit) (the_members : list T)
    (rep : T) :
  preserves I on_linked -> preserves I (clean_members on_linked the_members rep).
Proof.
  intros Hon. apply preserves_for_each. intros m _.
  destruct (same_block m rep); [apply preserves_ret|].
  destruct (linked m); [exact Hon|].
  apply I_step. apply any_count.
Qed.

Lemma any_clean_identity_groups (on_linked : py host unit)
    (groups : list (identity_group T)) :
  preserves I on_linked -> preserves I (clean_identity_groups on_linked groups).
Proof.
  intros Hon. apply preserves_for_each. intros g _. cbv zeta.
  destruct (length (members g) <=? 1)%nat; [apply preserves_ret|].
  destruct (List.filter (fun m => negb (linked m)) (members g)) as [|m0 ms].
  - destruct (head (members g)); [|apply preserves_ret].
    now apply any_clean_members.
  - now apply any_clean_members.
Qed.

Lemma any_clean_base_groups (on_linked : py host unit)
    (base_groups : list (string * list T)) :
  preserves I on_linked -> preserves I (clean_base_groups on_linked base_groups).
Proof.
  intros Hon. apply preserves_for_each. intros entry _. cbv zeta.
  destruct (length (snd entry) <=? 1)%nat; [apply preserves_ret|].
  apply preserves_say_bind; [intros w lines; apply any_console|].
  now apply any_clean_identity_groups.
Qed.

Lemma any_standard_cleanup : preserves I _standard_cleanup_with_grouping.
Proof.
  unfold _standard_cleanup_with_grouping.
  apply preserves_get_host. intros w Hw.
  apply (preserves_bind I); [apply any_count | | exact Hw].
  intros _. apply preserves_bind.
  - apply any_clean_base_groups, any_count.
  - intros _. apply preserves_get_host. intros w' Hw'.
    apply (preserves_bind I); [apply any_report | | exact Hw'].
    intros _. apply preserves_ret.
Qed.

Lemma any_auto_clean : preserves I _auto_clean_execution.
Proof.
  unfold _auto_clean_execution.
  apply preserves_bind; [apply any_count|]. intros _.
  apply preserves_get_host. intros w Hw.
  apply (preserves_say_bind I); [intros w1 lines; apply any_console | | exact Hw].
  apply preserves_bind.
  - apply preserves_for_each. intros [cb info] _. cbv zeta. cbn [fst snd].
    destruct (negb _).
    + apply preserves_get_host. intros w1 Hw1. now apply any_count.
    + apply preserves_get_host. intros w1 Hw1.
      apply (any_clean_base_groups (ret tt)); [apply preserves_ret | exact Hw1].
  - intros _. apply preserves_get_host. intros w' Hw'.
    apply (preserves_bind I); [apply any_report | | exact Hw'].
    intros _. apply preserves_ret.
Qed.

Lemma any_choose_data (self : operator) : preserves I (_choose_data_execution self).
Proof.
  unfold _choose_data_execution.
  apply preserves_bind; [apply any_count|]. intros _.
  apply preserves_bind.
  - apply preserves_for_each. intros conflict _. unfold choose_data_conflict.
    destruct (skip_this_conflict conflict).
    + apply preserves_get_host. intros w Hw. now apply any_count.
    + apply preserves_get_host. intros w Hw. cbv zeta.
      destruct (length _ <? 2)%nat; [now apply any_count|].
      destruct (selection (host_state w) (base_name conflict)) as [sel|];
        [|exact Hw].
      destruct (String.eqb sel ""); [exact Hw|].
      destruct (List.find _ _) as [target|]; [|exact Hw].
      apply (preserves_for_each I); [|exact Hw].
      intros item _.
      destruct (same_block item target); cbn; [apply preserves_ret|].
      destruct (linked item); cbn; [apply preserves_ret|].
      apply I_step, any_count.
  - intros _. apply preserves_bind; [apply any_clear_selections|].
    intros _. apply preserves_get_host. intros w' Hw'.
    apply (preserves_bind I); [apply any_report | | exact Hw'].
    intros _. apply preserves_ret.
Qed.

Lemma any_keep_linked (self : operator) : preserves I (_keep_linked_execution self).
Proof.
  unfold _keep_linked_execution.
  apply preserves_bind; [apply any_count|]. intros _.
  apply preserves_get_host. intros w Hw.
  apply (preserves_say_bind I); [intros w1 lines; apply any_console | | exact Hw].
  apply preserves_bind.
  - apply preserves_for_each. intros conflict _. unfold keep_linked_conflict.
    destruct (skip_this_conflict conflict).
    + apply preserves_get_host. intros w1 Hw1. now apply any_count.
    + destruct (conflicts_get _ (base_name conflict)) as [info|];
        [|apply preserves_ret].
      cbv zeta. apply preserves_bind; [apply any_check_alive|]. intros _.
      destruct (List.filter linked (items info)) as [|target rest].
      * apply any_count.
      * apply preserves_for_each. intros x _. apply preserves_try_except.
        -- apply I_step, any_count.
        -- intros e. apply preserves_bind.
           ++ apply preserves_print. intros w1 lines. apply any_console.
           ++ intros _. apply any_count.
  - intros _. apply preserves_get_host. intros w' Hw'.
    apply (preserves_bind I); [apply any_report | | exact Hw'].
    intros _. apply preserves_ret.
Qed.

Lemma any_live_is_linked {B} (item : T) (k : bool -> py host B) :
  preserves I (k (linked item)) -> preserves I (bind (live_is_linked item) k).
Proof.
  intros Hk w Hw. unfold bind, live_is_linked, get_host. cbn.
  destruct (alive (data (host_state w)) item); cbn; [now apply Hk | exact Hw].
Qed.

Lemma any_remap_members_to (the_members : list T) (keep : T) :
  preserves I (remap_members_to the_members keep).
Proof.
  apply preserves_for_each. intros m _.
  destruct (same_block m keep); [apply preserves_ret|].
  apply any_live_is_linked.
  destruct (linked m); [apply preserves_ret|].
  apply I_step, any_count.
Qed.

Lemma any_find_target_group {B} (selected_name : string)
    (groups : list (identity_group T))
    (k : option (identity_group T) -> py host B) :
  (forall r, preserves I (k r)) ->
  preserves I (bind (find_target_group selected_name groups) k).
Proof.
  induction groups as [|g gs IH]; intros Hk w Hw.
  - now apply Hk.
  - unfold bind in *. cbn. unfold bind, live_name, get_host. cbn.
    destruct (alive (data (host_state w)) (representative g)); cbn; [|exact Hw].
    destruct (String.eqb (name_of (representative g)) selected_name); cbn.
    + now apply Hk.
    + now apply (IH Hk).
Qed.

Lemma any_conflict_cleanup (self : operator) :
  preserves I (_conflict_cleanup_with_grouping self).
Proof.
  unfold _conflict_cleanup_with_grouping.
  apply preserves_bind; [apply any_count|]. intros _.
  apply preserves_get_host. intros w Hw.
  apply (preserves_say_bind I); [intros w1 lines; apply any_console | | exact Hw].
  apply preserves_bind.
  - apply preserves_for_each. intros conflict _. unfold conflict_cleanup_conflict.
    destruct (skip_this_conflict conflict).
    + apply preserves_get_host. intros w1 Hw1. now apply any_count.
    + destruct (conflicts_get _ (base_name conflict)) as [info|];
        [|apply preserves_ret].
      cbv zeta. apply preserves_get_host. intros w1 Hw1.
      destruct (selection (host_state w1) (base_name conflict)) as [sel|];
        [|exact Hw1].
      destruct (String.eqb sel ""); [exact Hw1|].
      apply (any_find_target_group sel (identity_groups info)); [|exact Hw1].
      intros [tg|]; [|apply preserves_ret].
      apply preserves_for_each. intros g _.
      destruct (same_group g tg); apply any_remap_members_to.
  - intros _. apply preserves_bind; [apply any_clear_selections|].
    intros _. apply preserves_get_host. intros w' Hw'.
    apply (preserves_bind I); [apply any_report | | exact Hw'].
    intros _. apply preserves_ret.
Qed.

Lemma any_method (self : operator) (m : py host op_result) :
  In m (methods self) -> preserves I m.
Proof.
  intros [<- | [<- | [<- | [<- | [<- | []]]]]].
  - apply any_standard_cleanup.
  - apply any_auto_clean.
  - apply any_choose_data.
  - apply any_keep_linked.
  - apply any_conflict_cleanup.
Qed.

End AnyInvariant.

(** ** The scene at each moment of a run *)

Section Replay.
Context {T : Type} {Op : CleanupOperator T} {Laws : CleanupLaws Op}
        {RLaws : RemapLaws Op Laws}.

(** The scene once the datablock [p] is taken out of the collection. *)
Definition without (p : nat) (d : bpy_data) : bpy_data :=
  set_data_collection
    (List.filter (fun x => negb (p =? ptr_of x)%nat) (data_collection d)) d.

(** What an event does to the scene. *)
Definition apply_event (d : bpy_data) (e : event) : bpy_data :=
  match e with
  | Remapped a b => remap_ptr (id_ptr a) (id_ptr b) d
  | Removed a _ => without (id_ptr a) d
  end.

(** The scene that the events [tr] make of the scene [d0]. *)
Definition scene_after (d0 : bpy_data) (tr : list event) : bpy_data :=
  fold_left apply_event tr d0.

Lemma scene_after_snoc (d0 : bpy_data) (tr : list event) (e : event) :
  scene_after d0 (tr ++ [e]) = apply_event (scene_after d0 tr) e.
Proof. unfold scene_after. now rewrite fold_left_app. Qed.

(** The scene is the one the trace makes of the scene [d0] the run
    started from, and each removal recorded the scene of its moment. *)
Definition Replay (d0 : bpy_data) (w : world host) : Prop :=
  data (host_state w) = scene_after d0 (events w)
  /\ forall (i : nat) (a : ID) (d : bpy_data),
       events w !! i = Some (Removed a d) ->
       d = scene_after d0 (take i (events w)).

Lemma Replay_start (w : world host) :
  events w = [] -> Replay (data (host_state w)) w.
Proof.
  intros He. split; rewrite He; [reflexivity|].
  intros i a d Hi. now rewrite lookup_nil in Hi.
Qed.

Lemma Replay_frame (d0 : bpy_data) (w w' : world host) :
  data (host_state w') = data (host_state w) ->
  trace (host_state w') = trace (host_state w) ->
  Replay d0 w -> Replay d0 w'.
Proof.
  intros Hd Ht [H1 H2]. unfold Replay, events in *. rewrite Hd, Ht.
  split; assumption.
Qed.

Lemma Replay_snoc_remap (d0 d : bpy_data) (tr : list event) (a b : ID) :
  (forall i x dx, tr !! i = Some (Removed x dx) ->
                  dx = scene_after d0 (take i tr)) ->
  forall i x dx, (tr ++ [Remapped a b]) !! i = Some (Removed x dx) ->
                 dx = scene_after d0 (take i (tr ++ [Remapped a b])).
Proof.
  intros H i x dx Hi.
  destruct (lookup_snoc _ _ _ _ Hi) as [[Hlt Hi'] | [_ Heq]]; [|discriminate].
  rewrite take_app_le by lia. exact (H i x dx Hi').
Qed.

Lemma Replay_step (d0 : bpy_data) (a b : T) (rest : py host unit) :
  preserves (Replay d0) rest ->
  preserves (Replay d0) (_remap_data a b ;; remove a ;; rest).
Proof.
  intros Hrest [h c] [Hd Hr].
  unfold _remap_data, remove, log_event, modify_data, bind, modify_host,
    get_host, raise. cbn [host_state console data trace _conflict_selections
                            counts reports fst snd].
  unfold events in Hd, Hr. cbn [host_state data trace] in Hd, Hr.
  assert (Hw1 : Replay d0
            (World (Host (remap_data a b (data h)) (_conflict_selections h)
                         (trace h ++ [Remapped (block_id a) (block_id b)])
                         (counts h) (reports h)) c)).
  { split; unfold events; cbn [host_state data trace].
    - rewrite scene_after_snoc. cbn. now rewrite remap_by_ptr, Hd.
    - now apply Replay_snoc_remap. }
  destruct (alive (remap_data a b (data h)) a) eqn:Ha; [|exact Hw1].
  apply Hrest. destruct Hw1 as [Hd1 Hr1].
  unfold events in Hd1, Hr1. cbn [host_state data trace] in Hd1, Hr1.
  split; unfold events; cbn [host_state data trace].
  - rewrite scene_after_snoc. cbn [apply_event]. now rewrite <- Hd1.
  - intros i x dx Hi.
    destruct (lookup_snoc _ _ _ _ Hi) as [[Hlt Hi'] | [Hi' [= -> ->]]].
    + rewrite take_app_le by lia. exact (Hr1 i x dx Hi').
    + rewrite Hi', (take_app_length (trace h ++ [Remapped (block_id a) (block_id b)])).
      exact Hd1.
Qed.

(** Every method replays. *)
Lemma replay_method (self : operator) (m : py host op_result) (w : world host) :
  In m (methods self) -> events w = [] ->
  Replay (data (host_state w)) (snd (m w)).
Proof.
  intros Hm He.
  apply (any_method (Replay (data (host_state w)))
           (Replay_frame _) (Replay_step _) self m Hm).
  now apply Replay_start.
Qed.

(** In the trace of a run, the scene passed to [remove()] is the scene
    of the moment before the call of [_remap_data], remapped; each slot
    that held the removed datablock holds the other one, and the other
    slots hold what they held. *)
Lemma run_moves_consumers (self : operator) (m : py host op_result)
    (w : world host) (j : nat) (a b : ID) (d : bpy_data) :
  In m (methods self) -> events w = [] ->
  events (snd (m w)) !! j = Some (Remapped a b) ->
  events (snd (m w)) !! S j = Some (Removed a d) ->
  let before := scene_after (data (host_state w)) (take j (events (snd (m w)))) in
  (forall x y : T, block_id x = a -> block_id y = b -> d = remap_data x y before)
  /\ Forall2 (moved (id_ptr a) (id_ptr b))
       (slots (id_ptr a) before) (slots (id_ptr a) d).
Proof.
  intros Hm He Hj Hi. cbv zeta.
  destruct (replay_method self m w Hm He) as [_ Hr].
  pose proof (Hr (S j) a d Hi) as Hd.
  rewrite (take_S_r _ _ _ Hj), scene_after_snoc in Hd. cbn [apply_event] in Hd.
  assert (Hxy : forall x y : T, block_id x = a -> block_id y = b ->
                  d = remap_data x y
                        (scene_after (data (host_state w))
                           (take j (events (snd (m w)))))).
  { intros x y Hx Hy. rewrite remap_by_ptr. unfold ptr_of. now rewrite Hx, Hy. }
  split; [exact Hxy|].
  rewrite Hd. apply remap_moves.
Qed.

End Replay.

(** ** Remappings inside identity groups *)

Section Identical.
Context {T : Type} {Op : CleanupOperator T} {Laws : CleanupLaws Op}
        {CLaws : ComparisonLaws Op}.

(** The remappings of Auto Clean and of the cleanup without a dialog,
    told of the collection [coll0] the run starts from: [a] is local,
    and [a] and [b] are two members of one identity group of a conflict
    that the analysis of the collection finds. *)
Definition group_mates (coll0 : list T) (a b : ID) : Prop :=
  is_linked_data a = false /\ id_ptr a <> id_ptr b
  /\ exists (base : string) (info : conflict_info T) (g : identity_group T)
            (m r : T),
       In (base, info) (fst (analyze_data_conflicts_with_grouping coll0))
       /\ In g (identity_groups info)
       /\ In m (members g) /\ In r (members g)
       /\ block_id m = a /\ block_id r = b.

Lemma Forall2_In_r {A} (P : A -> A -> Prop) (l l' : list A) (y : A) :
  Forall2 P l l' -> In y l' -> exists x, In x l /\ P x y.
Proof.
  induction 1 as [|x y' l l' Hxy _ IH]; cbn; [contradiction|].
  intros [<- | Hy].
  - exists x. auto.
  - destruct (IH Hy) as (x' & Hx' & Hp). exists x'. auto.
Qed.

Lemma members_in_items (its : list T) (g : identity_group T) (x : T) :
  In g (fst (group_items_by_identity its)) -> In x (members g) -> In x its.
Proof.
  intros Hg Hx. destruct (group_items_by_identity_ok its) as (_ & Hperm).
  apply list_elem_of_In. rewrite <- Hperm. apply list_elem_of_In.
  apply in_concat. exists (members g). split; [now apply in_map | assumption].
Qed.

Lemma short_list_eq {A} (l : list A) (x y : A) :
  (length l <= 1)%nat -> In x l -> In y l -> x = y.
Proof.
  destruct l as [|a [|b l]]; cbn; intros Hlen Hx Hy; try lia; try contradiction.
  destruct Hx as [<- | []], Hy as [<- | []]. reflexivity.
Qed.

(** The groups of the items of one base name are those of the conflict
    of that base name. *)
Lemma base_group_pairs (coll0 : list T) (k : string) (its : list T) :
  In (k, its) (group_by_base_name coll0) ->
  pairs_allowed (group_mates coll0) its.
Proof.
  intros Hin g m r Hg Hm Hr Hs Hl.
  split; [exact Hl|]. split; [now apply same_block_false|].
  destruct (Nat.le_gt_cases (length its) 1) as [Hshort | Hlong].
  - exfalso.
    assert (m = r).
    { apply (short_list_eq its); [assumption | |];
        now apply (members_in_items its g). }
    subst r. unfold same_block in Hs. now rewrite Nat.eqb_refl in Hs.
  - destruct (analyze_groups_complete (group_by_base_name coll0) k its Hin Hlong)
      as (info & Hinfo & Hitems).
    destruct (analyze_groups_entries (group_by_base_name coll0) k info Hinfo)
      as (_ & _ & Hgroups & _).
    exists k, info, g, m, r. repeat split; try assumption.
    rewrite Hgroups, Hitems. exact Hg.
Qed.

Lemma bind_from {A B} (I : world host -> Prop) (m : py host A)
    (k : A -> py host B) (w : world host) :
  I (snd (m w)) -> (forall a, preserves I (k a)) -> I (snd (bind m k w)).
Proof.
  intros Hm Hk. unfold bind.
  destruct (m w) as [[a|e] w1]; cbn in *; [now apply Hk | assumption].
Qed.

(** From an empty trace, every removal of the cleanup without a
    dialog comes right after the remapping of the removed datablock to
    a mate. *)
Lemma standard_cleanup_mates (w : world host) :
  events w = [] ->
  forall (i : nat) (a : ID) (d : bpy_data),
    events (snd (_standard_cleanup_with_grouping w)) !! i = Some (Removed a d) ->
    exists (j : nat) (b : ID),
      i = S j
      /\ events (snd (_standard_cleanup_with_grouping w)) !! j
         = Some (Remapped a b)
      /\ group_mates (coll w) a b.
Proof.
  intros He i a d Hi.
  assert (HI : Inv (group_mates (coll w)) (ids w)
                 (snd (_standard_cleanup_with_grouping w))).
  { unfold _standard_cleanup_with_grouping.
    unfold bind at 1, get_host at 1. cbn [fst snd].
    unfold bind at 1, count at 1, modify_host at 1. cbn [fst snd].
    apply bind_from.
    - apply (keeps_clean_base_groups (group_mates (coll w)) (ids w)).
      + apply preserves_count.
      + intros [k l] Hin. cbn [snd]. now apply (base_group_pairs (coll w) k).
      + eapply Inv_frame; [| |exact (Inv_start _ w He)]; reflexivity.
    - intros _. apply preserves_get_host. intros w' Hw'.
      apply (preserves_bind (Inv (group_mates (coll w)) (ids w)));
        [apply preserves_report | | exact Hw'].
      intros _. apply preserves_ret. }
  destruct HI as [_ [Hmap Hrem]].
  destruct (Hrem i a d Hi) as (j & b & -> & Hj & _).
  exists j, b. split; [reflexivity|]. split; [exact Hj|]. now apply (Hmap j).
Qed.

(** ** The grouping by identity does not read pointers *)

(** Two identity groups made of the same datablocks, but for the
    datablocks their nodes point to. *)
Definition same_group_content (g g' : identity_group T) : Prop :=
  same_content (representative g) (representative g')
  /\ Forall2 same_content (members g) (members g').

Lemma place_in_group_same (x x' : T) (gs gs' : list (identity_group T)) :
  same_content x x' -> Forall2 same_group_content gs gs' ->
  match fst (place_in_group x gs), fst (place_in_group x' gs') with
  | Some a, Some b => Forall2 same_group_content a b
  | None, None => True
  | _, _ => False
  end.
Proof.
  intros Hx Hgs. induction Hgs as [|g g' gs gs' [Hrep Hmem] Hrest IH]; cbn;
    [exact I|].
  pose proof (same_content_identical x x' (representative g) (representative g')
                Hx Hrep) as Hsame.
  destruct (are_items_identical_by_type x (representative g)) as [same lines].
  destruct (are_items_identical_by_type x' (representative g')) as [same' lines'].
  cbn in Hsame. subst same'. destruct same; cbn.
  - constructor; [|assumption]. split; [exact Hrep|]. cbn.
    apply Forall2_app; [assumption|]. constructor; [assumption | constructor].
  - destruct (place_in_group x gs) as [[a|] l], (place_in_group x' gs') as [[b|] l'];
      cbn in *; try contradiction; try exact I.
    constructor; [split; assumption | assumption].
Qed.

Lemma group_items_from_same (todo todo' : list T) :
  Forall2 same_content todo todo' ->
  forall gs gs' : list (identity_group T),
    Forall2 same_group_content gs gs' ->
    Forall2 same_group_content (fst (group_items_from todo gs))
      (fst (group_items_from todo' gs')).
Proof.
  induction 1 as [|x x' todo todo' Hx Htodo IH]; intros gs gs' Hgs; cbn;
    [assumption|].
  pose proof (place_in_group_same x x' gs gs' Hx Hgs) as Hp.
  destruct (place_in_group x gs) as [[a|] l], (place_in_group x' gs') as [[b|] l'];
    cbn in Hp; try contradiction.
  - specialize (IH a b Hp).
    destruct (group_items_from todo a), (group_items_from todo' b). exact IH.
  - assert (Hnew : Forall2 same_group_content (gs ++ [IdentityGroup x [x]])
                     (gs' ++ [IdentityGroup x' [x']])).
    { apply Forall2_app; [assumption|]. constructor; [|constructor].
      split; cbn; [assumption|]. constructor; [assumption | constructor]. }
    specialize (IH _ _ Hnew).
    destruct (group_items_from todo _), (group_items_from todo' _). exact IH.
Qed.

Lemma group_items_by_identity_same (its its' : list T) :
  Forall2 same_content its its' ->
  Forall2 same_group_content (fst (group_items_by_identity its))
    (fst (group_items_by_identity its')).
Proof.
  intros H. apply (group_items_from_same its its' H [] []). constructor.
Qed.

(** ** The collection along a run, in order *)

(** The collection is made of the datablocks of [coll0] that are left,
    in the same order, each but for the datablocks its nodes point
    to. *)
Definition OContent (coll0 : list T) (w : world host) : Prop :=
  exists kept : T -> bool,
    Forall2 same_content (List.filter kept coll0) (coll w).

Lemma Forall2_same_refl (l : list T) : Forall2 same_content l l.
Proof. induction l; constructor; [apply same_content_refl | assumption]. Qed.

Lemma Forall2_same_trans (l1 l2 l3 : list T) :
  Forall2 same_content l1 l2 -> Forall2 same_content l2 l3 ->
  Forall2 same_content l1 l3.
Proof.
  intros H. revert l3. induction H as [|x y l1 l2 Hxy _ IH]; intros l3 H3;
    inversion H3; subst; constructor.
  - eapply same_content_trans; eassumption.
  - now apply IH.
Qed.

Lemma Forall2_filter_same (f g : T -> bool) (l l' : list T) :
  Forall2 same_content l l' ->
  (forall x y, same_content x y -> f x = g y) ->
  Forall2 same_content (List.filter f l) (List.filter g l').
Proof.
  intros H Hfg. induction H as [|x y l l' Hxy _ IH]; cbn; [constructor|].
  rewrite (Hfg x y Hxy). destruct (g y); [constructor|]; assumption.
Qed.

Lemma filter_true (l : list T) : List.filter (fun _ => true) l = l.
Proof. induction l as [|x l IH]; cbn; [reflexivity | now rewrite IH]. Qed.

Lemma OContent_start (w : world host) : OContent (coll w) w.
Proof.
  exists (fun _ => true). rewrite filter_true. apply Forall2_same_refl.
Qed.

Lemma OContent_frame (coll0 : list T) (w w' : world host) :
  data (host_state w') = data (host_state w) ->
  trace (host_state w') = trace (host_state w) ->
  OContent coll0 w -> OContent coll0 w'.
Proof. intros Hd _ H. unfold OContent, coll in *. now rewrite Hd. Qed.

Lemma OContent_step (coll0 : list T) (a b : T) (rest : py host unit) :
  preserves (OContent coll0) rest ->
  preserves (OContent coll0) (_remap_data a b ;; remove a ;; rest).
Proof.
  intros Hrest [h c] [kept Hc].
  unfold _remap_data, remove, log_event, modify_data, bind, modify_host,
    get_host, raise. cbn [host_state console data trace _conflict_selections
                            counts reports fst snd].
  unfold coll in Hc. cbn [host_state data] in Hc.
  assert (H1 : Forall2 same_content (List.filter kept coll0)
                 (data_collection (remap_data a b (data h)))).
  { eapply Forall2_same_trans; [exact Hc | apply remap_same_content]. }
  destruct (alive (remap_data a b (data h)) a) eqn:Ha;
    [|exists kept; exact H1].
  apply Hrest. exists (fun x => kept x && negb (same_block a x)).
  unfold coll. cbn [host_state data]. rewrite collection_set.
  rewrite <- filter_filter_and. apply Forall2_filter_same; [exact H1|].
  intros x y Hxy. unfold same_block, ptr_of.
  now rewrite (same_content_id x y Hxy).
Qed.

Lemma OContent_ids (coll0 : list T) (w : world host) (kept : T -> bool) :
  Forall2 same_content (List.filter kept coll0) (coll w) ->
  ids w = map block_id (List.filter kept coll0).
Proof.
  unfold ids. generalize (coll w) (List.filter kept coll0).
  intros l l' H. induction H as [|x y l' l Hxy _ IH]; cbn; [reflexivity|].
  now rewrite IH, (same_content_id x y Hxy).
Qed.

End Identical.

End SceneFacts.


(* ===================================================================== *)
(** * What each resolution strategy does                                  *)
(* ===================================================================== *)

Module StrategyFacts.
Import Py Py.Notations Bpy CleanUp CleanUpFacts EngineFacts.

Section Strategies.
Context {T : Type} {Op : CleanupOperator T} {Laws : CleanupLaws Op}.

(** The three statements every strategy repeats for a datablock it
    removes. *)
Definition step (x t : T) : py host unit :=
  _remap_data x t ;; remove x ;; count (add_processed 1).

(** The world after them, when the datablock is in the collection. *)
Definition after_step (x t : T) (w : world host) : world host :=
  let h := host_state w in
  let d := remap_data x t (data h) in
  World (Host (set_data_collection
                 (List.filter (fun y => negb (same_block x y)) (data_collection d)) d)
              (_conflict_selections h)
              (trace h ++ [Remapped (block_id x) (block_id t);
                           Removed (block_id x) d])
              (add_processed 1 (counts h)) (reports h))
        (console w).

Lemma alive_remap (x a b : T) (d : bpy_data) :
  alive (remap_data a b d) x = alive d x.
Proof. now rewrite !alive_ids, remap_keeps_ids. Qed.

Lemma step_alive (x t : T) (w : world host) :
  alive (data (host_state w)) x = true -> step x t w = (Ret tt, after_step x t w).
Proof.
  intros Ha. destruct w as [h c].
  unfold step, _remap_data, remove, log_event, modify_data, count, bind,
    modify_host, get_host, after_step.
  cbn [host_state console data trace _conflict_selections counts reports].
  rewrite alive_remap. cbn in Ha. rewrite Ha.
  cbn [host_state console data trace _conflict_selections counts reports].
  now rewrite <- app_assoc.
Qed.

Lemma ids_after_step (x t : T) (w : world host) :
  ids (after_step x t w)
  = List.filter (fun i => negb (ptr_of x =? id_ptr i)%nat) (ids w).
Proof.
  unfold ids, coll, after_step. cbn [host_state data].
  now rewrite collection_set, filter_ids, remap_keeps_ids.
Qed.

Lemma alive_after_step (x t y : T) (w : world host) :
  ptr_of y <> ptr_of x ->
  alive (data (host_state (after_step x t w))) y = alive (data (host_state w)) y.
Proof.
  intros Hne. rewrite !alive_ids.
  change (map block_id (data_collection (data (host_state (after_step x t w)))))
    with (ids (after_step x t w)).
  rewrite ids_after_step. fold (coll w). fold (ids w).
  induction (ids w) as [|i l IH]; cbn; [reflexivity|].
  destruct (ptr_of x =? id_ptr i)%nat eqn:E; cbn.
  - apply Nat.eqb_eq in E.
    assert (Hf : (ptr_of y =? id_ptr i)%nat = false)
      by (apply Nat.eqb_neq; congruence).
    now rewrite Hf.
  - now rewrite IH.
Qed.

Lemma selections_after_step (x t : T) (w : world host) :
  _conflict_selections (host_state (after_step x t w))
  = _conflict_selections (host_state w).
Proof. reflexivity. Qed.

Lemma events_after_step (x t : T) (w : world host) :
  events (after_step x t w)
  = events w ++ [Remapped (block_id x) (block_id t);
                 Removed (block_id x) (remap_data x t (data (host_state w)))].
Proof. reflexivity. Qed.

(** Some item of the list that the loop removes has this identity. *)
Definition taken (guard : T -> bool) (its : list T) (i : ID) : bool :=
  existsb (fun x => guard x && (ptr_of x =? id_ptr i)%nat) its.

(** A loop that removes, after remapping them to [t], the items its
    guard lets through. *)
Lemma removal_loop (guard : T -> bool) (t : T) (body : T -> py host unit)
    (its : list T) :
  (forall x w, guard x = true -> alive (data (host_state w)) x = true ->
               body x w = (Ret tt, after_step x t w)) ->
  (forall x w, guard x = false -> body x w = (Ret tt, w)) ->
  forall w : world host,
    NoDup (map ptr_of its) ->
    (forall x, In x its -> guard x = true -> alive (data (host_state w)) x = true) ->
    fst (for_each its body w) = Ret tt
    /\ ids (snd (for_each its body w))
       = List.filter (fun i => negb (taken guard its i)) (ids w)
    /\ (forall x, In x its -> guard x = true ->
                  In (Remapped (block_id x) (block_id t))
                     (events (snd (for_each its body w))))
    /\ (forall e, In e (events w) -> In e (events (snd (for_each its body w))))
    /\ (forall e, In e (events (snd (for_each its body w))) ->
                  In e (events w)
                  \/ exists x, In x its /\ guard x = true
                               /\ (e = Remapped (block_id x) (block_id t)
                                   \/ exists d, e = Removed (block_id x) d))
    /\ _conflict_selections (host_state (snd (for_each its body w)))
       = _conflict_selections (host_state w).
Proof.
  intros Hstep Hskip. induction its as [|x rest IH]; intros w Hnd Halive.
  - cbn. split; [reflexivity|]. split; [|split; [|split; [|split]]]; auto.
    + induction (ids w) as [|i l IHl]; cbn; [reflexivity | now rewrite <- IHl].
    + intros x [].
  - cbn [map] in Hnd. apply NoDup_cons in Hnd as [Hx Hnd].
    cbn [for_each]. unfold bind.
    destruct (guard x) eqn:Hg.
    + rewrite (Hstep x w Hg) by (apply Halive; [now left | assumption]).
      assert (Halive' : forall y, In y rest -> guard y = true ->
                alive (data (host_state (after_step x t w))) y = true).
      { intros y Hy Hgy. rewrite alive_after_step.
        - apply Halive; [now right | assumption].
        - intros Heq. apply Hx. rewrite <- Heq. apply list_elem_of_In.
          now apply in_map. }
      destruct (IH (after_step x t w) Hnd Halive')
        as (H1 & H2 & H3 & H4 & H5 & H6).
      split; [assumption|]. split; [|split; [|split; [|split]]].
      * rewrite H2, ids_after_step, filter_filter_and.
        apply filter_ext. intros i. unfold taken. cbn [existsb]. rewrite Hg.
        cbn. now rewrite negb_orb.
      * intros y [<- | Hy] Hgy.
        -- apply H4. rewrite events_after_step. apply in_or_app. right. now left.
        -- now apply H3.
      * intros e He. apply H4. rewrite events_after_step. apply in_or_app. now left.
      * intros e He. apply H5 in He as [He | (y & Hy & Hgy & Hey)].
        -- rewrite events_after_step in He. apply in_app_or in He as [He | He];
             [now left|]. right. exists x. split; [now left|].
           split; [assumption|].
           destruct He as [<- | [<- | []]]; [now left | right; eauto].
        -- right. exists y. split; [now right | auto].
      * now rewrite H6, selections_after_step.
    + rewrite (Hskip x w Hg).
      assert (Halive' : forall y, In y rest -> guard y = true ->
                alive (data (host_state w)) y = true)
        by (intros y Hy; apply Halive; now right).
      destruct (IH w Hnd Halive') as (H1 & H2 & H3 & H4 & H5 & H6).
      split; [assumption|]. split; [|split; [|split; [|split]]].
      * rewrite H2. apply filter_ext. intros i. unfold taken. cbn [existsb].
        now rewrite Hg.
      * intros y [<- | Hy] Hgy; [congruence | now apply H3].
      * assumption.
      * intros e He. apply H5 in He as [He | (y & Hy & Hgy & Hey)];
          [now left|]. right. exists y. split; [now right | auto].
      * assumption.
Qed.

(** ** What one conflict leaves of the others *)


Lemma alive_id (x : T) (w : world host) :
  In (block_id x) (ids w) -> alive (data (host_state w)) x = true.
Proof.
  intros Hx. rewrite alive_ids. apply existsb_exists. exists (block_id x).
  split; [exact Hx | apply Nat.eqb_refl].
Qed.

Lemma NoDup_map_filter {A B} (f : A -> B) (g : A -> bool) (l : list A) :
  NoDup (map f l) -> NoDup (map f (List.filter g l)).
Proof.
  induction l as [|x l IH]; cbn; intros Hnd; [assumption|].
  apply NoDup_cons in Hnd as [Hx Hnd].
  destruct (g x); cbn; [|now apply IH].
  apply NoDup_cons. split; [|now apply IH].
  intros Hin. apply Hx. apply list_elem_of_In in Hin. apply list_elem_of_In.
  apply in_map_iff in Hin as (y & Hy & Hin). apply filter_In in Hin as [Hin _].
  apply in_map_iff. eauto.
Qed.

Lemma NoDup_map_eq {A B} (f : A -> B) (l : list A) (x y : A) :
  NoDup (map f l) -> In x l -> In y l -> f x = f y -> x = y.
Proof.
  induction l as [|z l IH]; cbn; intros Hnd Hx Hy Heq; [contradiction|].
  apply NoDup_cons in Hnd as [Hz Hnd].
  destruct Hx as [-> | Hx], Hy as [-> | Hy]; auto.
  - exfalso. apply Hz. rewrite Heq. apply list_elem_of_In. now apply in_map.
  - exfalso. apply Hz. rewrite <- Heq. apply list_elem_of_In. now apply in_map.
Qed.


Lemma map_filter_comm {A B} (f : A -> B) (g : B -> bool) (l : list A) :
  map f (List.filter (fun x => g (f x)) l) = List.filter g (map f l).
Proof.
  induction l as [|x l IH]; cbn; [reflexivity|].
  destruct (g (f x)); cbn; now rewrite IH.
Qed.

Lemma find_map_comm {A B} (f : A -> B) (g : B -> bool) (l : list A) :
  option_map f (List.find (fun x => g (f x)) l) = List.find g (map f l).
Proof.
  induction l as [|x l IH]; cbn; [reflexivity|].
  destruct (g (f x)); cbn; [reflexivity | exact IH].
Qed.

Lemma filter_all {A} (l : list A) : List.filter (fun _ => true) l = l.
Proof. induction l as [|x l IH]; cbn; [reflexivity | now rewrite IH]. Qed.

(** The base name a header bears, whether it is [b], and whether the
    datablock is local. *)
Definition base_of (i : ID) : string := get_base_name (id_name i).
Definition named (b : string) (i : ID) : bool := String.eqb (base_of i) b.
Definition is_local (i : ID) : bool := negb (is_linked_data i).

Lemma ids_items_named (b : string) (w : world host) :
  map block_id (items_named b (data (host_state w)))
  = List.filter (named b) (ids w).
Proof. unfold items_named, ids, coll. apply (map_filter_comm block_id (named b)). Qed.

Lemma ids_local (l : list T) :
  map block_id (List.filter (fun i => negb (linked i)) l)
  = List.filter is_local (map block_id l).
Proof. apply (map_filter_comm block_id is_local). Qed.

(** What the handling of the conflict of base name [b] may do to the
    world: remove datablocks of that base name, log events about
    datablocks of that base name, and nothing else that the strategies
    look at. *)
Record footprint (b : string) (w w1 : world host) : Prop := MkFootprint {
  fp_ids : exists f, ids w1 = List.filter f (ids w)
                     /\ forall i, In i (ids w) -> f i = false -> named b i = true;
  fp_old : forall e, In e (events w) -> In e (events w1);
  fp_new : forall e, In e (events w1) ->
             In e (events w)
             \/ exists a, named b a = true
                  /\ ((exists t, e = Remapped a t) \/ (exists d, e = Removed a d));
  fp_sel : _conflict_selections (host_state w1) = _conflict_selections (host_state w)
}.

Lemma footprint_same (b : string) (w w1 : world host) :
  data (host_state w1) = data (host_state w) ->
  trace (host_state w1) = trace (host_state w) ->
  _conflict_selections (host_state w1) = _conflict_selections (host_state w) ->
  footprint b w w1.
Proof.
  intros Hd Ht Hs. split.
  - exists (fun _ => true). unfold ids, coll. rewrite Hd, filter_all.
    split; [reflexivity | discriminate].
  - unfold events. now rewrite Ht.
  - unfold events. rewrite Ht. now left.
  - assumption.
Qed.

Lemma footprint_NoDup (b : string) (w w1 : world host) :
  footprint b w w1 -> NoDup (map id_ptr (ids w)) -> NoDup (map id_ptr (ids w1)).
Proof.
  intros [(f & Hf & _) _ _ _] Hnd. rewrite Hf. now apply NoDup_map_filter.
Qed.

Lemma named_inj (b c : string) (i : ID) :
  named b i = true -> named c i = true -> c = b.
Proof.
  unfold named. intros Hb Hc. apply String.eqb_eq in Hb, Hc. congruence.
Qed.

Lemma footprint_keeps (b : string) (w w1 : world host) (i : ID) :
  footprint b w w1 -> named b i = false -> In i (ids w) -> In i (ids w1).
Proof.
  intros [(f & Hf & Hb) _ _ _] Hn Hi. rewrite Hf. apply filter_In.
  split; [assumption|]. destruct (f i) eqn:E; [reflexivity|].
  specialize (Hb i Hi E). congruence.
Qed.

Lemma footprint_gone (b : string) (w w1 : world host) (i : ID) :
  footprint b w w1 -> ~ In i (ids w) -> ~ In i (ids w1).
Proof.
  intros [(f & Hf & _) _ _ _] Hn Hi. rewrite Hf in Hi.
  now apply filter_In in Hi as [Hi _].
Qed.

Lemma footprint_named (b c : string) (w w1 : world host) :
  footprint b w w1 -> c <> b ->
  List.filter (named c) (ids w1) = List.filter (named c) (ids w).
Proof.
  intros [(f & Hf & Hb) _ _ _] Hne. rewrite Hf, filter_filter_and.
  apply filter_ext_in. intros i Hi.
  destruct (f i) eqn:E; [reflexivity|]. cbn.
  specialize (Hb i Hi E). destruct (named c i) eqn:Hc; [|reflexivity].
  exfalso. apply Hne. now apply (named_inj b c i).
Qed.

Lemma footprint_quiet (b : string) (w w1 : world host) (a t : ID) :
  footprint b w w1 -> named b a = false ->
  ~ In (Remapped a t) (events w) -> ~ In (Remapped a t) (events w1).
Proof.
  intros Hf Hn Hno Hin. apply (fp_new _ _ _ Hf) in Hin as [Hin | (a' & Ha & He)];
    [now apply Hno|].
  destruct He as [[t' He] | [d He]]; [|discriminate].
  injection He as -> ->. congruence.
Qed.

(** The loops of Choose Data and Replace with Linked stay within the
    conflict. *)
Lemma removal_loop_footprint (b : string) (guard : T -> bool) (t : T)
    (body : T -> py host unit) (its : list T) (w : world host) :
  (forall x w, guard x = true -> alive (data (host_state w)) x = true ->
               body x w = (Ret tt, after_step x t w)) ->
  (forall x w, guard x = false -> body x w = (Ret tt, w)) ->
  NoDup (map id_ptr (ids w)) ->
  NoDup (map ptr_of its) ->
  (forall x, In x its -> In (block_id x) (ids w) /\ named b (block_id x) = true) ->
  footprint b w (snd (for_each its body w)).
Proof.
  intros Hstep Hskip Hw Hnd Hits.
  destruct (removal_loop guard t body its Hstep Hskip w Hnd)
    as (_ & Hids & _ & Hold & Hnew & Hsel).
  { intros x Hx _. apply alive_id. now apply Hits. }
  split.
  - exists (fun i => negb (taken guard its i)). split; [exact Hids|].
    intros i Hi Ht. apply negb_false_iff in Ht.
    apply existsb_exists in Ht as (x & Hx & Hg).
    apply andb_prop in Hg as [_ Hp]. apply Nat.eqb_eq in Hp.
    destruct (Hits x Hx) as [Hxi Hxb].
    now rewrite <- (NoDup_ptr_eq (ids w) (block_id x) i Hw Hxi Hi Hp).
  - exact Hold.
  - intros e He. apply Hnew in He as [He | (x & Hx & _ & He)]; [now left|].
    right. exists (block_id x). split; [now apply Hits|].
    destruct He as [-> | [d ->]]; [left | right]; eauto.
  - exact Hsel.
Qed.

(** ** The loop over the conflicts of the dialog *)

Section ConflictsLoop.
Variable body : conflict_item -> py host unit.
Variables Pre Post : conflict_item -> world host -> Prop.

Hypothesis body_ok : forall c w,
  NoDup (map id_ptr (ids w)) -> Pre c w ->
  fst (body c w) = Ret tt
  /\ footprint (base_name c) w (snd (body c w))
  /\ Post c (snd (body c w)).

Hypothesis Pre_stable : forall c b w w1,
  base_name c <> b -> footprint b w w1 -> Pre c w -> Pre c w1.

(** What no conflict of the list disturbs holds after the loop. *)
Lemma conflicts_loop_stable (Q : world host -> Prop) (cs : list conflict_item) :
  (forall c w w1, In c cs -> footprint (base_name c) w w1 -> Q w -> Q w1) ->
  forall w, NoDup (map base_name cs) -> NoDup (map id_ptr (ids w)) ->
            (forall c, In c cs -> Pre c w) ->
            Q w -> Q (snd (for_each cs body w)).
Proof.
  induction cs as [|a rest IH]; intros HQ w Hnd Hw Hpre Hq; [exact Hq|].
  cbn [for_each]. unfold bind.
  destruct (body_ok a w Hw (Hpre a (or_introl eq_refl))) as (Hret & Hfp & _).
  destruct (body a w) as [r w1]. cbn [fst snd] in *. subst r.
  cbn [map] in Hnd. apply NoDup_cons in Hnd as [Ha Hnd].
  apply IH.
  - intros c w2 w3 Hc. apply HQ. now right.
  - exact Hnd.
  - now apply (footprint_NoDup (base_name a) w).
  - intros c Hc. apply (Pre_stable c (base_name a) w); auto.
    + intros Heq. apply Ha. rewrite <- Heq. apply list_elem_of_In.
      now apply in_map.
    + apply Hpre. now right.
  - apply (HQ a w); [now left | assumption | assumption].
Qed.

Hypothesis Post_stable : forall c b w w1,
  base_name c <> b -> footprint b w w1 -> Post c w -> Post c w1.

(** Conflicts of distinct base names are handled each as if alone. *)
Lemma conflicts_loop (cs : list conflict_item) :
  forall w, NoDup (map base_name cs) -> NoDup (map id_ptr (ids w)) ->
            (forall c, In c cs -> Pre c w) ->
            forall c, In c cs -> Post c (snd (for_each cs body w)).
Proof.
  induction cs as [|a rest IH]; intros w Hnd Hw Hpre c Hc; [contradiction|].
  cbn [for_each]. unfold bind.
  destruct (body_ok a w Hw (Hpre a (or_introl eq_refl))) as (Hret & Hfp & Hpost).
  destruct (body a w) as [r w1]. cbn [fst snd] in *. subst r.
  cbn [map] in Hnd. apply NoDup_cons in Hnd as [Ha Hnd].
  assert (Hother : forall c', In c' rest -> base_name c' <> base_name a).
  { intros c' Hc' Heq. apply Ha. rewrite <- Heq. apply list_elem_of_In.
    now apply in_map. }
  assert (Hw1 : NoDup (map id_ptr (ids w1)))
    by now apply (footprint_NoDup (base_name a) w).
  assert (Hpre1 : forall c', In c' rest -> Pre c' w1).
  { intros c' Hc'. apply (Pre_stable c' (base_name a) w); auto.
    apply Hpre. now right. }
  destruct Hc as [<- | Hc].
  - apply (conflicts_loop_stable (Post a)); auto.
    intros c' w2 w3 Hc' Hfp'. apply (Post_stable a (base_name c')); auto.
    intros Heq. now apply (Hother c').
  - now apply IH.
Qed.
End ConflictsLoop.

(** ** Choose Data *)

(** The guard of the loop of [_choose_data_execution]. *)
Definition other_local (target : T) (item : T) : bool :=
  negb (same_block item target) && negb (linked item).

(** The datablock a name chosen for the base name [b] stands for: the
    first one of that base name that bears it. *)
Definition chosen (b name : string) (l : list ID) : option ID :=
  List.find (fun i => String.eqb (id_name i) name) (List.filter (named b) l).

Lemma chosen_items (b name : string) (w : world host) :
  option_map block_id
    (List.find (fun item => String.eqb (name_of item) name)
       (items_named b (data (host_state w))))
  = chosen b name (ids w).
Proof.
  unfold chosen. rewrite <- ids_items_named.
  apply (find_map_comm block_id (fun i => String.eqb (id_name i) name)).
Qed.

Section ChooseData.
Variable sel0 : string -> option string.
Variable ids0 : list ID.

(** The conflict has not been handled yet. *)
Definition choose_data_pending (c : conflict_item) (w : world host) : Prop :=
  List.filter (named (base_name c)) (ids w) = List.filter (named (base_name c)) ids0
  /\ selection (host_state w) (base_name c) = sel0 (base_name c).

(** The conflict has been handled as the user chose. *)
Definition choose_data_done (c : conflict_item) (w' : world host) : Prop :=
  skip_this_conflict c = false ->
  forall (name : string) (target : ID),
    sel0 (base_name c) = Some name -> name <> "" ->
    chosen (base_name c) name ids0 = Some target ->
    (2 <= length (List.filter is_local (List.filter (named (base_name c)) ids0)))%nat ->
    In target (ids w')
    /\ forall x, In x ids0 -> named (base_name c) x = true ->
                 is_linked_data x = false -> id_ptr x <> id_ptr target ->
                 In (Remapped x target) (events w') /\ ~ In x (ids w').

Lemma choose_data_pending_stable (c : conflict_item) (b : string)
    (w w1 : world host) :
  base_name c <> b -> footprint b w w1 ->
  choose_data_pending c w -> choose_data_pending c w1.
Proof.
  intros Hne Hfp [Hids Hsel]. split.
  - now rewrite (footprint_named b (base_name c) w w1 Hfp Hne).
  - unfold selection in *. now rewrite (fp_sel _ _ _ Hfp).
Qed.

Lemma chosen_named (b name : string) (l : list ID) (target : ID) :
  chosen b name l = Some target -> In target l /\ named b target = true.
Proof.
  unfold chosen. intros H. apply find_some in H as [H _].
  now apply filter_In in H.
Qed.

Lemma choose_data_done_stable (c : conflict_item) (b : string)
    (w w1 : world host) :
  base_name c <> b -> footprint b w w1 ->
  choose_data_done c w -> choose_data_done c w1.
Proof.
  intros Hne Hfp Hdone Hskip name target Hsel Hname Hch Hlen.
  destruct (Hdone Hskip name target Hsel Hname Hch Hlen) as [Ht Hx].
  split.
  - apply (footprint_keeps b w); [assumption | | assumption].
    apply chosen_named in Hch as [_ Hn].
    destruct (named b target) eqn:E; [|reflexivity].
    exfalso. apply Hne. now apply (named_inj b (base_name c) target).
  - intros x Hx0 Hxn Hxl Hxp. destruct (Hx x Hx0 Hxn Hxl Hxp) as [He Hg].
    split; [now apply (fp_old _ _ _ Hfp) | now apply (footprint_gone b w)].
Qed.

Lemma choose_data_conflict_ok (c : conflict_item) (w : world host) :
  NoDup (map id_ptr (ids w)) -> choose_data_pending c w ->
  fst (choose_data_conflict c w) = Ret tt
  /\ footprint (base_name c) w (snd (choose_data_conflict c w))
  /\ choose_data_done c (snd (choose_data_conflict c w)).
Proof.
  intros Hw [Hids Hsel].
  remember (choose_data_conflict c w) as r eqn:Hr.
  unfold choose_data_conflict in Hr.
  destruct (skip_this_conflict c) eqn:Hskip.
  { subst r. split; [reflexivity|]. split; [now apply footprint_same|].
    intros H. congruence. }
  unfold bind at 1 in Hr. unfold get_host in Hr. cbv beta iota zeta in Hr.
  set (b := base_name c) in *.
  set (all_items := items_named b (data (host_state w))) in *.
  assert (Hall : map block_id all_items = List.filter (named b) ids0)
    by (unfold all_items; now rewrite ids_items_named).
  assert (Hlocal : length (List.filter (fun i => negb (linked i)) all_items)
                   = length (List.filter is_local (List.filter (named b) ids0)))
    by (now rewrite <- Hall, <- ids_local, length_map).
  destruct (length (List.filter (fun i => negb (linked i)) all_items) <? 2)%nat
    eqn:Hlen.
  { apply Nat.ltb_lt in Hlen. subst r.
    split; [reflexivity|]. split; [now apply footprint_same|].
    intros _ name target _ _ _ Htwo. exfalso. fold b in Htwo. lia. }
  rewrite Hsel in Hr. unfold choose_data_done. fold b.
  destruct (sel0 b) as [selected_name|] eqn:Hsel0.
  2:{ subst r. split; [reflexivity|]. split; [now apply footprint_same|].
      intros _ name target H. discriminate. }
  destruct (String.eqb selected_name "") eqn:Hempty.
  { apply String.eqb_eq in Hempty. subst r.
    split; [reflexivity|]. split; [now apply footprint_same|].
    intros _ name target [= <-] Hname. contradiction. }
  pose proof (chosen_items b selected_name w) as Hchosen.
  fold all_items in Hchosen. unfold chosen in Hchosen.
  rewrite Hids in Hchosen. fold (chosen b selected_name ids0) in Hchosen.
  destruct (List.find _ all_items) as [target|] eqn:Hfind.
  2:{ subst r. split; [reflexivity|]. split; [now apply footprint_same|].
      intros _ name tid [= <-] _ Hch. cbn in Hchosen. congruence. }
  cbn [option_map] in Hchosen. subst r.
  assert (Hin : forall x, In x all_items ->
                          In (block_id x) (ids w) /\ named b (block_id x) = true).
  { intros x Hx. apply (in_map block_id) in Hx. unfold all_items in Hx.
    rewrite ids_items_named in Hx. now apply filter_In in Hx. }
  assert (Hnd : NoDup (map ptr_of all_items)).
  { unfold all_items, items_named. apply NoDup_map_filter.
    unfold ptr_of. rewrite <- (map_map block_id id_ptr). exact Hw. }
  match goal with |- context [for_each all_items ?f] => set (body := f) end.
  assert (Hstep : forall x w', other_local target x = true ->
            alive (data (host_state w')) x = true ->
            body x w' = (Ret tt, after_step x target w')).
  { intros x w' Hg Ha. unfold body. unfold other_local in Hg. rewrite Hg.
    now apply step_alive. }
  assert (Hnot : forall x w', other_local target x = false ->
            body x w' = (Ret tt, w')).
  { intros x w' Hg. unfold body. unfold other_local in Hg. now rewrite Hg. }
  destruct (removal_loop (other_local target) target body all_items Hstep Hnot w Hnd)
    as (Hret & Hids' & Hmap & _ & _ & _).
  { intros x Hx _. apply alive_id. now apply Hin. }
  split; [exact Hret|]. split.
  { now apply (removal_loop_footprint b (other_local target) target). }
  intros _ name tid [= <-] _ Hch _.
  assert (tid = block_id target) by congruence. subst tid.
  assert (Htarget : In target all_items) by (now apply find_some in Hfind).
  assert (Hsame : forall x, In x all_items ->
            (ptr_of x =? id_ptr (block_id target))%nat = true -> x = target).
  { intros x Hx Hp. apply Nat.eqb_eq in Hp.
    apply (NoDup_map_eq ptr_of all_items); auto. }
  split.
  - rewrite Hids'. apply filter_In. split; [now apply Hin|].
    apply negb_true_iff. destruct (taken _ _ _) eqn:Ht; [|reflexivity].
    apply existsb_exists in Ht as (y & Hy & Hg).
    apply andb_prop in Hg as [Hg Hp].
    rewrite (Hsame y Hy Hp) in Hg. unfold other_local, same_block in Hg.
    now rewrite Nat.eqb_refl in Hg.
  - intros x Hx0 Hxn Hxl Hxp.
    assert (Hx : In x (map block_id all_items))
      by (rewrite Hall; now apply filter_In).
    apply in_map_iff in Hx as (x' & <- & Hx').
    assert (Hg : other_local target x' = true).
    { unfold other_local, same_block, linked, ptr_of. rewrite Hxl.
      apply Nat.eqb_neq in Hxp. now rewrite Hxp. }
    split; [now apply Hmap|].
    rewrite Hids'. intros Hi. apply filter_In in Hi as [_ Hi].
    apply negb_true_iff in Hi.
    assert (Ht : taken (other_local target) all_items (block_id x') = true).
    { apply existsb_exists. exists x'. split; [assumption|].
      rewrite Hg. apply Nat.eqb_refl. }
    congruence.
Qed.
End ChooseData.

(** The collection and the trace [_choose_data_execution] leaves are
    those its loop leaves. *)
Lemma choose_data_world (self : operator) (w : world host) :
  exists w0 : world host,
    ids w0 = ids w /\ events w0 = events w
    /\ _conflict_selections (host_state w0) = _conflict_selections (host_state w)
    /\ ids (snd (_choose_data_execution self w))
       = ids (snd (for_each (conflicts self) choose_data_conflict w0))
    /\ events (snd (_choose_data_execution self w))
       = events (snd (for_each (conflicts self) choose_data_conflict w0)).
Proof.
  exists (snd (count (fun _ => no_counts) w)).
  split; [reflexivity|]. split; [reflexivity|]. split; [reflexivity|].
  unfold _choose_data_execution, bind, count, modify_host. cbv beta iota.
  destruct (for_each (conflicts self) choose_data_conflict _) as [[[]|e] w1];
    split; reflexivity.
Qed.

(** Choose Data, the whole run: in a conflict that is not skipped and
    has two local items or more, every local item but the one the chosen
    name stands for is remapped to that one and removed. *)
Lemma choose_data_run (self : operator) (w : world host)
    (conflict : conflict_item) (selected_name : string) (target : T) :
  distinct_blocks w -> NoDup (map base_name (conflicts self)) ->
  In conflict (conflicts self) -> skip_this_conflict conflict = false ->
  selection (host_state w) (base_name conflict) = Some selected_name ->
  selected_name <> "" ->
  List.find (fun item => String.eqb (name_of item) selected_name)
    (items_named (base_name conflict) (data (host_state w))) = Some target ->
  (2 <= length (List.filter (fun i => negb (linked i))
                  (items_named (base_name conflict) (data (host_state w)))))%nat ->
  In (block_id target) (ids (snd (_choose_data_execution self w)))
  /\ forall x, In x (items_named (base_name conflict) (data (host_state w))) ->
               linked x = false -> ptr_of x <> ptr_of target ->
               In (Remapped (block_id x) (block_id target))
                  (events (snd (_choose_data_execution self w)))
               /\ ~ In (block_id x) (ids (snd (_choose_data_execution self w))).
Proof.
  intros Hnd Hbases Hc Hskip Hsel Hname Hfind Htwo.
  destruct (choose_data_world self w) as (w0 & Hi & He & Hs & -> & ->).
  pose proof (conflicts_loop choose_data_conflict
                (choose_data_pending (selection (host_state w)) (ids w))
                (choose_data_done (selection (host_state w)) (ids w))
                (choose_data_conflict_ok _ _)
                (choose_data_pending_stable _ _)
                (choose_data_done_stable _ _)
                (conflicts self) w0 Hbases) as Hloop.
  destruct (Hloop) with (c := conflict) (name := selected_name)
                        (target := block_id target) as [Ht Hx]; auto.
  - now rewrite Hi.
  - intros c _. split; [now rewrite Hi|]. unfold selection. now rewrite Hs.
  - rewrite <- chosen_items, Hfind. reflexivity.
  - now rewrite <- ids_items_named, <- ids_local, length_map.
  - split; [exact Ht|]. intros x Hin Hl Hp. apply Hx.
    + apply (in_map block_id) in Hin. rewrite ids_items_named in Hin.
      now apply filter_In in Hin.
    + apply (in_map block_id) in Hin. rewrite ids_items_named in Hin.
      now apply filter_In in Hin.
    + exact Hl.
    + exact Hp.
Qed.

(** ** Replace with Linked *)

Lemma check_alive_ok (its : list T) (w : world host) :
  (forall x, In x its -> alive (data (host_state w)) x = true) ->
  check_alive its w = (Ret tt, w).
Proof.
  intros Ha. unfold check_alive, bind, get_host.
  assert (H : forallb (alive (data (host_state w))) its = true)
    by (now apply forallb_forall).
  now rewrite H.
Qed.

Lemma conflicts_get_eq (found : list (string * conflict_info T)) (base : string)
    (info : conflict_info T) :
  conflicts_get found base = Some info -> In (base, info) found.
Proof.
  induction found as [|[b i] rest IH]; cbn; [discriminate|].
  destruct (String.eqb b base) eqn:E.
  - apply String.eqb_eq in E. intros [= ->]. left. now subst.
  - intros H. right. now apply IH.
Qed.

Section KeepLinked.
Variable found : list (string * conflict_info T).

Hypothesis found_named : forall base info x,
  conflicts_get found base = Some info -> In x (items info) ->
  named base (block_id x) = true.

Hypothesis found_distinct : forall base info,
  conflicts_get found base = Some info -> NoDup (map ptr_of (items info)).

(** The items of the conflict are in the collection, and none of them
    has been remapped. *)
Definition keep_linked_pending (c : conflict_item) (w : world host) : Prop :=
  forall info x,
    conflicts_get found (base_name c) = Some info -> In x (items info) ->
    In (block_id x) (ids w)
    /\ forall t, ~ In (Remapped (block_id x) t) (events w).

(** The conflict has been handled: left as it was if none of its items
    is linked, and its local items replaced with the first linked one
    otherwise. *)
Definition keep_linked_done (c : conflict_item) (w' : world host) : Prop :=
  skip_this_conflict c = false ->
  forall info, conflicts_get found (base_name c) = Some info ->
    match List.filter linked (items info) with
    | [] =>
        forall x, In x (items info) ->
          In (block_id x) (ids w')
          /\ forall t, ~ In (Remapped (block_id x) t) (events w')
    | target_linked :: _ =>
        forall x, In x (items info) -> linked x = false ->
          In (Remapped (block_id x) (block_id target_linked)) (events w')
          /\ ~ In (block_id x) (ids w')
    end.

Lemma other_base (b c : string) (i : ID) :
  c <> b -> named c i = true -> named b i = false.
Proof.
  intros Hne Hc. destruct (named b i) eqn:E; [|reflexivity].
  exfalso. apply Hne. now apply (named_inj b c i).
Qed.

Lemma keep_linked_pending_stable (c : conflict_item) (b : string)
    (w w1 : world host) :
  base_name c <> b -> footprint b w w1 ->
  keep_linked_pending c w -> keep_linked_pending c w1.
Proof.
  intros Hne Hfp Hpre info x Hget Hx.
  destruct (Hpre info x Hget Hx) as [Hin Hno].
  assert (Hb : named b (block_id x) = false)
    by (apply (other_base b (base_name c)); eauto).
  split.
  - now apply (footprint_keeps b w).
  - intros t. now apply (footprint_quiet b w).
Qed.

Lemma keep_linked_done_stable (c : conflict_item) (b : string)
    (w w1 : world host) :
  base_name c <> b -> footprint b w w1 ->
  keep_linked_done c w -> keep_linked_done c w1.
Proof.
  intros Hne Hfp Hdone Hskip info Hget. specialize (Hdone Hskip info Hget).
  destruct (List.filter linked (items info)) as [|target_linked rest].
  - intros x Hx. destruct (Hdone x Hx) as [Hin Hno].
    assert (Hb : named b (block_id x) = false)
      by (apply (other_base b (base_name c)); eauto).
    split.
    + now apply (footprint_keeps b w).
    + intros t. now apply (footprint_quiet b w).
  - intros x Hx Hl. destruct (Hdone x Hx Hl) as [He Hg].
    split; [now apply (fp_old _ _ _ Hfp) | now apply (footprint_gone b w)].
Qed.

Lemma keep_linked_conflict_ok (c : conflict_item) (w : world host) :
  NoDup (map id_ptr (ids w)) -> keep_linked_pending c w ->
  fst (keep_linked_conflict found c w) = Ret tt
  /\ footprint (base_name c) w (snd (keep_linked_conflict found c w))
  /\ keep_linked_done c (snd (keep_linked_conflict found c w)).
Proof.
  intros Hw Hpre.
  remember (keep_linked_conflict found c w) as r eqn:Hr.
  unfold keep_linked_conflict in Hr. unfold keep_linked_done.
  destruct (skip_this_conflict c) eqn:Hskip.
  { subst r. split; [reflexivity|]. split; [now apply footprint_same|].
    intros H. congruence. }
  destruct (conflicts_get found (base_name c)) as [info|] eqn:Hget.
  2:{ subst r. split; [reflexivity|]. split; [now apply footprint_same|].
      intros _ info H. discriminate. }
  cbv zeta in Hr. unfold bind at 1 in Hr.
  rewrite check_alive_ok in Hr
    by (intros x Hx; apply alive_id; now apply (Hpre info x)).
  destruct (List.filter linked (items info)) as [|target_linked rest] eqn:Hlinked.
  { subst r. split; [reflexivity|]. split; [now apply footprint_same|].
    intros _ info' [= <-]. rewrite Hlinked. intros x Hx. now apply (Hpre info x). }
  set (local_its := List.filter (fun i => negb (linked i)) (items info)) in *.
  match type of Hr with context [for_each local_its ?f] => set (body := f) in * end.
  assert (Hstep : forall x w', true = true ->
            alive (data (host_state w')) x = true ->
            body x w' = (Ret tt, after_step x target_linked w')).
  { intros x w' _ Ha. unfold body, try_except.
    change (_remap_data x target_linked ;; remove x ;; count (add_processed 1))
      with (step x target_linked).
    now rewrite step_alive. }
  assert (Hnot : forall x w', true = false -> body x w' = (Ret tt, w'))
    by discriminate.
  assert (Hnd : NoDup (map ptr_of local_its))
    by (apply NoDup_map_filter; now apply (found_distinct (base_name c))).
  assert (Hin : forall x, In x local_its ->
            In (block_id x) (ids w) /\ named (base_name c) (block_id x) = true).
  { intros x Hx. apply filter_In in Hx as [Hx _]. split.
    - now apply (Hpre info x).
    - now apply (found_named (base_name c) info). }
  destruct (removal_loop (fun _ => true) target_linked body local_its
              Hstep Hnot w Hnd) as (Hret & Hids' & Hmap & _ & _ & _).
  { intros x Hx _. apply alive_id. now apply Hin. }
  subst r. split; [exact Hret|]. split.
  { now apply (removal_loop_footprint (base_name c) (fun _ => true) target_linked). }
  intros _ info' [= <-]. rewrite Hlinked. intros x Hx Hl.
  assert (Hxl : In x local_its)
    by (apply filter_In; split; [assumption | now rewrite Hl]).
  split; [now apply Hmap|].
  rewrite Hids'. intros Hi. apply filter_In in Hi as [_ Hi].
  apply negb_true_iff in Hi.
  assert (Ht : taken (fun _ => true) local_its (block_id x) = true).
  { apply existsb_exists. exists x. split; [assumption|]. cbn.
    apply Nat.eqb_refl. }
  congruence.
Qed.
End KeepLinked.

(** The collection and the trace [_keep_linked_execution] leaves are
    those its loop leaves. *)
Lemma keep_linked_world (self : operator) (w : world host) :
  exists w0 : world host,
    ids w0 = ids w /\ events w0 = events w
    /\ ids (snd (_keep_linked_execution self w))
       = ids (snd (for_each (conflicts self)
                     (keep_linked_conflict
                        (fst (analyze_data_conflicts_with_grouping (coll w)))) w0))
    /\ events (snd (_keep_linked_execution self w))
       = events (snd (for_each (conflicts self)
                        (keep_linked_conflict
                           (fst (analyze_data_conflicts_with_grouping (coll w)))) w0)).
Proof.
  exists (snd (say (analyze_data_conflicts_with_grouping (coll w))
                 (snd (count (fun _ => no_counts) w)))).
  split; [reflexivity|]. split; [reflexivity|].
  unfold _keep_linked_execution, bind, count, modify_host, get_host, say.
  cbv beta iota. cbn [host_state data].
  destruct (for_each (conflicts self) _ _) as [[[]|e] w1]; split; reflexivity.
Qed.

(** Replace with Linked, the whole run: a conflict that is not skipped
    is left as it was if none of its items is linked; otherwise each of
    its local items is remapped to its first linked item and removed. *)
Lemma keep_linked_run (self : operator) (w : world host)
    (conflict : conflict_item) (info : conflict_info T) :
  distinct_blocks w -> events w = [] ->
  NoDup (map base_name (conflicts self)) ->
  In conflict (conflicts self) -> skip_this_conflict conflict = false ->
  conflicts_get (fst (analyze_data_conflicts_with_grouping (coll w)))
    (base_name conflict) = Some info ->
  match List.filter linked (items info) with
  | [] =>
      forall x, In x (items info) ->
        In (block_id x) (ids (snd (_keep_linked_execution self w)))
        /\ forall t, ~ In (Remapped (block_id x) t)
                          (events (snd (_keep_linked_execution self w)))
  | target_linked :: _ =>
      forall x, In x (items info) -> linked x = false ->
        In (Remapped (block_id x) (block_id target_linked))
           (events (snd (_keep_linked_execution self w)))
        /\ ~ In (block_id x) (ids (snd (_keep_linked_execution self w)))
  end.
Proof.
  intros Hnd He Hbases Hc Hskip Hget.
  destruct (keep_linked_world self w) as (w0 & Hi & He0 & -> & ->).
  set (found := fst (analyze_data_conflicts_with_grouping (coll w))) in *.
  assert (Hitems : forall base info',
            conflicts_get found base = Some info' ->
            items info' = List.filter (has_base base) (coll w)).
  { intros base info' H. apply conflicts_get_eq in H.
    now destruct (analysis_entries T Op (coll w) base info' H). }
  assert (Hnamed : forall base info' x,
            conflicts_get found base = Some info' -> In x (items info') ->
            named base (block_id x) = true).
  { intros base info' x H Hx. rewrite (Hitems base info' H) in Hx.
    now apply filter_In in Hx. }
  assert (Hdistinct : forall base info',
            conflicts_get found base = Some info' ->
            NoDup (map ptr_of (items info'))).
  { intros base info' H. rewrite (Hitems base info' H).
    apply NoDup_map_filter. unfold ptr_of.
    rewrite <- (map_map block_id id_ptr). exact Hnd. }
  assert (Hdone : keep_linked_done found conflict
            (snd (for_each (conflicts self) (keep_linked_conflict found) w0))).
  { apply (conflicts_loop (keep_linked_conflict found)
             (keep_linked_pending found) (keep_linked_done found)
             (keep_linked_conflict_ok found Hnamed Hdistinct)
             (keep_linked_pending_stable found Hnamed)
             (keep_linked_done_stable found Hnamed)
             (conflicts self) w0 Hbases); auto.
    - now rewrite Hi.
    - intros c _ info' x H Hx. split.
      + rewrite Hi. apply (in_map block_id). rewrite (Hitems _ _ H) in Hx.
        now apply filter_In in Hx.
      + rewrite He0, He. intros t []. }
  exact (Hdone Hskip info Hget).
Qed.

(** ** The dispatch of [execute] *)

Lemma execute_strategy (self : operator) :
  has_conflicts self = true ->
  (global_resolution self = "AUTO_CLEAN" -> execute self = _auto_clean_execution)
  /\ (global_resolution self = "CHOOSE_DATA" ->
      execute self = _choose_data_execution self)
  /\ (global_resolution self = "KEEP_LINKED" ->
      execute self = _keep_linked_execution self).
Proof.
  intros Hc. unfold execute. rewrite Hc. cbn [negb].
  split; [|split]; intros ->; reflexivity.
Qed.

End Strategies.

(** ** The example scene, through the dialog *)

Definition wood_dialog (strategy : string) : operator :=
  Operator false [ConflictItem "Wood" false] true strategy.

(** The user picked the rougher material. *)
Definition wood_world_chosen : world host :=
  World (Host wood_scene {[ "materials" := {[ "Wood" := "Wood.002" ]} ]}
           [] no_counts []) [].

Example wood_auto_clean_trace :
  map (fun e => match e with
                | Remapped a b => ("remap", id_name a, id_name b)
                | Removed a _ => ("remove", id_name a, "")
                end)
      (events (snd (execute (Op := CLEANUP_OT_clean_materials)
                      (wood_dialog "AUTO_CLEAN") wood_world)))
  = [("remap", "Wood.001", "Wood"); ("remove", "Wood.001", "")].
Proof. vm_compute. reflexivity. Qed.

Example wood_choose_data_trace :
  map (fun e => match e with
                | Remapped a b => ("remap", id_name a, id_name b)
                | Removed a _ => ("remove", id_name a, "")
                end)
      (events (snd (execute (Op := CLEANUP_OT_clean_materials)
                      (wood_dialog "CHOOSE_DATA") wood_world_chosen)))
  = [("remap", "Wood", "Wood.002"); ("remove", "Wood", "");
     ("remap", "Wood.001", "Wood.002"); ("remove", "Wood.001", "")].
Proof. vm_compute. reflexivity. Qed.

Example wood_keep_linked_trace :
  map (fun e => match e with
                | Remapped a b => ("remap", id_name a, id_name b)
                | Removed a _ => ("remove", id_name a, "")
                end)
      (events (snd (execute (Op := CLEANUP_OT_clean_materials)
                      (wood_dialog "KEEP_LINKED") wood_world)))
  = [("remap", "Wood", "Wood.003"); ("remove", "Wood", "");
     ("remap", "Wood.001", "Wood.003"); ("remove", "Wood.001", "");
     ("remap", "Wood.002", "Wood.003"); ("remove", "Wood.002", "")].
Proof. vm_compute. reflexivity. Qed.

Lemma wood_world_chosen_distinct :
  distinct_blocks (Op := CLEANUP_OT_clean_materials) wood_world_chosen.
Proof. exact wood_world_distinct. Qed.

Lemma wood_dialog_bases (strategy : string) :
  NoDup (map base_name (conflicts (wood_dialog strategy))).
Proof. apply NoDup_singleton. Qed.

End StrategyFacts.
(* ===================================================================== *)
(** * The cleanup without a dialog: what it merges and what it reports    *)
(* ===================================================================== *)

Module MergeFacts.
Import Py Py.Notations Bpy CleanUp CleanUpFacts RemapFacts EngineFacts SceneFacts.
Import StrategyFacts.

Section Merge.
Context {T : Type} {Op : CleanupOperator T} {Laws : CleanupLaws Op}.

(** The identities of the collection. *)
Definition ptrs (w : world host) : list nat := map id_ptr (ids w).

(** What [processed] has gained is what the collection has lost. *)
Definition balance (w w' : world host) : Prop :=
  processed (counts (host_state w')) + Z.of_nat (length (ids w'))
  = processed (counts (host_state w)) + Z.of_nat (length (ids w)).

(** A stretch of a run that works on the datablocks [own] only: it
    returns, it removes none but datablocks of [own], it counts what it
    removes, and every remapping it performs goes to a datablock of
    [own] that is still there at its end. *)
Record effect (own : list ID) (w : world host) (res : outcome unit * world host)
  : Prop := MkEffect {
  ef_returns : fst res = Ret tt;
  ef_ids : exists gone : nat -> bool,
      ids (snd res) = List.filter (fun i => negb (gone (id_ptr i))) (ids w)
      /\ forall p, gone p = true -> In p (map id_ptr own);
  ef_balance : balance w (snd res);
  ef_events : exists new : list event,
      events (snd res) = events w ++ new
      /\ forall a b, In (Remapped a b) new -> In b own /\ In b (ids (snd res))
}.

Lemma balance_refl (w : world host) : balance w w.
Proof. reflexivity. Qed.

Lemma balance_trans (w1 w2 w3 : world host) :
  balance w1 w2 -> balance w2 w3 -> balance w1 w3.
Proof. unfold balance. intros H1 H2. now rewrite H2. Qed.

Lemma effect_nothing (own : list ID) (w w' : world host) :
  ids w' = ids w -> events w' = events w ->
  processed (counts (host_state w')) = processed (counts (host_state w)) ->
  effect own w (Ret tt, w').
Proof.
  intros Hi He Hp. split; cbn [fst snd].
  - reflexivity.
  - exists (fun _ => false). split; [|discriminate].
    rewrite Hi. now rewrite filter_all.
  - unfold balance. now rewrite Hi, Hp.
  - exists []. split; [now rewrite He, app_nil_r | intros a b []].
Qed.

Lemma ptrs_filter (f : ID -> bool) (w w' : world host) :
  ids w' = List.filter f (ids w) -> NoDup (ptrs w) -> NoDup (ptrs w').
Proof. unfold ptrs. intros ->. apply NoDup_map_filter. Qed.

Lemma In_ptr (i : ID) (l : list ID) : In i l -> In (id_ptr i) (map id_ptr l).
Proof. apply in_map. Qed.

Lemma NoDup_app_disjoint {A} (l1 l2 : list A) (x : A) :
  NoDup (l1 ++ l2) -> In x l1 -> In x l2 -> False.
Proof.
  intros Hnd H1 H2. apply NoDup_app in Hnd as (_ & Hd & _).
  apply (Hd x); now apply list_elem_of_In.
Qed.

(** A loop whose rounds work on disjoint sets of datablocks, and keep
    a property [J] of the world; [Q] is what is known of the elements
    the loop goes through. *)
Section RoundsWith.
Context {X : Type}.
Variable ids0 : list ID.
Variable owned : X -> list ID.
Variable body : X -> py host unit.
Variable Post : X -> world host -> Prop.
Variable J : world host -> Prop.
Variable Q : X -> Prop.

Hypothesis Post_stable : forall (x : X) (w w' : world host) (f : ID -> bool),
  Post x w -> ids w' = List.filter f (ids w) -> Post x w'.

Hypothesis body_ok : forall (x : X) (w : world host),
  Q x -> J w -> NoDup (ptrs w) -> incl (ids w) ids0 ->
  NoDup (map id_ptr (owned x)) -> incl (owned x) (ids w) ->
  effect (owned x) w (body x w) /\ Post x (snd (body x w))
  /\ J (snd (body x w)).

Lemma rounds_with (xs : list X) :
  (forall x, In x xs -> Q x) ->
  forall w : world host,
    J w -> NoDup (ptrs w) -> incl (ids w) ids0 ->
    NoDup (map id_ptr (concat (map owned xs))) ->
    incl (concat (map owned xs)) (ids w) ->
    effect (concat (map owned xs)) w (for_each xs body w)
    /\ (forall x, In x xs -> Post x (snd (for_each xs body w)))
    /\ J (snd (for_each xs body w)).
Proof.
  induction xs as [|x rest IH]; intros HQ w HJ Hnd Hin0 Hown Hincl.
  - split; [now apply effect_nothing|]. split; [intros x [] | exact HJ].
  - cbn [map concat] in Hown, Hincl. rewrite map_app in Hown.
    assert (Hox : NoDup (map id_ptr (owned x)))
      by (apply NoDup_app in Hown; tauto).
    assert (Hor : NoDup (map id_ptr (concat (map owned rest))))
      by (apply NoDup_app in Hown; tauto).
    assert (Hix : incl (owned x) (ids w))
      by (intros i Hi; apply Hincl, in_or_app; now left).
    destruct (body_ok x w (HQ x (or_introl eq_refl)) HJ Hnd Hin0 Hox Hix)
      as ([Hr (gone & Hids & Hgone) Hbal (new & Hev & Hnew)] & Hpost & HJ1).
    cbn [for_each]. unfold bind.
    destruct (body x w) as [r w1]. cbn [fst snd] in *. subst r.
    assert (Hnd1 : NoDup (ptrs w1)) by (eapply ptrs_filter; eauto).
    assert (Hin1 : incl (ids w1) ids0).
    { intros i Hi. rewrite Hids in Hi. apply filter_In in Hi as [Hi _]. auto. }
    assert (Hkept : forall i, In i (concat (map owned rest)) ->
                              gone (id_ptr i) = false).
    { intros i Hi. destruct (gone (id_ptr i)) eqn:Hg; [|reflexivity].
      exfalso. apply (NoDup_app_disjoint _ _ (id_ptr i) Hown).
      - now apply Hgone.
      - now apply In_ptr. }
    assert (Hincl1 : incl (concat (map owned rest)) (ids w1)).
    { intros i Hi. rewrite Hids. apply filter_In. split.
      - apply Hincl, in_or_app. now right.
      - now rewrite (Hkept i Hi). }
    destruct (IH (fun y Hy => HQ y (or_intror Hy)) w1 HJ1 Hnd1 Hin1 Hor Hincl1)
      as ([Hr2 (gone2 & Hids2 & Hgone2) Hbal2 (new2 & Hev2 & Hnew2)]
          & Hpost2 & HJ2).
    split; [split|split; [|exact HJ2]].
    + exact Hr2.
    + exists (fun p => gone p || gone2 p). split.
      * rewrite Hids2, Hids, filter_filter_and. apply filter_ext.
        intros i. now rewrite negb_orb.
      * intros p Hp. cbn [map concat]. rewrite map_app. apply in_or_app.
        apply orb_true_iff in Hp as [Hp | Hp]; [left | right]; auto.
    + eapply balance_trans; eauto.
    + exists (new ++ new2). split; [now rewrite Hev2, Hev, app_assoc|].
      intros a b Hab. apply in_app_or in Hab as [Hab | Hab].
      * destruct (Hnew a b Hab) as [Hb1 Hb2]. split.
        -- cbn [map concat]. apply in_or_app. now left.
        -- rewrite Hids2. apply filter_In. split; [exact Hb2|].
           destruct (gone2 (id_ptr b)) eqn:Hg; [|reflexivity].
           exfalso. apply (NoDup_app_disjoint _ _ (id_ptr b) Hown).
           ++ now apply In_ptr.
           ++ now apply Hgone2.
      * destruct (Hnew2 a b Hab) as [Hb1 Hb2]. split; [|exact Hb2].
        cbn [map concat]. apply in_or_app. now right.
    + intros y [<- | Hy].
      * eapply Post_stable; [exact Hpost|]. exact Hids2.
      * now apply Hpost2.
Qed.
End RoundsWith.

(** A loop whose rounds work on disjoint sets of datablocks. *)
Section Rounds.
Context {X : Type}.
Variable ids0 : list ID.
Variable owned : X -> list ID.
Variable body : X -> py host unit.
Variable Post : X -> world host -> Prop.

Hypothesis Post_stable : forall (x : X) (w w' : world host) (f : ID -> bool),
  Post x w -> ids w' = List.filter f (ids w) -> Post x w'.

Hypothesis body_ok : forall (x : X) (w : world host),
  NoDup (ptrs w) -> incl (ids w) ids0 ->
  NoDup (map id_ptr (owned x)) -> incl (owned x) (ids w) ->
  effect (owned x) w (body x w) /\ Post x (snd (body x w)).

Lemma rounds (xs : list X) :
  forall w : world host,
    NoDup (ptrs w) -> incl (ids w) ids0 ->
    NoDup (map id_ptr (concat (map owned xs))) ->
    incl (concat (map owned xs)) (ids w) ->
    effect (concat (map owned xs)) w (for_each xs body w)
    /\ forall x, In x xs -> Post x (snd (for_each xs body w)).
Proof.
  intros w Hnd Hin0 Hown Hincl.
  destruct (rounds_with ids0 owned body Post (fun _ => True) (fun _ => True))
    with (xs := xs) (w := w) as (He & Hpost & _); auto.
  intros x w1 _ _ Hnd1 Hin1 Hox Hix.
  destruct (body_ok x w1 Hnd1 Hin1 Hox Hix). auto.
Qed.
End Rounds.

(** What a cleaning loop does with a linked member: nothing to the data,
    the trace or the count of processed datablocks. *)
Definition quiet_step (m : py host unit) : Prop :=
  forall w : world host,
    fst (m w) = Ret tt
    /\ data (host_state (snd (m w))) = data (host_state w)
    /\ trace (host_state (snd (m w))) = trace (host_state w)
    /\ processed (counts (host_state (snd (m w))))
       = processed (counts (host_state w)).

(** The members a cleaning loop merges into the representative. *)
Definition merges (rep : T) (m : T) : bool :=
  negb (same_block m rep) && negb (linked m).

Lemma length_filter_ptr (p : nat) (l : list ID) :
  NoDup (map id_ptr l) -> In p (map id_ptr l) ->
  S (length (List.filter (fun i => negb (p =? id_ptr i)%nat) l)) = length l.
Proof.
  induction l as [|i l IH]; cbn; intros Hnd Hin; [contradiction|].
  apply NoDup_cons in Hnd as [Hni Hnd].
  destruct (p =? id_ptr i)%nat eqn:E; cbn.
  - apply Nat.eqb_eq in E. subst p. f_equal.
    f_equal. clear IH Hnd Hin. induction l as [|j l IHl]; cbn; [reflexivity|].
    destruct (id_ptr i =? id_ptr j)%nat eqn:E; cbn.
    + exfalso. apply Nat.eqb_eq in E. apply Hni. rewrite E. now left.
    + f_equal. apply IHl. intros H. apply Hni. now right.
  - f_equal. apply IH; [assumption|]. destruct Hin as [Hin | Hin]; [|assumption].
    apply Nat.eqb_neq in E. congruence.
Qed.

Lemma balance_step (x t : T) (w : world host) :
  NoDup (ptrs w) -> In (block_id x) (ids w) -> balance w (after_step x t w).
Proof.
  intros Hnd Hin. unfold balance. rewrite ids_after_step.
  pose proof (length_filter_ptr (ptr_of x) (ids w) Hnd (In_ptr _ _ Hin)) as Hl.
  unfold after_step. cbn [host_state counts processed add_processed].
  lia.
Qed.

Lemma for_each_cons_run {X} (x : X) (rest : list X) (body : X -> py host unit)
    (w w1 : world host) :
  body x w = (Ret tt, w1) ->
  for_each (x :: rest) body w = for_each rest body w1.
Proof. intros E. cbn. unfold bind. now rewrite E. Qed.

(** A loop that removes, after remapping them to [t], the members its
    guard lets through, and is quiet about the others. *)
Lemma merge_loop (guard : T -> bool) (t : T) (body : T -> py host unit)
    (ms : list T) :
  (forall x w, guard x = true -> In (block_id x) (ids w) ->
               body x w = (Ret tt, after_step x t w)) ->
  (forall x, guard x = false -> quiet_step (body x)) ->
  forall w : world host,
    NoDup (ptrs w) -> NoDup (map ptr_of ms) ->
    (forall m, In m ms -> guard m = true -> In (block_id m) (ids w)) ->
    let res := for_each ms body w in
    fst res = Ret tt
    /\ ids (snd res) = List.filter (fun i => negb (taken guard ms i)) (ids w)
    /\ balance w (snd res)
    /\ exists new : list event,
         events (snd res) = events w ++ new
         /\ forall a b, In (Remapped a b) new -> b = block_id t.
Proof.
  intros Hstep Hquiet.
  induction ms as [|x rest IH]; intros w Hnd Hms Hin; cbv zeta.
  - cbn. split; [reflexivity|]. split; [now rewrite filter_all|].
    split; [apply balance_refl|]. exists []. split; [now rewrite app_nil_r|].
    intros a b [].
  - cbn [map] in Hms. apply NoDup_cons in Hms as [Hx Hms].
    assert (Htaken : forall i,
              taken guard (x :: rest) i
              = guard x && (ptr_of x =? id_ptr i)%nat || taken guard rest i)
      by reflexivity.
    destruct (guard x) eqn:Hg.
    + assert (Hix : In (block_id x) (ids w)) by (apply Hin; [now left | exact Hg]).
      rewrite (for_each_cons_run x rest _ w (after_step x t w))
        by (now apply Hstep).
      assert (Hids1 : ids (after_step x t w)
                      = List.filter (fun i => negb (ptr_of x =? id_ptr i)%nat) (ids w))
        by apply ids_after_step.
      assert (Hnd1 : NoDup (ptrs (after_step x t w)))
        by (eapply ptrs_filter; eauto).
      assert (Hin1 : forall m, In m rest -> guard m = true ->
                               In (block_id m) (ids (after_step x t w))).
      { intros m Hm Hgm. rewrite Hids1. apply filter_In. split.
        - apply Hin; [now right | exact Hgm].
        - apply negb_true_iff, Nat.eqb_neq. intros Heq. apply Hx.
          apply list_elem_of_In.
          change (id_ptr (block_id m)) with (ptr_of m) in Heq. rewrite Heq.
          now apply in_map. }
      destruct (IH (after_step x t w) Hnd1 Hms Hin1)
        as (H1 & H2 & H3 & new & H4 & H5).
      split; [exact H1|]. split; [|split].
      * rewrite H2, Hids1, filter_filter_and. apply filter_ext. intros i.
        rewrite Htaken. cbn. now rewrite negb_orb.
      * eapply balance_trans; [|exact H3]. now apply balance_step.
      * exists ([Remapped (block_id x) (block_id t);
                 Removed (block_id x) (remap_data x t (data (host_state w)))]
                ++ new).
        split; [now rewrite H4, events_after_step, app_assoc|].
        intros a b [Hab | [Hab | Hab]].
        -- now injection Hab as _ <-.
        -- discriminate.
        -- exact (H5 a b Hab).
    + destruct (Hquiet x Hg w) as (Hr & Hd & Ht & Hp).
      destruct (body x w) as [r w1] eqn:Hon. cbn [fst snd] in *. subst r.
      rewrite (for_each_cons_run x rest _ w w1) by exact Hon.
      assert (Hi : ids w1 = ids w) by (unfold ids, coll; now rewrite Hd).
      assert (Hnd1 : NoDup (ptrs w1)) by (unfold ptrs; now rewrite Hi).
      assert (Hin1 : forall m, In m rest -> guard m = true ->
                               In (block_id m) (ids w1)).
      { intros m Hm Hgm. rewrite Hi. apply Hin; [now right | exact Hgm]. }
      destruct (IH w1 Hnd1 Hms Hin1) as (H1 & H2 & H3 & new & H4 & H5).
      split; [exact H1|]. split; [|split].
      * rewrite H2, Hi. apply filter_ext. intros i. now rewrite Htaken.
      * unfold balance in *. now rewrite H3, Hi, Hp.
      * exists new. split; [|exact H5]. unfold events in *. now rewrite H4, Ht.
Qed.

Lemma clean_members_effect (on_linked : py host unit) (rep : T) (ms : list T) :
  quiet_step on_linked ->
  forall w : world host,
    NoDup (ptrs w) -> NoDup (map ptr_of ms) ->
    (forall m, In m ms -> In (block_id m) (ids w)) ->
    let res := clean_members on_linked ms rep w in
    fst res = Ret tt
    /\ ids (snd res)
       = List.filter (fun i => negb (taken (merges rep) ms i)) (ids w)
    /\ balance w (snd res)
    /\ exists new : list event,
         events (snd res) = events w ++ new
         /\ forall a b, In (Remapped a b) new -> b = block_id rep.
Proof.
  intros Hq w Hnd Hms Hin. unfold clean_members.
  apply merge_loop; try assumption.
  - intros x w1 Hg Hx. unfold merges in Hg.
    apply andb_true_iff in Hg as [Hs Hl].
    apply negb_true_iff in Hs, Hl. rewrite Hs, Hl.
    exact (step_alive x rep w1 (alive_id x w1 Hx)).
  - intros x Hg. unfold merges in Hg.
    destruct (same_block x rep); [intros w1; repeat split|].
    destruct (linked x); [exact Hq | discriminate].
  - intros m Hm _. now apply Hin.
Qed.

(** At most one local datablock among [ms] is still in the collection. *)
Definition one_local_left (ms : list T) (w : world host) : Prop :=
  forall x y : T,
    In x ms -> In y ms -> linked x = false -> linked y = false ->
    In (block_id x) (ids w) -> In (block_id y) (ids w) ->
    block_id x = block_id y.

Lemma one_local_left_stable (ms : list T) (w w' : world host) (f : ID -> bool) :
  one_local_left ms w -> ids w' = List.filter f (ids w) -> one_local_left ms w'.
Proof.
  intros H Hi x y Hx Hy Hlx Hly Hax Hay. rewrite Hi in Hax, Hay.
  apply filter_In in Hax as [Hax _]. apply filter_In in Hay as [Hay _]. auto.
Qed.

Lemma one_local_left_short (ms : list T) (w : world host) :
  (length ms <= 1)%nat -> one_local_left ms w.
Proof.
  intros Hl x y Hx Hy _ _ _ _.
  destruct ms as [|a [|b ms]]; cbn in *; try lia; try contradiction.
  destruct Hx as [<- | []], Hy as [<- | []]. reflexivity.
Qed.

(** The representative the loops pick among the members of a group. *)
Definition elect (ms : list T) : option T :=
  match List.filter (fun m => negb (linked m)) ms with
  | m :: _ => Some m
  | [] => head ms
  end.

Lemma elect_In (ms : list T) (rep : T) : elect ms = Some rep -> In rep ms.
Proof.
  unfold elect. destruct (List.filter _ ms) as [|m l] eqn:Hf.
  - destruct ms; cbn; [discriminate|]. intros [= ->]. now left.
  - intros [= <-].
    assert (Hi : In m (List.filter (fun m => negb (linked m)) ms))
      by (rewrite Hf; now left).
    now apply filter_In in Hi.
Qed.

Lemma elect_None (ms : list T) : elect ms = None -> ms = [].
Proof.
  unfold elect. destruct (List.filter _ ms) as [|m l]; [|discriminate].
  now destruct ms.
Qed.

Lemma taken_rep (rep : T) (ms : list T) :
  taken (merges rep) ms (block_id rep) = false.
Proof.
  unfold taken. induction ms as [|m ms IH]; cbn; [reflexivity|].
  rewrite IH, orb_false_r. unfold merges, same_block.
  change (id_ptr (block_id rep)) with (ptr_of rep).
  destruct (ptr_of m =? ptr_of rep)%nat; cbn; [reflexivity|].
  apply andb_false_r.
Qed.

Lemma taken_false (rep x : T) (ms : list T) :
  In x ms -> linked x = false ->
  taken (merges rep) ms (block_id x) = false -> ptr_of x = ptr_of rep.
Proof.
  unfold taken. intros Hx Hl Ht.
  assert (Hf : merges rep x && (ptr_of x =? id_ptr (block_id x))%nat = false).
  { destruct (merges rep x && (ptr_of x =? id_ptr (block_id x))%nat) eqn:E;
      [|reflexivity].
    rewrite <- Ht. symmetry. apply existsb_exists. now exists x. }
  change (id_ptr (block_id x)) with (ptr_of x) in Hf.
  rewrite Nat.eqb_refl, andb_true_r in Hf. unfold merges in Hf.
  rewrite Hl, andb_true_r in Hf. apply negb_false_iff in Hf.
  now apply Nat.eqb_eq in Hf.
Qed.

(** The round of one identity group. *)
Lemma group_round (on_linked : py host unit) (ms : list T) (w : world host) :
  quiet_step on_linked ->
  NoDup (ptrs w) ->
  NoDup (map id_ptr (map block_id ms)) ->
  incl (map block_id ms) (ids w) ->
  let round :=
    if (length ms <=? 1)%nat then ret tt else
    match elect ms with
    | Some rep => clean_members on_linked ms rep
    | None => ret tt
    end in
  effect (map block_id ms) w (round w) /\ one_local_left ms (snd (round w)).
Proof.
  intros Hq Hnd Hms Hincl. cbv zeta.
  destruct (length ms <=? 1)%nat eqn:Hlen.
  - apply Nat.leb_le in Hlen. split.
    + now apply effect_nothing.
    + now apply one_local_left_short.
  - destruct (elect ms) as [rep|] eqn:Hrep.
    2:{ apply elect_None in Hrep. subst ms. discriminate. }
    assert (Hin : forall m, In m ms -> In (block_id m) (ids w)).
    { intros m Hm. apply Hincl. now apply in_map. }
    rewrite map_map in Hms.
    destruct (clean_members_effect on_linked rep ms Hq w Hnd Hms Hin)
      as (H1 & H2 & H3 & new & H4 & H5).
    cbv zeta in H1, H2, H3, H4.
    pose proof (elect_In ms rep Hrep) as Hr.
    split; [split|].
    + exact H1.
    + exists (fun p => existsb (fun x => merges rep x && (ptr_of x =? p)%nat) ms).
      split; [exact H2|]. intros p Hp.
      apply existsb_exists in Hp as (x & Hx & Hg).
      apply andb_true_iff in Hg as [_ Hp]. apply Nat.eqb_eq in Hp.
      rewrite <- Hp, map_map. exact (in_map ptr_of ms x Hx).
    + exact H3.
    + exists new. split; [exact H4|]. intros a b Hab.
      rewrite (H5 a b Hab). split; [now apply in_map|].
      rewrite H2. apply filter_In. split; [now apply Hin|].
      now rewrite taken_rep.
    + intros x y Hx Hy Hlx Hly Hax Hay. rewrite H2 in Hax, Hay.
      apply filter_In in Hax as [Hax Htx]. apply filter_In in Hay as [Hay Hty].
      apply negb_true_iff in Htx, Hty.
      apply (NoDup_map_eq id_ptr (ids w)); try assumption.
      change (ptr_of x = ptr_of y).
      rewrite (taken_false rep x ms Hx Hlx Htx).
      now rewrite (taken_false rep y ms Hy Hly Hty).
Qed.

Lemma effect_incl (own own' : list ID) (w : world host)
    (res : outcome unit * world host) :
  incl own own' -> effect own w res -> effect own' w res.
Proof.
  intros Hi [H1 (gone & H2 & H2') H3 (new & H4 & H4')]. split.
  - exact H1.
  - exists gone. split; [exact H2|]. intros p Hp.
    apply H2' in Hp. apply in_map_iff in Hp as (i & <- & Hin).
    apply in_map. now apply Hi.
  - exact H3.
  - exists new. split; [exact H4|]. intros a b Hab.
    destruct (H4' a b Hab). split; auto.
Qed.

Lemma effect_same_host (own : list ID) (w w1 : world host)
    (res : outcome unit * world host) :
  host_state w1 = host_state w -> effect own w1 res -> effect own w res.
Proof.
  intros Hh [H1 H2 H3 H4]. split.
  - exact H1.
  - unfold ids, coll in *. now rewrite <- Hh.
  - unfold balance, ids, coll in *. now rewrite <- Hh.
  - unfold events, ids, coll in *. now rewrite <- Hh.
Qed.

(** The datablocks of a list of groups. *)
Definition group_ids (groups : list (identity_group T)) : list ID :=
  concat (map (fun g => map block_id (members g)) groups).

Lemma group_ids_members (groups : list (identity_group T)) :
  group_ids groups = map block_id (concat (map members groups)).
Proof.
  unfold group_ids. induction groups as [|g l IH]; cbn; [reflexivity|].
  now rewrite map_app, IH.
Qed.

Lemma identity_groups_effect (on_linked : py host unit)
    (groups : list (identity_group T)) (w : world host) :
  quiet_step on_linked ->
  NoDup (ptrs w) ->
  NoDup (map id_ptr (group_ids groups)) ->
  incl (group_ids groups) (ids w) ->
  effect (group_ids groups) w (clean_identity_groups on_linked groups w)
  /\ forall g, In g groups ->
       one_local_left (members g)
         (snd (clean_identity_groups on_linked groups w)).
Proof.
  intros Hq Hnd Hown Hincl. unfold clean_identity_groups.
  apply (rounds (ids w) (fun g => map block_id (members g)) _
                (fun g => one_local_left (members g))).
  - intros g w1 w2 f. apply one_local_left_stable.
  - intros g w1 Hnd1 _ Ho Hi.
    exact (group_round on_linked (members g) w1 Hq Hnd1 Ho Hi).
  - exact Hnd.
  - apply incl_refl.
  - exact Hown.
  - exact Hincl.
Qed.

(** What is asked of the identity groups of a list of items. *)
Definition groups_merged (its : list T) (w : world host) : Prop :=
  forall g, In g (fst (group_items_by_identity its)) ->
            one_local_left (members g) w.

Lemma groups_merged_stable (its : list T) (w w' : world host) (f : ID -> bool) :
  groups_merged its w -> ids w' = List.filter f (ids w) -> groups_merged its w'.
Proof.
  intros H Hi g Hg. eapply one_local_left_stable; eauto.
Qed.

Lemma members_of_items (its : list T) (g : identity_group T) (x : T) :
  In g (fst (group_items_by_identity its)) -> In x (members g) -> In x its.
Proof.
  intros Hg Hx. destruct (group_items_by_identity_ok its) as [_ Hperm].
  apply list_elem_of_In. rewrite <- Hperm. apply list_elem_of_In.
  apply in_concat. exists (members g). split; [now apply in_map | assumption].
Qed.

(** The round of one base name. *)
Lemma base_round (on_linked : py host unit) (its : list T) (w : world host) :
  quiet_step on_linked ->
  NoDup (ptrs w) ->
  NoDup (map id_ptr (map block_id its)) ->
  incl (map block_id its) (ids w) ->
  let round :=
    if (length its <=? 1)%nat then ret tt else
    groups <- say (group_items_by_identity its) ;;
    clean_identity_groups on_linked groups in
  effect (map block_id its) w (round w) /\ groups_merged its (snd (round w)).
Proof.
  intros Hq Hnd Hits Hincl. cbv zeta.
  destruct (length its <=? 1)%nat eqn:Hlen.
  - apply Nat.leb_le in Hlen. split; [now apply effect_nothing|].
    intros g Hg x y Hx Hy _ _ _ _.
    apply (members_of_items its g x Hg) in Hx.
    apply (members_of_items its g y Hg) in Hy.
    destruct its as [|a [|b its]]; cbn in *; try lia; try contradiction.
    destruct Hx as [<- | []], Hy as [<- | []]. reflexivity.
  - unfold bind, say.
    set (groups := fst (group_items_by_identity its)).
    set (w1 := World (host_state w) (console w ++ snd (group_items_by_identity its))).
    destruct (group_items_by_identity_ok its) as [_ Hperm]. fold groups in Hperm.
    assert (Hp : group_ids groups ≡ₚ map block_id its).
    { rewrite group_ids_members. now apply fmap_Permutation. }
    assert (Hown : NoDup (map id_ptr (group_ids groups))).
    { assert (Hp' : map id_ptr (group_ids groups) ≡ₚ map id_ptr (map block_id its))
        by (apply (fmap_Permutation id_ptr); exact Hp).
      now rewrite Hp'. }
    assert (Hincl1 : incl (group_ids groups) (ids w1)).
    { intros i Hi. apply Hincl. apply list_elem_of_In. rewrite <- Hp.
      now apply list_elem_of_In. }
    destruct (identity_groups_effect on_linked groups w1 Hq Hnd Hown Hincl1)
      as [He Hpost].
    split; [|exact Hpost].
    apply (effect_same_host _ w w1); [reflexivity|].
    eapply effect_incl; [|exact He].
    intros i Hi. apply list_elem_of_In. rewrite <- Hp. now apply list_elem_of_In.
Qed.

(** The datablocks of the groups of [group_by_base_name]. *)
Definition base_ids (base_groups : list (string * list T)) : list ID :=
  concat (map (fun entry => map block_id (snd entry)) base_groups).

Lemma base_groups_effect (on_linked : py host unit)
    (base_groups : list (string * list T)) (w : world host) :
  quiet_step on_linked ->
  NoDup (ptrs w) ->
  NoDup (map id_ptr (base_ids base_groups)) ->
  incl (base_ids base_groups) (ids w) ->
  effect (base_ids base_groups) w (clean_base_groups on_linked base_groups w)
  /\ forall entry, In entry base_groups ->
       groups_merged (snd entry)
         (snd (clean_base_groups on_linked base_groups w)).
Proof.
  intros Hq Hnd Hown Hincl. unfold clean_base_groups.
  apply (rounds (ids w) (fun entry : string * list T => map block_id (snd entry)) _
                (fun entry => groups_merged (snd entry))).
  - intros e w1 w2 f. apply groups_merged_stable.
  - intros e w1 Hnd1 _ Ho Hi.
    exact (base_round on_linked (snd e) w1 Hq Hnd1 Ho Hi).
  - exact Hnd.
  - apply incl_refl.
  - exact Hown.
  - exact Hincl.
Qed.

Lemma base_ids_In (es : list (string * list T)) (i : ID) :
  In i (base_ids es) <-> exists k l x, In (k, l) es /\ In x l /\ block_id x = i.
Proof.
  unfold base_ids. rewrite in_concat. split.
  - intros (l0 & Hl0 & Hi). apply in_map_iff in Hl0 as ([k l] & <- & He).
    apply in_map_iff in Hi as (x & <- & Hx). now exists k, l, x.
  - intros (k & l & x & He & Hx & <-). exists (map block_id l). split.
    + apply in_map_iff. now exists (k, l).
    + now apply in_map.
Qed.

(** Groups by distinct base names share no datablock. *)
Lemma base_ids_NoDup (collection : list T) (es : list (string * list T)) :
  NoDup (map ptr_of collection) ->
  NoDup (map fst es) ->
  (forall k l, In (k, l) es -> l = List.filter (has_base k) collection) ->
  NoDup (map id_ptr (base_ids es)).
Proof.
  intros Hnd. induction es as [|[k l] es IH]; intros Hk He.
  - cbn. constructor.
  - cbn [map fst] in Hk. apply NoDup_cons in Hk as [Hk1 Hk2].
    unfold base_ids. cbn [map concat snd]. fold (base_ids es).
    rewrite map_app. apply NoDup_app. split; [|split].
    + rewrite map_map, (He k l (or_introl eq_refl)).
      now apply (NoDup_map_filter ptr_of).
    + intros p Hp1 Hp2. apply list_elem_of_In in Hp1, Hp2.
      rewrite map_map in Hp1. apply in_map_iff in Hp1 as (x & <- & Hx).
      apply in_map_iff in Hp2 as (i & Hi & Hin).
      apply base_ids_In in Hin as (k' & l' & y & He' & Hy & <-).
      rewrite (He k l (or_introl eq_refl)) in Hx.
      rewrite (He k' l' (or_intror He')) in Hy.
      apply filter_In in Hx as [Hx Hbx]. apply filter_In in Hy as [Hy Hby].
      assert (E : y = x) by (now apply (NoDup_map_eq ptr_of collection)).
      subst y. unfold has_base in Hbx, Hby.
      apply String.eqb_eq in Hbx, Hby. apply Hk1. apply list_elem_of_In.
      apply in_map_iff. exists (k', l'). split; [cbn; congruence | assumption].
    + apply IH; [assumption|]. intros k' l' H'. apply He. now right.
Qed.

Lemma quiet_skipped_linked : quiet_step (count (add_skipped_linked 1)).
Proof. intros w. repeat split. Qed.

(** The counts and the collection after the loop of the cleanup that
    runs without a dialog. *)
Lemma standard_cleanup_loop (w : world host) :
  NoDup (ptrs w) ->
  let base_groups := group_by_base_name (coll w) in
  let w0 := World (Host (data (host_state w)) (_conflict_selections (host_state w))
                        (trace (host_state w)) no_counts (reports (host_state w)))
                  (console w) in
  effect (ids w) w0
    (clean_base_groups (count (add_skipped_linked 1)) base_groups w0)
  /\ forall entry, In entry base_groups ->
       groups_merged (snd entry)
         (snd (clean_base_groups (count (add_skipped_linked 1)) base_groups w0)).
Proof.
  intros Hnd. cbv zeta.
  set (w0 := World _ _).
  assert (Hown : NoDup (map id_ptr (base_ids (group_by_base_name (coll w))))).
  { apply (base_ids_NoDup (coll w)).
    - unfold ptrs, ids in Hnd. now rewrite map_map in Hnd.
    - apply group_by_base_name_NoDup.
    - apply group_by_base_name_entries. }
  assert (Hincl : incl (base_ids (group_by_base_name (coll w))) (ids w0)).
  { intros i Hi. apply base_ids_In in Hi as (k & l & x & He & Hx & <-).
    apply group_by_base_name_entries in He. subst l.
    apply filter_In in Hx as [Hx _]. now apply in_map. }
  destruct (base_groups_effect (count (add_skipped_linked 1))
              (group_by_base_name (coll w)) w0 quiet_skipped_linked Hnd Hown Hincl)
    as [He Hpost].
  split; [|exact Hpost].
  eapply effect_incl; [|exact He]. exact Hincl.
Qed.

(** The loops report nothing. *)
Definition reported (R : list (string * string)) (w : world host) : Prop :=
  reports (host_state w) = R.

Lemma reported_modify (R : list (string * string)) (f : host -> host) :
  (forall h, reports (f h) = reports h) ->
  preserves (reported R) (modify_host f).
Proof. intros Hf w Hw. unfold reported in *. cbn. now rewrite Hf. Qed.

Lemma reported_step (R : list (string * string)) (x t : T) :
  preserves (reported R)
    (_remap_data x t ;; remove x ;; count (add_processed 1)).
Proof.
  apply preserves_bind.
  - apply preserves_bind; [now apply reported_modify|].
    intros _. now apply reported_modify.
  - intros _. apply preserves_bind.
    + apply preserves_get_host. intros w Hw.
      destruct (alive (data (host_state w)) x); [|exact Hw].
      apply (preserves_bind (reported R)); [| |exact Hw].
      * now apply reported_modify.
      * intros _. now apply reported_modify.
    + intros _. now apply reported_modify.
Qed.

Lemma reported_base_groups (R : list (string * string))
    (on_linked : py host unit) (base_groups : list (string * list T)) :
  preserves (reported R) on_linked ->
  preserves (reported R) (clean_base_groups on_linked base_groups).
Proof.
  intros Hon. apply preserves_for_each. intros e _. cbv zeta.
  destruct (length (snd e) <=? 1)%nat; [apply preserves_ret|].
  apply preserves_say_bind; [intros w lines Hw; exact Hw|].
  apply preserves_for_each. intros g _. cbv zeta.
  destruct (length (members g) <=? 1)%nat; [apply preserves_ret|].
  match goal with
  | |- preserves _ (match ?o with Some _ => _ | None => _ end) =>
      destruct o as [rep|]; [|apply preserves_ret]
  end.
  apply preserves_for_each. intros m _.
  destruct (same_block m rep); [apply preserves_ret|].
  destruct (linked m); [exact Hon|].
  apply reported_step.
Qed.

(** The message of the cleanup that runs without a dialog. *)
Definition standard_message (c : counters) : string :=
  processed_message c +:+
  (if 0 <? skipped_linked c
   then ", skipped " +:+ pretty (skipped_linked c) +:+ " linked" else "").

(** The world the loop starts from: the counters are at zero. *)
Definition counting_from_zero (w : world host) : world host :=
  World (Host (data (host_state w)) (_conflict_selections (host_state w))
              (trace (host_state w)) no_counts (reports (host_state w)))
        (console w).

Lemma standard_cleanup_unfold (w w2 : world host) :
  clean_base_groups (count (add_skipped_linked 1))
    (group_by_base_name (coll w)) (counting_from_zero w) = (Ret tt, w2) ->
  _standard_cleanup_with_grouping w
  = (Ret FINISHED,
     World (Host (data (host_state w2)) (_conflict_selections (host_state w2))
                 (trace (host_state w2)) (counts (host_state w2))
                 (reports (host_state w2)
                  ++ [("INFO", standard_message (counts (host_state w2)))]))
           (console w2)).
Proof.
  intros Hloop. unfold _standard_cleanup_with_grouping.
  unfold bind at 1, get_host at 1. unfold bind at 1, count at 1, modify_host at 1.
  fold (coll w). unfold bind at 1.
  change (World (Host (data (host_state w)) (_conflict_selections (host_state w))
                      (trace (host_state w)) no_counts (reports (host_state w)))
                (console w)) with (counting_from_zero w).
  rewrite Hloop. reflexivity.
Qed.

Lemma standard_cleanup_run (w : world host) :
  NoDup (ptrs w) ->
  let res := _standard_cleanup_with_grouping w in
  let w' := snd res in
  fst res = Ret FINISHED
  /\ processed (counts (host_state w'))
     = Z.of_nat (length (ids w)) - Z.of_nat (length (ids w'))
  /\ reports (host_state w')
     = reports (host_state w) ++ [("INFO", standard_message (counts (host_state w')))]
  /\ (exists new : list event,
        events w' = events w ++ new
        /\ forall a b, In (Remapped a b) new -> In b (ids w'))
  /\ (forall entry, In entry (group_by_base_name (coll w)) ->
        groups_merged (snd entry) w').
Proof.
  intros Hnd. cbv zeta.
  destruct (standard_cleanup_loop w Hnd) as [He Hpost]. cbv zeta in He, Hpost.
  fold (counting_from_zero w) in He, Hpost.
  pose proof (reported_base_groups (reports (host_state w))
                (count (add_skipped_linked 1)) (group_by_base_name (coll w))
                (reported_modify _ _ (fun _ => eq_refl))
                (counting_from_zero w) eq_refl) as Hrep.
  unfold reported in Hrep.
  destruct (clean_base_groups (count (add_skipped_linked 1))
              (group_by_base_name (coll w)) (counting_from_zero w))
    as [r w2] eqn:Hloop.
  destruct He as [Hr (gone & Hids & Hgone) Hbal (new & Hev & Hnew)].
  cbn [fst snd] in *. subst r.
  rewrite (standard_cleanup_unfold w w2 Hloop). cbn [fst snd host_state].
  split; [reflexivity|]. split; [|split; [|split]].
  - unfold balance in Hbal. cbn in Hbal.
    unfold ids, coll, counting_from_zero in *.
    cbn [host_state data counts] in *. lia.
  - cbn [reports counts]. now rewrite Hrep.
  - exists new. split; [exact Hev|]. intros a b Hab. now apply (Hnew a b).
  - exact Hpost.
Qed.

(** ** Auto Clean *)

(** The datablocks of the collection [ids0] that bear a base name. *)
Definition named_ids (ids0 : list ID) (e : string * conflict_info T) : list ID :=
  List.filter (named (fst e)) ids0.

Lemma named_ids_NoDup (ids0 : list ID) (es : list (string * conflict_info T)) :
  NoDup (map id_ptr ids0) ->
  NoDup (map fst es) ->
  NoDup (map id_ptr (concat (map (named_ids ids0) es))).
Proof.
  intros Hnd. induction es as [|[k info] es IH]; intros Hk.
  - cbn. constructor.
  - cbn [map fst] in Hk. apply NoDup_cons in Hk as [Hk1 Hk2].
    cbn [map concat]. rewrite map_app. apply NoDup_app. split; [|split].
    + now apply (NoDup_map_filter id_ptr).
    + intros p Hp1 Hp2. apply list_elem_of_In in Hp1, Hp2.
      apply in_map_iff in Hp1 as (i & <- & Hi).
      apply in_map_iff in Hp2 as (j & Hj & Hin).
      apply in_concat in Hin as (l & Hl & Hjl).
      apply in_map_iff in Hl as ([k' info'] & <- & He').
      unfold named_ids in Hi, Hjl. cbn [fst] in Hi, Hjl.
      apply filter_In in Hi as [Hi Hni]. apply filter_In in Hjl as [Hj0 Hnj].
      assert (E : j = i) by (now apply (NoDup_map_eq id_ptr ids0)).
      subst j. unfold named in Hni, Hnj. apply String.eqb_eq in Hni, Hnj.
      apply Hk1. apply list_elem_of_In. apply in_map_iff.
      exists (k', info'). split; [cbn; congruence | assumption].
    + now apply IH.
Qed.

(** The round of one conflict of [_auto_clean_execution]. *)
Definition auto_clean_round (entry : string * conflict_info T) : py host unit :=
  let conflict_base_name := fst entry in
  let info := snd entry in
  let has_meaningful_duplicates :=
    existsb (fun group =>
               (1 <? length (List.filter (fun m => negb (linked m)) (members group)))%nat)
            (identity_groups info) in
  if negb has_meaningful_duplicates then
    h <- get_host ;;
    count (add_skipped (Z.of_nat (length (items_named conflict_base_name (data h))) - 1))
  else
    h <- get_host ;;
    let base_groups :=
      fold_left (fun d item =>
                   let base := get_base_name (name_of item) in
                   if String.eqb base conflict_base_name
                   then setdefault_append base item d else d)
                (data_collection (data h)) [] in
    clean_base_groups (ret tt) base_groups.

Lemma quiet_ret : quiet_step (ret tt).
Proof. intros w. repeat split. Qed.

Lemma auto_clean_round_effect (ids0 : list ID)
    (entry : string * conflict_info T) (w : world host) :
  NoDup (ptrs w) -> incl (ids w) ids0 ->
  effect (named_ids ids0 entry) w (auto_clean_round entry w).
Proof.
  intros Hnd Hin0. destruct entry as [cb info]. unfold auto_clean_round.
  cbv zeta. cbn [fst snd].
  destruct (negb _).
  - now apply effect_nothing.
  - unfold bind at 1, get_host at 1. rewrite conditional_fold.
    fold (coll w).
    change (fold_left add_by_base_name (List.filter (has_base cb) (coll w)) [])
      with (group_by_base_name (List.filter (has_base cb) (coll w))).
    set (its := List.filter (has_base cb) (coll w)).
    assert (Hsub : forall i, In i (base_ids (group_by_base_name its)) ->
                             In i (ids w) /\ named cb i = true).
    { intros i Hi. apply base_ids_In in Hi as (k & l & x & He & Hx & <-).
      apply group_by_base_name_entries in He. subst l.
      apply filter_In in Hx as [Hx _]. apply filter_In in Hx as [Hx Hb].
      split; [now apply in_map | exact Hb]. }
    assert (Hown : NoDup (map id_ptr (base_ids (group_by_base_name its)))).
    { apply (base_ids_NoDup its).
      - apply (NoDup_map_filter ptr_of). unfold ptrs, ids in Hnd.
        now rewrite map_map in Hnd.
      - apply group_by_base_name_NoDup.
      - apply group_by_base_name_entries. }
    assert (Hincl : incl (base_ids (group_by_base_name its)) (ids w)).
    { intros i Hi. now apply Hsub. }
    destruct (base_groups_effect (ret tt) (group_by_base_name its) w
                quiet_ret Hnd Hown Hincl) as [He _].
    eapply effect_incl; [|exact He].
    intros i Hi. apply filter_In. destruct (Hsub i Hi). split; auto.
Qed.

Lemma analysis_keys_NoDup (collection : list T) :
  NoDup (map fst (fst (analyze_data_conflicts_with_grouping collection))).
Proof.
  unfold analyze_data_conflicts_with_grouping.
  eapply sublist_NoDup; [apply group_by_base_name_NoDup|].
  apply analyze_groups_keys.
Qed.

Lemma auto_clean_loop (w : world host) :
  NoDup (ptrs w) ->
  effect (ids w) w
    (for_each (fst (analyze_data_conflicts_with_grouping (coll w)))
       auto_clean_round w).
Proof.
  intros Hnd.
  set (found := fst (analyze_data_conflicts_with_grouping (coll w))).
  destruct (rounds (ids w) (named_ids (ids w)) auto_clean_round
              (fun _ _ => True)) with (xs := found) (w := w) as [He _].
  - intros; exact I.
  - intros x w1 Hnd1 Hin1 _ _. split; [|exact I].
    now apply auto_clean_round_effect.
  - exact Hnd.
  - apply incl_refl.
  - apply named_ids_NoDup; [exact Hnd | apply analysis_keys_NoDup].
  - intros i Hi. apply in_concat in Hi as (l & Hl & Hi).
    apply in_map_iff in Hl as (e & <- & _). now apply filter_In in Hi.
  - eapply effect_incl; [|exact He].
    intros i Hi. apply in_concat in Hi as (l & Hl & Hi).
    apply in_map_iff in Hl as (e & <- & _). now apply filter_In in Hi.
Qed.

Lemma reported_auto_clean_round (R : list (string * string))
    (entry : string * conflict_info T) :
  preserves (reported R) (auto_clean_round entry).
Proof.
  unfold auto_clean_round. cbv zeta. destruct (negb _).
  - apply preserves_get_host. intros w Hw. exact Hw.
  - apply preserves_get_host. intros w Hw.
    apply reported_base_groups; [apply preserves_ret | exact Hw].
Qed.

(** The message of Auto Clean. *)
Definition auto_clean_message (c : counters) : string :=
  processed_message c +:+
  (if negb (skipped c =? 0)
   then ", skipped " +:+ pretty (skipped c) +:+ " (no duplicates)" else "").

Lemma auto_clean_unfold (w w2 : world host) :
  let found := analyze_data_conflicts_with_grouping (coll w) in
  let w1 := World (host_state (counting_from_zero w))
              (console w ++ snd found) in
  for_each (fst found) auto_clean_round w1 = (Ret tt, w2) ->
  _auto_clean_execution w
  = (Ret FINISHED,
     World (Host (data (host_state w2)) (_conflict_selections (host_state w2))
                 (trace (host_state w2)) (counts (host_state w2))
                 (reports (host_state w2)
                  ++ [("INFO", auto_clean_message (counts (host_state w2)))]))
           (console w2)).
Proof.
  cbv zeta. intros Hloop. unfold _auto_clean_execution.
  unfold bind at 1, count at 1, modify_host at 1.
  unfold bind at 1, get_host at 1. cbn [host_state data].
  unfold bind at 1, say at 1. cbn [host_state console].
  unfold bind at 1.
  change (for_each ?xs ?f) with (for_each xs auto_clean_round).
  fold (coll w). unfold counting_from_zero in Hloop. cbn [host_state] in Hloop.
  rewrite Hloop. reflexivity.
Qed.

Lemma auto_clean_outcome (w : world host) :
  NoDup (ptrs w) ->
  let res := _auto_clean_execution w in
  let w' := snd res in
  fst res = Ret FINISHED
  /\ processed (counts (host_state w'))
     = Z.of_nat (length (ids w)) - Z.of_nat (length (ids w'))
  /\ reports (host_state w')
     = reports (host_state w) ++ [("INFO", auto_clean_message (counts (host_state w')))]
  /\ (exists new : list event,
        events w' = events w ++ new
        /\ forall a b, In (Remapped a b) new -> In b (ids w')).
Proof.
  intros Hnd. cbv zeta.
  set (found := analyze_data_conflicts_with_grouping (coll w)).
  set (w1 := World (host_state (counting_from_zero w)) (console w ++ snd found)).
  assert (Hnd1 : NoDup (ptrs w1)) by exact Hnd.
  pose proof (auto_clean_loop w1 Hnd1) as He.
  change (coll w1) with (coll w) in He. fold found in He.
  pose proof (fun entry => reported_auto_clean_round (reports (host_state w)) entry)
    as Hround.
  pose proof (preserves_for_each (reported (reports (host_state w))) (fst found)
                auto_clean_round (fun x _ => Hround x) w1 eq_refl) as Hrep.
  unfold reported in Hrep.
  destruct (for_each (fst found) auto_clean_round w1) as [r w2] eqn:Hloop.
  destruct He as [Hr (gone & Hids & Hgone) Hbal (new & Hev & Hnew)].
  cbn [fst snd] in *. subst r.
  rewrite (auto_clean_unfold w w2 Hloop). cbn [fst snd host_state].
  split; [reflexivity|]. split; [|split].
  - unfold balance in Hbal. cbn in Hbal.
    unfold ids, coll, w1, counting_from_zero in *.
    cbn [host_state data counts] in *. lia.
  - cbn [reports counts]. now rewrite Hrep.
  - exists new. split; [exact Hev|]. intros a b Hab. now apply (Hnew a b).
Qed.

(** ** Auto Clean: what it removes and what it leaves *)

Section AutoCleanMerged.
Context {CLaws : ComparisonLaws Op}.
Variable w0 : world host.
Hypothesis Hnd0 : NoDup (ptrs w0).

(** The conflicts the analysis of the collection of [w0] finds. *)
Definition found_at_start (entry : string * conflict_info T) : Prop :=
  In entry (fst (analyze_data_conflicts_with_grouping (coll w0))).

(** Of the local members of each identity group of the conflict at
    most one is left. *)
Definition merged (entry : string * conflict_info T) (w : world host) : Prop :=
  forall g, In g (identity_groups (snd entry)) -> one_local_left (members g) w.

(** The collection is that of [w0] but for what was removed and for
    the datablocks that nodes point to, and every remapping so far was
    between mates. *)
Definition Mated (w : world host) : Prop :=
  OContent (coll w0) w /\ Inv (group_mates (coll w0)) (ids w0) w.

Lemma merged_stable (entry : string * conflict_info T) (w w' : world host)
    (f : ID -> bool) :
  merged entry w -> ids w' = List.filter f (ids w) -> merged entry w'.
Proof.
  intros H Hi g Hg. eapply one_local_left_stable; [|exact Hi].
  now apply H.
Qed.

Lemma Mated_frame (w w' : world host) :
  data (host_state w') = data (host_state w) ->
  trace (host_state w') = trace (host_state w) ->
  Mated w -> Mated w'.
Proof.
  intros Hd Ht [H1 H2]. split.
  - now apply (OContent_frame _ w w').
  - now apply (Inv_frame _ _ w w').
Qed.

Lemma has_base_same (cb : string) (x y : T) :
  same_content x y -> has_base cb x = has_base cb y.
Proof.
  intros H. unfold has_base, name_of. now rewrite (same_content_id x y H).
Qed.

(** At the start of its round, the items of a conflict are those the
    analysis found, but for the datablocks their nodes point to. *)
Lemma round_items (cb : string) (info : conflict_info T) (w1 : world host) :
  found_at_start (cb, info) ->
  OContent (coll w0) w1 ->
  incl (named_ids (ids w0) (cb, info)) (ids w1) ->
  Forall2 same_content (items info) (List.filter (has_base cb) (coll w1)).
Proof.
  intros Hin [kept Hc] Hincl.
  destruct (analysis_entries T Op (coll w0) cb info Hin) as (Hitems & _).
  rewrite Hitems.
  assert (Hkept : List.filter (has_base cb) (List.filter kept (coll w0))
                  = List.filter (has_base cb) (coll w0)).
  { rewrite filter_filter_and. apply filter_ext_in. intros x Hx.
    destruct (has_base cb x) eqn:Hb; [|now rewrite andb_false_r].
    rewrite andb_true_r.
    assert (Hi : In (block_id x) (ids w1)).
    { apply Hincl. unfold named_ids. cbn [fst]. apply filter_In. split.
      - now apply in_map.
      - exact Hb. }
    rewrite (OContent_ids (coll w0) w1 kept Hc) in Hi.
    apply in_map_iff in Hi as (x' & Hid & Hx').
    apply filter_In in Hx' as [Hx' Hk].
    assert (x' = x).
    { apply (NoDup_map_eq ptr_of (coll w0)); try assumption.
      - unfold ptrs, ids in Hnd0. now rewrite map_map in Hnd0.
      - unfold ptr_of. now rewrite Hid. }
    now subst x'. }
  rewrite <- Hkept. apply Forall2_filter_same; [exact Hc|].
  intros x y. apply has_base_same.
Qed.

Lemma Forall2_In_l {A} (P : A -> A -> Prop) (l l' : list A) (x : A) :
  Forall2 P l l' -> In x l -> exists y, In y l' /\ P x y.
Proof.
  induction 1 as [|x' y l l' Hxy _ IH]; cbn; [contradiction|].
  intros [<- | Hx].
  - exists y. auto.
  - destruct (IH Hx) as (y' & Hy' & Hp). exists y'. auto.
Qed.

Lemma one_local_left_same (ms ms' : list T) (w : world host) :
  Forall2 same_content ms ms' -> one_local_left ms' w -> one_local_left ms w.
Proof.
  intros H Hone x y Hx Hy Hlx Hly Hax Hay.
  destruct (Forall2_In_l _ _ _ x H Hx) as (x' & Hx' & Hsx).
  destruct (Forall2_In_l _ _ _ y H Hy) as (y' & Hy' & Hsy).
  rewrite (same_content_id x x' Hsx), (same_content_id y y' Hsy).
  unfold linked in *.
  rewrite (same_content_id x x' Hsx) in Hlx, Hax.
  rewrite (same_content_id y y' Hsy) in Hly, Hay.
  now apply Hone.
Qed.

Lemma filter_idem {A} (f : A -> bool) (l : list A) :
  List.filter f (List.filter f l) = List.filter f l.
Proof.
  rewrite filter_filter_and. apply filter_ext. intros x. now destruct (f x).
Qed.

(** The groups a round makes of the items of its conflict are the
    identity groups the analysis found, datablock by datablock. *)
Lemma round_groups (cb : string) (info : conflict_info T) (w1 : world host) :
  found_at_start (cb, info) ->
  OContent (coll w0) w1 ->
  incl (named_ids (ids w0) (cb, info)) (ids w1) ->
  Forall2 same_group_content (identity_groups info)
    (fst (group_items_by_identity (List.filter (has_base cb) (coll w1)))).
Proof.
  intros Hin Hc Hincl.
  destruct (analyze_groups_entries (group_by_base_name (coll w0)) cb info Hin)
    as (_ & _ & Hgroups & _).
  rewrite Hgroups. apply group_items_by_identity_same.
  now apply round_items.
Qed.

(** The entries of the grouping by base name of the items of one base
    name. *)
Lemma one_base_entries (cb k : string) (collection l : list T) (x : T) :
  In (k, l) (group_by_base_name (List.filter (has_base cb) collection)) ->
  In x l -> l = List.filter (has_base cb) collection.
Proof.
  intros He Hx. apply group_by_base_name_entries in He. subst l.
  apply filter_In in Hx as [Hx Hk]. apply filter_In in Hx as [_ Hcb].
  unfold has_base in Hk, Hcb. apply String.eqb_eq in Hk, Hcb.
  assert (Hkc : k = cb) by congruence. rewrite Hkc. apply filter_idem.
Qed.

Lemma round_pairs (cb : string) (info : conflict_info T) (w1 : world host)
    (k : string) (l : list T) :
  found_at_start (cb, info) ->
  OContent (coll w0) w1 ->
  incl (named_ids (ids w0) (cb, info)) (ids w1) ->
  In (k, l) (group_by_base_name (List.filter (has_base cb) (coll w1))) ->
  pairs_allowed (group_mates (coll w0)) l.
Proof.
  intros Hin Hc Hincl He g' m' r' Hg' Hm' Hr' Hs Hl.
  assert (Hitems : l = List.filter (has_base cb) (coll w1)).
  { apply (one_base_entries cb k (coll w1) l m' He).
    now apply (members_in_items l g'). }
  subst l.
  destruct (Forall2_In_r _ _ _ g' (round_groups cb info w1 Hin Hc Hincl) Hg')
    as (g & Hg & _ & Hmem).
  destruct (Forall2_In_r _ _ _ m' Hmem Hm') as (m & Hm & Hsm).
  destruct (Forall2_In_r _ _ _ r' Hmem Hr') as (r & Hr & Hsr).
  split; [exact Hl|]. split; [now apply same_block_false|].
  exists cb, info, g, m, r. repeat split; try assumption.
  - now apply same_content_id.
  - now apply same_content_id.
Qed.

Lemma auto_clean_round_ok (entry : string * conflict_info T) (w1 : world host) :
  found_at_start entry -> Mated w1 -> NoDup (ptrs w1) ->
  incl (named_ids (ids w0) entry) (ids w1) ->
  merged entry (snd (auto_clean_round entry w1))
  /\ Mated (snd (auto_clean_round entry w1)).
Proof.
  intros Hin [Hc Hinv] Hnd Hincl0. destruct entry as [cb info].
  unfold auto_clean_round. cbv zeta. cbn [fst snd].
  destruct (existsb _ (identity_groups info)) eqn:Hmean; cbn [negb].
  - unfold bind at 1, get_host at 1. unfold bind at 1, get_host at 1.
    rewrite conditional_fold. fold (coll w1).
    change (fold_left add_by_base_name (List.filter (has_base cb) (coll w1)) [])
      with (group_by_base_name (List.filter (has_base cb) (coll w1))).
    set (its := List.filter (has_base cb) (coll w1)) in *.
    assert (Hsub : forall i, In i (base_ids (group_by_base_name its)) ->
                             In i (ids w1)).
    { intros i Hi. apply base_ids_In in Hi as (k & l & x & He & Hx & <-).
      apply group_by_base_name_entries in He. subst l.
      apply filter_In in Hx as [Hx _]. apply filter_In in Hx as [Hx Hb].
      now apply in_map. }
    assert (Hown : NoDup (map id_ptr (base_ids (group_by_base_name its)))).
    { apply (base_ids_NoDup its).
      - apply (NoDup_map_filter ptr_of). unfold ptrs, ids in Hnd.
        now rewrite map_map in Hnd.
      - apply group_by_base_name_NoDup.
      - apply group_by_base_name_entries. }
    destruct (base_groups_effect (ret tt) (group_by_base_name its) w1
                quiet_ret Hnd Hown Hsub) as [_ Hmerged].
    split; [|split].
    + intros g Hg. cbn [snd] in Hg.
      pose proof (round_items cb info w1 Hin Hc Hincl0) as Hitems.
      fold its in Hitems.
      destruct (analyze_groups_entries (group_by_base_name (coll w0)) cb info Hin)
        as (_ & Hlen & Hgroups & _).
      assert (Hne : List.filter (has_base cb) its <> []).
      { unfold its. rewrite filter_idem. fold its. intros E. rewrite E in Hitems.
        inversion Hitems as [Hnil|]. rewrite <- Hnil in Hlen. cbn in Hlen. lia. }
      pose proof (group_by_base_name_complete its cb Hne) as Hentry.
      pose proof (Hmerged _ Hentry) as Hm. cbn [snd] in Hm.
      unfold its in Hm at 1. rewrite filter_idem in Hm. fold its in Hm.
      rewrite Hgroups in Hg.
      destruct (Forall2_In_l _ _ _ g (group_items_by_identity_same _ _ Hitems) Hg)
        as (g' & Hg' & _ & Hmem).
      apply (one_local_left_same (members g) (members g')); [exact Hmem|].
      now apply Hm.
    + apply (any_clean_base_groups (OContent (coll w0)) (OContent_frame (coll w0))
               (OContent_step (coll w0))); [apply preserves_ret | exact Hc].
    + apply (keeps_clean_base_groups (group_mates (coll w0)) (ids w0));
        [apply preserves_ret | | exact Hinv].
      intros [k l] He. cbn [snd].
      now apply (round_pairs cb info w1 k l).
  - unfold bind, get_host, count, modify_host. cbn [fst snd]. split.
    + intros g Hg x y Hx Hy Hlx Hly _ _. cbn [snd] in Hg. f_equal.
      assert (Hshort : (length (List.filter (fun m => negb (linked m)) (members g))
                        <= 1)%nat).
      { destruct (1 <? length (List.filter (fun m => negb (linked m))
                                 (members g)))%nat eqn:E;
          [|apply Nat.ltb_ge in E; lia].
        exfalso.
        assert (Ht : existsb
                 (fun group =>
                    (1 <? length (List.filter (fun m => negb (linked m))
                                    (members group)))%nat)
                 (identity_groups info) = true).
        { apply existsb_exists. exists g. auto. }
        congruence. }
      apply (short_list_eq _ x y Hshort); apply filter_In;
        (split; [assumption | now apply negb_true_iff]).
    + eapply Mated_frame; [| |exact (conj Hc Hinv)]; reflexivity.
Qed.

(** Auto Clean, the whole run. *)
Lemma auto_clean_whole_run :
  events w0 = [] ->
  (forall entry, found_at_start entry ->
                 merged entry (snd (_auto_clean_execution w0)))
  /\ Inv (group_mates (coll w0)) (ids w0) (snd (_auto_clean_execution w0)).
Proof.
  intros He0.
  set (found := analyze_data_conflicts_with_grouping (coll w0)) in *.
  set (w1 := World (host_state (counting_from_zero w0)) (console w0 ++ snd found)).
  assert (Hnd1 : NoDup (ptrs w1)) by exact Hnd0.
  destruct (rounds_with (ids w0) (named_ids (ids w0)) auto_clean_round merged
              Mated found_at_start) with (xs := fst found) (w := w1)
    as (He & Hposts & HJ).
  - intros x w w' f. apply merged_stable.
  - intros x w Hq HJ Hnd Hin0 _ Hincl.
    destruct (auto_clean_round_ok x w Hq HJ Hnd Hincl) as [H1 H2].
    split; [now apply auto_clean_round_effect | split; assumption].
  - intros x Hx. exact Hx.
  - split.
    + eapply OContent_frame; [| |exact (OContent_start w0)]; reflexivity.
    + eapply Inv_frame; [| |exact (Inv_start _ w0 He0)]; reflexivity.
  - exact Hnd1.
  - apply incl_refl.
  - apply named_ids_NoDup; [exact Hnd0 | apply analysis_keys_NoDup].
  - intros i Hi. apply in_concat in Hi as (l & Hl & Hi).
    apply in_map_iff in Hl as (e & <- & _). now apply filter_In in Hi.
  - destruct (for_each (fst found) auto_clean_round w1) as [r w2] eqn:Hloop.
    destruct He as [Hr _ _ _]. cbn [fst snd] in *. subst r.
    rewrite (auto_clean_unfold w0 w2 Hloop). cbn [snd]. split.
    + intros entry Hin. exact (Hposts entry Hin).
    + destruct HJ as [_ HI]. eapply Inv_frame; [| |exact HI]; reflexivity.
Qed.

(** After Auto Clean, of the local members of each identity group of
    each conflict at most one is left. *)
Lemma auto_clean_merged (entry : string * conflict_info T)
    (g : identity_group T) :
  events w0 = [] ->
  In entry (fst (analyze_data_conflicts_with_grouping (coll w0))) ->
  In g (identity_groups (snd entry)) ->
  one_local_left (members g) (snd (_auto_clean_execution w0)).
Proof.
  intros He0 Hin Hg. destruct (auto_clean_whole_run He0) as [Hm _].
  exact (Hm entry Hin g Hg).
Qed.

(** Every removal of Auto Clean comes right after the remapping of the
    removed datablock to a mate. *)
Lemma auto_clean_mates :
  events w0 = [] ->
  forall (i : nat) (a : ID) (d : bpy_data),
    events (snd (_auto_clean_execution w0)) !! i = Some (Removed a d) ->
    exists (j : nat) (b : ID),
      i = S j
      /\ events (snd (_auto_clean_execution w0)) !! j = Some (Remapped a b)
      /\ group_mates (coll w0) a b.
Proof.
  intros He0 i a d Hi.
  destruct (auto_clean_whole_run He0) as [_ [_ [Hmap Hrem]]].
  destruct (Hrem i a d Hi) as (j & b & -> & Hj & _).
  exists j, b. split; [reflexivity|]. split; [exact Hj|]. now apply (Hmap j).
Qed.

End AutoCleanMerged.


(** ** Choose Data and Replace with Linked *)

Lemma merge_loop_effect (guard : T -> bool) (t : T) (body : T -> py host unit)
    (ms : list T) (own : list ID) (w : world host) :
  (forall x w, guard x = true -> In (block_id x) (ids w) ->
               body x w = (Ret tt, after_step x t w)) ->
  (forall x, guard x = false -> quiet_step (body x)) ->
  NoDup (ptrs w) -> NoDup (map ptr_of ms) ->
  (forall m, In m ms -> guard m = true ->
             In (block_id m) (ids w) /\ In (block_id m) own
             /\ ptr_of m <> ptr_of t) ->
  In (block_id t) own -> In (block_id t) (ids w) ->
  effect own w (for_each ms body w).
Proof.
  intros Hstep Hquiet Hnd Hms Hin Hto Htw.
  destruct (merge_loop guard t body ms Hstep Hquiet w Hnd Hms
              (fun m Hm Hg => proj1 (Hin m Hm Hg)))
    as (H1 & H2 & H3 & new & H4 & H5).
  cbv zeta in H1, H2, H3, H4.
  split.
  - exact H1.
  - exists (fun p => existsb (fun x => guard x && (ptr_of x =? p)%nat) ms).
    split; [exact H2|]. intros p Hp.
    apply existsb_exists in Hp as (x & Hx & Hg).
    apply andb_true_iff in Hg as [Hg Hp]. apply Nat.eqb_eq in Hp.
    rewrite <- Hp. destruct (Hin x Hx Hg) as (_ & Ho & _).
    now apply (in_map id_ptr) in Ho.
  - exact H3.
  - exists new. split; [exact H4|]. intros a b Hab.
    rewrite (H5 a b Hab). split; [exact Hto|].
    rewrite H2. apply filter_In. split; [exact Htw|].
    apply negb_true_iff. unfold taken.
    destruct (existsb _ ms) eqn:Hex; [|reflexivity].
    apply existsb_exists in Hex as (x & Hx & Hg).
    apply andb_true_iff in Hg as [Hg Hp]. apply Nat.eqb_eq in Hp.
    destruct (Hin x Hx Hg) as (_ & _ & Hne). now elim Hne.
Qed.

(** The datablocks of the collection [ids0] that bear the base name of
    a conflict of the dialog. *)
Definition conflict_ids (ids0 : list ID) (c : conflict_item) : list ID :=
  List.filter (named (base_name c)) ids0.

Lemma conflict_ids_NoDup (ids0 : list ID) (cs : list conflict_item) :
  NoDup (map id_ptr ids0) ->
  NoDup (map base_name cs) ->
  NoDup (map id_ptr (concat (map (conflict_ids ids0) cs))).
Proof.
  intros Hnd. induction cs as [|c cs IH]; intros Hk.
  - cbn. constructor.
  - cbn [map] in Hk. apply NoDup_cons in Hk as [Hk1 Hk2].
    cbn [map concat]. rewrite map_app. apply NoDup_app. split; [|split].
    + now apply (NoDup_map_filter id_ptr).
    + intros p Hp1 Hp2. apply list_elem_of_In in Hp1, Hp2.
      apply in_map_iff in Hp1 as (i & <- & Hi).
      apply in_map_iff in Hp2 as (j & Hj & Hin).
      apply in_concat in Hin as (l & Hl & Hjl).
      apply in_map_iff in Hl as (c' & <- & Hc').
      unfold conflict_ids in Hi, Hjl.
      apply filter_In in Hi as [Hi Hni]. apply filter_In in Hjl as [Hj0 Hnj].
      assert (E : j = i) by (now apply (NoDup_map_eq id_ptr ids0)).
      subst j. unfold named in Hni, Hnj. apply String.eqb_eq in Hni, Hnj.
      apply Hk1. apply list_elem_of_In. apply in_map_iff.
      exists c'. split; [congruence | assumption].
    + now apply IH.
Qed.

Lemma items_named_NoDup (b : string) (w : world host) :
  NoDup (ptrs w) -> NoDup (map ptr_of (items_named b (data (host_state w)))).
Proof.
  intros Hnd. unfold items_named. apply (NoDup_map_filter ptr_of).
  unfold ptrs, ids in Hnd. now rewrite map_map in Hnd.
Qed.

Lemma items_named_In (b : string) (w : world host) (x : T) :
  In x (items_named b (data (host_state w))) ->
  In (block_id x) (ids w) /\ named b (block_id x) = true.
Proof.
  unfold items_named. intros [Hx Hb]%filter_In. split; [|exact Hb].
  now apply in_map.
Qed.

Lemma choose_data_round_effect (ids0 : list ID) (c : conflict_item)
    (w : world host) :
  NoDup (ptrs w) -> incl (ids w) ids0 ->
  effect (conflict_ids ids0 c) w (choose_data_conflict c w).
Proof.
  intros Hnd Hin0. unfold choose_data_conflict.
  destruct (skip_this_conflict c); [now apply effect_nothing|].
  unfold bind at 1, get_host at 1. cbv zeta.
  set (all_items := items_named (base_name c) (data (host_state w))).
  destruct (length (List.filter _ all_items) <? 2)%nat;
    [now apply effect_nothing|].
  destruct (selection (host_state w) (base_name c)) as [name|];
    [|now apply effect_nothing].
  destruct (String.eqb name ""); [now apply effect_nothing|].
  destruct (List.find _ all_items) as [target|] eqn:Hfind;
    [|now apply effect_nothing].
  apply find_some in Hfind as [Ht _].
  assert (Hown : forall x, In x all_items ->
            In (block_id x) (ids w) /\ In (block_id x) (conflict_ids ids0 c)).
  { intros x Hx. destruct (items_named_In _ _ _ Hx) as [Hi Hb].
    split; [exact Hi|]. apply filter_In. split; [now apply Hin0 | exact Hb]. }
  apply (merge_loop_effect
           (fun item => negb (same_block item target) && negb (linked item))
           target).
  - intros x w1 Hg Hx. rewrite Hg.
    exact (step_alive x target w1 (alive_id x w1 Hx)).
  - intros x Hg w1. rewrite Hg. repeat split.
  - exact Hnd.
  - now apply items_named_NoDup.
  - intros m Hm Hg. destruct (Hown m Hm) as [H1 H2].
    split; [exact H1|]. split; [exact H2|].
    apply andb_true_iff in Hg as [Hs _]. apply negb_true_iff in Hs.
    now apply same_block_false.
  - now apply Hown.
  - now apply Hown.
Qed.

Lemma keep_linked_round_effect (w0 : world host) (c : conflict_item)
    (w : world host) :
  NoDup (ptrs w0) ->
  NoDup (ptrs w) -> incl (ids w) (ids w0) ->
  incl (conflict_ids (ids w0) c) (ids w) ->
  effect (conflict_ids (ids w0) c) w
    (keep_linked_conflict (fst (analyze_data_conflicts_with_grouping (coll w0)))
       c w).
Proof.
  intros Hnd0 Hnd Hin0 Hall. unfold keep_linked_conflict.
  destruct (skip_this_conflict c); [now apply effect_nothing|].
  destruct (conflicts_get _ (base_name c)) as [info|] eqn:Hget;
    [|now apply effect_nothing].
  apply conflicts_get_eq in Hget.
  destruct (analysis_entries T Op (coll w0) (base_name c) info Hget)
    as (Hitems & _).
  assert (Hown : forall x, In x (items info) ->
            In (block_id x) (conflict_ids (ids w0) c) /\ In x (coll w0)).
  { intros x Hx. rewrite Hitems in Hx. apply filter_In in Hx as [Hx Hb].
    split; [|exact Hx]. apply filter_In. split; [now apply in_map | exact Hb]. }
  cbv zeta. unfold bind at 1.
  rewrite check_alive_ok.
  2:{ intros x Hx. apply alive_id. apply Hall. now apply Hown. }
  destruct (List.filter linked (items info)) as [|target rest] eqn:Hlinked;
    [now apply effect_nothing|].
  assert (Ht : In target (items info) /\ linked target = true).
  { assert (Hi : In target (List.filter linked (items info)))
      by (rewrite Hlinked; now left).
    now apply filter_In in Hi. }
  destruct Ht as [Ht Hlt].
  assert (Hnd1 : NoDup (map ptr_of (coll w0))).
  { unfold ptrs, ids in Hnd0. now rewrite map_map in Hnd0. }
  apply (merge_loop_effect (fun _ => true) target).
  - intros x w1 _ Hx. unfold try_except.
    change (_remap_data x target ;; remove x ;; count (add_processed 1))
      with (step x target).
    now rewrite (step_alive x target w1 (alive_id x w1 Hx)).
  - discriminate.
  - exact Hnd.
  - apply (NoDup_map_filter ptr_of). rewrite Hitems.
    now apply (NoDup_map_filter ptr_of).
  - intros m Hm _. apply filter_In in Hm as [Hm Hl].
    destruct (Hown m Hm) as [H1 H2]. split; [now apply Hall|].
    split; [exact H1|]. intros Heq.
    assert (E : m = target).
    { apply (NoDup_map_eq ptr_of (coll w0)); try assumption.
      now apply Hown. }
    subst m. rewrite Hlt in Hl. discriminate.
  - now apply Hown.
  - apply Hall. now apply Hown.
Qed.

Lemma conflict_ids_incl (ids0 : list ID) (cs : list conflict_item) :
  incl (concat (map (conflict_ids ids0) cs)) ids0.
Proof.
  intros i Hi. apply in_concat in Hi as (l & Hl & Hi).
  apply in_map_iff in Hl as (c & <- & _). now apply filter_In in Hi.
Qed.

Lemma choose_data_loop (cs : list conflict_item) (w : world host) :
  NoDup (ptrs w) -> NoDup (map base_name cs) ->
  effect (ids w) w (for_each cs choose_data_conflict w).
Proof.
  intros Hnd Hcs.
  destruct (rounds (ids w) (conflict_ids (ids w)) choose_data_conflict
              (fun _ _ => True)) with (xs := cs) (w := w) as [He _].
  - intros; exact I.
  - intros c w1 Hnd1 Hin1 _ _. split; [|exact I].
    now apply choose_data_round_effect.
  - exact Hnd.
  - apply incl_refl.
  - now apply conflict_ids_NoDup.
  - apply conflict_ids_incl.
  - eapply effect_incl; [|exact He]. apply conflict_ids_incl.
Qed.

Lemma keep_linked_loop (cs : list conflict_item) (w0 w : world host) :
  host_state w = host_state w0 ->
  NoDup (ptrs w0) -> NoDup (map base_name cs) ->
  effect (ids w0) w
    (for_each cs
       (keep_linked_conflict (fst (analyze_data_conflicts_with_grouping (coll w0))))
       w).
Proof.
  intros Hh Hnd Hcs.
  assert (Hi : ids w = ids w0) by (unfold ids, coll; now rewrite Hh).
  assert (Hndw : NoDup (ptrs w)) by (unfold ptrs; now rewrite Hi).
  destruct (rounds (ids w0) (conflict_ids (ids w0))
              (keep_linked_conflict
                 (fst (analyze_data_conflicts_with_grouping (coll w0))))
              (fun _ _ => True)) with (xs := cs) (w := w) as [He _].
  - intros; exact I.
  - intros c w1 Hnd1 Hin1 _ Hall. split; [|exact I].
    now apply keep_linked_round_effect.
  - exact Hndw.
  - rewrite Hi. apply incl_refl.
  - now apply conflict_ids_NoDup.
  - rewrite Hi. apply conflict_ids_incl.
  - eapply effect_incl; [|exact He]. apply conflict_ids_incl.
Qed.

Lemma reported_choose_data_conflict (R : list (string * string))
    (c : conflict_item) :
  preserves (reported R) (choose_data_conflict c).
Proof.
  unfold choose_data_conflict. destruct (skip_this_conflict c).
  - apply preserves_get_host. intros w Hw. exact Hw.
  - apply preserves_get_host. intros w Hw. cbv zeta.
    destruct (_ <? 2)%nat; [exact Hw|].
    destruct (selection _ _) as [name|]; [|exact Hw].
    destruct (String.eqb name ""); [exact Hw|].
    destruct (List.find _ _) as [target|]; [|exact Hw].
    apply (preserves_for_each (reported R)); [|exact Hw].
    intros x _. destruct (_ && _); [apply reported_step | apply preserves_ret].
Qed.

Lemma reported_keep_linked_conflict (R : list (string * string))
    (found : list (string * conflict_info T)) (c : conflict_item) :
  preserves (reported R) (keep_linked_conflict found c).
Proof.
  unfold keep_linked_conflict. destruct (skip_this_conflict c).
  - apply preserves_get_host. intros w Hw. exact Hw.
  - destruct (conflicts_get found (base_name c)) as [info|];
      [|apply preserves_ret].
    cbv zeta. apply preserves_bind.
    + apply preserves_get_host. intros w Hw. now destruct (forallb _ _).
    + intros _. destruct (List.filter linked (items info)) as [|target rest].
      * now apply reported_modify.
      * apply preserves_for_each. intros x _. apply preserves_try_except.
        -- apply reported_step.
        -- intros e. apply preserves_bind.
           ++ apply preserves_print. intros w lines Hw. exact Hw.
           ++ intros _. now apply reported_modify.
Qed.

(** What the two strategies share at their end. *)
Definition strategy_outcome (w : world host) (res : outcome op_result * world host)
  : Prop :=
  let w' := snd res in
  fst res = Ret FINISHED
  /\ processed (counts (host_state w'))
     = Z.of_nat (length (ids w)) - Z.of_nat (length (ids w'))
  /\ (exists rest : string,
        reports (host_state w')
        = reports (host_state w)
          ++ [("INFO", processed_message (counts (host_state w')) +:+ rest)])
  /\ (exists new : list event,
        events w' = events w ++ new
        /\ forall a b, In (Remapped a b) new -> In b (ids w')).

Lemma choose_data_outcome (self : operator) (w : world host) :
  NoDup (ptrs w) -> NoDup (map base_name (conflicts self)) ->
  strategy_outcome w (_choose_data_execution self w).
Proof.
  intros Hnd Hcs.
  assert (Hnd1 : NoDup (ptrs (counting_from_zero w))) by exact Hnd.
  pose proof (choose_data_loop (conflicts self) (counting_from_zero w) Hnd1 Hcs)
    as He.
  pose proof (preserves_for_each (reported (reports (host_state w)))
                (conflicts self) choose_data_conflict
                (fun c _ => reported_choose_data_conflict _ c)
                (counting_from_zero w) eq_refl) as Hrep.
  unfold reported in Hrep.
  assert (Hrun : forall w2,
            for_each (conflicts self) choose_data_conflict (counting_from_zero w)
            = (Ret tt, w2) ->
            _choose_data_execution self w
            = (Ret FINISHED,
               World (Host (data (host_state w2))
                           (<[DATA_TYPE := ∅]> (_conflict_selections (host_state w2)))
                           (trace (host_state w2)) (counts (host_state w2))
                           (reports (host_state w2)
                            ++ [("INFO",
                                 processed_message (counts (host_state w2)) +:+
                                 (if negb (skipped (counts (host_state w2)) =? 0)
                                  then ", skipped "
                                       +:+ pretty (skipped (counts (host_state w2)))
                                  else "") +:+
                                 (if negb (no_choice_needed (counts (host_state w2)) =? 0)
                                  then ", no choice needed for "
                                       +:+ pretty (no_choice_needed (counts (host_state w2)))
                                       +:+ " items"
                                  else ""))]))
                     (console w2))).
  { intros w2 Hloop. unfold _choose_data_execution.
    unfold bind at 1, count at 1, modify_host at 1.
    unfold bind at 1.
    change (World (Host (data (host_state w)) (_conflict_selections (host_state w))
                        (trace (host_state w)) no_counts (reports (host_state w)))
                  (console w)) with (counting_from_zero w).
    rewrite Hloop. reflexivity. }
  destruct (for_each (conflicts self) choose_data_conflict (counting_from_zero w))
    as [r w2] eqn:Hloop.
  destruct He as [Hr (gone & Hids & Hgone) Hbal (new & Hev & Hnew)].
  cbn [fst snd] in *. subst r.
  unfold strategy_outcome. rewrite (Hrun w2 eq_refl). cbn [fst snd host_state].
  split; [reflexivity|]. split; [|split].
  - unfold balance in Hbal. cbn in Hbal.
    unfold ids, coll, counting_from_zero in *.
    cbn [host_state data counts] in *. lia.
  - eexists. cbn [reports counts]. rewrite Hrep. f_equal.
  - exists new. split; [exact Hev|]. intros a b Hab. now apply (Hnew a b).
Qed.

Lemma keep_linked_outcome (self : operator) (w : world host) :
  NoDup (ptrs w) -> NoDup (map base_name (conflicts self)) ->
  strategy_outcome w (_keep_linked_execution self w).
Proof.
  intros Hnd Hcs.
  set (found := analyze_data_conflicts_with_grouping (coll w)).
  set (w1 := World (host_state (counting_from_zero w)) (console w ++ snd found)).
  assert (Hnd0 : NoDup (ptrs (counting_from_zero w))) by exact Hnd.
  pose proof (keep_linked_loop (conflicts self) (counting_from_zero w) w1
                eq_refl Hnd0 Hcs) as He.
  change (coll (counting_from_zero w)) with (coll w) in He. fold found in He.
  pose proof (preserves_for_each (reported (reports (host_state w)))
                (conflicts self) (keep_linked_conflict (fst found))
                (fun c _ => reported_keep_linked_conflict _ (fst found) c)
                w1 eq_refl) as Hrep.
  unfold reported in Hrep.
  assert (Hrun : forall w2,
            for_each (conflicts self) (keep_linked_conflict (fst found)) w1
            = (Ret tt, w2) ->
            _keep_linked_execution self w
            = (Ret FINISHED,
               World (Host (data (host_state w2))
                           (_conflict_selections (host_state w2))
                           (trace (host_state w2)) (counts (host_state w2))
                           (reports (host_state w2)
                            ++ [("INFO",
                                 processed_message (counts (host_state w2)) +:+
                                 (if negb (skipped (counts (host_state w2)) =? 0)
                                  then ", skipped "
                                       +:+ pretty (skipped (counts (host_state w2)))
                                  else "") +:+
                                 (if negb (no_linked_available (counts (host_state w2)) =? 0)
                                  then ", no linked versions available for "
                                       +:+ pretty (no_linked_available (counts (host_state w2)))
                                       +:+ " items"
                                  else ""))]))
                     (console w2))).
  { intros w2 Hloop. unfold _keep_linked_execution.
    unfold bind at 1, count at 1, modify_host at 1.
    unfold bind at 1, get_host at 1. cbn [host_state data].
    unfold bind at 1, say at 1. cbn [host_state console].
    unfold bind at 1. fold (coll w). fold found.
    unfold w1, counting_from_zero in Hloop. cbn [host_state] in Hloop.
    rewrite Hloop. reflexivity. }
  destruct (for_each (conflicts self) (keep_linked_conflict (fst found)) w1)
    as [r w2] eqn:Hloop.
  destruct He as [Hr (gone & Hids & Hgone) Hbal (new & Hev & Hnew)].
  cbn [fst snd] in *. subst r.
  unfold strategy_outcome. rewrite (Hrun w2 eq_refl). cbn [fst snd host_state].
  split; [reflexivity|]. split; [|split].
  - unfold balance in Hbal. cbn in Hbal.
    unfold ids, coll, w1, counting_from_zero in *.
    cbn [host_state data counts] in *. lia.
  - eexists. cbn [reports counts]. rewrite Hrep. f_equal.
  - exists new. split; [exact Hev|]. intros a b Hab.
    destruct (Hnew a b Hab) as [_ Hb]. exact Hb.
Qed.

End Merge.

(** The cleanup that runs without a dialog merges every set of
    identical local datablocks into one.  From a collection of distinct
    datablocks and an empty trace, [execute] with [has_conflicts] unset
    returns FINISHED; every datablock it removes was remapped, right
    before, to a member of its own identity group that is still in the
    collection when the run ends; of the local members of an identity
    group at most one is left; and the number in the message
    "Processed N ..." is the number of datablocks the collection has
    lost. *)
Theorem standard_cleanup_merges_duplicates (T : Type) (Op : CleanupOperator T)
    (Laws : CleanupLaws Op) (self : operator) (w : world host) :
  has_conflicts self = false ->
  distinct_blocks w -> events w = [] ->
  let w' := snd (execute self w) in
  fst (execute self w) = Ret FINISHED
  /\ (forall (i : nat) (a : ID) (d : bpy_data),
        events w' !! i = Some (Removed a d) ->
        exists (j : nat) (b : ID),
          i = S j /\ events w' !! j = Some (Remapped a b)
          /\ group_mates (coll w) a b /\ In b (ids w'))
  /\ (forall (k : string) (its : list T) (g : identity_group T) (x y : T),
        In (k, its) (group_by_base_name (coll w)) ->
        In g (fst (group_items_by_identity its)) ->
        In x (members g) -> In y (members g) ->
        linked x = false -> linked y = false ->
        In (block_id x) (ids w') -> In (block_id y) (ids w') ->
        block_id x = block_id y)
  /\ processed (counts (host_state w'))
     = Z.of_nat (length (ids w)) - Z.of_nat (length (ids w'))
  /\ reports (host_state w')
     = reports (host_state w)
       ++ [("INFO",
            ("Processed " +:+ pretty (processed (counts (host_state w')))
             +:+ " " +:+ collection_attr)
            +:+ (if 0 <? skipped_linked (counts (host_state w'))
                 then ", skipped "
                      +:+ pretty (skipped_linked (counts (host_state w')))
                      +:+ " linked"
                 else ""))].
Proof.
  intros Hc Hnd He. cbv zeta.
  assert (Hex : execute self = _standard_cleanup_with_grouping).
  { unfold execute. now rewrite Hc. }
  rewrite Hex.
  destruct (standard_cleanup_run w Hnd) as (H1 & H2 & H3 & (new & H4 & H5) & H6).
  cbv zeta in H1, H2, H3, H4, H5, H6.
  split; [exact H1|]. split; [|split; [|split]].
  - intros i a d Hi.
    destruct (standard_cleanup_mates w He i a d Hi)
      as (j & b & -> & Hj & Hmates).
    exists j, b. split; [reflexivity|]. split; [exact Hj|].
    split; [exact Hmates|].
    apply (H5 a b). rewrite He in H4. cbn in H4. rewrite <- H4.
    apply list_elem_of_In. now apply list_elem_of_lookup_2 in Hj.
  - intros k its g x y Hk Hg. exact (H6 (k, its) Hk g Hg x y).
  - exact H2.
  - exact H3.
Qed.

Lemma standard_cleanup_merges_duplicates_witness :
  fst (execute (Op := CLEANUP_OT_clean_materials) shift_click wood_world)
  = Ret FINISHED.
Proof.
  exact (proj1 (standard_cleanup_merges_duplicates material
                  CLEANUP_OT_clean_materials materials_laws shift_click
                  wood_world eq_refl wood_world_distinct eq_refl)).
Defined.

(** Auto Clean returns, and reports what it removed.  From a
    collection of distinct datablocks, [execute] with the strategy
    AUTO_CLEAN returns FINISHED (no reference to a removed datablock is
    ever used); every remapping it performs goes to a datablock that is
    still in the collection when the run ends; and the number in the
    message "Processed N ..." is the number of datablocks the collection
    has lost. *)
Theorem auto_clean_reports_removals (T : Type) (Op : CleanupOperator T)
    (Laws : CleanupLaws Op) (self : operator) (w : world host) :
  has_conflicts self = true ->
  global_resolution self = "AUTO_CLEAN" ->
  distinct_blocks w -> events w = [] ->
  let w' := snd (execute self w) in
  fst (execute self w) = Ret FINISHED
  /\ (forall a b : ID, In (Remapped a b) (events w') -> In b (ids w'))
  /\ processed (counts (host_state w'))
     = Z.of_nat (length (ids w)) - Z.of_nat (length (ids w'))
  /\ reports (host_state w')
     = reports (host_state w)
       ++ [("INFO",
            ("Processed " +:+ pretty (processed (counts (host_state w')))
             +:+ " " +:+ collection_attr)
            +:+ (if negb (skipped (counts (host_state w')) =? 0)
                 then ", skipped "
                      +:+ pretty (skipped (counts (host_state w')))
                      +:+ " (no duplicates)"
                 else ""))].
Proof.
  intros Hc Hg Hnd He. cbv zeta.
  assert (Hex : execute self = _auto_clean_execution).
  { unfold execute. now rewrite Hc, Hg. }
  rewrite Hex.
  destruct (auto_clean_outcome w Hnd) as (H1 & H2 & H3 & (new & H4 & H5)).
  cbv zeta in H1, H2, H3, H4, H5.
  split; [exact H1|]. split; [|split].
  - intros a b Hab. apply (H5 a b). rewrite He in H4. cbn in H4.
    now rewrite <- H4.
  - exact H2.
  - exact H3.
Qed.

Lemma auto_clean_reports_removals_witness :
  fst (execute (Op := CLEANUP_OT_clean_materials) (wood_dialog "AUTO_CLEAN")
         wood_world)
  = Ret FINISHED.
Proof.
  exact (proj1 (auto_clean_reports_removals material
                  CLEANUP_OT_clean_materials materials_laws
                  (wood_dialog "AUTO_CLEAN") wood_world eq_refl eq_refl
                  wood_world_distinct eq_refl)).
Defined.

(** Choose Data and Replace with Linked return, and report what they
    removed.  From a collection of distinct datablocks, and a dialog
    that lists no base name twice, [execute] with the strategy
    CHOOSE_DATA or KEEP_LINKED returns FINISHED; every remapping it
    performs goes to a datablock that is still in the collection when
    the run ends; and its message begins with "Processed N ...", where
    N is the number of datablocks the collection has lost. *)
Theorem chosen_strategies_report_removals (T : Type) (Op : CleanupOperator T)
    (Laws : CleanupLaws Op) (self : operator) (w : world host) :
  has_conflicts self = true ->
  global_resolution self = "CHOOSE_DATA"
  \/ global_resolution self = "KEEP_LINKED" ->
  distinct_blocks w -> events w = [] ->
  NoDup (map base_name (conflicts self)) ->
  let w' := snd (execute self w) in
  fst (execute self w) = Ret FINISHED
  /\ (forall a b : ID, In (Remapped a b) (events w') -> In b (ids w'))
  /\ processed (counts (host_state w'))
     = Z.of_nat (length (ids w)) - Z.of_nat (length (ids w'))
  /\ exists rest : string,
       reports (host_state w')
       = reports (host_state w)
         ++ [("INFO",
              ("Processed " +:+ pretty (processed (counts (host_state w')))
               +:+ " " +:+ collection_attr) +:+ rest)].
Proof.
  intros Hc Hg Hnd He Hcs. cbv zeta.
  assert (Hout : strategy_outcome w (execute self w)).
  { unfold execute. rewrite Hc. cbn [negb].
    destruct Hg as [Hg | Hg]; rewrite Hg; cbn.
    - now apply choose_data_outcome.
    - now apply keep_linked_outcome. }
  destruct Hout as (H1 & H2 & H3 & (new & H4 & H5)).
  split; [exact H1|]. split; [|split].
  - intros a b Hab. apply (H5 a b). rewrite He in H4. cbn in H4.
    now rewrite <- H4.
  - exact H2.
  - exact H3.
Qed.

Lemma chosen_strategies_report_removals_witness :
  fst (execute (Op := CLEANUP_OT_clean_materials) (wood_dialog "KEEP_LINKED")
         wood_world)
  = Ret FINISHED.
Proof.
  exact (proj1 (chosen_strategies_report_removals material
                  CLEANUP_OT_clean_materials materials_laws
                  (wood_dialog "KEEP_LINKED") wood_world eq_refl
                  (or_intror eq_refl) wood_world_distinct eq_refl
                  (wood_dialog_bases "KEEP_LINKED"))).
Defined.

End MergeFacts.
(* ===================================================================== *)
(** * Consumers are moved before a datablock is removed                   *)
(* ===================================================================== *)

Module ConsumerFacts.
Import Py Py.Notations Bpy CleanUp CleanUpFacts RemapFacts EngineFacts SceneFacts.
Import StrategyFacts MergeFacts.

Section Consumers.
Context {T : Type} {Op : CleanupOperator T} {Laws : CleanupLaws Op}
        {RLaws : RemapLaws Op Laws}.

(** The methods [execute] can reach: the cleanup without a dialog and
    the three strategies of the [global_resolution] enum. *)
Definition strategies (self : operator) : list (py host op_result) :=
  [_standard_cleanup_with_grouping;
   _auto_clean_execution;
   _choose_data_execution self;
   _keep_linked_execution self].

Lemma strategies_methods (self : operator) (m : py host op_result) :
  In m (strategies self) -> In m (methods self).
Proof.
  intros [<- | [<- | [<- | [<- | []]]]]; unfold methods; cbn; tauto.
Qed.

(** Every strategy returns, and the datablock a remapping goes to is
    still in the collection when the run ends. *)
Lemma run_keeps_targets (self : operator) (m : py host op_result)
    (w : world host) :
  In m (strategies self) -> distinct_blocks w -> events w = [] ->
  NoDup (map base_name (conflicts self)) ->
  fst (m w) = Ret FINISHED
  /\ forall a b : ID, In (Remapped a b) (events (snd (m w))) ->
                      In b (ids (snd (m w))).
Proof.
  intros Hm Hnd He Hcs.
  assert (H : fst (m w) = Ret FINISHED
              /\ exists new : list event,
                   events (snd (m w)) = events w ++ new
                   /\ forall a b, In (Remapped a b) new -> In b (ids (snd (m w)))).
  { destruct Hm as [<- | [<- | [<- | [<- | []]]]].
    - destruct (standard_cleanup_run w Hnd) as (H1 & _ & _ & H4 & _).
      split; assumption.
    - destruct (auto_clean_outcome w Hnd) as (H1 & _ & _ & H4).
      split; assumption.
    - destruct (choose_data_outcome self w Hnd Hcs) as (H1 & _ & _ & H4).
      split; assumption.
    - destruct (keep_linked_outcome self w Hnd Hcs) as (H1 & _ & _ & H4).
      split; assumption. }
  destruct H as (H1 & new & H4 & H5). split; [exact H1|].
  intros a b Hab. apply (H5 a b). rewrite He in H4. cbn in H4. now rewrite <- H4.
Qed.

(** In the trace of a run, a removal comes right after the call of
    [_remap_data] for the removed datablock; the scene passed to
    [remove()] is the scene of the moment before that call, remapped;
    each consumer slot that held the removed datablock holds the other
    one, the other slots hold what they held, and no known consumer
    holds the removed datablock any more. *)
Lemma run_moves_then_removes (self : operator) (m : py host op_result)
    (w : world host) :
  In m (methods self) -> distinct_blocks w -> events w = [] ->
  forall (i : nat) (a : ID) (d : bpy_data),
    events (snd (m w)) !! i = Some (Removed a d) ->
    exists (j : nat) (b : ID),
      i = S j /\ events (snd (m w)) !! j = Some (Remapped a b)
      /\ id_ptr a <> id_ptr b
      /\ (forall x y : T, block_id x = a -> block_id y = b ->
            d = remap_data x y
                  (scene_after (data (host_state w))
                     (take j (events (snd (m w))))))
      /\ Forall2 (moved (id_ptr a) (id_ptr b))
           (slots (id_ptr a)
              (scene_after (data (host_state w)) (take j (events (snd (m w))))))
           (slots (id_ptr a) d)
      /\ known_consumer d (id_ptr a) = false.
Proof.
  intros Hm Hnd He i a d Hi.
  destruct (run_remaps_before_removing self m w Hm Hnd He i a d Hi)
    as (j & b & -> & Hj & _ & Hne & _ & Hk).
  destruct (run_moves_consumers self m w j a b d Hm He Hj Hi) as [Hd Hmoved].
  exists j, b. repeat split; assumption.
Qed.

End Consumers.

(** C1: whichever method runs, and for each of the three data types,
    every removal from the collection comes right after the call of
    [_remap_data] for the removed datablock [a] and another datablock
    [b].  The scene passed to [remove()] is the scene of the moment
    before that call, remapped: every known consumer slot (object
    material slots, nodes of node groups, geometry-nodes modifiers,
    nodes of materials and of world shaders, as the data type has them)
    that held [a] holds [b], every other slot holds what it held, and
    no known consumer holds [a] any more.  The cleanup without a dialog
    and the three strategies return, on a dialog that lists no base name
    twice, and the datablock [b] of each of their remappings is still in
    the collection when the run ends. *)
Theorem consumers_remapped_before_removal (P : path_functions)
    (self : operator) :
  (forall (m : py host op_result) (w : world host),
      In m (methods (Op := CLEANUP_OT_clean_materials) self) ->
      distinct_blocks (Op := CLEANUP_OT_clean_materials) w -> events w = [] ->
      forall (i : nat) (a : ID) (d : bpy_data),
        events (snd (m w)) !! i = Some (Removed a d) ->
        exists (j : nat) (b : ID),
          i = S j /\ events (snd (m w)) !! j = Some (Remapped a b)
          /\ id_ptr a <> id_ptr b
          /\ (forall x y : material, mat_id x = a -> mat_id y = b ->
                d = remap_material x y
                      (scene_after (Op := CLEANUP_OT_clean_materials) (RLaws := materials_remap_laws)
                         (data (host_state w)) (take j (events (snd (m w))))))
          /\ Forall2 (moved (id_ptr a) (id_ptr b))
               (material_slots (scene_after (Op := CLEANUP_OT_clean_materials) (RLaws := materials_remap_laws)
                         (data (host_state w)) (take j (events (snd (m w))))))
               (material_slots d)
          /\ material_consumer d (id_ptr a) = false)
  /\ (forall (m : py host op_result) (w : world host),
      In m (strategies (Op := CLEANUP_OT_clean_materials) self) ->
      distinct_blocks (Op := CLEANUP_OT_clean_materials) w -> events w = [] ->
      NoDup (map base_name (conflicts self)) ->
      fst (m w) = Ret FINISHED
      /\ forall a b : ID,
           In (Remapped a b) (events (snd (m w))) ->
           In b (map mat_id (materials (data (host_state (snd (m w)))))))
  /\
  (forall (m : py host op_result) (w : world host),
      In m (methods (Op := CLEANUP_OT_clean_node_groups) self) ->
      distinct_blocks (Op := CLEANUP_OT_clean_node_groups) w -> events w = [] ->
      forall (i : nat) (a : ID) (d : bpy_data),
        events (snd (m w)) !! i = Some (Removed a d) ->
        exists (j : nat) (b : ID),
          i = S j /\ events (snd (m w)) !! j = Some (Remapped a b)
          /\ id_ptr a <> id_ptr b
          /\ (forall x y : node_group, ng_id x = a -> ng_id y = b ->
                d = remap_node_group x y
                      (scene_after (Op := CLEANUP_OT_clean_node_groups) (RLaws := node_groups_remap_laws)
                         (data (host_state w)) (take j (events (snd (m w))))))
          /\ Forall2 (moved (id_ptr a) (id_ptr b))
               (node_group_slots (id_ptr a) (scene_after (Op := CLEANUP_OT_clean_node_groups) (RLaws := node_groups_remap_laws)
                         (data (host_state w)) (take j (events (snd (m w))))))
               (node_group_slots (id_ptr a) d)
          /\ node_group_consumer d (id_ptr a) = false)
  /\ (forall (m : py host op_result) (w : world host),
      In m (strategies (Op := CLEANUP_OT_clean_node_groups) self) ->
      distinct_blocks (Op := CLEANUP_OT_clean_node_groups) w -> events w = [] ->
      NoDup (map base_name (conflicts self)) ->
      fst (m w) = Ret FINISHED
      /\ forall a b : ID,
           In (Remapped a b) (events (snd (m w))) ->
           In b (map ng_id (node_groups (data (host_state (snd (m w)))))))
  /\
  (forall (m : py host op_result) (w : world host),
      In m (methods (Op := CLEANUP_OT_clean_images P) self) ->
      distinct_blocks (Op := CLEANUP_OT_clean_images P) w -> events w = [] ->
      forall (i : nat) (a : ID) (d : bpy_data),
        events (snd (m w)) !! i = Some (Removed a d) ->
        exists (j : nat) (b : ID),
          i = S j /\ events (snd (m w)) !! j = Some (Remapped a b)
          /\ id_ptr a <> id_ptr b
          /\ (forall x y : image, img_id x = a -> img_id y = b ->
                d = remap_image x y
                      (scene_after (Op := CLEANUP_OT_clean_images P) (RLaws := images_remap_laws P)
                         (data (host_state w)) (take j (events (snd (m w))))))
          /\ Forall2 (moved (id_ptr a) (id_ptr b))
               (image_slots (scene_after (Op := CLEANUP_OT_clean_images P) (RLaws := images_remap_laws P)
                         (data (host_state w)) (take j (events (snd (m w))))))
               (image_slots d)
          /\ image_consumer d (id_ptr a) = false)
  /\ (forall (m : py host op_result) (w : world host),
      In m (strategies (Op := CLEANUP_OT_clean_images P) self) ->
      distinct_blocks (Op := CLEANUP_OT_clean_images P) w -> events w = [] ->
      NoDup (map base_name (conflicts self)) ->
      fst (m w) = Ret FINISHED
      /\ forall a b : ID,
           In (Remapped a b) (events (snd (m w))) ->
           In b (map img_id (images (data (host_state (snd (m w))))))).
Proof.
  split; [|split; [|split; [|split; [|split]]]].
  1,3,5: intros m w Hm Hnd He i a d Hi;
    destruct (run_moves_then_removes self m w Hm Hnd He i a d Hi)
      as (j & b & -> & Hj & Hne & Hd & Hmoved & Hk);
    exists j, b; repeat split; assumption.
  all: intros m w Hm Hnd He Hcs;
    exact (run_keeps_targets self m w Hm Hnd He Hcs).
Qed.

(** The example scene: the object slot that held Wood.001 holds Wood
    when Wood.001 is removed. *)
Example wood_slots_moved :
  material_slots wood_scene = [Some 2%nat; Some 3%nat]
  /\ material_slots (remap_material (wood 2 "Wood.001" 0.5%float)
                       (wood 1 "Wood" 0.5%float) wood_scene)
     = [Some 1%nat; Some 3%nat].
Proof. split; vm_compute; reflexivity. Qed.

Lemma consumers_remapped_before_removal_witness :
  exists (j : nat) (b : ID),
    1%nat = S j
    /\ events (snd (execute (Op := CLEANUP_OT_clean_materials) shift_click
                      wood_world)) !! j
       = Some (Remapped (MkID 2 "Wood.001" None) b)
    /\ id_ptr (MkID 2 "Wood.001" None) <> id_ptr b
    /\ Forall2 (moved 2 (id_ptr b))
         (material_slots
            (scene_after (Op := CLEANUP_OT_clean_materials)
               (RLaws := materials_remap_laws) wood_scene
               (take j (events (snd (execute (Op := CLEANUP_OT_clean_materials)
                                       shift_click wood_world))))))
         (material_slots
            (remap_material (wood 2 "Wood.001" 0.5%float)
               (wood 1 "Wood" 0.5%float) wood_scene))
    /\ material_consumer
         (remap_material (wood 2 "Wood.001" 0.5%float) (wood 1 "Wood" 0.5%float)
            wood_scene)
         2 = false.
Proof.
  destruct (proj1 (consumers_remapped_before_removal posix_paths shift_click)
              (execute shift_click) wood_world
              (execute_is_a_method shift_click) wood_world_distinct eq_refl
              1%nat (MkID 2 "Wood.001" None)
              (remap_material (wood 2 "Wood.001" 0.5%float)
                 (wood 1 "Wood" 0.5%float) wood_scene))
    as (j & b & Hi & Hj & Hne & _ & Hmoved & Hk).
  - vm_compute. reflexivity.
  - exists j, b. repeat split; assumption.
Defined.

End ConsumerFacts.

(* ===================================================================== *)
(** * How [invoke] sets up the dialog of conflicts                        *)
(* ===================================================================== *)

Module DialogFacts.
Import Py Py.Notations Bpy CleanUp CleanUpFacts EngineFacts StrategyFacts.
Import MergeFacts CleanUpDialog.

Section Dialog.
Context {T : Type} {Op : CleanupOperator T}.
Variable users : T -> Z.
Variable item_filepath : T -> option string.
Variable os_path_basename : string -> string.

Definition locals (its : list T) : list T :=
  List.filter (fun item => negb (linked item)) its.

(** Whether the option of [item] is the one ticked when the dialog of
    the strategy [resolution] opens on a conflict made of [its]. *)
Definition preselected (resolution : string) (its : list T) (item : T) : bool :=
  String.eqb resolution "CHOOSE_DATA" && negb (linked item)
  && match locals its with
     | first :: _ => String.eqb (name_of item) (name_of first)
     | [] => false
     end.

(** What the dialog shows of an option. *)
Definition shown (option : data_option) : string * bool * bool :=
  (data_name option, is_linked option, is_selected option).

Lemma mark_representative_shown (rep_name : string) (rep_linked : bool)
    (info : string) (count : Z) (options : list data_option) :
  map shown (mark_representative rep_name rep_linked info count options)
  = map shown options.
Proof.
  induction options as [|o rest IH]; cbn; [reflexivity|].
  destruct (String.eqb (data_name o) rep_name && Bool.eqb (is_linked o) rep_linked);
    cbn; [reflexivity | now rewrite IH].
Qed.

Lemma with_group_infos_shown (groups : list (identity_group T))
    (options : list data_option) :
  map shown (with_group_infos users groups options) = map shown options.
Proof.
  unfold with_group_infos. revert options.
  induction groups as [|g rest IH]; intros options; cbn; [reflexivity|].
  rewrite IH.
  match goal with
  | |- context [if ?c then _ else _] => destruct c
  end; [apply mark_representative_shown | reflexivity].
Qed.

Lemma details_for_shown (resolution : string) (info : conflict_info T) :
  map shown (data_options
               (details_for users item_filepath os_path_basename resolution info))
  = map (fun item => (name_of item, linked item,
                      preselected resolution (items info) item))
      (items info).
Proof.
  unfold details_for. cbn [data_options].
  assert (H : map shown
                (map (option_for users item_filepath os_path_basename resolution
                        (locals (items info))) (items info))
              = map (fun item => (name_of item, linked item,
                                  preselected resolution (items info) item))
                  (items info)).
  { rewrite map_map. apply map_ext. intros item. reflexivity. }
  destruct (String.eqb resolution "AUTO_CLEAN");
    [rewrite with_group_infos_shown|]; exact H.
Qed.

(** ** The selections the loop records *)

Definition init_selection (resolution : string)
    (entry : string * conflict_info T) : py host unit :=
  match locals (items (snd entry)) with
  | first :: _ =>
      if String.eqb resolution "CHOOSE_DATA"
      then set_selection (fst entry) (name_of first)
      else ret tt
  | [] => ret tt
  end.

Definition first_choice (resolution : string) (info : conflict_info T)
  : option string :=
  if String.eqb resolution "CHOOSE_DATA"
  then option_map name_of (head (locals (items info)))
  else None.

Lemma conflicts_get_None (found : list (string * conflict_info T)) (base : string) :
  ~ In base (map fst found) -> conflicts_get found base = None.
Proof.
  induction found as [|[b i] rest IH]; cbn; [reflexivity|].
  intros Hn. destruct (String.eqb b base) eqn:E.
  - apply String.eqb_eq in E. tauto.
  - apply IH. tauto.
Qed.

Lemma selection_set (base name b : string) (w : world host) :
  selection (host_state (snd (set_selection base name w))) b
  = if String.eqb base b then Some name else selection (host_state w) b.
Proof.
  unfold selection, set_selection, modify_host. cbn.
  rewrite lookup_insert_eq. cbn.
  destruct (String.eqb base b) eqn:E.
  - apply String.eqb_eq in E. subst. now rewrite lookup_insert_eq.
  - apply String.eqb_neq in E. now rewrite lookup_insert_ne.
Qed.

Definition same_scene (w w' : world host) : Prop :=
  data (host_state w') = data (host_state w)
  /\ trace (host_state w') = trace (host_state w)
  /\ counts (host_state w') = counts (host_state w)
  /\ reports (host_state w') = reports (host_state w).

Lemma init_selection_run (resolution : string) (entry : string * conflict_info T)
    (w : world host) :
  exists w', init_selection resolution entry w = (Ret tt, w')
    /\ same_scene w w'
    /\ forall b, selection (host_state w') b
                 = if String.eqb (fst entry) b
                   then match first_choice resolution (snd entry) with
                        | Some name => Some name
                        | None => selection (host_state w) b
                        end
                   else selection (host_state w) b.
Proof.
  unfold init_selection, first_choice.
  destruct (locals (items (snd entry))) as [|first rest] eqn:Hl;
    destruct (String.eqb resolution "CHOOSE_DATA"); cbn.
  1,2,4: exists w; repeat split; intros b; now destruct (String.eqb (fst entry) b).
  eexists. split; [reflexivity|]. split; [now repeat split|].
  intros b. apply (selection_set (fst entry) (name_of first) b w).
Qed.

Lemma init_selections_run (resolution : string)
    (found : list (string * conflict_info T)) (w : world host) :
  NoDup (map fst found) ->
  exists w', for_each found (init_selection resolution) w = (Ret tt, w')
    /\ same_scene w w'
    /\ forall b, selection (host_state w') b
                 = match conflicts_get found b with
                   | Some info =>
                       match first_choice resolution info with
                       | Some name => Some name
                       | None => selection (host_state w) b
                       end
                   | None => selection (host_state w) b
                   end.
Proof.
  revert w. induction found as [|[base info] rest IH]; intros w Hnd.
  - exists w. cbn. repeat split.
  - cbn [map fst] in Hnd. apply NoDup_cons in Hnd as [Hnotin Hnd].
    destruct (init_selection_run resolution (base, info) w)
      as (w1 & Hrun & Hsame & Hsel).
    destruct (IH w1 Hnd) as (w' & Hrest & Hsame' & Hsel').
    exists w'. split; [|split].
    + rewrite (for_each_cons_run _ _ _ w w1 Hrun). exact Hrest.
    + destruct Hsame as (A1 & A2 & A3 & A4), Hsame' as (B1 & B2 & B3 & B4).
      repeat split; congruence.
    + intros b. rewrite Hsel'. cbn [conflicts_get]. rewrite (Hsel b).
      cbn [fst snd].
      destruct (String.eqb base b) eqn:E; [|reflexivity].
      apply String.eqb_eq in E. subst b.
      rewrite conflicts_get_None; [reflexivity|].
      intros Hin. apply Hnotin. now apply list_elem_of_In.
Qed.

Lemma conflicts_get_listed (found : list (string * conflict_info T)) (base : string)
    (info : conflict_info T) :
  NoDup (map fst found) -> In (base, info) found ->
  conflicts_get found base = Some info.
Proof.
  induction found as [|[b i] rest IH]; cbn; [contradiction|].
  intros Hnd Hin. apply NoDup_cons in Hnd as [Hnotin Hnd].
  destruct Hin as [[= -> ->] | Hin].
  - now rewrite String.eqb_refl.
  - destruct (String.eqb b base) eqn:E; [|now apply IH].
    apply String.eqb_eq in E. subst b. exfalso. apply Hnotin.
    apply list_elem_of_In. change base with (fst (base, info)). now apply in_map.
Qed.

(** ** The conflicts of a collection *)

Definition found_in (w : world host) : list (string * conflict_info T) :=
  fst (analyze_data_conflicts_with_grouping (coll w)).

Lemma found_items (w : world host) (base : string) (info : conflict_info T) :
  In (base, info) (found_in w) ->
  items info = items_named base (data (host_state w))
  /\ (2 <= length (items info))%nat.
Proof.
  intros Hin.
  destruct (analysis_entries T Op (coll w) base info Hin) as (H1 & H2 & _).
  split; [exact H1 | exact H2].
Qed.

Lemma found_bases (w : world host) (base : string) :
  In base (map fst (found_in w))
  <-> (2 <= length (items_named base (data (host_state w))))%nat.
Proof.
  split.
  - intros Hin. apply in_map_iff in Hin as ([b info] & <- & Hin). cbn [fst].
    destruct (found_items w b info Hin) as (H1 & H2). now rewrite <- H1.
  - intros Hlen.
    assert (Hne : List.filter (has_base base) (coll w) <> []).
    { intros E. unfold items_named in Hlen. fold (coll w) in Hlen.
      change (fun i : T => String.eqb (get_base_name (name_of i)) base)
        with (has_base base) in Hlen.
      rewrite E in Hlen. cbn in Hlen. lia. }
    pose proof (group_by_base_name_complete (coll w) base Hne) as Hg.
    destruct (analyze_groups_complete (group_by_base_name (coll w)) base _ Hg Hlen)
      as (info & Hin & _).
    apply in_map_iff. exists (base, info). split; [reflexivity | exact Hin].
Qed.

Lemma found_get (w : world host) (base : string) :
  match conflicts_get (found_in w) base with
  | Some info => items info = items_named base (data (host_state w))
                 /\ (2 <= length (items info))%nat
  | None => (length (items_named base (data (host_state w))) < 2)%nat
  end.
Proof.
  destruct (conflicts_get (found_in w) base) as [info|] eqn:E.
  - apply conflicts_get_eq in E. now apply found_items.
  - destruct (Nat.lt_ge_cases (length (items_named base (data (host_state w)))) 2)
      as [Hlt | Hge]; [exact Hlt|].
    apply found_bases in Hge. apply in_map_iff in Hge as ([b info] & Hb & Hin).
    cbn in Hb. subst b.
    pose proof (conflicts_get_listed (found_in w) base info
                  (analysis_keys_NoDup (coll w)) Hin) as E'.
    congruence.
Qed.

(** ** [invoke] when the collection has conflicts *)

Definition cleared (w : world host) : world host := snd (clear_selections w).

Lemma cleared_selection (w : world host) (b : string) :
  selection (host_state (cleared w)) b = None.
Proof.
  unfold cleared, selection, clear_selections, modify_host. cbn.
  now rewrite lookup_insert_eq.
Qed.

Definition listed (resolution : string)
    (found : list (string * conflict_info T)) : operator :=
  Operator false (map (fun entry => ConflictItem (fst entry) false) found) true
    resolution.

Definition dialog_width (resolution : string) : Z :=
  if String.eqb resolution "AUTO_CLEAN" then 800 else 700.

Lemma invoke_dialog_run (self : operator) (w : world host) :
  found_in w <> [] ->
  exists w',
    invoke users item_filepath os_path_basename self false w
    = (Ret (listed (global_resolution self) (found_in w),
            Some (map (fun entry =>
                         details_for users item_filepath os_path_basename
                           (global_resolution self) (snd entry))
                    (found_in w)),
            Dialog (dialog_width (global_resolution self))), w')
    /\ same_scene w w'
    /\ forall b, selection (host_state w') b
                 = match conflicts_get (found_in w) b with
                   | Some info => first_choice (global_resolution self) info
                   | None => None
                   end.
Proof.
  intros Hne.
  set (w0 := World (host_state (cleared w))
               (console (cleared w)
                ++ snd (analyze_data_conflicts_with_grouping (coll w)))).
  destruct (init_selections_run (global_resolution self) (found_in w) w0
              (analysis_keys_NoDup (coll w))) as (w' & Hrun & Hsame & Hsel).
  exists w'. split; [|split].
  - unfold invoke, bind at 1. cbn [force_remap].
    change (clear_selections w) with (Ret tt, cleared w). cbn iota.
    unfold bind at 1, get_host. cbn iota.
    unfold bind at 1, say. cbn iota.
    change (data_collection (data (host_state (cleared w)))) with (coll w).
    fold (found_in w). fold w0.
    destruct (found_in w) as [|entry rest] eqn:Hf; [contradiction|].
    cbn [nonempty]. unfold bind at 1.
    change (for_each (entry :: rest) _ w0)
      with (for_each (entry :: rest) (init_selection (global_resolution self)) w0).
    rewrite Hrun. reflexivity.
  - destruct Hsame as (A1 & A2 & A3 & A4). repeat split; assumption.
  - intros b. rewrite Hsel.
    change (selection (host_state w0) b) with (selection (host_state (cleared w)) b).
    rewrite cleared_selection.
    destruct (conflicts_get (found_in w) b) as [info|]; [|reflexivity].
    now destruct (first_choice (global_resolution self) info).
Qed.

Lemma Forall2_map_both {A B C} (P : B -> C -> Prop) (f : A -> B) (g : A -> C)
    (l : list A) :
  (forall a, In a l -> P (f a) (g a)) -> Forall2 P (map f l) (map g l).
Proof.
  induction l as [|a rest IH]; intros H; cbn; constructor.
  - apply H. now left.
  - apply IH. intros b Hb. apply H. now right.
Qed.

Lemma listed_bases (resolution : string) (found : list (string * conflict_info T)) :
  map base_name (conflicts (listed resolution found)) = map fst found.
Proof. cbn. rewrite map_map. reflexivity. Qed.

(** ** [invoke] without a dialog *)

(** The world [execute] starts from when [invoke] calls it: the
    selections are cleared, and without Shift the analysis has printed
    its lines. *)
Definition started (shift : bool) (w : world host) : world host :=
  if shift then cleared w
  else World (host_state (cleared w))
         (console (cleared w)
          ++ snd (analyze_data_conflicts_with_grouping (coll w))).

Definition executed (self : operator) (w0 : world host)
  : outcome (operator * option (list conflict_details) * invoke_result)
    * world host :=
  match execute self w0 with
  | (Ret r, w') => (Ret (self, None, Executed r), w')
  | (Exc e, w') => (Exc e, w')
  end.

Lemma invoke_direct_run (self : operator) (shift : bool) (w : world host) :
  shift = true \/ found_in w = [] ->
  invoke users item_filepath os_path_basename self shift w
  = executed (Operator shift (conflicts self) (has_conflicts self)
                (global_resolution self))
      (started shift w).
Proof.
  intros Hd. unfold invoke, executed, bind at 1. cbn [force_remap].
  change (clear_selections w) with (Ret tt, cleared w). cbn iota.
  destruct shift; cbn [started].
  - unfold bind, ret.
    now destruct (execute _ (cleared w)) as [[r|e] w'].
  - destruct Hd as [Hd | Hd]; [discriminate|].
    unfold bind at 1, get_host. cbn iota.
    unfold bind at 1, say. cbn iota.
    change (data_collection (data (host_state (cleared w)))) with (coll w).
    fold (found_in w). rewrite Hd. cbn [nonempty].
    unfold bind, ret.
    now destruct (execute _ _) as [[r|e] w'].
Qed.

Lemma clean_base_groups_single (on_linked : py host unit)
    (base_groups : list (string * list T)) (w : world host) :
  (forall entry, In entry base_groups -> (length (snd entry) <= 1)%nat) ->
  clean_base_groups on_linked base_groups w = (Ret tt, w).
Proof.
  unfold clean_base_groups.
  induction base_groups as [|entry rest IH]; intros Hs; [reflexivity|].
  cbn [for_each]. unfold bind at 1.
  assert (H : (length (snd entry) <=? 1)%nat = true)
    by (apply Nat.leb_le, Hs; now left).
  rewrite H. cbn. apply IH. intros e He. apply Hs. now right.
Qed.

Lemma no_shared_base_groups (w : world host) :
  (forall base, (length (items_named base (data (host_state w))) < 2)%nat) ->
  forall entry, In entry (group_by_base_name (coll w)) ->
                (length (snd entry) <= 1)%nat.
Proof.
  intros Hs [base its] Hin. cbn [snd].
  rewrite (group_by_base_name_entries (coll w) base its Hin).
  specialize (Hs base). unfold items_named in Hs. fold (coll w) in Hs.
  change (fun i : T => String.eqb (get_base_name (name_of i)) base)
    with (has_base base) in Hs. lia.
Qed.

Lemma no_shared_base_found (w : world host) :
  (forall base, (length (items_named base (data (host_state w))) < 2)%nat) ->
  found_in w = [].
Proof.
  intros Hs. destruct (found_in w) as [|[base info] rest] eqn:E; [reflexivity|].
  assert (Hin : In base (map fst (found_in w))) by (rewrite E; now left).
  apply found_bases in Hin. specialize (Hs base). lia.
Qed.

Lemma append_empty (s : string) : s +:+ "" = s.
Proof.
  induction s as [|c s IH]; [reflexivity|].
  change (String c s +:+ "") with (String c (s +:+ "")). now rewrite IH.
Qed.

Lemma standard_cleanup_nothing (w : world host) :
  (forall base, (length (items_named base (data (host_state w))) < 2)%nat) ->
  _standard_cleanup_with_grouping w
  = (Ret FINISHED,
     World (Host (data (host_state w)) (_conflict_selections (host_state w))
              (trace (host_state w)) no_counts
              (reports (host_state w)
               ++ [("INFO", "Processed 0 " +:+ collection_attr)]))
       (console w)).
Proof.
  intros Hs.
  rewrite (standard_cleanup_unfold w (counting_from_zero w)).
  - unfold counting_from_zero, standard_message. cbn.
    now rewrite append_empty.
  - apply clean_base_groups_single. now apply no_shared_base_groups.
Qed.

Lemma executed_no_dialog (self : operator) (w0 w' : world host)
    (self' : operator) (details : option (list conflict_details)) (width : Z) :
  executed self w0 <> (Ret (self', details, Dialog width), w').
Proof.
  unfold executed. destruct (execute self w0) as [[r|e] w1]; congruence.
Qed.

(** The base names of the collection, one for each datablock. *)
Definition base_names (w : world host) : list string :=
  map (fun item => get_base_name (name_of item)) (coll w).

Lemma filter_NoDup_short {A} (f : A -> string) (base : string) (l : list A) :
  NoDup (map f l) ->
  (length (List.filter (fun x => String.eqb (f x) base) l) < 2)%nat.
Proof.
  induction l as [|a rest IH]; intros Hnd; cbn; [lia|].
  cbn in Hnd. apply NoDup_cons in Hnd as [Hnotin Hnd].
  destruct (String.eqb (f a) base) eqn:E; [|now apply IH].
  apply String.eqb_eq in E. cbn.
  assert (Hnone : List.filter (fun x => String.eqb (f x) base) rest = []).
  { destruct (List.filter (fun x => String.eqb (f x) base) rest) as [|b more] eqn:Hf;
      [reflexivity|].
    assert (Hb : In b (List.filter (fun x => String.eqb (f x) base) rest))
      by (rewrite Hf; now left).
    apply filter_In in Hb as [Hb Hfb]. apply String.eqb_eq in Hfb.
    exfalso. apply Hnotin. apply list_elem_of_In. rewrite E, <- Hfb.
    now apply in_map. }
  rewrite Hnone. cbn. lia.
Qed.

Lemma base_names_NoDup (w : world host) (base : string) :
  NoDup (base_names w) ->
  (length (items_named base (data (host_state w))) < 2)%nat.
Proof.
  intros Hnd. unfold items_named.
  apply (filter_NoDup_short (fun item => get_base_name (name_of item)) base
           (coll w) Hnd).
Qed.

Lemma invoke_nothing_run (self : operator) (shift : bool) (w : world host) :
  has_conflicts self = false ->
  NoDup (base_names w) ->
  exists w',
    invoke users item_filepath os_path_basename self shift w
    = (Ret (Operator shift (conflicts self) false (global_resolution self),
            None, Executed FINISHED), w')
    /\ data (host_state w') = data (host_state w)
    /\ events w' = events w
    /\ reports (host_state w')
       = reports (host_state w) ++ [("INFO", "Processed 0 " +:+ collection_attr)].
Proof.
  intros Hc Hnd.
  assert (Hs : forall base,
             (length (items_named base (data (host_state w))) < 2)%nat)
    by (intros base; now apply base_names_NoDup).
  rewrite invoke_direct_run by (right; now apply no_shared_base_found).
  rewrite Hc. unfold executed, execute. cbn [has_conflicts negb].
  rewrite standard_cleanup_nothing by (destruct shift; exact Hs).
  eexists. split; [reflexivity|]. destruct shift; now repeat split.
Qed.

(** ** Confirming the dialog of Choose Data as it opens *)

Section Confirm.
Context {Laws : CleanupLaws Op}.

Lemma find_first_named (its : list T) (first : T) :
  In first its ->
  exists target,
    List.find (fun item => String.eqb (name_of item) (name_of first)) its
    = Some target
    /\ name_of target = name_of first.
Proof.
  intros Hin.
  destruct (List.find (fun item => String.eqb (name_of item) (name_of first)) its)
    as [target|] eqn:E.
  - exists target. split; [reflexivity|]. apply find_some in E as [_ E].
    now apply String.eqb_eq in E.
  - apply (find_none _ _ E) in Hin. now rewrite String.eqb_refl in Hin.
Qed.

Lemma choose_data_confirmed (self : operator) (w : world host) (base : string) :
  distinct_blocks w ->
  global_resolution self = "CHOOSE_DATA" ->
  (forall x, In x (coll w) -> name_of x <> "") ->
  (2 <= length (locals (items_named base (data (host_state w)))))%nat ->
  exists (self' : operator) (details : list conflict_details) (w1 : world host)
         (first target : T),
    invoke users item_filepath os_path_basename self false w
    = (Ret (self', Some details, Dialog 700), w1)
    /\ head (locals (items_named base (data (host_state w)))) = Some first
    /\ List.find (fun item => String.eqb (name_of item) (name_of first))
         (items_named base (data (host_state w))) = Some target
    /\ fst (execute self' w1) = Ret FINISHED
    /\ In (block_id target) (ids (snd (execute self' w1)))
    /\ forall x : T,
         In x (items_named base (data (host_state w))) ->
         linked x = false -> ptr_of x <> ptr_of target ->
         In (Remapped (block_id x) (block_id target))
            (events (snd (execute self' w1)))
         /\ ~ In (block_id x) (ids (snd (execute self' w1))).
Proof.
  intros Hnd Hres Hnames Hlocals.
  assert (Hlen : (2 <= length (items_named base (data (host_state w))))%nat).
  { pose proof (filter_length_le (fun item : T => negb (linked item))
                  (items_named base (data (host_state w)))) as Hle.
    unfold locals in Hlocals. lia. }
  assert (Hne : found_in w <> []).
  { apply found_bases in Hlen. intros E. rewrite E in Hlen. contradiction. }
  destruct (invoke_dialog_run self w Hne)
    as (w1 & Hrun & (A1 & A2 & A3 & A4) & Hsel).
  rewrite Hres in Hrun. change (dialog_width "CHOOSE_DATA") with 700 in Hrun.
  destruct (locals (items_named base (data (host_state w))))
    as [|first rest] eqn:Hl; [cbn in Hlocals; lia|].
  assert (Hfirst : In first (items_named base (data (host_state w)))).
  { assert (H : In first (locals (items_named base (data (host_state w)))))
      by (rewrite Hl; now left).
    unfold locals in H. now apply filter_In in H. }
  destruct (find_first_named _ first Hfirst) as (target & Hfind & _).
  set (self' := listed "CHOOSE_DATA" (found_in w)) in *.
  assert (Hexec : execute self' w1 = _choose_data_execution self' w1).
  { destruct (execute_strategy self' eq_refl) as (_ & H & _).
    now rewrite (H eq_refl). }
  assert (Hbases : NoDup (map base_name (conflicts self'))).
  { unfold self'. rewrite listed_bases. apply analysis_keys_NoDup. }
  assert (Hnd1 : distinct_blocks w1).
  { unfold distinct_blocks, ids, coll in *. now rewrite A1. }
  assert (Hin : In (ConflictItem base false) (conflicts self')).
  { apply found_bases in Hlen. apply in_map_iff in Hlen as (e & <- & He).
    cbn. apply in_map_iff. exists e. split; [reflexivity | exact He]. }
  assert (Hsel1 : selection (host_state w1) base = Some (name_of first)).
  { rewrite Hsel. pose proof (found_get w base) as Hg.
    destruct (conflicts_get (found_in w) base) as [info|]; [|lia].
    destruct Hg as (Hitems & _). unfold first_choice. rewrite Hres.
    cbn [String.eqb Ascii.eqb Bool.eqb]. rewrite Hitems, Hl. reflexivity. }
  assert (Hname : name_of first <> "").
  { apply Hnames. unfold items_named in Hfirst.
    now apply filter_In in Hfirst. }
  exists self'. eexists. exists w1, first, target.
  split; [exact Hrun|]. split; [reflexivity|]. split; [exact Hfind|].
  rewrite Hexec. split.
  - destruct (choose_data_outcome self' w1 Hnd1 Hbases) as (H & _). exact H.
  - rewrite <- A1 in Hfind, Hl |- *.
    apply (choose_data_run self' w1 (ConflictItem base false) (name_of first)
             target Hnd1 Hbases Hin eq_refl Hsel1 Hname Hfind).
    cbn [base_name]. fold (locals (items_named base (data (host_state w1)))).
    now rewrite Hl.
Qed.

End Confirm.

End Dialog.

(** When two datablocks or more of the collection share a base
    name, [invoke] without Shift opens the dialog (800 wide for
    AUTO_CLEAN, 700 otherwise) and touches neither the data nor the
    reports.  The operator then has [has_conflicts] set and one
    conflict, not skipped, for each base name that two datablocks or
    more bear, and for no other; no base name is listed twice.  Each
    conflict shows one option per datablock of its base name, in the
    order of the collection, with its name and whether it is linked.
    With CHOOSE_DATA the selection recorded for a conflict is the name
    of its first local datablock, and the options ticked are the local
    ones of that name; with the other strategies nothing is selected. *)
Theorem invoke_lists_every_conflict (T : Type) (Op : CleanupOperator T)
    (users : T -> Z) (item_filepath : T -> option string)
    (os_path_basename : string -> string)
    (self : operator) (w : world host) (shared : string) :
  (2 <= length (items_named shared (data (host_state w))))%nat ->
  exists (self' : operator) (details : list conflict_details) (w' : world host),
    invoke users item_filepath os_path_basename self false w
    = (Ret (self', Some details,
            Dialog (if String.eqb (global_resolution self) "AUTO_CLEAN"
                    then 800 else 700)), w')
    /\ (data (host_state w') = data (host_state w)
        /\ events w' = events w
        /\ reports (host_state w') = reports (host_state w))
    /\ (force_remap self' = false /\ has_conflicts self' = true
        /\ global_resolution self' = global_resolution self)
    /\ NoDup (map base_name (conflicts self'))
    /\ (forall base : string,
          In base (map base_name (conflicts self'))
          <-> (2 <= length (items_named base (data (host_state w))))%nat)
    /\ (forall c : conflict_item,
          In c (conflicts self') -> skip_this_conflict c = false)
    /\ (forall base : string,
          selection (host_state w') base
          = if String.eqb (global_resolution self) "CHOOSE_DATA"
               && (2 <=? length (items_named base (data (host_state w))))%nat
            then option_map name_of
                   (head (locals (items_named base (data (host_state w)))))
            else None)
    /\ Forall2
         (fun (c : conflict_item) (d : conflict_details) =>
            map shown (data_options d)
            = map (fun item =>
                     (name_of item, linked item,
                      preselected (global_resolution self)
                        (items_named (base_name c) (data (host_state w))) item))
                (items_named (base_name c) (data (host_state w))))
         (conflicts self') details.
Proof.
  intros Hshared.
  assert (Hne : found_in w <> []).
  { apply found_bases in Hshared. intros E. rewrite E in Hshared.
    contradiction. }
  destruct (invoke_dialog_run users item_filepath os_path_basename self w Hne)
    as (w' & Hrun & (A1 & A2 & A3 & A4) & Hsel).
  exists (listed (global_resolution self) (found_in w)).
  eexists. exists w'. split; [exact Hrun|].
  split; [now repeat split|]. split; [now repeat split|].
  split; [|split; [|split; [|split]]].
  - rewrite listed_bases. apply analysis_keys_NoDup.
  - intros base. rewrite listed_bases. apply found_bases.
  - intros c Hc. cbn in Hc. apply in_map_iff in Hc as (e & <- & _). reflexivity.
  - intros base. rewrite Hsel. pose proof (found_get w base) as Hg.
    destruct (conflicts_get (found_in w) base) as [info|].
    + destruct Hg as (Hitems & Hlen). rewrite <- Hitems.
      apply Nat.leb_le in Hlen. rewrite Hlen, andb_true_r. reflexivity.
    + apply Nat.leb_gt in Hg. rewrite Hg, andb_false_r. reflexivity.
  - unfold listed. cbn [conflicts]. apply Forall2_map_both.
    intros [base info] Hin. cbn [base_name fst snd].
    destruct (found_items w base info Hin) as (Hitems & _).
    rewrite details_for_shown. now rewrite Hitems.
Qed.

Lemma invoke_lists_every_conflict_witness :
  exists (self' : operator) (details : list conflict_details),
    fst (invoke (Op := CLEANUP_OT_clean_materials) (fun _ => 1) (fun _ => None)
           (fun f => f) (Operator false [] false "CHOOSE_DATA") false wood_world)
    = Ret (self', Some details, Dialog 700).
Proof.
  assert (H : (2 <= length (items_named (Op := CLEANUP_OT_clean_materials) "Wood"
                              (data (host_state wood_world))))%nat)
    by (vm_compute; lia).
  destruct (invoke_lists_every_conflict material CLEANUP_OT_clean_materials
              (fun _ => 1) (fun _ => None) (fun f => f)
              (Operator false [] false "CHOOSE_DATA") wood_world "Wood" H)
    as (self' & details & w' & Hrun & _).
  exists self', details. now rewrite Hrun.
Defined.


(** The dialog of the example scene, as Auto Clean opens it. *)
Example wood_dialog_options :
  match fst (invoke (Op := CLEANUP_OT_clean_materials) (fun _ => 1)
               (fun _ => None) (fun f => f)
               (Operator false [] false "AUTO_CLEAN") false wood_world) with
  | Ret (self', Some details, result) =>
      Some (conflicts self',
            map (fun d =>
                   (conflict_types_text d,
                    map (fun o => (data_name o, user_count o, is_selected o,
                                   group_info o))
                      (data_options d)))
              details,
            result)
  | _ => None
  end
  = Some ([ConflictItem "Wood" false],
          [("Local Duplicates, Local and Linked, Non Identical",
            [("Wood", 3, false, "(+2 identical will be remapped)");
             ("Wood.001", 1, false, ""); ("Wood.002", 1, false, "");
             ("Wood.003", 1, false, "")])],
          Dialog 800).
Proof. vm_compute. reflexivity. Qed.

(** [invoke] opens the dialog exactly when Shift is not held and two
    datablocks or more of the collection share a base name.  In every
    other case it returns what [execute] returns, started with the
    selections cleared, and leaves [conflicts] and [has_conflicts] as
    they were. *)
Theorem dialog_opens_iff_conflicts (T : Type) (Op : CleanupOperator T)
    (users : T -> Z) (item_filepath : T -> option string)
    (os_path_basename : string -> string)
    (self : operator) (shift : bool) (w : world host) :
  ((exists (self' : operator) (details : option (list conflict_details))
           (width : Z) (w' : world host),
      invoke users item_filepath os_path_basename self shift w
      = (Ret (self', details, Dialog width), w'))
   <-> shift = false
       /\ exists base : string,
            (2 <= length (items_named base (data (host_state w))))%nat)
  /\ (shift = true
      \/ (forall base : string,
            (length (items_named base (data (host_state w))) < 2)%nat) ->
      invoke users item_filepath os_path_basename self shift w
      = executed (Operator shift (conflicts self) (has_conflicts self)
                    (global_resolution self))
          (started shift w)).
Proof.
  assert (Hdirect : shift = true
            \/ (forall base : string,
                  (length (items_named base (data (host_state w))) < 2)%nat) ->
            invoke users item_filepath os_path_basename self shift w
            = executed (Operator shift (conflicts self) (has_conflicts self)
                          (global_resolution self))
                (started shift w)).
  { intros [Hs | Hs]; apply invoke_direct_run; [now left | right].
    now apply no_shared_base_found. }
  split; [|exact Hdirect]. split.
  - intros (self' & details & width & w' & Hrun).
    destruct shift.
    + rewrite Hdirect in Hrun by now left.
      now apply executed_no_dialog in Hrun.
    + split; [reflexivity|].
      destruct (found_in w) as [|[base info] rest] eqn:E.
      * rewrite invoke_direct_run in Hrun by now right.
        now apply executed_no_dialog in Hrun.
      * exists base. apply found_bases. rewrite E. now left.
  - intros (-> & base & Hlen).
    assert (Hne : found_in w <> []).
    { apply found_bases in Hlen. intros E. rewrite E in Hlen. contradiction. }
    destruct (invoke_dialog_run users item_filepath os_path_basename self w Hne)
      as (w' & Hrun & _).
    eauto.
Qed.

(** With nothing to clean, nothing happens.  When no two datablocks of
    the collection share a base name and the operator has no conflicts
    from a dialog, [invoke] opens no dialog and returns FINISHED; the
    data and the trace are as before, and the report is
    "Processed 0 <collection>". *)
Theorem invoke_nothing_to_clean (T : Type) (Op : CleanupOperator T)
    (users : T -> Z) (item_filepath : T -> option string)
    (os_path_basename : string -> string)
    (self : operator) (shift : bool) (w : world host) :
  has_conflicts self = false ->
  NoDup (base_names w) ->
  exists w' : world host,
    invoke users item_filepath os_path_basename self shift w
    = (Ret (Operator shift (conflicts self) false (global_resolution self),
            None, Executed FINISHED), w')
    /\ data (host_state w') = data (host_state w)
    /\ events w' = events w
    /\ reports (host_state w')
       = reports (host_state w) ++ [("INFO", "Processed 0 " +:+ collection_attr)].
Proof. apply invoke_nothing_run. Qed.

(** A scene with two materials of different base names. *)
Definition tidy_world : world host :=
  World (Host (BpyData [] [Material (MkID 1 "Wood.001" None) false
                             [0.5; 0.5; 0.5; 1]%float 0%float 0.5%float None;
                           Material (MkID 2 "Steel" None) false
                             [0.5; 0.5; 0.5; 1]%float 0%float 0.5%float None]
                 [] [] [])
           ∅ [] no_counts []) [].

Lemma invoke_nothing_to_clean_witness :
  exists w' : world host,
    invoke (Op := CLEANUP_OT_clean_materials) (fun _ => 1) (fun _ => None)
      (fun f => f) (Operator false [] false "AUTO_CLEAN") false tidy_world
    = (Ret (Operator false [] false "AUTO_CLEAN", None, Executed FINISHED), w')
    /\ reports (host_state w') = [("INFO", "Processed 0 materials")].
Proof.
  assert (Hnd : NoDup (base_names (Op := CLEANUP_OT_clean_materials) tidy_world)).
  { apply (bool_decide_unpack _). vm_compute. exact I. }
  destruct (invoke_nothing_to_clean material CLEANUP_OT_clean_materials
              (fun _ => 1) (fun _ => None) (fun f => f)
              (Operator false [] false "AUTO_CLEAN") false tidy_world
              eq_refl Hnd) as (w' & Hrun & _ & _ & Hrep).
  exists w'. split; [exact Hrun | exact Hrep].
Defined.

(** Confirming the dialog of Choose Data as it opens.  From a
    collection of distinct datablocks with names that are not empty,
    [invoke] with CHOOSE_DATA opens the dialog, and [execute] on the
    operator and the selections it leaves returns FINISHED.  For a base
    name with two local datablocks or more, the datablock kept is the
    first of that base name that bears the name of the first local one;
    every other local datablock of the base name is remapped to it and
    removed. *)
Theorem choose_data_dialog_confirmed (T : Type) (Op : CleanupOperator T)
    (Laws : CleanupLaws Op)
    (users : T -> Z) (item_filepath : T -> option string)
    (os_path_basename : string -> string)
    (self : operator) (w : world host) (base : string) :
  distinct_blocks w ->
  global_resolution self = "CHOOSE_DATA" ->
  Forall (fun x => name_of x <> "") (coll w) ->
  (2 <= length (locals (items_named base (data (host_state w)))))%nat ->
  exists (self' : operator) (details : list conflict_details) (w1 : world host)
         (first target : T),
    invoke users item_filepath os_path_basename self false w
    = (Ret (self', Some details, Dialog 700), w1)
    /\ head (locals (items_named base (data (host_state w)))) = Some first
    /\ List.find (fun item => String.eqb (name_of item) (name_of first))
         (items_named base (data (host_state w))) = Some target
    /\ fst (execute self' w1) = Ret FINISHED
    /\ In (block_id target) (ids (snd (execute self' w1)))
    /\ forall x : T,
         In x (items_named base (data (host_state w))) ->
         linked x = false -> ptr_of x <> ptr_of target ->
         In (Remapped (block_id x) (block_id target))
            (events (snd (execute self' w1)))
         /\ ~ In (block_id x) (ids (snd (execute self' w1))).
Proof.
  intros Hnd Hres Hnames Hlocals.
  apply (choose_data_confirmed users item_filepath os_path_basename self w base
           Hnd Hres); [|exact Hlocals].
  intros x Hx. rewrite Forall_forall in Hnames. apply Hnames.
  now apply list_elem_of_In.
Qed.

Lemma choose_data_dialog_confirmed_witness :
  exists (self' : operator) (details : list conflict_details) (w1 : world host),
    invoke (Op := CLEANUP_OT_clean_materials) (fun _ => 1) (fun _ => None)
      (fun f => f) (Operator false [] false "CHOOSE_DATA") false wood_world
    = (Ret (self', Some details, Dialog 700), w1)
    /\ fst (execute (Op := CLEANUP_OT_clean_materials) self' w1) = Ret FINISHED.
Proof.
  assert (Hnames : Forall (fun x : material => name_of x <> "")
                     (coll (Op := CLEANUP_OT_clean_materials) wood_world)).
  { apply (bool_decide_unpack _). vm_compute. exact I. }
  assert (Hlocals : (2 <= length (locals (Op := CLEANUP_OT_clean_materials)
                                    (items_named "Wood"
                                       (data (host_state wood_world)))))%nat)
    by (vm_compute; lia).
  destruct (choose_data_dialog_confirmed material CLEANUP_OT_clean_materials
              materials_laws (fun _ => 1) (fun _ => None) (fun f => f)
              (Operator false [] false "CHOOSE_DATA") wood_world "Wood"
              wood_world_distinct eq_refl Hnames Hlocals)
    as (self' & details & w1 & first & target & Hrun & _ & _ & Hfin & _).
  exists self', details, w1. split; [exact Hrun | exact Hfin].
Defined.

End DialogFacts.

(* ===================================================================== *)
(** * The three resolution strategies                                     *)
(* ===================================================================== *)

Module ResolutionFacts.
Import Py Py.Notations Bpy CleanUp CleanUpFacts RemapFacts EngineFacts SceneFacts.
Import StrategyFacts MergeFacts.

(** C3: the [global_resolution] enum has the three items AUTO_CLEAN,
    CHOOSE_DATA and KEEP_LINKED, with AUTO_CLEAN as its default, and
    when the operator has conflicts [execute] runs the strategy the enum
    names.  Run from a collection of distinct datablocks, with a dialog
    whose conflicts bear distinct base names:
    - Auto Clean returns FINISHED; it removes a datablock only if it is
      local, and right after remapping it to another member of its
      identity group, as the analysis of the collection finds the
      groups; and when it ends, of the local members of each identity
      group of each conflict at most one is left;
    - Choose Data, in each conflict that is not skipped and has two
      local items or more, remaps every local item of the base name
      other than the one the chosen name stands for to that one and
      removes it, and keeps the chosen one;
    - Replace with Linked, in each conflict that is not skipped, remaps
      every local item to the first linked item of the conflict and
      removes it; when the conflict has no linked item, all its items
      stay in the collection and none is remapped.
    The operators for materials, node groups and images are the
    instances [materials_laws], [node_groups_laws] and [images_laws],
    with [materials_comparison_laws], [node_groups_comparison_laws] and
    [images_comparison_laws]. *)
Theorem three_resolution_strategies (T : Type) (Op : CleanupOperator T)
    (Laws : CleanupLaws Op) (CLaws : ComparisonLaws Op)
    (self : operator) (w : world host) :
  has_conflicts self = true ->
  distinct_blocks w -> events w = [] ->
  NoDup (map base_name (conflicts self)) ->
  map fst global_resolution_items = ["AUTO_CLEAN"; "CHOOSE_DATA"; "KEEP_LINKED"]
  /\ global_resolution_default = "AUTO_CLEAN"
  /\ (global_resolution self = "AUTO_CLEAN" ->
      execute self = _auto_clean_execution
      /\ fst (execute self w) = Ret FINISHED
      /\ (forall (i : nat) (a : ID) (d : bpy_data),
            events (snd (execute self w)) !! i = Some (Removed a d) ->
            exists (j : nat) (b : ID),
              i = S j
              /\ events (snd (execute self w)) !! j = Some (Remapped a b)
              /\ group_mates (coll w) a b)
      /\ (forall (base : string) (info : conflict_info T)
                 (g : identity_group T) (x y : T),
            In (base, info) (fst (analyze_data_conflicts_with_grouping (coll w))) ->
            In g (identity_groups info) ->
            In x (members g) -> In y (members g) ->
            linked x = false -> linked y = false ->
            In (block_id x) (ids (snd (execute self w))) ->
            In (block_id y) (ids (snd (execute self w))) ->
            block_id x = block_id y))
  /\ (global_resolution self = "CHOOSE_DATA" ->
      execute self = _choose_data_execution self
      /\ forall (conflict : conflict_item) (selected_name : string) (target : T),
           In conflict (conflicts self) -> skip_this_conflict conflict = false ->
           selection (host_state w) (base_name conflict) = Some selected_name ->
           selected_name <> "" ->
           List.find (fun item => String.eqb (name_of item) selected_name)
             (items_named (base_name conflict) (data (host_state w)))
           = Some target ->
           (2 <= length (List.filter (fun i => negb (linked i))
                           (items_named (base_name conflict)
                              (data (host_state w)))))%nat ->
           In (block_id target) (ids (snd (execute self w)))
           /\ forall x : T,
                In x (items_named (base_name conflict) (data (host_state w))) ->
                linked x = false -> ptr_of x <> ptr_of target ->
                In (Remapped (block_id x) (block_id target))
                   (events (snd (execute self w)))
                /\ ~ In (block_id x) (ids (snd (execute self w))))
  /\ (global_resolution self = "KEEP_LINKED" ->
      execute self = _keep_linked_execution self
      /\ forall (conflict : conflict_item) (info : conflict_info T),
           In conflict (conflicts self) -> skip_this_conflict conflict = false ->
           conflicts_get (fst (analyze_data_conflicts_with_grouping (coll w)))
             (base_name conflict) = Some info ->
           match List.filter linked (items info) with
           | [] =>
               forall x : T, In x (items info) ->
                 In (block_id x) (ids (snd (execute self w)))
                 /\ forall t : ID,
                      ~ In (Remapped (block_id x) t)
                           (events (snd (execute self w)))
           | target_linked :: _ =>
               forall x : T, In x (items info) -> linked x = false ->
                 In (Remapped (block_id x) (block_id target_linked))
                    (events (snd (execute self w)))
                 /\ ~ In (block_id x) (ids (snd (execute self w)))
           end).
Proof.
  intros Hc Hnd He Hbases.
  destruct (execute_strategy self Hc) as (Hauto & Hchoose & Hlinked).
  split; [reflexivity|]. split; [reflexivity|]. split; [|split].
  - intros Hg. rewrite (Hauto Hg). split; [reflexivity|].
    split; [|split].
    + now destruct (auto_clean_outcome w Hnd) as (H1 & _).
    + now apply auto_clean_mates.
    + intros base info g x y Hin Hgr.
      exact (auto_clean_merged w Hnd (base, info) g He Hin Hgr x y).
  - intros Hg. rewrite (Hchoose Hg). split; [reflexivity|].
    intros conflict selected_name target. now apply choose_data_run.
  - intros Hg. rewrite (Hlinked Hg). split; [reflexivity|].
    intros conflict info. now apply keep_linked_run.
Qed.

(** In the example scene the rougher material is no mate of the others:
    it is alone in its identity group. *)
Example wood_rough_is_no_mate :
  ~ group_mates (Op := CLEANUP_OT_clean_materials)
      (coll (Op := CLEANUP_OT_clean_materials) wood_world)
      (MkID 3 "Wood.002" None) (MkID 1 "Wood" None).
Proof.
  intros (_ & _ & base & info & g & m & r & Hin & Hg & Hm & Hr & Hma & Hrb).
  vm_compute in Hin. destruct Hin as [[= <- <-] | []].
  cbn [identity_groups] in Hg.
  destruct Hg as [<- | [<- | []]]; cbn [members] in Hm, Hr.
  - destruct Hm as [<- | [<- | [<- | []]]]; discriminate Hma.
  - destruct Hr as [<- | []]. discriminate Hrb.
Qed.

Lemma three_resolution_strategies_witness :
  (exists (j : nat) (b : ID),
      1%nat = S j
      /\ events (snd (execute (Op := CLEANUP_OT_clean_materials)
                        (wood_dialog "AUTO_CLEAN") wood_world)) !! j
         = Some (Remapped (MkID 2 "Wood.001" None) b)
      /\ group_mates (Op := CLEANUP_OT_clean_materials)
           (coll (Op := CLEANUP_OT_clean_materials) wood_world) (MkID 2 "Wood.001" None) b)
  /\ (In (Remapped (MkID 1 "Wood" None) (MkID 3 "Wood.002" None))
         (events (snd (execute (Op := CLEANUP_OT_clean_materials)
                         (wood_dialog "CHOOSE_DATA") wood_world_chosen)))
      /\ ~ In (MkID 1 "Wood" None)
              (ids (Op := CLEANUP_OT_clean_materials) (snd (execute (Op := CLEANUP_OT_clean_materials)
                           (wood_dialog "CHOOSE_DATA") wood_world_chosen))))
  /\ (In (Remapped (MkID 1 "Wood" None)
            (MkID 4 "Wood.003" (Some "//library.blend")))
         (events (snd (execute (Op := CLEANUP_OT_clean_materials)
                         (wood_dialog "KEEP_LINKED") wood_world)))
      /\ ~ In (MkID 1 "Wood" None)
              (ids (Op := CLEANUP_OT_clean_materials) (snd (execute (Op := CLEANUP_OT_clean_materials)
                           (wood_dialog "KEEP_LINKED") wood_world)))).
Proof.
  split; [|split].
  - destruct (three_resolution_strategies material CLEANUP_OT_clean_materials
                materials_laws materials_comparison_laws (wood_dialog "AUTO_CLEAN") wood_world
                eq_refl wood_world_distinct eq_refl (wood_dialog_bases _))
      as (_ & _ & Hauto & _).
    destruct (Hauto eq_refl) as (_ & _ & H & _).
    apply (H 1%nat (MkID 2 "Wood.001" None)
             (remap_material (wood 2 "Wood.001" 0.5%float)
                (wood 1 "Wood" 0.5%float) wood_scene)).
    vm_compute. reflexivity.
  - destruct (three_resolution_strategies material CLEANUP_OT_clean_materials
                materials_laws materials_comparison_laws (wood_dialog "CHOOSE_DATA") wood_world_chosen
                eq_refl wood_world_chosen_distinct eq_refl (wood_dialog_bases _))
      as (_ & _ & _ & Hchoose & _).
    destruct (Hchoose eq_refl) as [_ H].
    destruct (H (ConflictItem "Wood" false) "Wood.002"
                (wood 3 "Wood.002" 0.875%float)) as [_ Hx].
    + now left.
    + reflexivity.
    + vm_compute. reflexivity.
    + discriminate.
    + vm_compute. reflexivity.
    + vm_compute. lia.
    + apply (Hx (wood 1 "Wood" 0.5%float)).
      * vm_compute. now left.
      * reflexivity.
      * vm_compute. lia.
  - destruct (three_resolution_strategies material CLEANUP_OT_clean_materials
                materials_laws materials_comparison_laws (wood_dialog "KEEP_LINKED") wood_world
                eq_refl wood_world_distinct eq_refl (wood_dialog_bases _))
      as (_ & _ & _ & _ & Hlinked).
    destruct (Hlinked eq_refl) as [_ H].
    eassert (Hget : conflicts_get
               (fst (analyze_data_conflicts_with_grouping
                       (Op := CLEANUP_OT_clean_materials) (coll wood_world)))
               "Wood" = Some _) by (vm_compute; reflexivity).
    specialize (H (ConflictItem "Wood" false) _ (or_introl eq_refl) eq_refl Hget).
    cbn in H. apply (H (wood 1 "Wood" 0.5%float)).
    + now left.
    + reflexivity.
Defined.
End ResolutionFacts.


(* ===================================================================== *)
(** * What a library scan leaves in the cache file                        *)
(* ===================================================================== *)

Module ScanFacts.
Import Py Py.Notations Json AssetCache AssetCacheFacts.

(** ** Dicts *)

Lemma dict_get_set_same (k : string) (v : json) (d : list (string * json)) :
  dict_get k (dict_set k v d) = Some v.
Proof.
  induction d as [|[k' v'] rest IH]; cbn.
  - now rewrite String.eqb_refl.
  - destruct (String.eqb k' k) eqn:Ek; cbn; now rewrite Ek.
Qed.

Lemma dict_get_set_other (k k' : string) (v : json) (d : list (string * json)) :
  k' <> k -> dict_get k' (dict_set k v d) = dict_get k' d.
Proof.
  intros Hne. induction d as [|[k0 v0] rest IH]; cbn.
  - apply String.eqb_neq in Hne. rewrite String.eqb_sym. now rewrite Hne.
  - destruct (String.eqb k0 k) eqn:Ek; cbn.
    + apply String.eqb_eq in Ek. subst k0.
      assert (Hf : String.eqb k k' = false) by (apply String.eqb_neq; congruence).
      now rewrite Hf.
    + now rewrite IH.
Qed.

(** ** The shape of the cache *)

(** The claim's reading: the cache maps the name of the library to the
    list of the four-key dicts of its assets. *)
Definition asset_as_claimed (a : asset) : json :=
  JDict [("name", JStr (asset_name a));
         ("filepath", JStr (asset_filepath a));
         ("category", JStr (asset_category a));
         ("enabled", JBool (asset_enabled a))].

Definition cache_as_claimed (cache : json) (library_name : string)
    (assets : list asset) : Prop :=
  exists entries,
    cache = JDict entries
    /\ dict_get library_name entries = Some (JList (map asset_as_claimed assets)).

(** What the scan writes for an asset. *)
Definition asset_data (timestamp : float) (a : asset) : json :=
  JDict [("name", JStr (asset_name a));
         ("filepath", JStr (asset_filepath a));
         ("category", JStr (asset_category a));
         ("type", JStr "objects");
         ("timestamp", JFloat timestamp);
         ("enabled", JBool (asset_enabled a))].

Definition describes (entry : json) (a : asset) : Prop :=
  exists timestamp, entry = asset_data timestamp a.

(** The cache holds, under "libraries", an entry for the library: the
    time of the scan and the list of the dicts of its assets. *)
Definition cache_holds_library (cache : json) (library_name : string)
    (assets : list asset) : Prop :=
  exists entries libraries last_scan asset_entries,
    cache = JDict entries
    /\ dict_get "libraries" entries = Some (JDict libraries)
    /\ dict_get library_name libraries
       = Some (JDict [("last_scan", JFloat last_scan);
                      ("assets", JList asset_entries)])
    /\ Forall2 describes asset_entries assets.

(** The entry the cache has for a library, if it has one. *)
Definition library_entry (cache : json) (library_name : string) : option json :=
  match cache with
  | JDict entries =>
      match dict_get "libraries" entries with
      | Some (JDict libraries) => dict_get library_name libraries
      | _ => None
      end
  | _ => None
  end.

(** A cache document the scan can work on: a dict whose "libraries", if
    it has any, is a dict. *)
Definition sound_cache (v : json) : Prop :=
  exists d, v = JDict d
            /\ forall x, dict_get "libraries" d = Some x -> exists l, x = JDict l.

(** The steps of saving to [filepath] meet no fault. *)
Definition save_unhindered (E : environment) (filepath : string)
    (w : world host) : Prop :=
  (os_path_dirname E filepath = "" \/ path_exists (os_path_dirname E filepath) w
   \/ makedirs_fault E (os_path_dirname E filepath) = None)
  /\ open_fault E (filepath +:+ ".tmp") = None
  /\ write_fault E (filepath +:+ ".tmp") = None
  /\ rename_fault E (filepath +:+ ".tmp") filepath = None.

(** The file can be read. *)
Definition readable (E : environment) (filepath : string) : Prop :=
  open_fault E filepath = None /\ read_fault E filepath = None.

(** The two worlds differ in the clock and the console at most. *)
Definition same_files (w w' : world host) : Prop :=
  fsys (host_state w') = fsys (host_state w)
  /\ library_assets (host_state w') = library_assets (host_state w)
  /\ locals (host_state w') = locals (host_state w).

Lemma same_files_refl (w : world host) : same_files w w.
Proof. repeat split. Qed.

Lemma same_files_trans (w1 w2 w3 : world host) :
  same_files w1 w2 -> same_files w2 w3 -> same_files w1 w3.
Proof.
  intros (A1 & A2 & A3) (B1 & B2 & B3). repeat split; congruence.
Qed.

Section Scan.
Variable E : environment.
Hypothesis E_ok : raises_only_exceptions E.

(** Where [get_cache_path] points. *)
Definition cache_path : string :=
  match bpy_utils_user_resource E with
  | Ret user_pref_dir => os_path_join E user_pref_dir "assets_cache.json"
  | Exc _ => os_path_join E (tempfile_gettempdir E) "qp_tools_assets_cache.json"
  end.

Lemma caught_exception (e : exn) :
  isinstance e Exception = true -> caught_by [Exception] e = true.
Proof. intros H. unfold caught_by. cbn. now rewrite H. Qed.

Lemma get_cache_path_run (w : world host) :
  exists w', get_cache_path E w = (Ret cache_path, w') /\ same_files w w'.
Proof.
  unfold get_cache_path, cache_path, try_except, bind, lift_outcome.
  destruct (bpy_utils_user_resource E) as [d|e] eqn:Hr.
  - exists w. split; [reflexivity | apply same_files_refl].
  - destruct E_ok as (_ & _ & _ & _ & _ & Hres & _).
    unfold raise. rewrite (caught_exception e (Hres e Hr)).
    eexists. split; [reflexivity|]. repeat split.
Qed.

Lemma now_run (w : world host) :
  exists w', now E w = (Ret (time_time E (ticks (host_state w))), w')
             /\ same_files w w'.
Proof. eexists. split; [reflexivity|]. repeat split. Qed.

Lemma safe_load_json_run (filepath : string) (default : json) (w : world host) :
  exists v w',
    safe_load_json E filepath default w = (Ret v, w') /\ same_files w w'
    /\ (v = py_or default (JDict [])
        \/ content_at filepath w = Some (Document v))
    /\ (readable E filepath ->
        forall v0, content_at filepath w = Some (Document v0) -> v = v0).
Proof.
  destruct E_ok as (_ & Hop & _ & Hrd & _).
  destruct w as [h c]. unfold readable. run_py.
  repeat (case_match; simplify_eq; run_py);
    repeat match goal with
      | H : open_fault _ _ = Some _ |- _ => apply Hop in H
      | H : read_fault _ _ = Some _ |- _ => apply Hrd in H
      end;
    rewrite ?orb_false_r in *;
    try congruence; try discriminate;
    eexists _, _; (split; [reflexivity|]); (split; [repeat split|]);
    (split; [eauto|]); intros [? ?] ? ?;
    repeat match goal with
      | H : negb _ = true |- _ => apply negb_true_iff in H
      | H : _ || _ = false |- _ => apply orb_false_iff in H as [? ?]
      | H : bool_decide _ = false |- _ => apply bool_decide_eq_false in H
      end;
    first [congruence | exfalso; eauto].
Qed.

Lemma content_at_same (p : string) (w w' : world host) :
  same_files w w' -> content_at p w' = content_at p w.
Proof. intros (H & _). unfold content_at. now rewrite H. Qed.


Lemma has_key (x : json) : bool_decide (is_Some (Some x)) = true.
Proof. apply bool_decide_eq_true. eauto. Qed.

Lemma has_no_key : bool_decide (is_Some (@None json)) = false.
Proof. apply bool_decide_eq_false. intros [? ?]. discriminate. Qed.

(** [load_asset_cache] returns a dict that has "libraries", itself a
    dict: that of the cache file when the file is a readable document,
    an empty one otherwise. *)
Lemma load_asset_cache_run (w : world host) :
  (forall v, content_at cache_path w = Some (Document v) -> sound_cache v) ->
  exists d libs w',
    load_asset_cache E w = (Ret (JDict d), w') /\ same_files w w'
    /\ dict_get "libraries" d = Some (JDict libs)
    /\ (readable E cache_path ->
        forall v0, content_at cache_path w = Some (Document v0) ->
                   forall name, dict_get name libs = library_entry v0 name).
Proof.
  intros Hsound.
  destruct (get_cache_path_run w) as (w1 & H1 & S1).
  destruct (now_run w1) as (w2 & H2 & S2).
  pose proof (same_files_trans w w1 w2 S1 S2) as S02.
  set (t := time_time E (ticks (host_state w1))) in *.
  destruct (safe_load_json_run cache_path
              (JDict [("timestamp", JFloat t); ("libraries", JDict [])]) w2)
    as (v & w3 & H3 & S3 & Hv & Hread).
  pose proof (same_files_trans w w2 w3 S02 S3) as S03.
  rewrite (content_at_same cache_path w w2 S02) in Hv, Hread.
  assert (Hd : exists d, v = JDict d
             /\ (forall x, dict_get "libraries" d = Some x -> exists l, x = JDict l)
             /\ (readable E cache_path ->
                 forall v0, content_at cache_path w = Some (Document v0) ->
                            v0 = JDict d)).
  { destruct Hv as [-> | Hv].
    - eexists. split; [reflexivity|]. split.
      + cbn. intros x [= <-]. eauto.
      + intros Hr v0 Hv0. symmetry. now apply Hread.
    - destruct (Hsound v Hv) as (d & -> & Hl). exists d.
      split; [reflexivity|]. split; [exact Hl|].
      intros Hr v0 Hv0. symmetry. now apply Hread. }
  destruct Hd as (d & -> & Hlibs & Hfile).
  unfold load_asset_cache. unfold bind at 1. rewrite H1.
  unfold bind at 1. rewrite H2. unfold bind at 1. fold t. rewrite H3.
  unfold bind at 1. unfold contains at 1. unfold ret at 1.
  assert (Hstep : exists d1 w4,
            (if negb (bool_decide (is_Some (dict_get "timestamp" d)))
             then t' <- now E ;; setitem "timestamp" (JFloat t') (JDict d)
             else ret (JDict d)) w3 = (Ret (JDict d1), w4)
            /\ same_files w3 w4
            /\ dict_get "libraries" d1 = dict_get "libraries" d).
  { destruct (dict_get "timestamp" d) as [x|] eqn:Hts.
    - rewrite has_key. cbn [negb]. exists d, w3.
      split; [reflexivity|]. split; [apply same_files_refl | reflexivity].
    - rewrite has_no_key. cbn [negb].
      destruct (now_run w3) as (w4 & H4 & S4).
      unfold bind. rewrite H4. cbn [setitem]. unfold ret.
      eexists _, w4. split; [reflexivity|]. split; [exact S4|].
      now apply dict_get_set_other. }
  destruct Hstep as (d1 & w4 & H4 & S4 & Hsame).
  unfold bind at 1. rewrite H4.
  unfold bind at 1. unfold contains at 1. unfold ret at 1.
  pose proof (same_files_trans w w3 w4 S03 S4) as S04.
  destruct (dict_get "libraries" d1) as [x|] eqn:Hl1.
  - rewrite has_key. cbn [negb].
    rewrite <- Hsame in Hlibs. destruct (Hlibs x eq_refl) as (libs & ->).
    exists d1, libs, w4. split; [reflexivity|]. split; [exact S04|].
    split; [exact Hl1|].
    intros Hr v0 Hv0 name. rewrite (Hfile Hr v0 Hv0). cbn.
    rewrite <- Hsame. reflexivity.
  - rewrite has_no_key. cbn [negb].
    unfold bind, ret. cbn [setitem]. unfold ret.
    eexists _, [], w4. split; [reflexivity|]. split; [exact S04|].
    split; [apply dict_get_set_same|].
    intros Hr v0 Hv0 name. rewrite (Hfile Hr v0 Hv0). cbn.
    rewrite <- Hsame. reflexivity.
Qed.

(** ** The loops over the blend files *)

(** While the blend files are scanned the file system is as it was, and
    [new_assets] describes [library.assets] item by item. *)
Definition scanning (F : fs) (w : world host) : Prop :=
  fsys (host_state w) = F
  /\ Forall2 describes (new_assets (locals (host_state w)))
       (library_assets (host_state w))
  /\ assets_found (locals (host_state w))
     = Z.of_nat (length (library_assets (host_state w))).

Lemma scan_asset_run (F : fs) (blend_file category obj_name : string)
    (w : world host) :
  scanning F w ->
  exists w', scan_asset E blend_file category obj_name w = (Ret tt, w')
             /\ scanning F w'.
Proof.
  intros (Hf & Ha & Hn). destruct w as [h c].
  unfold scan_asset, bind, get_host, modify_locals, modify_host, now, set_host, ret.
  cbn [host_state console fsys ticks library_assets locals new_assets
       assets_found unique_items] in *.
  destruct (bool_decide _).
  - eexists. split; [reflexivity|]. repeat split; assumption.
  - eexists. split; [reflexivity|]. unfold scanning.
    cbn [host_state console fsys ticks library_assets locals new_assets
         assets_found unique_items].
    split; [assumption|]. split.
    + apply Forall2_app; [assumption|]. constructor; [|constructor].
      eexists. reflexivity.
    + rewrite length_app. cbn [length]. lia.
Qed.

Lemma scan_assets_run (F : fs) (blend_file category : string)
    (asset_names : list string) (w : world host) :
  scanning F w ->
  exists w', for_each asset_names (scan_asset E blend_file category) w = (Ret tt, w')
             /\ scanning F w'.
Proof.
  revert w. induction asset_names as [|obj_name rest IH]; intros w Hw.
  - exists w. split; [reflexivity | assumption].
  - destruct (scan_asset_run F blend_file category obj_name w Hw) as (w1 & H1 & Hw1).
    destruct (IH w1 Hw1) as (w2 & H2 & Hw2).
    exists w2. split; [|assumption]. cbn [for_each]. unfold bind. now rewrite H1.
Qed.


Lemma scan_blend_file_run (F : fs) (lib : library) (blend_file : string)
    (w : world host) :
  scanning F w ->
  exists w', scan_blend_file E lib blend_file w = (Ret tt, w') /\ scanning F w'.
Proof.
  intros Hw. destruct E_ok as (_ & _ & _ & _ & _ & _ & Hrel & Hload & Hexit).
  unfold scan_blend_file, try_except. unfold bind at 1.
  destruct (os_path_relpath E blend_file (lib_path lib)) as [rel_path|e] eqn:Er;
    cbn [lift_outcome].
  2:{ unfold raise. rewrite (caught_exception e (Hrel _ _ e Er)).
      eexists. split; [reflexivity | exact Hw]. }
  unfold ret at 1. cbv zeta. unfold bind at 1.
  destruct (libraries_load E blend_file) as [asset_names|e] eqn:El;
    cbn [lift_outcome].
  2:{ unfold raise. rewrite (caught_exception e (Hload _ e El)).
      eexists. split; [reflexivity | exact Hw]. }
  unfold ret at 1. unfold bind at 1. unfold modify_locals at 1, modify_host at 1.
  unfold bind at 1.
  match goal with
  | |- context [for_each asset_names ?f ?w0] =>
      destruct (scan_assets_run F blend_file
                  (if negb (String.eqb (os_path_dirname E rel_path) "")
                      && negb (String.eqb (os_path_dirname E rel_path) ".")
                   then os_path_dirname E rel_path else "Default")
                  asset_names w0) as (w2 & H2 & Hw2)
  end.
  { destruct Hw as (Hf & Ha & Hn). repeat split; assumption. }
  rewrite H2. unfold fault.
  destruct (libraries_load_exit E blend_file) as [e|] eqn:Ex.
  - unfold raise. rewrite (caught_exception e (Hexit _ e Ex)).
    eexists. split; [reflexivity | exact Hw2].
  - exists w2. split; [reflexivity | exact Hw2].
Qed.

Lemma scan_blend_files_run (F : fs) (lib : library) (blend_files : list string)
    (w : world host) :
  scanning F w ->
  exists w', for_each blend_files (scan_blend_file E lib) w = (Ret tt, w')
             /\ scanning F w'.
Proof.
  revert w. induction blend_files as [|blend_file rest IH]; intros w Hw.
  - exists w. split; [reflexivity | assumption].
  - destruct (scan_blend_file_run F lib blend_file w Hw) as (w1 & H1 & Hw1).
    destruct (IH w1 Hw1) as (w2 & H2 & Hw2).
    exists w2. split; [|assumption]. cbn [for_each]. unfold bind. now rewrite H1.
Qed.

(** ** Updating and saving the cache *)

Lemma update_cache_with_library_run (d libs : list (string * json))
    (library_name : string) (assets : list json) (w : world host) :
  dict_get "libraries" d = Some (JDict libs) ->
  exists w',
    update_cache_with_library E (JDict d) library_name assets w
    = (Ret (JDict (dict_set "libraries"
                     (JDict (dict_set library_name
                               (JDict [("last_scan",
                                        JFloat (time_time E (ticks (host_state w))));
                                       ("assets", JList assets)])
                               libs))
                     d)), w')
    /\ same_files w w'.
Proof.
  intros Hl. unfold update_cache_with_library, bind, contains, getitem, setitem,
    now, get_host, set_host, ret.
  rewrite Hl, has_key. cbn [negb]. rewrite Hl.
  eexists. split; [reflexivity|]. repeat split.
Qed.

Lemma os_path_exists_run (p : string) (w : world host) :
  path_exists p w -> os_path_exists p w = (Ret true, w).
Proof.
  intros Hp. unfold os_path_exists, bind, get_host, ret.
  assert (Hb : bool_decide (is_Some (files (fsys (host_state w)) !! p))
               || bool_decide (p ∈ dirs (fsys (host_state w))) = true).
  { apply orb_true_iff. destruct Hp as [Hp | Hp];
      [left | right]; now apply bool_decide_eq_true. }
  now rewrite Hb.
Qed.

(** [safe_save_json] touches the file system and the console only. *)
Lemma safe_save_json_frame (filepath : string) (data : json) (w w' : world host)
    (r : outcome bool) :
  safe_save_json E filepath data w = (r, w') ->
  library_assets (host_state w') = library_assets (host_state w)
  /\ locals (host_state w') = locals (host_state w).
Proof.
  destruct w as [h c]. run_py.
  repeat (case_match; simplify_eq; run_py); intros; simplify_eq; auto.
Qed.

Lemma safe_save_json_returns (filepath : string) (data : json) (w : world host) :
  exists b w', safe_save_json E filepath data w = (Ret b, w').
Proof.
  destruct E_ok as (Hmk & Hop & Hwr & _ & Hrn & _).
  pose proof (save_outcomes E filepath data w) as Hout.
  destruct (safe_save_json E filepath data w) as [[b|e] w'] eqn:Hsave; [eauto|].
  exfalso. destruct Hout as [_ Hi].
  exact (save_never_raises E filepath data w
           (conj Hmk (conj Hop (conj Hwr Hrn))) e w' Hi Hsave).
Qed.

Lemma safe_save_json_succeeds (filepath : string) (data : json) (w : world host) :
  save_unhindered E filepath w ->
  exists w', safe_save_json E filepath data w = (Ret true, w')
             /\ content_at filepath w' = Some (Document data).
Proof.
  intros (Hdir & Hop & Hwr & Hrn).
  pose proof (save_outcomes E filepath data w) as Hout.
  assert (Hok : forall b w', safe_save_json E filepath data w = (Ret b, w') ->
                             b = true).
  { unfold path_exists in Hdir. destruct w as [h c]. run_py.
    rewrite Hop, Hwr, Hrn. intros b w'.
    repeat (case_match; simplify_eq; run_py);
      intros; simplify_eq; try reflexivity;
      repeat match goal with
        | H : negb _ = true |- _ => apply negb_true_iff in H
        | H : (_ =? _)%string = false |- _ => apply String.eqb_neq in H
        | H : _ || _ = false |- _ => apply orb_false_iff in H as [? ?]
        | H : bool_decide _ = false |- _ => apply bool_decide_eq_false in H
        end;
      destruct Hdir as [Hdir | [[Hdir | Hdir] | Hdir]];
      try congruence; try contradiction;
      match goal with
      | H : _ !! _ = None |- _ => rewrite lookup_insert_eq in H; discriminate
      end. }
  destruct (safe_save_json_returns filepath data w) as (b & w' & Hsave).
  assert (b = true) by (now apply (Hok b w')). subst b.
  rewrite Hsave in Hout. exists w'. split; [exact Hsave | apply Hout].
Qed.

Lemma save_unhindered_same (p : string) (w w' : world host) :
  fsys (host_state w') = fsys (host_state w) ->
  save_unhindered E p w -> save_unhindered E p w'.
Proof.
  intros Hf (Hdir & Hrest). split; [|exact Hrest].
  unfold path_exists, content_at in *. rewrite Hf. exact Hdir.
Qed.

Lemma save_asset_cache_run (d : list (string * json)) (w : world host) :
  exists b w' t,
    save_asset_cache E (JDict d) w = (Ret b, w')
    /\ library_assets (host_state w') = library_assets (host_state w)
    /\ locals (host_state w') = locals (host_state w)
    /\ (save_unhindered E cache_path w ->
        content_at cache_path w'
        = Some (Document (JDict (dict_set "timestamp" (JFloat t) d)))).
Proof.
  destruct (get_cache_path_run w) as (w1 & H1 & S1).
  destruct (now_run w1) as (w2 & H2 & S2).
  pose proof (same_files_trans w w1 w2 S1 S2) as (Sf & Sa & Sl).
  set (t := time_time E (ticks (host_state w1))) in *.
  set (data := JDict (dict_set "timestamp" (JFloat t) d)).
  destruct (safe_save_json_returns cache_path data w2) as (b & w3 & H3).
  destruct (safe_save_json_frame cache_path data w2 w3 (Ret b) H3) as (Fa & Fl).
  exists b, w3, t. split; [|split; [|split]].
  - unfold save_asset_cache. unfold bind at 1. rewrite H1.
    unfold bind at 1. rewrite H2. fold t. unfold bind, setitem, ret. exact H3.
  - congruence.
  - congruence.
  - intros Hu. apply (save_unhindered_same cache_path w w2 Sf) in Hu.
    destruct (safe_save_json_succeeds cache_path data w2 Hu) as (w3' & H3' & Hc).
    rewrite H3 in H3'. injection H3' as _ <-. exact Hc.
Qed.

(** A scan of a library whose path exists goes to its end; the number
    it returns is that of the assets of the library; and when saving
    meets no fault, the cache file holds an entry for the library under
    "libraries", with the dicts of its assets, next to the entries the
    file had for the other libraries. *)
Lemma scan_library_assets_run (lib : library) (w : world host) :
  lib_path lib <> "" -> path_exists (lib_path lib) w ->
  (forall v, content_at cache_path w = Some (Document v) -> sound_cache v) ->
  exists (n : Z) (w' : world host),
    scan_library_assets E lib w = (Ret n, w')
    /\ n = Z.of_nat (length (library_assets (host_state w')))
    /\ (save_unhindered E cache_path w ->
        exists cache,
          content_at cache_path w' = Some (Document cache)
          /\ cache_holds_library cache (lib_name lib)
               (library_assets (host_state w'))
          /\ (readable E cache_path ->
              forall v0, content_at cache_path w = Some (Document v0) ->
              forall other, other <> lib_name lib ->
                library_entry cache other = library_entry v0 other)).
Proof.
  intros Hne Hex Hsound.
  unfold scan_library_assets. apply String.eqb_neq in Hne. rewrite Hne.
  unfold bind at 1. rewrite (os_path_exists_run _ _ Hex). cbn [negb].
  unfold bind at 1. unfold modify_host at 1.
  set (w1 := World (Host (fsys (host_state w)) (ticks (host_state w)) []
                      (locals (host_state w))) (console w)).
  destruct (load_asset_cache_run w1) as (d & libs & w2 & H2 & S2 & Hlibs & Hkept).
  { intros v Hv. apply Hsound. exact Hv. }
  unfold bind at 1. rewrite H2.
  unfold bind at 1. unfold modify_locals at 1, modify_host at 1.
  unfold bind at 1.
  match goal with
  | |- context [for_each ?fs (scan_blend_file E lib) ?w0] =>
      destruct (scan_blend_files_run (fsys (host_state w)) lib fs w0)
        as (w4 & H4 & Hw4)
  end.
  { destruct S2 as (Sf & Sa & Sl). unfold scanning.
    cbn [host_state fsys library_assets locals new_assets assets_found].
    rewrite Sf, Sa. cbn. repeat split. constructor. }
  rewrite H4. unfold bind at 1. unfold get_host at 1.
  destruct (update_cache_with_library_run d libs (lib_name lib)
              (new_assets (locals (host_state w4))) w4 Hlibs)
    as (w5 & H5 & S5f & S5a & S5l).
  unfold bind at 1. rewrite H5.
  set (entry := JDict [("last_scan", JFloat (time_time E (ticks (host_state w4))));
                       ("assets", JList (new_assets (locals (host_state w4))))]) in *.
  set (d' := dict_set "libraries" (JDict (dict_set (lib_name lib) entry libs)) d) in *.
  destruct (save_asset_cache_run d' w5) as (b & w6 & t & H6 & S6a & S6l & Hsaved).
  unfold bind at 1. rewrite H6. unfold bind, get_host, ret.
  destruct Hw4 as (Hf4 & Ha4 & Hn4).
  exists (assets_found (locals (host_state w6))), w6.
  split; [reflexivity|]. split; [congruence|].
  intros Hu. exists (JDict (dict_set "timestamp" (JFloat t) d')).
  assert (Hl' : dict_get "libraries" (dict_set "timestamp" (JFloat t) d')
                = Some (JDict (dict_set (lib_name lib) entry libs))).
  { rewrite dict_get_set_other by discriminate. apply dict_get_set_same. }
  split; [|split].
  - apply Hsaved. apply (save_unhindered_same cache_path w w5); [congruence|].
    exact Hu.
  - exists (dict_set "timestamp" (JFloat t) d'),
           (dict_set (lib_name lib) entry libs),
           (time_time E (ticks (host_state w4))),
           (new_assets (locals (host_state w4))).
    split; [reflexivity|]. split; [exact Hl'|].
    split; [apply dict_get_set_same|]. rewrite S6a, S5a. exact Ha4.
  - intros Hr v0 Hv0 other Hother. unfold library_entry at 1. rewrite Hl'.
    rewrite dict_get_set_other by assumption. now apply Hkept.
Qed.
End Scan.

(** C4, as the code has it.  A scan of a library whose path exists runs
    to its end.  When the cache file can be written, it then holds a
    dict that maps, under "libraries", the name of the scanned library
    to a dict with the time of the scan ("last_scan") and the list
    ("assets") of one dict per asset of the library, with the keys name,
    filepath, category, type, timestamp and enabled; the entries the
    cache file had for other libraries are kept.  The cache file found
    at the start, if it is a JSON document, is assumed to be a dict
    whose "libraries" is a dict. *)
Theorem scan_writes_library_entry (E : environment) (lib : library)
    (w : world host) :
  raises_only_exceptions E ->
  lib_path lib <> "" -> path_exists (lib_path lib) w ->
  (forall v, content_at (cache_path E) w = Some (Document v) -> sound_cache v) ->
  exists (n : Z) (w' : world host),
    scan_library_assets E lib w = (Ret n, w')
    /\ n = Z.of_nat (length (library_assets (host_state w')))
    /\ (save_unhindered E (cache_path E) w ->
        exists cache,
          content_at (cache_path E) w' = Some (Document cache)
          /\ cache_holds_library cache (lib_name lib)
               (library_assets (host_state w'))
          /\ (readable E (cache_path E) ->
              forall v0, content_at (cache_path E) w = Some (Document v0) ->
              forall other, other <> lib_name lib ->
                library_entry cache other = library_entry v0 other)).
Proof. intros HE. now apply scan_library_assets_run. Qed.

(** ** An example: a library with one blend file and its backup *)

Definition studio_env : environment :=
  Env (fun p => if String.eqb p "chairs/stool.blend" then "chairs" else "config")
      (fun a b => a +:+ "/" +:+ b)
      (fun _ _ => Ret "chairs/stool.blend")
      (fun _ => [("/assets/chairs", ["stool.blend"; "stool.blend1"])])
      "/tmp" (Ret "config")
      (fun n => match n with
                | O => 1000 | 1%nat => 1001 | 2%nat => 1002 | _ => 1003
                end)%float
      (fun _ => None) (fun _ => None) (fun _ => None) (fun _ => None)
      (fun _ _ => None) (fun _ => "Expecting value")
      (fun _ => Ret ["Stool"]) (fun _ => None).

Definition studio_world : world host :=
  World (Host (Fs ∅ ({["config"]} ∪ {["/assets"]})) 0 [] (ScanLocals [] 0 ∅)) [].

Definition props_library : library := Library "Props" "/assets".

Definition studio_after : world host :=
  snd (scan_library_assets studio_env props_library studio_world).

Lemma studio_env_raises_only_exceptions : raises_only_exceptions studio_env.
Proof. repeat split; cbn; intros; discriminate. Qed.

(** What the scan leaves in the cache file. *)
Definition studio_assets : json :=
  JList [JDict [("name", JStr "Stool");
                ("filepath", JStr "/assets/chairs/stool.blend");
                ("category", JStr "chairs");
                ("type", JStr "objects");
                ("timestamp", JFloat 1001);
                ("enabled", JBool true)]].

Definition studio_cache : json :=
  JDict [("timestamp", JFloat 1003);
         ("libraries",
          JDict [("Props", JDict [("last_scan", JFloat 1002);
                                  ("assets", studio_assets)])])].

Lemma studio_cache_file :
  content_at "config/assets_cache.json" studio_after = Some (Document studio_cache).
Proof. vm_compute. reflexivity. Qed.

Lemma studio_library_assets :
  library_assets (host_state studio_after)
  = [Asset "Stool" "/assets/chairs/stool.blend" true "chairs"].
Proof. vm_compute. reflexivity. Qed.

(** The claim as worded fails on the example: the name of the library
    is not a key of the cache (its keys are "timestamp" and
    "libraries"); what the cache holds for the library, under
    "libraries", is a dict and not a list; and the dicts of the assets
    have six keys. *)
Lemma scan_cache_is_nested :
  content_at "config/assets_cache.json" studio_after = Some (Document studio_cache)
  /\ ~ cache_as_claimed studio_cache "Props"
         (library_assets (host_state studio_after))
  /\ library_entry studio_cache "Props"
     = Some (JDict [("last_scan", JFloat 1002); ("assets", studio_assets)])
  /\ studio_assets
     <> JList (map asset_as_claimed (library_assets (host_state studio_after))).
Proof.
  split; [exact studio_cache_file|]. split; [|split; [reflexivity|]].
  - intros (entries & [= <-] & Hget). cbn in Hget. discriminate.
  - rewrite studio_library_assets. cbn. discriminate.
Qed.

Lemma scan_writes_library_entry_witness :
  exists (n : Z) (w' : world host) (cache : json),
    scan_library_assets studio_env props_library studio_world = (Ret n, w')
    /\ content_at (cache_path studio_env) w' = Some (Document cache)
    /\ cache_holds_library cache "Props" (library_assets (host_state w')).
Proof.
  destruct (scan_writes_library_entry studio_env props_library studio_world)
    as (n & w' & Hrun & _ & Hsave).
  - exact studio_env_raises_only_exceptions.
  - discriminate.
  - right. cbn. apply elem_of_union_r. now apply elem_of_singleton.
  - intros v Hv. vm_compute in Hv. discriminate.
  - destruct Hsave as (cache & Hc & Hh & _).
    + unfold save_unhindered. cbn. repeat split; auto.
    + exists n, w', cache. auto.
Defined.
End ScanFacts.

(* ===================================================================== *)
(** * What the cache file gives back                                      *)
(* ===================================================================== *)

Module CacheFileFacts.
Import Py Py.Notations Json AssetCache AssetCacheFacts ScanFacts.

Section CacheFile.
Variable E : environment.
Hypothesis E_ok : raises_only_exceptions E.

(** What [safe_load_json] returns: the document of the file when the
    file holds one and can be opened and read, the fallback otherwise. *)
Definition loaded (filepath : string) (default : json) (w : world host) : json :=
  match open_fault E filepath, content_at filepath w, read_fault E filepath with
  | None, Some (Document v), None => v
  | _, _, _ => py_or default (JDict [])
  end.

Lemma safe_load_json_loaded (filepath : string) (default : json) (w : world host) :
  exists w', safe_load_json E filepath default w
             = (Ret (loaded filepath default w), w')
             /\ same_files w w'.
Proof.
  destruct E_ok as (_ & Hop & _ & Hrd & _).
  destruct w as [h c]. unfold loaded. run_py.
  repeat (case_match; simplify_eq; run_py);
    repeat match goal with
      | H : open_fault _ _ = Some _ |- _ => apply Hop in H
      | H : read_fault _ _ = Some _ |- _ => apply Hrd in H
      end;
    rewrite ?orb_false_r in *;
    try congruence; try discriminate;
    try (eexists; split; [reflexivity | repeat split]).
  all: repeat match goal with
      | H : negb _ = true |- _ => apply negb_true_iff in H
      | H : _ || _ = false |- _ => apply orb_false_iff in H as [? ?]
      | H : bool_decide _ = false |- _ => apply bool_decide_eq_false in H
      end;
    exfalso; eauto.
Qed.

(** The dict [load_asset_cache] makes of a dict: "timestamp" and
    "libraries" are added when they are missing. *)
Definition completed (t : float) (d : list (string * json)) : list (string * json) :=
  let d1 := if dict_get "timestamp" d is Some _ then d
            else dict_set "timestamp" (JFloat t) d in
  if dict_get "libraries" d1 is Some _ then d1
  else dict_set "libraries" (JDict []) d1.

Lemma completed_keeps (t : float) (d : list (string * json)) (k : string) (x : json) :
  dict_get k d = Some x -> dict_get k (completed t d) = Some x.
Proof.
  intros Hk. unfold completed.
  assert (H1 : dict_get k (if dict_get "timestamp" d is Some _ then d
                           else dict_set "timestamp" (JFloat t) d) = Some x).
  { destruct (dict_get "timestamp" d) eqn:Ht; [exact Hk|].
    rewrite dict_get_set_other; [exact Hk|]. intros ->. congruence. }
  destruct (dict_get "libraries" _) eqn:Hl; [exact H1|].
  rewrite dict_get_set_other; [exact H1|]. intros ->. congruence.
Qed.

Lemma completed_has (t : float) (d : list (string * json)) :
  is_Some (dict_get "timestamp" (completed t d))
  /\ is_Some (dict_get "libraries" (completed t d)).
Proof.
  unfold completed.
  set (d1 := if dict_get "timestamp" d is Some _ then d
             else dict_set "timestamp" (JFloat t) d).
  assert (H1 : is_Some (dict_get "timestamp" d1)).
  { unfold d1. destruct (dict_get "timestamp" d) eqn:Ht; [eauto|].
    rewrite dict_get_set_same. eauto. }
  destruct (dict_get "libraries" d1) eqn:Hl.
  - split; [exact H1 | eauto].
  - split; [|rewrite dict_get_set_same; eauto].
    rewrite dict_get_set_other by discriminate. exact H1.
Qed.

(** [k in v] for a string or a list [v]: [k] is a substring, or an
    item. *)
Definition mentions (k : string) (v : json) : bool :=
  match v with
  | JStr s => bool_decide (is_Some (String.index 0 k s))
  | JList items => existsb (is_str k) items
  | _ => false
  end.

(** The statements of [load_asset_cache] after the value is loaded. *)
Definition ensure_structure (v : json) : py host json :=
  has <- contains "timestamp" v ;;
  cache <- (if negb has
            then t <- now E ;; setitem "timestamp" (JFloat t) v
            else ret v) ;;
  has <- contains "libraries" cache ;;
  cache <- (if negb has
            then setitem "libraries" (JDict []) cache
            else ret cache) ;;
  ret cache.

Lemma ensure_structure_dict (d : list (string * json)) (w : world host) :
  exists w',
    ensure_structure (JDict d) w
    = (Ret (JDict (completed (time_time E (ticks (host_state w))) d)), w')
    /\ same_files w w'.
Proof.
  unfold ensure_structure, completed, now, bind, contains, setitem, get_host,
    set_host, ret.
  destruct (dict_get "timestamp" d) eqn:Ht.
  - rewrite has_key. cbn [negb].
    destruct (dict_get "libraries" d) eqn:Hl.
    + rewrite has_key. cbn [negb]. eexists. split; [reflexivity|].
      apply same_files_refl.
    + rewrite has_no_key. cbn [negb]. eexists. split; [reflexivity|].
      apply same_files_refl.
  - rewrite has_no_key. cbn [negb fst snd host_state].
    destruct (dict_get "libraries"
                (dict_set "timestamp" (JFloat (time_time E (ticks (host_state w)))) d))
      eqn:Hl.
    + rewrite has_key. cbn [negb]. eexists. split; [reflexivity|].
      repeat split.
    + rewrite has_no_key. cbn [negb]. eexists. split; [reflexivity|].
      repeat split.
Qed.

Lemma ensure_structure_other (v : json) (w : world host) :
  (forall d, v <> JDict d) ->
  if mentions "timestamp" v && mentions "libraries" v
  then ensure_structure v w = (Ret v, w)
  else exists msg w', ensure_structure v w = (Exc (Exn TypeError msg), w')
                      /\ same_files w w'.
Proof.
  intros Hnd.
  destruct v as [| b | n | x | s | items | d];
    try (cbn; eexists _, _; split; [reflexivity | repeat split]).
  - unfold ensure_structure, mentions, now, bind, contains, setitem, get_host,
      set_host, ret, raise.
    destruct (bool_decide (is_Some (String.index 0 "timestamp" s))); cbn.
    + destruct (bool_decide (is_Some (String.index 0 "libraries" s))); cbn;
        [reflexivity|]. eexists _, _. split; [reflexivity | repeat split].
    + eexists _, _. split; [reflexivity | repeat split].
  - unfold ensure_structure, mentions, now, bind, contains, setitem, get_host,
      set_host, ret, raise.
    destruct (existsb (is_str "timestamp") items); cbn.
    + destruct (existsb (is_str "libraries") items); cbn;
        [reflexivity|]. eexists _, _. split; [reflexivity | repeat split].
    + eexists _, _. split; [reflexivity | repeat split].
  - now contradiction (Hnd d).
Qed.

Lemma get_cache_path_exact (w : world host) :
  exists lines, get_cache_path E w
                = (Ret (cache_path E), World (host_state w) (console w ++ lines)).
Proof.
  destruct E_ok as (_ & _ & _ & _ & _ & Hres & _).
  unfold get_cache_path, cache_path, try_except, bind, lift_outcome.
  destruct (bpy_utils_user_resource E) as [d|e] eqn:Hr.
  - exists []. rewrite app_nil_r. now destruct w.
  - unfold raise. rewrite (caught_exception e (Hres e eq_refl)).
    eexists. reflexivity.
Qed.

(** The value [load_asset_cache] starts from when the cache file gives
    nothing. *)
Definition fresh_cache (w : world host) : json :=
  JDict [("timestamp", JFloat (time_time E (ticks (host_state w))));
         ("libraries", JDict [])].

Lemma load_asset_cache_unfold (w : world host) :
  exists w1,
    same_files w w1
    /\ load_asset_cache E w
       = ensure_structure (loaded (cache_path E) (fresh_cache w) w) w1.
Proof.
  unfold load_asset_cache.
  destruct (get_cache_path_exact w) as (lines & Hpath).
  unfold bind at 1. rewrite Hpath.
  unfold bind at 1. unfold now at 1. unfold bind at 1 2 3. unfold get_host, set_host.
  unfold ret at 1. cbn [host_state console fst snd].
  match goal with
  | |- context [safe_load_json E ?p ?dflt ?w0] =>
      destruct (safe_load_json_loaded p dflt w0) as (w1 & H1 & S1)
  end.
  rewrite H1. exists w1. split; [|reflexivity].
  destruct S1 as (A & B & C). repeat split; cbn in *; congruence.
Qed.

(** The cache file holds a document that can be read. *)
Definition holds_document (v : json) (w : world host) : Prop :=
  content_at (cache_path E) w = Some (Document v)
  /\ open_fault E (cache_path E) = None
  /\ read_fault E (cache_path E) = None.

Lemma loaded_document (default v : json) (w : world host) :
  holds_document v w -> loaded (cache_path E) default w = v.
Proof. intros (Hc & Ho & Hr). unfold loaded. now rewrite Ho, Hc, Hr. Qed.

Lemma loaded_fresh (w : world host) :
  (forall v, ~ holds_document v w) ->
  loaded (cache_path E) (fresh_cache w) w = fresh_cache w.
Proof.
  intros Hno. unfold loaded.
  destruct (open_fault E (cache_path E)) eqn:Ho; [reflexivity|].
  destruct (content_at (cache_path E) w) as [[v| |]|] eqn:Hc; try reflexivity.
  destruct (read_fault E (cache_path E)) eqn:Hr; [reflexivity|].
  exfalso. apply (Hno v). repeat split; assumption.
Qed.

Lemma load_asset_cache_shapes_proof (w : world host) :
  ((forall v, ~ holds_document v w) ->
   exists w', load_asset_cache E w = (Ret (fresh_cache w), w') /\ same_files w w')
  /\ (forall d, holds_document (JDict d) w ->
        exists t w',
          load_asset_cache E w = (Ret (JDict (completed t d)), w')
          /\ same_files w w'
          /\ is_Some (dict_get "timestamp" (completed t d))
          /\ is_Some (dict_get "libraries" (completed t d))
          /\ forall k x, dict_get k d = Some x ->
                         dict_get k (completed t d) = Some x)
  /\ (forall v, holds_document v w -> (forall d, v <> JDict d) ->
        if mentions "timestamp" v && mentions "libraries" v
        then exists w', load_asset_cache E w = (Ret v, w') /\ same_files w w'
        else exists msg w',
               load_asset_cache E w = (Exc (Exn TypeError msg), w')
               /\ same_files w w').
Proof.
  destruct (load_asset_cache_unfold w) as (w1 & S1 & ->).
  split; [|split].
  - intros Hno. rewrite (loaded_fresh w Hno).
    destruct (ensure_structure_dict
                [("timestamp", JFloat (time_time E (ticks (host_state w))));
                 ("libraries", JDict [])] w1) as (w' & H' & S').
    exists w'. split; [exact H' | now apply (same_files_trans w w1 w')].
  - intros d Hd. rewrite (loaded_document _ _ w Hd).
    destruct (ensure_structure_dict d w1) as (w' & H' & S').
    exists (time_time E (ticks (host_state w1))), w'.
    split; [exact H'|]. split; [now apply (same_files_trans w w1 w')|].
    split; [apply completed_has|]. split; [apply completed_has|].
    intros k x. apply completed_keeps.
  - intros v Hv Hnd. rewrite (loaded_document _ _ w Hv).
    pose proof (ensure_structure_other v w1 Hnd) as H.
    destruct (mentions "timestamp" v && mentions "libraries" v).
    + exists w1. split; [exact H | exact S1].
    + destruct H as (msg & w' & H' & S'). exists msg, w'.
      split; [exact H' | now apply (same_files_trans w w1 w')].
Qed.

(** ** Saving, then loading *)

Lemma save_asset_cache_saved (d : list (string * json)) (w w1 : world host) :
  save_asset_cache E (JDict d) w = (Ret true, w1) ->
  content_at (cache_path E) w1
  = Some (Document (JDict (dict_set "timestamp"
                             (JFloat (time_time E (ticks (host_state w)))) d))).
Proof.
  unfold save_asset_cache.
  destruct (get_cache_path_exact w) as (lines & Hpath).
  unfold bind at 1. rewrite Hpath.
  unfold bind at 1. unfold now at 1. unfold bind at 1 2 3. unfold get_host, set_host.
  unfold ret at 1. cbn [host_state console fst snd].
  unfold bind, setitem, ret.
  match goal with
  | |- safe_save_json E ?p ?data ?w0 = _ -> _ =>
      pose proof (save_outcomes E p data w0) as Hout
  end.
  intros Hs. rewrite Hs in Hout. apply Hout.
Qed.

Lemma save_then_load_proof (d : list (string * json)) (w w1 : world host) :
  open_fault E (cache_path E) = None -> read_fault E (cache_path E) = None ->
  save_asset_cache E (JDict d) w = (Ret true, w1) ->
  exists d' w2,
    load_asset_cache E w1 = (Ret (JDict d'), w2)
    /\ dict_get "timestamp" d'
       = Some (JFloat (time_time E (ticks (host_state w))))
    /\ is_Some (dict_get "libraries" d')
    /\ forall k x, k <> "timestamp" -> dict_get k d = Some x ->
                   dict_get k d' = Some x.
Proof.
  intros Ho Hr Hsave. apply save_asset_cache_saved in Hsave.
  destruct (load_asset_cache_shapes_proof w1) as (_ & Hdict & _).
  destruct (Hdict _ (conj Hsave (conj Ho Hr))) as (t & w2 & Hload & _ & _ & Hl & Hk).
  eexists _, w2. split; [exact Hload|]. split; [|split].
  - apply Hk. apply dict_get_set_same.
  - exact Hl.
  - intros k x Hne Hx. apply Hk. now rewrite dict_get_set_other.
Qed.
End CacheFile.

(** What [load_asset_cache] returns, by what the cache file holds.
    - No document that can be read (no file, a file that cannot be
      opened or read, or one that is not JSON): the fresh cache, with
      the time of the call as "timestamp" and no library.
    - A JSON object: that object, with "timestamp" and "libraries" added
      if they are missing; every entry it had is kept.
    - Any other JSON value: [TypeError] is raised, unless the value is a
      string or a list in which both "timestamp" and "libraries" occur,
      which is returned as it is. *)
Theorem load_asset_cache_shapes (E : environment) (w : world host) :
  raises_only_exceptions E ->
  ((forall v, ~ holds_document E v w) ->
   exists w', load_asset_cache E w = (Ret (fresh_cache E w), w')
              /\ same_files w w')
  /\ (forall d, holds_document E (JDict d) w ->
        exists t w',
          load_asset_cache E w = (Ret (JDict (completed t d)), w')
          /\ same_files w w'
          /\ is_Some (dict_get "timestamp" (completed t d))
          /\ is_Some (dict_get "libraries" (completed t d))
          /\ forall k x, dict_get k d = Some x ->
                         dict_get k (completed t d) = Some x)
  /\ (forall v, holds_document E v w -> (forall d, v <> JDict d) ->
        if mentions "timestamp" v && mentions "libraries" v
        then exists w', load_asset_cache E w = (Ret v, w') /\ same_files w w'
        else exists msg w',
               load_asset_cache E w = (Exc (Exn TypeError msg), w')
               /\ same_files w w').
Proof. intros HE. now apply load_asset_cache_shapes_proof. Qed.

(** A cache file that holds the JSON list []. *)
Definition list_cache_world : world host :=
  World (Host (Fs {["config/assets_cache.json" := Document (JList [])]} {["config"]})
              0 [] (ScanLocals [] 0 ∅)) [].

Lemma list_cache_world_document :
  holds_document quiet_env (JList []) list_cache_world.
Proof.
  split; [|split; reflexivity].
  unfold content_at. cbn. now rewrite lookup_singleton_eq.
Qed.

Lemma load_asset_cache_shapes_witness :
  exists msg w',
    load_asset_cache quiet_env list_cache_world = (Exc (Exn TypeError msg), w')
    /\ same_files list_cache_world w'.
Proof.
  destruct (load_asset_cache_shapes quiet_env list_cache_world
              quiet_env_raises_only_exceptions) as (_ & _ & H).
  apply (H (JList []) list_cache_world_document). discriminate.
Defined.

(** What [save_asset_cache] has saved, [load_asset_cache] gives back:
    after a save that returned [True], and if the file can be read, the
    loaded cache has the entries of the saved one, its "timestamp" is
    the time of the save, and it has "libraries". *)
Theorem save_then_load (E : environment) (d : list (string * json))
    (w w1 : world host) :
  raises_only_exceptions E ->
  open_fault E (cache_path E) = None -> read_fault E (cache_path E) = None ->
  save_asset_cache E (JDict d) w = (Ret true, w1) ->
  exists d' w2,
    load_asset_cache E w1 = (Ret (JDict d'), w2)
    /\ dict_get "timestamp" d'
       = Some (JFloat (time_time E (ticks (host_state w))))
    /\ is_Some (dict_get "libraries" d')
    /\ forall k x, k <> "timestamp" -> dict_get k d = Some x ->
                   dict_get k d' = Some x.
Proof. intros HE. now apply save_then_load_proof. Qed.

Lemma save_then_load_witness :
  exists d' w2,
    load_asset_cache quiet_env
      (snd (save_asset_cache quiet_env (JDict [("libraries", JDict [])]) empty_world))
    = (Ret (JDict d'), w2)
    /\ dict_get "timestamp" d' = Some (JFloat 0)
    /\ is_Some (dict_get "libraries" d')
    /\ forall k x, k <> "timestamp" ->
                   dict_get k [("libraries", JDict [])] = Some x ->
                   dict_get k d' = Some x.
Proof.
  apply (save_then_load quiet_env [("libraries", JDict [])] empty_world).
  - exact quiet_env_raises_only_exceptions.
  - reflexivity.
  - reflexivity.
  - vm_compute. reflexivity.
Defined.
End CacheFileFacts.
(* ===================================================================== *)
(** * Facts about switching assets on and off in the cache                *)
(* ===================================================================== *)

Module EnabledFacts.
Import Py Py.Notations Json JsonOps AssetCache AssetCacheFacts ScanFacts
  CacheFileFacts CacheOps.

(** The asset says that it is enabled, or that it is not. *)
Definition says_enabled (enabled : bool) (asset : list (string * json)) : bool :=
  match dict_get "enabled" asset with
  | Some v => eq_bool v enabled
  | None => false
  end.

(** The asset with ["enabled"] set. *)
Definition switched (enabled : bool) (asset : list (string * json))
  : list (string * json) :=
  if says_enabled enabled asset then asset
  else dict_set "enabled" (JBool enabled) asset.

Lemma switched_says (enabled : bool) (asset : list (string * json)) :
  says_enabled enabled (switched enabled asset) = true.
Proof.
  unfold switched. destruct (says_enabled enabled asset) eqn:Hs; [exact Hs|].
  unfold says_enabled. rewrite dict_get_set_same. cbn. now destruct enabled.
Qed.

Lemma switched_keeps (enabled : bool) (asset : list (string * json)) (k : string) :
  k <> "enabled" -> dict_get k (switched enabled asset) = dict_get k asset.
Proof.
  intros Hk. unfold switched. destruct (says_enabled enabled asset); [reflexivity|].
  now apply dict_get_set_other.
Qed.

(** Every asset of the list is a dict. *)
Definition asset_dicts (assets : list json) (ds : list (list (string * json)))
  : Prop :=
  assets = map JDict ds.

Section Enabled.
Variable E : environment.
Hypothesis E_ok : raises_only_exceptions E.

Lemma set_enabled_run (enabled : bool) (asset : list (string * json))
    (w : world host) :
  set_enabled enabled (JDict asset) w
  = (Ret (JDict (switched enabled asset), negb (says_enabled enabled asset)), w).
Proof.
  unfold set_enabled, switched, says_enabled, contains, getitem, setitem, bind, ret.
  destruct (dict_get "enabled" asset) as [v|] eqn:Hv.
  - rewrite has_key. cbn. destruct (eq_bool v enabled); reflexivity.
  - rewrite has_no_key. reflexivity.
Qed.

(** A loop whose rounds switch the assets that [sel] picks. *)
Lemma for_assets_run (enabled : bool) (sel : list (string * json) -> bool)
    (body : json -> py host (json * bool)) (ds : list (list (string * json)))
    (w : world host) :
  (forall a w, body (JDict a) w
               = if sel a then set_enabled enabled (JDict a) w
                 else (Ret (JDict a, false), w)) ->
  for_assets body (map JDict ds) w
  = (Ret (map (fun a => JDict (if sel a then switched enabled a else a)) ds,
          existsb (fun a => sel a && negb (says_enabled enabled a)) ds), w).
Proof.
  intros Hbody. induction ds as [|a ds IH]; [reflexivity|].
  cbn [map for_assets existsb]. unfold bind at 1. rewrite Hbody.
  destruct (sel a).
  - rewrite set_enabled_run. cbv beta iota. unfold bind at 1. rewrite IH.
    reflexivity.
  - cbv beta iota. unfold bind at 1. rewrite IH. reflexivity.
Qed.

(** The cache holds the library, and the library a list of asset
    dicts. *)
Definition library_at (cache libs entry : list (string * json))
    (library_name : string) (ds : list (list (string * json))) : Prop :=
  dict_get "libraries" cache = Some (JDict libs)
  /\ dict_get library_name libs = Some (JDict entry)
  /\ dict_get "assets" entry = Some (JList (map JDict ds)).

(** The cache with other assets for the library. *)
Definition with_library_assets (cache libs entry : list (string * json))
    (library_name : string) (assets : json) : list (string * json) :=
  dict_set "libraries"
    (JDict (dict_set library_name (JDict (dict_set "assets" assets entry)) libs))
    cache.

Lemma library_cached_run (cache libs : list (string * json))
    (library_name : string) (w : world host) :
  dict_get "libraries" cache = Some (JDict libs) ->
  library_cached (JDict cache) library_name w
  = (Ret (bool_decide (is_Some (dict_get library_name libs))), w).
Proof.
  intros Hl. unfold library_cached, contains, getitem, bind, ret.
  rewrite Hl, has_key. reflexivity.
Qed.

Lemma update_library_run (cache libs entry : list (string * json))
    (library_name : string) (ds : list (list (string * json)))
    (loop : json -> py host (json * bool)) (assets' : json) (changed : bool)
    (w : world host) :
  library_at cache libs entry library_name ds ->
  loop (JList (map JDict ds)) w = (Ret (assets', changed), w) ->
  update_library (JDict cache) library_name loop w
  = (Ret (JDict (with_library_assets cache libs entry library_name assets'),
          changed), w).
Proof.
  intros (Hl & He & Ha) Hloop.
  unfold update_library, with_library_assets, with_assets, getitem, py_get,
    setitem, bind, ret.
  rewrite Hl, He, Ha. cbn [from_option id]. rewrite Hloop. reflexivity.
Qed.

Lemma with_library_assets_at (cache libs entry : list (string * json))
    (library_name : string) (ds' : list (list (string * json))) :
  library_at (with_library_assets cache libs entry library_name (JList (map JDict ds')))
    (dict_set library_name (JDict (dict_set "assets" (JList (map JDict ds')) entry)) libs)
    (dict_set "assets" (JList (map JDict ds')) entry)
    library_name ds'.
Proof.
  unfold library_at, with_library_assets. now rewrite !dict_get_set_same.
Qed.

(** What the file holds after a function has switched assets of the
    library: the library has the assets [ds'], and nothing else has
    changed but the timestamp. *)
Definition switched_on_file (d libs entry : list (string * json))
    (library_name : string) (ds' : list (list (string * json)))
    (w' : world host) : Prop :=
  exists d' libs' entry' : list (string * json),
    content_at (cache_path E) w' = Some (Document (JDict d'))
    /\ library_at d' libs' entry' library_name ds'
    /\ (forall name, name <> library_name ->
                     dict_get name libs' = dict_get name libs)
    /\ (forall k, k <> "assets" -> dict_get k entry' = dict_get k entry)
    /\ (forall k, k <> "timestamp" -> k <> "libraries" ->
                  dict_get k d' = dict_get k d).

Lemma completed_other (t : float) (d : list (string * json)) (k : string) :
  k <> "timestamp" -> k <> "libraries" ->
  dict_get k (completed t d) = dict_get k d.
Proof.
  intros H1 H2. unfold completed.
  destruct (dict_get "timestamp" d).
  - destruct (dict_get "libraries" d); [reflexivity|].
    now rewrite dict_get_set_other.
  - destruct (dict_get "libraries" (dict_set "timestamp" (JFloat t) d)).
    + now rewrite dict_get_set_other.
    + now rewrite !dict_get_set_other.
Qed.

(** Loading the cache, updating the library in place and saving the
    cache: what [update_asset_enabled_state] does, and the other two
    when their loop has changed an asset. *)
Lemma load_update_save (d libs entry : list (string * json))
    (library_name : string) (ds ds' : list (list (string * json)))
    (loop : json -> py host (json * bool)) (changed : bool) (w : world host) :
  holds_document E (JDict d) w ->
  library_at d libs entry library_name ds ->
  (forall w, loop (JList (map JDict ds)) w
             = (Ret (JList (map JDict ds'), changed), w)) ->
  exists (c : list (string * json)) (w1 : world host) (b : bool) (w2 : world host),
    load_asset_cache E w = (Ret (JDict c), w1)
    /\ same_files w w1
    /\ library_cached (JDict c) library_name w1 = (Ret true, w1)
    /\ update_library (JDict c) library_name loop w1
       = (Ret (JDict (with_library_assets c libs entry library_name
                        (JList (map JDict ds'))), changed), w1)
    /\ save_asset_cache E
         (JDict (with_library_assets c libs entry library_name
                   (JList (map JDict ds')))) w1 = (Ret b, w2)
    /\ library_assets (host_state w2) = library_assets (host_state w)
    /\ locals (host_state w2) = locals (host_state w)
    /\ (save_unhindered E (cache_path E) w ->
        switched_on_file d libs entry library_name ds' w2).
Proof.
  intros Hdoc (Hl & He & Ha) Hloop.
  destruct (load_asset_cache_shapes_proof E E_ok w) as (_ & Hdict & _).
  destruct (Hdict d Hdoc) as (t & w1 & Hload & Hsame & _ & _ & Hkeep).
  set (c := completed t d) in *.
  assert (Hat : library_at c libs entry library_name ds).
  { split; [now apply Hkeep | split; assumption]. }
  destruct (save_asset_cache_run E E_ok
              (with_library_assets c libs entry library_name (JList (map JDict ds')))
              w1) as (b & w2 & t' & Hsave & Hla & Hlo & Hcontent).
  destruct Hsame as (Hfs & Hla1 & Hlo1).
  exists c, w1, b, w2. split; [exact Hload|]. split; [repeat split; assumption|].
  split; [|split; [|split; [|split; [|split]]]].
  - rewrite (library_cached_run c libs library_name w1 (proj1 Hat)).
    now rewrite He, has_key.
  - now apply (update_library_run c libs entry library_name ds).
  - exact Hsave.
  - congruence.
  - congruence.
  - intros Hun.
    specialize (Hcontent (save_unhindered_same E _ w w1 Hfs Hun)).
    eexists _, _, _. split; [exact Hcontent|].
    split; [|split; [|split]].
    + destruct (with_library_assets_at c libs entry library_name ds')
        as (A & B & C).
      split; [|split; [exact B | exact C]].
      rewrite dict_get_set_other by discriminate. exact A.
    + intros name Hn. now apply dict_get_set_other.
    + intros k Hk. now apply dict_get_set_other.
    + intros k Hk1 Hk2. unfold with_library_assets.
      rewrite !dict_get_set_other by assumption.
      now apply completed_other.
Qed.

(** The library is not in the cache: nothing is written. *)
Lemma load_without_library (d libs : list (string * json))
    (library_name : string) (w : world host) :
  holds_document E (JDict d) w ->
  dict_get "libraries" d = Some (JDict libs) ->
  dict_get library_name libs = None ->
  exists (c : list (string * json)) (w1 : world host),
    load_asset_cache E w = (Ret (JDict c), w1)
    /\ same_files w w1
    /\ library_cached (JDict c) library_name w1 = (Ret false, w1).
Proof.
  intros Hdoc Hl Hn.
  destruct (load_asset_cache_shapes_proof E E_ok w) as (_ & Hdict & _).
  destruct (Hdict d Hdoc) as (t & w1 & Hload & Hsame & _ & _ & Hkeep).
  exists (completed t d), w1. split; [exact Hload|]. split; [exact Hsame|].
  rewrite (library_cached_run _ libs library_name w1 (Hkeep _ _ Hl)).
  now rewrite Hn, has_no_key.
Qed.

(** The two functions that switch several assets, as one: [loop] is
    their loop. *)
Definition switch_several (library_name : string)
    (loop : json -> py host (json * bool)) : py host bool :=
  cache <- load_asset_cache E ;;
  found <- library_cached cache library_name ;;
  if found then
    r <- update_library cache library_name loop ;;
    if snd r then save_asset_cache E (fst r) ;; ret true
    else ret false
  else ret false.

Lemma switch_several_run (d libs entry : list (string * json))
    (library_name : string) (ds : list (list (string * json)))
    (enabled : bool) (pick : list (string * json) -> bool)
    (body : json -> py host (json * bool)) (w : world host) :
  (forall a w, body (JDict a) w
               = if pick a then set_enabled enabled (JDict a) w
                 else (Ret (JDict a, false), w)) ->
  holds_document E (JDict d) w ->
  library_at d libs entry library_name ds ->
  let changed := existsb (fun a => pick a && negb (says_enabled enabled a)) ds in
  let ds' := map (fun a => if pick a then switched enabled a else a) ds in
  exists w',
    switch_several library_name (update_assets body) w = (Ret changed, w')
    /\ library_assets (host_state w') = library_assets (host_state w)
    /\ locals (host_state w') = locals (host_state w)
    /\ (changed = false -> same_files w w')
    /\ (changed = true -> save_unhindered E (cache_path E) w ->
        switched_on_file d libs entry library_name ds' w').
Proof.
  intros Hbody Hdoc Hat. cbv zeta.
  set (changed := existsb _ ds). set (ds' := map _ ds).
  assert (Hloop : forall w, update_assets body (JList (map JDict ds)) w
                            = (Ret (JList (map JDict ds'), changed), w)).
  { intros w0. unfold update_assets, bind.
    rewrite (for_assets_run enabled pick body ds w0 Hbody). cbn [fst snd].
    unfold ret, ds'. now rewrite map_map. }
  destruct (load_update_save d libs entry library_name ds ds'
              (update_assets body) changed w Hdoc Hat Hloop)
    as (c & w1 & b & w2 & Hload & Hsame & Hcached & Hupd & Hsave & Hla & Hlo & Hfile).
  unfold switch_several. unfold bind at 1. rewrite Hload.
  unfold bind at 1. rewrite Hcached. cbv beta iota.
  unfold bind at 1. rewrite Hupd. cbn [fst snd].
  destruct changed eqn:Hc.
  - unfold bind at 1. rewrite Hsave. exists w2.
    split; [reflexivity|]. split; [exact Hla|]. split; [exact Hlo|].
    split; [discriminate|]. intros _ Hun. now apply Hfile.
  - exists w1. split; [reflexivity|]. destruct Hsame as (A & B & C).
    split; [exact B|]. split; [exact C|].
    split; [intros _; repeat split; assumption | discriminate].
Qed.

Lemma switch_several_absent (d libs : list (string * json))
    (library_name : string) (loop : json -> py host (json * bool))
    (w : world host) :
  holds_document E (JDict d) w ->
  dict_get "libraries" d = Some (JDict libs) ->
  dict_get library_name libs = None ->
  exists w', switch_several library_name loop w = (Ret false, w')
             /\ same_files w w'.
Proof.
  intros Hdoc Hl Hn.
  destruct (load_without_library d libs library_name w Hdoc Hl Hn)
    as (c & w1 & Hload & Hsame & Hcached).
  unfold switch_several. unfold bind at 1. rewrite Hload.
  unfold bind at 1. rewrite Hcached. now exists w1.
Qed.

(** A second run finds nothing to change. *)
Lemma switched_settled (enabled : bool) (pick : list (string * json) -> bool)
    (ds : list (list (string * json))) :
  (forall a, pick (switched enabled a) = pick a) ->
  existsb (fun a => pick a && negb (says_enabled enabled a))
    (map (fun a => if pick a then switched enabled a else a) ds) = false.
Proof.
  intros Hpick. induction ds as [|a ds IH]; [reflexivity|].
  cbn [map existsb]. rewrite IH, orb_false_r.
  destruct (pick a) eqn:Hp.
  - now rewrite switched_says, andb_false_r.
  - now rewrite Hp.
Qed.

(** The asset is of the category. *)
Definition in_category (category : string) (a : list (string * json)) : bool :=
  is_str category (from_option id JNull (dict_get "category" a)).

Lemma in_category_switched (category : string) (enabled : bool)
    (a : list (string * json)) :
  in_category category (switched enabled a) = in_category category a.
Proof. unfold in_category. now rewrite switched_keeps. Qed.

(** What is proved of a function that switches several assets: its
    result tells whether an asset had to be changed; if none had, no
    file is touched; if one had and the save goes through, the file
    holds the library with the picked assets switched and everything
    else as before, and a second call returns False and touches no
    file. *)
Definition switches (run : py host bool) (library_name : string)
    (enabled : bool) (pick : list (string * json) -> bool)
    (d libs entry : list (string * json)) (ds : list (list (string * json)))
    (w : world host) : Prop :=
  let changed := existsb (fun a => pick a && negb (says_enabled enabled a)) ds in
  let ds' := map (fun a => if pick a then switched enabled a else a) ds in
  exists w',
    run w = (Ret changed, w')
    /\ (changed = false -> same_files w w')
    /\ (changed = true -> save_unhindered E (cache_path E) w ->
        switched_on_file d libs entry library_name ds' w'
        /\ exists w'', run w' = (Ret false, w'') /\ same_files w' w'').

Lemma switch_several_switches (d libs entry : list (string * json))
    (library_name : string) (ds : list (list (string * json)))
    (enabled : bool) (pick : list (string * json) -> bool)
    (body : json -> py host (json * bool)) (w : world host) :
  (forall a w, body (JDict a) w
               = if pick a then set_enabled enabled (JDict a) w
                 else (Ret (JDict a, false), w)) ->
  (forall a, pick (switched enabled a) = pick a) ->
  holds_document E (JDict d) w ->
  library_at d libs entry library_name ds ->
  switches (switch_several library_name (update_assets body)) library_name
    enabled pick d libs entry ds w.
Proof.
  intros Hbody Hpick Hdoc Hat. unfold switches.
  destruct (switch_several_run d libs entry library_name ds enabled pick body w
              Hbody Hdoc Hat) as (w' & Hrun & _ & _ & Hsame & Hfile).
  cbv zeta in Hrun, Hsame, Hfile.
  exists w'. split; [exact Hrun|]. split; [exact Hsame|].
  intros Hc Hun. specialize (Hfile Hc Hun). split; [exact Hfile|].
  destruct Hfile as (d' & libs' & entry' & Hcontent & Hat' & _).
  assert (Hdoc' : holds_document E (JDict d') w').
  { destruct Hdoc as (_ & Ho & Hr). repeat split; assumption. }
  destruct (switch_several_run d' libs' entry' library_name _ enabled pick body w'
              Hbody Hdoc' Hat') as (w'' & Hrun' & _ & _ & Hsame' & _).
  cbv zeta in Hrun', Hsame'.
  rewrite (switched_settled enabled pick ds Hpick) in Hrun', Hsame'.
  exists w''. split; [exact Hrun' | now apply Hsame'].
Qed.

Lemma update_all_is_switch (library_name : string) (enabled : bool) :
  update_all_assets_enabled_state E library_name enabled
  = switch_several library_name (update_assets (set_enabled enabled)).
Proof. reflexivity. Qed.

Lemma update_category_is_switch (library_name category : string) (enabled : bool) :
  update_category_assets_enabled_state E library_name category enabled
  = switch_several library_name
      (update_assets (fun asset =>
         c <- py_get "category" JNull asset ;;
         if is_str category c then set_enabled enabled asset
         else ret (asset, false))).
Proof. reflexivity. Qed.

(** ** One asset *)

(** The asset has that name and that file. *)
Definition is_asset (asset_name filepath : string) (a : list (string * json))
  : bool :=
  is_str asset_name (from_option id JNull (dict_get "name" a))
  && is_str filepath (from_option id JNull (dict_get "filepath" a)).

(** The first asset that [hit] picks is switched. *)
Fixpoint switch_first (hit : list (string * json) -> bool) (enabled : bool)
    (ds : list (list (string * json))) : list (list (string * json)) :=
  match ds with
  | [] => []
  | a :: rest => if hit a then switched enabled a :: rest
                 else a :: switch_first hit enabled rest
  end.

(** Every asset has a name and a file, as the scan writes them. *)
Definition named_assets (ds : list (list (string * json))) : Prop :=
  Forall (fun a => is_Some (dict_get "name" a)
                   /\ is_Some (dict_get "filepath" a)) ds.

Lemma find_and_set_run (asset_name filepath : string) (enabled : bool)
    (ds : list (list (string * json))) (w : world host) :
  named_assets ds ->
  find_and_set asset_name filepath enabled (map JDict ds) w
  = (Ret (map JDict (switch_first (is_asset asset_name filepath) enabled ds),
          match List.find (is_asset asset_name filepath) ds with
          | Some a => negb (says_enabled enabled a)
          | None => false
          end), w).
Proof.
  intros Hn. induction Hn as [|a ds [[n Hname] [f Hfile]] Hn IH];
    [reflexivity|].
  cbn [map find_and_set switch_first List.find].
  assert (Hhit : is_asset asset_name filepath a
                 = is_str asset_name n && is_str filepath f).
  { unfold is_asset. now rewrite Hname, Hfile. }
  rewrite Hhit.
  unfold bind at 1, getitem at 1. rewrite Hname. unfold ret at 1.
  cbv beta iota.
  destruct (is_str asset_name n).
  - unfold bind at 1. unfold bind at 1, getitem at 1. rewrite Hfile.
    unfold ret at 1. cbv beta iota. unfold ret at 1. cbv beta iota.
    cbn [andb].
    destruct (is_str filepath f).
    + unfold bind. now rewrite set_enabled_run.
    + unfold bind. now rewrite IH.
  - unfold bind at 1, ret at 1. cbv beta iota. cbn [andb].
    unfold bind. now rewrite IH.
Qed.

Lemma update_asset_run (d libs entry : list (string * json))
    (library_name asset_name filepath : string) (enabled : bool)
    (ds : list (list (string * json))) (w : world host) :
  holds_document E (JDict d) w ->
  library_at d libs entry library_name ds ->
  named_assets ds ->
  exists w',
    update_asset_enabled_state E library_name asset_name filepath enabled w
    = (Ret true, w')
    /\ (save_unhindered E (cache_path E) w ->
        switched_on_file d libs entry library_name
          (switch_first (is_asset asset_name filepath) enabled ds) w').
Proof.
  intros Hdoc Hat Hn.
  destruct (load_update_save d libs entry library_name ds
              (switch_first (is_asset asset_name filepath) enabled ds)
              (find_and_set_in asset_name filepath enabled)
              (match List.find (is_asset asset_name filepath) ds with
               | Some a => negb (says_enabled enabled a)
               | None => false
               end) w Hdoc Hat)
    as (c & w1 & b & w2 & Hload & Hsame & Hcached & Hupd & Hsave & _ & _ & Hfile).
  { intros w0. unfold find_and_set_in, bind.
    now rewrite (find_and_set_run asset_name filepath enabled ds w0 Hn). }
  unfold update_asset_enabled_state. unfold bind at 1. rewrite Hload.
  unfold bind at 1. rewrite Hcached. cbv beta iota.
  unfold bind at 1. rewrite Hupd. cbn [fst snd].
  unfold bind at 1. rewrite Hsave. exists w2. split; [reflexivity | exact Hfile].
Qed.

Lemma update_asset_absent (d libs : list (string * json))
    (library_name asset_name filepath : string) (enabled : bool)
    (w : world host) :
  holds_document E (JDict d) w ->
  dict_get "libraries" d = Some (JDict libs) ->
  dict_get library_name libs = None ->
  exists w',
    update_asset_enabled_state E library_name asset_name filepath enabled w
    = (Ret false, w')
    /\ same_files w w'.
Proof.
  intros Hdoc Hl Hn.
  destruct (load_without_library d libs library_name w Hdoc Hl Hn)
    as (c & w1 & Hload & Hsame & Hcached).
  unfold update_asset_enabled_state. unfold bind at 1. rewrite Hload.
  unfold bind at 1. rewrite Hcached. now exists w1.
Qed.

End Enabled.

(** Switching all the assets of a library, or those of one category.
    With a cache file that holds the library and its list of asset
    dicts, [update_all_assets_enabled_state] and
    [update_category_assets_enabled_state] return whether some asset
    they pick did not say [enabled] yet.  If none did, no file is
    touched.  If one did and the save goes through, the file holds the
    library with the picked assets switched (every other key of theirs,
    every other asset, every other entry of the library, every other
    library and every other key of the cache as before), and a second
    call returns False and touches no file. *)
Theorem several_assets_switched (E : environment) (library_name : string)
    (enabled : bool) (d libs entry : list (string * json))
    (ds : list (list (string * json))) (w : world host) :
  raises_only_exceptions E ->
  holds_document E (JDict d) w ->
  library_at d libs entry library_name ds ->
  switches E (update_all_assets_enabled_state E library_name enabled)
    library_name enabled (fun _ => true) d libs entry ds w
  /\ forall category : string,
       switches E
         (update_category_assets_enabled_state E library_name category enabled)
         library_name enabled (in_category category) d libs entry ds w.
Proof.
  intros HE Hdoc Hat. split.
  - rewrite update_all_is_switch.
    now apply (switch_several_switches E HE).
  - intros category. rewrite update_category_is_switch.
    apply (switch_several_switches E HE); try assumption.
    + intros a w0. unfold bind, py_get, ret, in_category.
      now destruct (is_str category _).
    + intros a. apply in_category_switched.
Qed.

(** The cache the scan of the studio example has left, with the stool
    enabled. *)
Definition stool : list (string * json) :=
  [("name", JStr "Stool");
   ("filepath", JStr "/assets/chairs/stool.blend");
   ("category", JStr "chairs");
   ("type", JStr "objects");
   ("timestamp", JFloat 1001);
   ("enabled", JBool true)].

Definition props_entry : list (string * json) :=
  [("last_scan", JFloat 1002); ("assets", JList [JDict stool])].

Definition studio_libraries : list (string * json) :=
  [("Props", JDict props_entry)].

Definition studio_document : list (string * json) :=
  [("timestamp", JFloat 1003); ("libraries", JDict studio_libraries)].

Lemma studio_after_document :
  holds_document studio_env (JDict studio_document) studio_after.
Proof. split; [exact studio_cache_file | split; reflexivity]. Qed.

Lemma studio_library_at :
  library_at studio_document studio_libraries props_entry "Props" [stool].
Proof. repeat split. Qed.

Lemma several_assets_switched_witness :
  switches studio_env
    (update_all_assets_enabled_state studio_env "Props" false)
    "Props" false (fun _ => true) studio_document studio_libraries props_entry
    [stool] studio_after.
Proof.
  exact (proj1 (several_assets_switched studio_env "Props" false
                  studio_document studio_libraries props_entry [stool]
                  studio_after studio_env_raises_only_exceptions
                  studio_after_document studio_library_at)).
Defined.

(** Switching one asset.  With a cache file that can be read,
    [update_asset_enabled_state] returns False and touches no file when
    the library is not in the cache.  When it is, with a list of asset
    dicts that all have a name and a file, the function returns True,
    whether or not an asset of that name and file exists; if the save
    goes through, the file holds the library with the first such asset
    switched and everything else as before. *)
Theorem one_asset_switched (E : environment)
    (library_name asset_name filepath : string) (enabled : bool)
    (d libs : list (string * json)) (w : world host) :
  raises_only_exceptions E ->
  holds_document E (JDict d) w ->
  dict_get "libraries" d = Some (JDict libs) ->
  (dict_get library_name libs = None ->
   exists w',
     update_asset_enabled_state E library_name asset_name filepath enabled w
     = (Ret false, w')
     /\ same_files w w')
  /\ (forall (entry : list (string * json)) (ds : list (list (string * json))),
        dict_get library_name libs = Some (JDict entry) ->
        dict_get "assets" entry = Some (JList (map JDict ds)) ->
        named_assets ds ->
        exists w',
          update_asset_enabled_state E library_name asset_name filepath enabled w
          = (Ret true, w')
          /\ (save_unhindered E (cache_path E) w ->
              switched_on_file E d libs entry library_name
                (switch_first (is_asset asset_name filepath) enabled ds) w')).
Proof.
  intros HE Hdoc Hl. split.
  - intros Hn. now apply (update_asset_absent E HE d libs).
  - intros entry ds He Ha Hn.
    apply (update_asset_run E HE d libs entry); try assumption.
    repeat split; assumption.
Qed.

Lemma one_asset_switched_witness :
  exists w',
    update_asset_enabled_state studio_env "Props" "Stool"
      "/assets/chairs/stool.blend" false studio_after
    = (Ret true, w')
    /\ (save_unhindered studio_env (cache_path studio_env) studio_after ->
        switched_on_file studio_env studio_document studio_libraries props_entry
          "Props"
          (switch_first (is_asset "Stool" "/assets/chairs/stool.blend") false
             [stool]) w').
Proof.
  apply (proj2 (one_asset_switched studio_env "Props" "Stool"
                  "/assets/chairs/stool.blend" false studio_document
                  studio_libraries studio_after studio_env_raises_only_exceptions
                  studio_after_document eq_refl) props_entry [stool]);
    [reflexivity | reflexivity |].
  repeat constructor; eexists; reflexivity.
Defined.

End EnabledFacts.
(* ===================================================================== *)
(** * Facts about counting and checking the assets of the cache           *)
(* ===================================================================== *)

Module InspectionFacts.
Import Py Py.Notations Json JsonOps AssetCache AssetCacheFacts ScanFacts
  CacheFileFacts CacheOps EnabledFacts.

(** ** [get_asset_cache_stats] *)

(** The assets of a library entry, when it is a dict whose ["assets"],
    if any, is a list. *)
Definition assets_in (lib_data : json) : list json :=
  match lib_data with
  | JDict entry =>
      match from_option id (JList []) (dict_get "assets" entry) with
      | JList l => l
      | _ => []
      end
  | _ => []
  end.

(** The key of ["assets_by_type"] under which an asset dict counts. *)
Definition kind_of (asset : json) : string :=
  match asset with
  | JDict a =>
      match from_option id (JStr "other") (dict_get "type" a) with
      | JStr s => if bool_decide (s ∈ ["objects"; "materials"; "node_groups"])
                  then s else "other"
      | _ => "other"
      end
  | _ => "other"
  end.

(** The asset is a dict whose ["type"], if any, can be a key. *)
Definition typed_asset (asset : json) : Prop :=
  exists a, asset = JDict a
            /\ match from_option id (JStr "other") (dict_get "type" a) with
               | JList _ | JDict _ => False
               | _ => True
               end.

(** The library entry is a dict whose ["assets"], if any, is a list of
    such assets. *)
Definition countable_library (lib_data : json) : Prop :=
  exists entry l,
    lib_data = JDict entry
    /\ from_option id (JList []) (dict_get "assets" entry) = JList l
    /\ Forall typed_asset l.

Definition of_kind (k : string) (assets : list json) : Z :=
  Z.of_nat (length (List.filter (fun a => String.eqb (kind_of a) k) assets)).

Definition type_sum (s : cache_stats) : Z :=
  st_objects s + st_materials s + st_node_groups s + st_other s.

Lemma of_kind_cons (k : string) (a : json) (l : list json) :
  of_kind k (a :: l) = (if String.eqb (kind_of a) k then 1 else 0) + of_kind k l.
Proof.
  unfold of_kind. cbn [List.filter]. destruct (String.eqb (kind_of a) k); cbn [length]; lia.
Qed.

Lemma of_kind_app (k : string) (l1 l2 : list json) :
  of_kind k (l1 ++ l2) = of_kind k l1 + of_kind k l2.
Proof.
  unfold of_kind. rewrite List.filter_app, length_app. lia.
Qed.

Lemma kind_of_cases (a : json) :
  kind_of a = "objects" \/ kind_of a = "materials"
  \/ kind_of a = "node_groups" \/ kind_of a = "other".
Proof.
  unfold kind_of. destruct a; auto.
  destruct (from_option id (JStr "other") (dict_get "type" entries)); auto.
  destruct (bool_decide _) eqn:Hb; auto.
  apply bool_decide_eq_true in Hb.
  repeat (apply elem_of_cons in Hb as [-> | Hb]; auto).
  now apply elem_of_nil in Hb.
Qed.

Lemma of_kind_total (l : list json) :
  of_kind "objects" l + of_kind "materials" l + of_kind "node_groups" l
  + of_kind "other" l = Z.of_nat (length l).
Proof.
  induction l as [|a l IH]; [reflexivity|].
  rewrite !of_kind_cons. cbn [length].
  destruct (kind_of_cases a) as [-> | [-> | [-> | ->]]]; cbn; lia.
Qed.

Section Stats.
Variable E : environment.
Hypothesis E_ok : raises_only_exceptions E.

Lemma count_type_run (asset : json) (stats : cache_stats) (w : world host) :
  typed_asset asset ->
  count_type asset stats w
  = (Ret (CacheStats (st_libraries stats) (st_total_assets stats)
            (st_assets_by_library stats)
            (st_objects stats + (if String.eqb (kind_of asset) "objects" then 1 else 0))
            (st_materials stats + (if String.eqb (kind_of asset) "materials" then 1 else 0))
            (st_node_groups stats + (if String.eqb (kind_of asset) "node_groups" then 1 else 0))
            (st_other stats + (if String.eqb (kind_of asset) "other" then 1 else 0))
            (st_last_update stats)), w).
Proof.
  intros (a & -> & Ht). unfold count_type, kind_of, py_get, key_in, bind, ret.
  destruct (from_option id (JStr "other") (dict_get "type" a)) as [| | | |s| |];
    try contradiction; cbn; try (now rewrite !Z.add_0_r).
  destruct (bool_decide (s ∈ ["objects"; "materials"; "node_groups"; "other"]))
    eqn:Hk.
  - apply bool_decide_eq_true in Hk.
    repeat (apply elem_of_cons in Hk as [-> | Hk]; [reflexivity|]).
    now apply elem_of_nil in Hk.
  - apply bool_decide_eq_false in Hk.
    assert (Hn : bool_decide (s ∈ ["objects"; "materials"; "node_groups"]) = false).
    { apply bool_decide_eq_false. intros Hin. apply Hk.
      repeat (apply elem_of_cons in Hin as [-> | Hin];
              [repeat constructor|]).
      now apply elem_of_nil in Hin. }
    rewrite Hn. cbn. now rewrite !Z.add_0_r.
Qed.

(** The statistics with [l] more assets counted by type. *)
Definition with_types (l : list json) (s : cache_stats) : cache_stats :=
  CacheStats (st_libraries s) (st_total_assets s) (st_assets_by_library s)
    (st_objects s + of_kind "objects" l) (st_materials s + of_kind "materials" l)
    (st_node_groups s + of_kind "node_groups" l) (st_other s + of_kind "other" l)
    (st_last_update s).

Lemma fold_count_type (l : list json) (s : cache_stats) (w : world host) :
  Forall typed_asset l ->
  fold_py count_type l s w = (Ret (with_types l s), w).
Proof.
  intros Hl. revert s. induction Hl as [|a l Ha Hl IH]; intros s.
  - cbn. unfold ret, with_types, of_kind. cbn. rewrite !Z.add_0_r. now destruct s.
  - cbn [fold_py]. unfold bind. rewrite (count_type_run a s w Ha). rewrite IH.
    unfold with_types. cbn [st_libraries st_total_assets st_assets_by_library
      st_objects st_materials st_node_groups st_other st_last_update].
    rewrite !of_kind_cons. do 2 f_equal. f_equal; lia.
Qed.

(** The statistics with one more library counted. *)
Definition with_library (name : string) (lib_data : json) (s : cache_stats)
  : cache_stats :=
  let l := assets_in lib_data in
  with_types l
    (CacheStats (st_libraries s + 1) (st_total_assets s + Z.of_nat (length l))
       (count_set name (Z.of_nat (length l)) (st_assets_by_library s))
       (st_objects s) (st_materials s) (st_node_groups s) (st_other s)
       (st_last_update s)).

Lemma count_library_run (name : string) (lib_data : json) (s : cache_stats)
    (w : world host) :
  countable_library lib_data ->
  count_library (name, lib_data) s w = (Ret (with_library name lib_data s), w).
Proof.
  intros (entry & l & -> & Ha & Hl).
  unfold count_library, with_library, assets_in. cbn [fst snd].
  unfold bind at 1, py_get at 1, ret at 1. rewrite Ha.
  unfold bind, py_len, py_iter, ret. now rewrite fold_count_type.
Qed.

Fixpoint with_libraries (libs : list (string * json)) (s : cache_stats)
  : cache_stats :=
  match libs with
  | [] => s
  | (name, lib_data) :: rest => with_libraries rest (with_library name lib_data s)
  end.

Lemma fold_count_library (libs : list (string * json)) (s : cache_stats)
    (w : world host) :
  Forall (fun e => countable_library (snd e)) libs ->
  fold_py count_library libs s w = (Ret (with_libraries libs s), w).
Proof.
  intros Hl. revert s. induction Hl as [|[name v] libs Hv Hl IH]; intros s;
    [reflexivity|].
  cbn [fold_py with_libraries]. unfold bind.
  rewrite (count_library_run name v s w Hv). apply IH.
Qed.

(** All the assets of the libraries. *)
Definition all_assets (libs : list (string * json)) : list json :=
  flat_map (fun e => assets_in (snd e)) libs.

(** The number of assets of each library. *)
Definition sizes (libs : list (string * json)) : list (string * Z) :=
  map (fun e => (fst e, Z.of_nat (length (assets_in (snd e))))) libs.

Lemma count_set_fresh (k : string) (n : Z) (d : list (string * Z)) :
  ~ In k (map fst d) -> count_set k n d = d ++ [(k, n)].
Proof.
  induction d as [|[k' n'] d IH]; cbn; intros Hk; [reflexivity|].
  destruct (String.eqb k' k) eqn:Ek.
  - apply String.eqb_eq in Ek. exfalso. apply Hk. now left.
  - f_equal. apply IH. intros H. apply Hk. now right.
Qed.

Lemma with_libraries_fields (libs : list (string * json)) (s : cache_stats) :
  NoDup (map fst (st_assets_by_library s) ++ map fst libs) ->
  let s' := with_libraries libs s in
  st_libraries s' = st_libraries s + Z.of_nat (length libs)
  /\ st_total_assets s' = st_total_assets s + Z.of_nat (length (all_assets libs))
  /\ st_assets_by_library s' = st_assets_by_library s ++ sizes libs
  /\ st_objects s' = st_objects s + of_kind "objects" (all_assets libs)
  /\ st_materials s' = st_materials s + of_kind "materials" (all_assets libs)
  /\ st_node_groups s' = st_node_groups s + of_kind "node_groups" (all_assets libs)
  /\ st_other s' = st_other s + of_kind "other" (all_assets libs)
  /\ st_last_update s' = st_last_update s.
Proof.
  revert s. induction libs as [|[name v] libs IH]; intros s Hnd; cbv zeta.
  - cbn. rewrite app_nil_r. unfold of_kind. cbn. repeat split; lia.
  - cbn [with_libraries].
    assert (Hfresh : ~ In name (map fst (st_assets_by_library s))).
    { intros Hin. apply NoDup_app in Hnd as (_ & Hd & _).
      apply (Hd name); [now apply list_elem_of_In | cbn; left]. }
    assert (Hby : st_assets_by_library (with_library name v s)
                  = st_assets_by_library s
                    ++ [(name, Z.of_nat (length (assets_in v)))]).
    { unfold with_library, with_types. cbn. now apply count_set_fresh. }
    assert (Hnd' : NoDup (map fst (st_assets_by_library (with_library name v s))
                          ++ map fst libs)).
    { rewrite Hby, map_app, <- app_assoc. exact Hnd. }
    destruct (IH (with_library name v s) Hnd')
      as (H1 & H2 & H3 & H4 & H5 & H6 & H7 & H8).
    cbv zeta in H1, H2, H3, H4, H5, H6, H7, H8.
    unfold all_assets, sizes in *. cbn [flat_map map length fst snd].
    rewrite H1, H2, H3, H4, H5, H6, H7, H8, Hby, !of_kind_app, length_app.
    unfold with_library, with_types. cbn.
    rewrite <- app_assoc. repeat split; lia.
Qed.

Lemma load_same_files (w w' : world host) (r : outcome json) :
  load_asset_cache E w = (r, w') -> same_files w w'.
Proof.
  destruct (load_asset_cache_unfold E E_ok w) as (w1 & S1 & ->).
  set (v := loaded E (cache_path E) (fresh_cache E w) w).
  intros Hrun.
  assert (Hd : (exists d, v = JDict d) \/ (forall d, v <> JDict d)).
  { destruct v; try (right; discriminate). left. eauto. }
  destruct Hd as [[d Hd] | Hd].
  - rewrite Hd in Hrun.
    destruct (ensure_structure_dict E d w1) as (w2 & H2 & S2).
    rewrite H2 in Hrun. injection Hrun as _ <-.
    now apply (same_files_trans w w1 w2).
  - pose proof (ensure_structure_other E v w1 Hd) as H.
    destruct (mentions "timestamp" v && mentions "libraries" v).
    + rewrite H in Hrun. now injection Hrun as _ <-.
    + destruct H as (msg & w2 & H2 & S2). rewrite H2 in Hrun.
      injection Hrun as _ <-. now apply (same_files_trans w w1 w2).
Qed.

Lemma get_asset_cache_stats_run (d libs : list (string * json)) (w : world host) :
  holds_document E (JDict d) w ->
  dict_get "libraries" d = Some (JDict libs) ->
  Forall (fun e => countable_library (snd e)) libs ->
  exists t w',
    get_asset_cache_stats E w
    = (Ret (with_libraries libs
              (CacheStats 0 0 [] 0 0 0 0
                 (from_option id (JFloat t) (dict_get "timestamp" d)))), w')
    /\ same_files w w'.
Proof.
  intros Hdoc Hl Hlibs.
  destruct (load_asset_cache_shapes_proof E E_ok w) as (_ & Hdict & _).
  destruct (Hdict d Hdoc) as (t & w1 & Hload & Hsame & [ts Hts] & _ & Hkeep).
  exists t, w1. split; [|exact Hsame].
  unfold get_asset_cache_stats. unfold bind at 1. rewrite Hload.
  unfold bind at 1, py_get at 1, ret at 1. rewrite Hts.
  unfold bind at 1, py_get at 1, ret at 1. rewrite (Hkeep _ _ Hl).
  unfold bind at 1, py_items at 1, ret at 1. cbn [from_option id].
  rewrite (fold_count_library libs _ w1 Hlibs). do 3 f_equal.
  unfold completed in Hts.
  destruct (dict_get "timestamp" d) as [x|] eqn:Hx.
  - rewrite Hl in Hts. cbn. congruence.
  - cbn. destruct (dict_get "libraries" (dict_set "timestamp" (JFloat t) d)).
    + rewrite dict_get_set_same in Hts. congruence.
    + rewrite dict_get_set_other, dict_get_set_same in Hts by discriminate.
      congruence.
Qed.

End Stats.

Definition total_of (counts : list (string * Z)) : Z :=
  fold_right (fun e acc => snd e + acc) 0 counts.

Lemma total_of_sizes (libs : list (string * json)) :
  total_of (sizes libs) = Z.of_nat (length (all_assets libs)).
Proof.
  induction libs as [|e libs IH]; [reflexivity|].
  unfold all_assets in *. cbn [sizes map total_of fold_right flat_map snd].
  fold (sizes libs). fold (total_of (sizes libs)). rewrite IH, length_app. lia.
Qed.

(** The statistics add up.  With a cache file whose libraries are dicts
    with lists of asset dicts (and no type that is a list or a dict),
    [get_asset_cache_stats] returns without touching a file; it counts
    the libraries, gives each library the number of its assets, and
    counts every asset once in the total and once under exactly one of
    the four types, so that the four counts, and the counts of the
    libraries, add up to the total. *)
Theorem cache_stats_add_up (E : environment) (d libs : list (string * json))
    (w : world host) :
  raises_only_exceptions E ->
  holds_document E (JDict d) w ->
  dict_get "libraries" d = Some (JDict libs) ->
  NoDup (map fst libs) ->
  Forall (fun e => countable_library (snd e)) libs ->
  exists (stats : cache_stats) (w' : world host),
    get_asset_cache_stats E w = (Ret stats, w')
    /\ same_files w w'
    /\ st_libraries stats = Z.of_nat (length libs)
    /\ st_assets_by_library stats = sizes libs
    /\ st_total_assets stats = Z.of_nat (length (all_assets libs))
    /\ st_objects stats = of_kind "objects" (all_assets libs)
    /\ st_materials stats = of_kind "materials" (all_assets libs)
    /\ st_node_groups stats = of_kind "node_groups" (all_assets libs)
    /\ st_other stats = of_kind "other" (all_assets libs)
    /\ st_objects stats + st_materials stats + st_node_groups stats
       + st_other stats = st_total_assets stats
    /\ total_of (st_assets_by_library stats) = st_total_assets stats
    /\ (forall x, dict_get "timestamp" d = Some x -> st_last_update stats = x).
Proof.
  intros HE Hdoc Hl Hnd Hlibs.
  destruct (get_asset_cache_stats_run E HE d libs w Hdoc Hl Hlibs)
    as (t & w' & Hrun & Hsame).
  eexists _, w'. split; [exact Hrun|]. split; [exact Hsame|].
  match goal with
  | |- context [with_libraries libs ?s0] =>
      destruct (with_libraries_fields libs s0)
        as (H1 & H2 & H3 & H4 & H5 & H6 & H7 & H8); [exact Hnd|]
  end.
  cbv zeta in H1, H2, H3, H4, H5, H6, H7, H8.
  cbn [st_libraries st_total_assets st_assets_by_library st_objects st_materials
       st_node_groups st_other st_last_update app] in *.
  rewrite H1, H2, H3, H4, H5, H6, H7, H8.
  repeat split; try reflexivity.
  - apply of_kind_total.
  - apply total_of_sizes.
  - intros x Hx. now rewrite Hx.
Qed.

Lemma studio_countable :
  Forall (fun e => countable_library (snd e)) studio_libraries.
Proof.
  repeat constructor. exists props_entry, [JDict stool].
  repeat split. repeat constructor. exists stool. now split.
Qed.

Lemma cache_stats_add_up_witness :
  exists (stats : cache_stats) (w' : world host),
    get_asset_cache_stats studio_env studio_after = (Ret stats, w')
    /\ st_total_assets stats = 1
    /\ st_objects stats = 1.
Proof.
  destruct (cache_stats_add_up studio_env studio_document studio_libraries
              studio_after studio_env_raises_only_exceptions
              studio_after_document eq_refl (NoDup_singleton "Props")
              studio_countable)
    as (stats & w' & Hrun & _ & _ & _ & Ht & Ho & _).
  exists stats, w'. split; [exact Hrun|]. split; [exact Ht | exact Ho].
Defined.

(** ** [_clean_orphaned_cache_entries] *)

(** [os.path.exists(s)] in a world. *)
Definition exists_in (w : world host) (s : string) : bool :=
  bool_decide (is_Some (files (fsys (host_state w)) !! s))
  || bool_decide (s ∈ dirs (fsys (host_state w))).

Definition path_of (a : list (string * json)) : json :=
  from_option id JNull (dict_get "filepath" a).

(** The asset is a dict whose ["filepath"], if any, is null or a
    string. *)
Definition pathed_asset (asset : json) : Prop :=
  exists a, asset = JDict a
            /\ match path_of a with JNull | JStr _ => True | _ => False end.

(** The file of the asset is there and is a blend file. *)
Definition kept (w : world host) (asset : json) : bool :=
  match asset with
  | JDict a =>
      match path_of a with
      | JStr s => negb (String.eqb s "") && exists_in w s && is_valid_blend_file s
      | _ => false
      end
  | _ => false
  end.

(** The library entry is a dict whose ["assets"], if any, is a list of
    such assets. *)
Definition pathed_library (lib_data : json) : Prop :=
  exists entry l,
    lib_data = JDict entry
    /\ from_option id (JList []) (dict_get "assets" entry) = JList l
    /\ Forall pathed_asset l.

(** The two worlds differ in the console at most. *)
Definition same_host (w w' : world host) : Prop :=
  host_state w' = host_state w.

Lemma kept_same_host (w w' : world host) (asset : json) :
  same_host w w' -> kept w' asset = kept w asset.
Proof. unfold same_host, kept, exists_in. now intros ->. Qed.

Definition dropped (w : world host) (l : list json) : Z :=
  Z.of_nat (length l) - Z.of_nat (length (List.filter (kept w) l)).

Lemma dropped_cons (w : world host) (a : json) (l : list json) :
  dropped w (a :: l) = (if kept w a then 0 else 1) + dropped w l.
Proof.
  unfold dropped. cbn [List.filter length]. destruct (kept w a); cbn [length]; lia.
Qed.

Lemma dropped_nonneg (w : world host) (l : list json) : 0 <= dropped w l.
Proof.
  induction l as [|a l IH]; [unfold dropped; cbn; lia|].
  rewrite dropped_cons. destruct (kept w a); lia.
Qed.

Lemma dropped_zero (w : world host) (l : list json) :
  dropped w l = 0 -> List.filter (kept w) l = l.
Proof.
  induction l as [|a l IH]; [reflexivity|].
  rewrite dropped_cons. pose proof (dropped_nonneg w l). cbn [List.filter].
  destruct (kept w a); [|lia]. intros H0. f_equal. apply IH. lia.
Qed.

Section Orphans.
Variable E : environment.
Variable py_str : json -> string.
Variable exists_fd : Z -> outcome bool.

Lemma keep_or_drop_run (asset : json) (acc : list json * Z) (w : world host) :
  pathed_asset asset ->
  exists w',
    keep_or_drop py_str exists_fd asset acc w
    = (Ret (if kept w asset then (fst acc ++ [asset], snd acc)
            else (fst acc, snd acc + 1)), w')
    /\ same_host w w'
    /\ exists lines, console w' = console w ++ lines
                     /\ Z.of_nat (length lines) = (if kept w asset then 0 else 1).
Proof.
  intros (a & -> & Hp). unfold keep_or_drop, kept.
  unfold bind at 1, py_get at 1, ret at 1. fold (path_of a).
  destruct (path_of a) as [| | | |s| |] eqn:Hpath; try contradiction.
  - cbn [truthy]. unfold bind, ret, py_get, print. cbn [host_state console].
    eexists. split; [reflexivity|]. split; [reflexivity|].
    eexists. split; [reflexivity | reflexivity].
  - cbn [truthy]. destruct (String.eqb s "") eqn:Hs; cbn [negb andb].
    + unfold bind, ret, py_get, print. cbn [host_state console].
      eexists. split; [reflexivity|]. split; [reflexivity|].
      eexists. split; [reflexivity | reflexivity].
    + unfold bind at 1. unfold bind at 1. unfold exists_value, os_path_exists.
      unfold bind at 1, get_host at 1, ret at 1. fold (exists_in w s).
      destruct (exists_in w s); cbn [andb].
      * unfold is_valid_blend_file_value. unfold ret at 1.
        destruct (is_valid_blend_file s).
        -- unfold ret. exists w. split; [reflexivity|]. split; [reflexivity|].
           exists []. now rewrite app_nil_r.
        -- unfold bind, ret, py_get, print. cbn [host_state console].
           eexists. split; [reflexivity|]. split; [reflexivity|].
           eexists. split; [reflexivity | reflexivity].
      * unfold ret at 1. unfold bind, ret, py_get, print.
        cbn [host_state console].
        eexists. split; [reflexivity|]. split; [reflexivity|].
        eexists. split; [reflexivity | reflexivity].
Qed.

Lemma fold_keep_or_drop (l : list json) (acc : list json * Z) (w : world host) :
  Forall pathed_asset l ->
  exists w',
    fold_py (keep_or_drop py_str exists_fd) l acc w
    = (Ret (fst acc ++ List.filter (kept w) l, snd acc + dropped w l), w')
    /\ same_host w w'
    /\ exists lines, console w' = console w ++ lines
                     /\ Z.of_nat (length lines) = dropped w l.
Proof.
  intros Hl. revert acc w. induction Hl as [|a l Ha Hl IH]; intros acc w.
  - exists w. cbn. unfold ret, dropped. cbn. rewrite app_nil_r, Z.add_0_r.
    split; [now destruct acc|]. split; [reflexivity|].
    exists []. now rewrite app_nil_r.
  - destruct (keep_or_drop_run a acc w Ha) as (w1 & H1 & S1 & lines1 & C1 & L1).
    cbn [fold_py]. unfold bind. rewrite H1.
    destruct (IH (if kept w a then (fst acc ++ [a], snd acc)
                  else (fst acc, snd acc + 1)) w1)
      as (w2 & H2 & S2 & lines2 & C2 & L2).
    exists w2. rewrite H2.
    assert (Hk : forall x, kept w1 x = kept w x)
      by (intros x; now apply kept_same_host).
    assert (Hd : dropped w1 l = dropped w l).
    { unfold dropped. now rewrite (filter_ext _ _ Hk). }
    split; [|split].
    + rewrite (filter_ext _ _ Hk), Hd, dropped_cons. cbn [List.filter].
      destruct (kept w a); cbn [fst snd].
      * now rewrite <- app_assoc.
      * now rewrite Z.add_assoc.
    + unfold same_host in *. congruence.
    + exists (lines1 ++ lines2). split.
      * now rewrite C2, C1, app_assoc.
      * rewrite length_app, Nat2Z.inj_add, L1, L2, Hd, dropped_cons. reflexivity.
Qed.

(** The library entry [v'] is [v] with the orphaned assets taken out. *)
Definition cleaned (w : world host) (v v' : json) : Prop :=
  exists entry entry',
    v = JDict entry /\ v' = JDict entry'
    /\ assets_in v' = List.filter (kept w) (assets_in v)
    /\ forall k, k <> "assets" -> dict_get k entry' = dict_get k entry.

Lemma clean_library_run (lib_data : json) (n : Z) (w : world host) :
  pathed_library lib_data ->
  exists lib_data' w',
    clean_library py_str exists_fd lib_data n w
    = (Ret (lib_data', n + dropped w (assets_in lib_data)), w')
    /\ cleaned w lib_data lib_data'
    /\ same_host w w'
    /\ exists lines, console w' = console w ++ lines
                     /\ Z.of_nat (length lines) = dropped w (assets_in lib_data).
Proof.
  intros (entry & l & -> & Ha & Hl).
  assert (Hin : assets_in (JDict entry) = l) by (unfold assets_in; now rewrite Ha).
  rewrite Hin.
  destruct (fold_keep_or_drop l ([], n) w Hl) as (w' & Hfold & Hsame & Hlines).
  cbn [fst snd app] in Hfold.
  unfold clean_library. unfold bind at 1, py_get at 1, ret at 1. rewrite Ha.
  unfold bind at 1, py_iter at 1, ret at 1.
  unfold bind at 1. rewrite Hfold.
  unfold bind at 1, py_len at 1, ret at 1. cbn [fst snd].
  destruct (Z.of_nat (length (List.filter (kept w) l)) =? Z.of_nat (length l))
    eqn:Hlen; cbn [negb].
  - apply Z.eqb_eq in Hlen.
    assert (Hd : dropped w l = 0) by (unfold dropped; lia).
    exists (JDict entry), w'. split; [reflexivity|]. split; [|split; assumption].
    exists entry, entry. rewrite Hin. repeat split.
    symmetry. now apply dropped_zero.
  - apply Z.eqb_neq in Hlen.
    unfold bind, setitem, ret.
    exists (JDict (dict_set "assets" (JList (List.filter (kept w) l)) entry)), w'.
    split; [reflexivity|]. split; [|split; assumption].
    eexists entry, _. split; [reflexivity|]. split; [reflexivity|]. split.
    + unfold assets_in. now rewrite dict_get_set_same, Ha.
    + intros k Hk. now apply dict_get_set_other.
Qed.

Lemma dropped_app (w : world host) (l1 l2 : list json) :
  dropped w (l1 ++ l2) = dropped w l1 + dropped w l2.
Proof. unfold dropped. rewrite List.filter_app, !length_app. lia. Qed.

(** The libraries [libs'] are [libs] with the orphaned assets taken
    out. *)
Definition libraries_cleaned (w : world host) (libs libs' : list (string * json))
  : Prop :=
  Forall2 (fun e e' => fst e' = fst e /\ cleaned w (snd e) (snd e')) libs libs'.

Lemma cleaned_same_host (w w1 : world host) (v v' : json) :
  same_host w w1 -> cleaned w1 v v' -> cleaned w v v'.
Proof.
  intros Hs (entry & entry' & -> & -> & Ha & Hk).
  exists entry, entry'. repeat split; try assumption.
  rewrite Ha. apply filter_ext. intros x. now apply kept_same_host.
Qed.

Lemma clean_libraries_run (libs : list (string * json)) (n : Z) (w : world host) :
  Forall (fun e => pathed_library (snd e)) libs ->
  exists libs' w',
    clean_libraries py_str exists_fd libs n w
    = (Ret (libs', n + dropped w (all_assets libs)), w')
    /\ libraries_cleaned w libs libs'
    /\ same_host w w'
    /\ exists lines, console w' = console w ++ lines
                     /\ Z.of_nat (length lines) = dropped w (all_assets libs).
Proof.
  intros Hl. revert n w. induction Hl as [|[name v] libs Hv Hl IH]; intros n w.
  - exists [], w. cbn. unfold ret, dropped. cbn. rewrite Z.add_0_r.
    split; [reflexivity|]. split; [constructor|]. split; [reflexivity|].
    exists []. now rewrite app_nil_r.
  - cbn [snd] in Hv.
    destruct (clean_library_run v n w Hv) as (v' & w1 & H1 & C1 & S1 & lines1 & L1 & N1).
    destruct (IH (n + dropped w (assets_in v)) w1)
      as (libs' & w2 & H2 & C2 & S2 & lines2 & L2 & N2).
    assert (Hd : dropped w1 (all_assets libs) = dropped w (all_assets libs)).
    { unfold dropped. f_equal. f_equal. f_equal. apply filter_ext.
      intros x. now apply kept_same_host. }
    exists ((name, v') :: libs'), w2.
    cbn [clean_libraries]. unfold bind at 1. rewrite H1. cbn [fst snd].
    unfold bind at 1. rewrite H2. unfold ret. cbn [fst snd].
    assert (Hcons : all_assets ((name, v) :: libs) = assets_in v ++ all_assets libs)
      by reflexivity.
    rewrite Hcons, dropped_app, Hd, Z.add_assoc.
    split; [reflexivity|]. split; [|split].
    + constructor; [split; [reflexivity | exact C1]|].
      eapply Forall2_impl; [exact C2|]. intros e e' [He Hc].
      split; [exact He | now apply (cleaned_same_host w w1)].
    + unfold same_host in *. congruence.
    + exists (lines1 ++ lines2). split; [now rewrite L2, L1, app_assoc|].
      rewrite length_app, Nat2Z.inj_add, N1, N2, Hd. reflexivity.
Qed.

Lemma libraries_cleaned_assets (w : world host) (libs libs' : list (string * json)) :
  libraries_cleaned w libs libs' ->
  all_assets libs' = List.filter (kept w) (all_assets libs)
  /\ map fst libs' = map fst libs.
Proof.
  induction 1 as [|e e' libs libs' [Hn (entry & entry' & _ & _ & Ha & _)] _ [IH1 IH2]].
  - split; reflexivity.
  - unfold all_assets in *. cbn [flat_map map].
    rewrite List.filter_app, Ha, IH1, IH2, Hn. split; reflexivity.
Qed.

End Orphans.

(** Cleaning the orphaned entries.  On a cache without ["libraries"]
    the function returns 0 and does nothing.  On a cache whose
    libraries are dicts with lists of asset dicts (the ["filepath"] of
    each absent, null or a string) it returns and touches no file; the
    libraries keep their names, their order and their other entries;
    the assets left are those whose file exists and is a blend file, in
    their order; and the number returned is the number of assets taken
    out, each of which is reported in one line. *)
Theorem orphans_cleaned (py_str : json -> string) (exists_fd : Z -> outcome bool)
    (c : list (string * json)) (w : world host) :
  (dict_get "libraries" c = None ->
   _clean_orphaned_cache_entries py_str exists_fd (JDict c) w
   = (Ret (0, JDict c), w))
  /\ (forall libs : list (string * json),
        dict_get "libraries" c = Some (JDict libs) ->
        Forall (fun e => pathed_library (snd e)) libs ->
        exists (n : Z) (c' libs' : list (string * json)) (w' : world host)
               (lines : list string),
          _clean_orphaned_cache_entries py_str exists_fd (JDict c) w
          = (Ret (n, JDict c'), w')
          /\ host_state w' = host_state w
          /\ console w' = console w ++ lines
          /\ Z.of_nat (length lines) = n
          /\ dict_get "libraries" c' = Some (JDict libs')
          /\ (forall k, k <> "libraries" -> dict_get k c' = dict_get k c)
          /\ libraries_cleaned w libs libs'
          /\ map fst libs' = map fst libs
          /\ all_assets libs' = List.filter (kept w) (all_assets libs)
          /\ n = Z.of_nat (length (all_assets libs))
                 - Z.of_nat (length (all_assets libs'))).
Proof.
  split.
  - intros Hn. unfold _clean_orphaned_cache_entries, contains, bind, ret.
    now rewrite Hn, has_no_key.
  - intros libs Hl Hlibs.
    destruct (clean_libraries_run py_str exists_fd libs 0 w Hlibs)
      as (libs' & w' & Hrun & Hc & Hs & lines & Hlines & Hn).
    destruct (libraries_cleaned_assets w libs libs' Hc) as [Ha Hnames].
    exists (dropped w (all_assets libs)),
      (dict_set "libraries" (JDict libs') c), libs', w', lines.
    split; [|split; [exact Hs | split; [exact Hlines | split; [exact Hn|]]]].
    + unfold _clean_orphaned_cache_entries.
      unfold bind at 1, contains at 1, ret at 1. rewrite Hl, has_key.
      cbn [negb]. unfold bind at 1, getitem at 1, ret at 1. rewrite Hl.
      unfold bind at 1, py_items at 1, ret at 1.
      unfold bind at 1. rewrite Hrun. reflexivity.
    + split; [apply dict_get_set_same|].
      split; [intros k Hk; now apply dict_get_set_other|].
      split; [exact Hc|]. split; [exact Hnames|]. split; [exact Ha|].
      rewrite Ha. reflexivity.
Qed.

(** A cache with a stool whose file is there and a chair whose file is
    gone. *)
Definition chair : list (string * json) :=
  [("name", JStr "Chair"); ("filepath", JStr "/assets/chairs/chair.blend")].

Definition two_assets_cache : list (string * json) :=
  [("timestamp", JFloat 1003);
   ("libraries",
    JDict [("Props", JDict [("last_scan", JFloat 1002);
                            ("assets", JList [JDict stool; JDict chair])])])].

Definition stool_world : world host :=
  World (Host (Fs {["/assets/chairs/stool.blend" := Opaque "BLENDER"]} ∅)
              0 [] (ScanLocals [] 0 ∅)) [].

Lemma two_assets_pathed :
  Forall (fun e => pathed_library (snd e))
    [("Props", JDict [("last_scan", JFloat 1002);
                      ("assets", JList [JDict stool; JDict chair])])].
Proof.
  repeat constructor. eexists _, _. split; [reflexivity|].
  split; [reflexivity|].
  repeat constructor; eexists; (split; [reflexivity | exact I]).
Qed.

Lemma orphans_cleaned_witness :
  exists (n : Z) (c' libs' : list (string * json)) (w' : world host),
    _clean_orphaned_cache_entries (fun _ => "?") (fun _ => Ret false)
      (JDict two_assets_cache) stool_world
    = (Ret (n, JDict c'), w')
    /\ dict_get "libraries" c' = Some (JDict libs')
    /\ all_assets libs'
       = List.filter (kept stool_world) [JDict stool; JDict chair].
Proof.
  destruct (proj2 (orphans_cleaned (fun _ => "?") (fun _ => Ret false)
                     two_assets_cache stool_world) _ eq_refl two_assets_pathed)
    as (n & c' & libs' & w' & lines & Hrun & _ & _ & _ & Hl & _ & _ & _ & Ha & _).
  exists n, c', libs', w'. split; [exact Hrun|]. split; [exact Hl | exact Ha].
Defined.

(** ** [validate_library_integrity] *)

(** What the validation makes of an asset. *)
Inductive verdict : Type :=
| Sound
| Faulty (error : string)
| Doubtful (warning : string).

Definition judge (w : world host) (a : list (string * json)) : verdict :=
  match from_option id JNull (dict_get "name" a) with
  | JStr n =>
      if String.eqb n "" then Faulty "Asset missing name field" else
      match path_of a with
      | JStr p =>
          if String.eqb p "" then Faulty ("Asset '" +:+ n +:+ "' missing filepath")
          else if negb (exists_in w p)
               then Doubtful ("Asset file does not exist: " +:+ p)
          else if negb (is_valid_blend_file p)
               then Doubtful ("Invalid blend file: " +:+ p)
          else Sound
      | _ => Faulty ("Asset '" +:+ n +:+ "' missing filepath")
      end
  | _ => Faulty "Asset missing name field"
  end.

(** The name and the file of the asset are absent, null or strings. *)
Definition labelled_asset (a : list (string * json)) : Prop :=
  match from_option id JNull (dict_get "name" a) with
  | JNull | JStr _ => True
  | _ => False
  end
  /\ match path_of a with JNull | JStr _ => True | _ => False end.

Definition error_of (v : verdict) : list string :=
  match v with Faulty m => [m] | _ => [] end.

Definition warning_of (v : verdict) : list string :=
  match v with Doubtful m => [m] | _ => [] end.

Definition is_sound (v : verdict) : bool :=
  match v with Sound => true | _ => false end.

(** The results with the verdicts taken in. *)
Definition judged (vs : list verdict) (r : validation) : validation :=
  Validation (valid r)
    (errors r ++ flat_map error_of vs)
    (warnings r ++ flat_map warning_of vs)
    (asset_count r)
    (valid_assets r + Z.of_nat (length (List.filter is_sound vs)))
    (invalid_assets r
     + (Z.of_nat (length vs) - Z.of_nat (length (List.filter is_sound vs)))).

Lemma judged_nil (r : validation) : judged [] r = r.
Proof.
  unfold judged. cbn. rewrite !app_nil_r, !Z.add_0_r. now destruct r.
Qed.

Lemma judged_cons (v : verdict) (vs : list verdict) (r : validation) :
  judged (v :: vs) r = judged vs (judged [v] r).
Proof.
  unfold judged. cbn [flat_map List.filter length valid errors warnings
    asset_count valid_assets invalid_assets app].
  rewrite !app_nil_r, <- !app_assoc.
  destruct v; cbn [is_sound length error_of warning_of app]; f_equal; lia.
Qed.

Section Validation.
Variable E : environment.
Hypothesis E_ok : raises_only_exceptions E.
Variable py_str : json -> string.
Variable exists_fd : Z -> outcome bool.

Lemma validate_asset_run (a : list (string * json)) (r : validation)
    (w : world host) :
  labelled_asset a ->
  validate_asset py_str exists_fd (JDict a) r w = (Ret (judged [judge w a] r), w).
Proof.
  intros [Hn Hp]. unfold validate_asset, judge.
  unfold bind at 1, py_get at 1, ret at 1.
  destruct (dict_get "name" a) as [name|] eqn:Hname; cbn [from_option id] in *.
  2:{ cbn. unfold ret, judged, invalid_with_error. cbn.
      now rewrite !app_nil_r, Z.add_0_r. }
  destruct name as [| | | |n| |]; try contradiction.
  { cbn. unfold ret, judged, invalid_with_error. cbn.
    now rewrite !app_nil_r, Z.add_0_r. }
  cbn [truthy]. destruct (String.eqb n "") eqn:En; cbn [negb].
  { unfold ret, judged, invalid_with_error. cbn.
    now rewrite !app_nil_r, Z.add_0_r. }
  unfold bind at 1, py_get at 1, ret at 1. fold (path_of a).
  unfold path_of in *.
  destruct (dict_get "filepath" a) as [path|] eqn:Hpath; cbn [from_option id] in *.
  2:{ cbn. unfold bind, getitem, ret. rewrite Hname.
      unfold judged, invalid_with_error, format_value. cbn.
      now rewrite !app_nil_r, Z.add_0_r. }
  destruct path as [| | | |p| |]; try contradiction.
  { cbn. unfold bind, getitem, ret. rewrite Hname.
    unfold judged, invalid_with_error, format_value. cbn.
    now rewrite !app_nil_r, Z.add_0_r. }
  cbn [truthy]. destruct (String.eqb p "") eqn:Ep; cbn [negb].
  { unfold bind, getitem, ret. rewrite Hname.
    unfold judged, invalid_with_error, format_value. cbn.
    now rewrite !app_nil_r, Z.add_0_r. }
  unfold bind at 1, getitem at 1, ret at 1. rewrite Hpath.
  unfold bind at 1. unfold exists_value, os_path_exists.
  unfold bind at 1, get_host at 1, ret at 1. fold (exists_in w p).
  destruct (exists_in w p); cbn [negb].
  2:{ unfold ret, judged, invalid_with_warning, format_value. cbn.
      now rewrite !app_nil_r, Z.add_0_r. }
  unfold bind, is_valid_blend_file_value, ret.
  destruct (is_valid_blend_file p); cbn [negb].
  - unfold judged. cbn. now rewrite !app_nil_r, Z.add_0_r.
  - unfold judged, invalid_with_warning, format_value. cbn.
    now rewrite !app_nil_r, Z.add_0_r.
Qed.

Lemma fold_validate_asset (ds : list (list (string * json))) (r : validation)
    (w : world host) :
  Forall labelled_asset ds ->
  fold_py (validate_asset py_str exists_fd) (map JDict ds) r w
  = (Ret (judged (map (judge w) ds) r), w).
Proof.
  intros Hl. revert r. induction Hl as [|a ds Ha Hl IH]; intros r.
  - cbn [map fold_py]. now rewrite judged_nil.
  - cbn [map fold_py]. unfold bind. rewrite (validate_asset_run a r w Ha).
    rewrite IH. now rewrite (judged_cons (judge w a) (map (judge w) ds) r).
Qed.

Lemma judge_same_files (w w1 : world host) (a : list (string * json)) :
  same_files w w1 -> judge w1 a = judge w a.
Proof.
  intros (Hf & _). unfold judge, exists_in. now rewrite Hf.
Qed.

Lemma validate_present (d libs entry : list (string * json))
    (library_name : string) (ds : list (list (string * json))) (w : world host) :
  holds_document E (JDict d) w ->
  dict_get "libraries" d = Some (JDict libs) ->
  dict_get library_name libs = Some (JDict entry) ->
  from_option id (JList []) (dict_get "assets" entry) = JList (map JDict ds) ->
  Forall labelled_asset ds ->
  exists w',
    validate_library_integrity E py_str exists_fd library_name w
    = (Ret (let r := judged (map (judge w) ds)
                       (Validation true [] [] (Z.of_nat (length ds)) 0 0) in
            if 0 <? invalid_assets r
            then Validation false (errors r) (warnings r) (asset_count r)
                   (valid_assets r) (invalid_assets r)
            else r), w')
    /\ same_files w w'.
Proof.
  intros Hdoc Hl He Ha Hds.
  destruct (load_asset_cache_shapes_proof E E_ok w) as (_ & Hdict & _).
  destruct (Hdict d Hdoc) as (t & w1 & Hload & Hsame & _ & _ & Hkeep).
  exists w1. split; [|exact Hsame].
  unfold validate_library_integrity. unfold bind at 1. rewrite Hload.
  unfold bind at 1.
  rewrite (library_cached_run _ libs library_name w1 (Hkeep _ _ Hl)).
  rewrite He, has_key. cbn [negb].
  unfold bind at 1, getitem at 1, ret at 1. rewrite (Hkeep _ _ Hl).
  unfold bind at 1, getitem at 1, ret at 1. rewrite He.
  unfold bind at 1, py_get at 1, ret at 1. rewrite Ha.
  unfold bind at 1, py_len at 1, ret at 1.
  unfold bind at 1, py_iter at 1, ret at 1.
  unfold bind at 1. rewrite (fold_validate_asset ds _ w1 Hds).
  rewrite length_map.
  assert (Hj : map (judge w1) ds = map (judge w) ds).
  { apply map_ext. intros a. now apply judge_same_files. }
  rewrite Hj. cbv zeta.
  destruct (0 <? invalid_assets _); reflexivity.
Qed.

Lemma validate_absent (d libs : list (string * json)) (library_name : string)
    (w : world host) :
  holds_document E (JDict d) w ->
  dict_get "libraries" d = Some (JDict libs) ->
  dict_get library_name libs = None ->
  exists w',
    validate_library_integrity E py_str exists_fd library_name w
    = (Ret (Validation false
              ["Library '" +:+ library_name +:+ "' not found in cache"]
              [] 0 0 0), w')
    /\ same_files w w'.
Proof.
  intros Hdoc Hl Hn.
  destruct (load_without_library E E_ok d libs library_name w Hdoc Hl Hn)
    as (c & w1 & Hload & Hsame & Hcached).
  exists w1. split; [|exact Hsame].
  unfold validate_library_integrity. unfold bind at 1. rewrite Hload.
  unfold bind at 1. rewrite Hcached. reflexivity.
Qed.

End Validation.

Lemma verdicts_count (vs : list verdict) :
  Z.of_nat (length (flat_map error_of vs))
  + Z.of_nat (length (flat_map warning_of vs))
  = Z.of_nat (length vs) - Z.of_nat (length (List.filter is_sound vs)).
Proof.
  induction vs as [|v vs IH]; [reflexivity|].
  cbn [flat_map List.filter]. rewrite !length_app.
  destruct v; cbn [error_of warning_of is_sound length app]; lia.
Qed.

Lemma all_sound (vs : list verdict) :
  (0 <? Z.of_nat (length vs) - Z.of_nat (length (List.filter is_sound vs)))
  = negb (forallb is_sound vs).
Proof.
  assert (Hle : (length (List.filter is_sound vs) <= length vs)%nat)
    by apply filter_length_le.
  induction vs as [|v vs IH]; [reflexivity|].
  cbn [List.filter forallb] in *.
  assert (Hle' : (length (List.filter is_sound vs) <= length vs)%nat)
    by apply filter_length_le.
  specialize (IH Hle').
  destruct (is_sound v); cbn [length andb negb] in *.
  - rewrite <- IH. destruct (0 <? _) eqn:E1; destruct (0 <? _) eqn:E2;
      try reflexivity; rewrite ?Z.ltb_lt, ?Z.ltb_ge in *; lia.
  - apply Z.ltb_lt. lia.
Qed.

(** Validating a library.  With a cache file that can be read, the
    validation touches no file.  For a library that is not in the cache
    it answers invalid, with one error and no asset counted.  For a
    library with a list of asset dicts (name and file absent, null or
    strings) it counts every asset as valid or as invalid; the valid
    ones are those with a name and a file that exists and is a blend
    file; every invalid one adds one error (name or file missing) or
    one warning (file gone, or no blend file); and the library is valid
    exactly when no asset is invalid. *)
Theorem library_validated (E : environment) (py_str : json -> string)
    (exists_fd : Z -> outcome bool) (library_name : string)
    (d libs : list (string * json)) (w : world host) :
  raises_only_exceptions E ->
  holds_document E (JDict d) w ->
  dict_get "libraries" d = Some (JDict libs) ->
  (dict_get library_name libs = None ->
   exists w',
     validate_library_integrity E py_str exists_fd library_name w
     = (Ret (Validation false
               ["Library '" +:+ library_name +:+ "' not found in cache"]
               [] 0 0 0), w')
     /\ same_files w w')
  /\ (forall (entry : list (string * json)) (ds : list (list (string * json))),
        dict_get library_name libs = Some (JDict entry) ->
        from_option id (JList []) (dict_get "assets" entry) = JList (map JDict ds) ->
        Forall labelled_asset ds ->
        exists (r : validation) (w' : world host),
          validate_library_integrity E py_str exists_fd library_name w
          = (Ret r, w')
          /\ same_files w w'
          /\ asset_count r = Z.of_nat (length ds)
          /\ valid_assets r
             = Z.of_nat (length (List.filter is_sound (map (judge w) ds)))
          /\ asset_count r = valid_assets r + invalid_assets r
          /\ errors r = flat_map error_of (map (judge w) ds)
          /\ warnings r = flat_map warning_of (map (judge w) ds)
          /\ Z.of_nat (length (errors r)) + Z.of_nat (length (warnings r))
             = invalid_assets r
          /\ valid r = forallb is_sound (map (judge w) ds)).
Proof.
  intros HE Hdoc Hl. split.
  - intros Hn. now apply (validate_absent E HE py_str exists_fd d libs).
  - intros entry ds He Ha Hds.
    destruct (validate_present E HE py_str exists_fd d libs entry library_name
                ds w Hdoc Hl He Ha Hds) as (w' & Hrun & Hsame).
    eexists _, w'. split; [exact Hrun|]. split; [exact Hsame|].
    set (vs := map (judge w) ds).
    assert (Hlen : length vs = length ds) by apply length_map.
    pose proof (verdicts_count vs) as Hc. pose proof (all_sound vs) as Hs.
    cbv zeta. unfold judged.
    cbn [valid errors warnings asset_count valid_assets invalid_assets app].
    rewrite Z.add_0_l in *. rewrite Hs.
    destruct (forallb is_sound vs) eqn:Hall;
      cbn [negb valid errors warnings asset_count valid_assets invalid_assets];
      repeat split; try reflexivity; try lia.
Qed.

Lemma studio_after_labelled : Forall labelled_asset [stool].
Proof. repeat constructor. Qed.

Lemma library_validated_witness :
  exists (r : validation) (w' : world host),
    validate_library_integrity studio_env (fun _ => "?") (fun _ => Ret false)
      "Props" studio_after
    = (Ret r, w')
    /\ asset_count r = 1
    /\ asset_count r = valid_assets r + invalid_assets r.
Proof.
  destruct (proj2 (library_validated studio_env (fun _ => "?")
                     (fun _ => Ret false) "Props" studio_document
                     studio_libraries studio_after
                     studio_env_raises_only_exceptions studio_after_document
                     eq_refl)
              props_entry [stool] eq_refl eq_refl studio_after_labelled)
    as (r & w' & Hrun & _ & Hc & _ & Hsum & _).
  exists r, w'. split; [exact Hrun|]. split; [exact Hc | exact Hsum].
Defined.

End InspectionFacts.
